(** * USDFC subgraph: event classification and stateful aggregation

    A shallow embedding of the AssemblyScript mapping handlers of the USDFC
    subgraph, and the properties of the classification and aggregation engine
    established on it.

    Conventions of the embedding.
    - [BigInt] (graph-ts, arbitrary precision, signed) is [Z].
    - [BigDecimal] (graph-ts decimal) is a canonical rational [Qc] and its
      operations are exact; the host rounds every result to 34 significant
      digits.  The properties stated of decimals are therefore comparisons,
      bounds and values that the rounding leaves as they are (integers,
      the decimal literals of the source), or hold to a stated tolerance.
    - [Bytes] is a list of byte values; addresses are 20-byte [Bytes].
    - A handler that aborts (division by zero, a conversion that overflows,
      reading a field that was never assigned) yields [None]; the store
      changes of an aborted handler are discarded by the host.
    - The entity store is a record of finite maps, one per entity type;
      [load] is lookup, [save] is insert. *)

From Stdlib Require Import ZArith QArith Qcanon Qcabs Lia Lqa.
From stdpp Require Import gmap strings list fin_maps option.

Open Scope Z_scope.

(** ** Host types and operations (graph-ts) *)

Abbreviation BigInt := Z (only parsing).
Abbreviation BigDecimal := Qc (only parsing).
Abbreviation Bytes := (list Z) (only parsing).

(** [BigDecimal.fromString] on the decimal literals of the source. *)
Definition bd (num : Z) (den : positive) : BigDecimal := Q2Qc (num # den).

(** [BigInt.toBigDecimal]. *)
Definition toBigDecimal (z : BigInt) : BigDecimal := Qc_of_Z z.

Definition ZERO_BI : BigInt := 0.
Definition ZERO_BD : BigDecimal := bd 0 1.
Definition ONE_BD : BigDecimal := bd 1 1.

(** Comparisons of [BigDecimal] ([lt], [gt], [equals]), by cross
    multiplication of the reduced fractions. *)
Definition bd_lt (a b : BigDecimal) : bool :=
  Qnum a * Z.pos (Qden b) <? Qnum b * Z.pos (Qden a).
Definition bd_gt (a b : BigDecimal) : bool := bd_lt b a.
Definition bd_equals (a b : BigDecimal) : bool :=
  Qnum a * Z.pos (Qden b) =? Qnum b * Z.pos (Qden a).

(** [BigDecimal.div]: the host aborts on a zero divisor. *)
Definition bd_div (a b : BigDecimal) : option BigDecimal :=
  if bd_equals b ZERO_BD then None else Some (a / b)%Qc.

(** [BigInt.div]: aborts on a zero divisor, truncates toward zero. *)
Definition bi_div (a b : BigInt) : option BigInt :=
  if b =? 0 then None else Some (Z.quot a b).

(** The signed 32-bit reading of the four low bytes of an integer: the
    number in [-2^31, 2^31) that is congruent to it modulo 2^32. *)
Definition wrapI32 (z : Z) : Z := (z + 2147483648) mod 4294967296 - 2147483648.

(** [BigInt.toI32].  The host keeps a BigInt as the shortest little-endian
    two's complement byte string; [toI32] returns the signed reading of the
    first four bytes and aborts only when a later byte differs from the sign
    padding.  So it aborts outside [-2^32, 2^32), and inside that range it
    wraps: 2^31 reads as -2^31 and -2^31 - 1 as 2^31 - 1. *)
Definition toI32 (z : BigInt) : option Z :=
  if (-4294967296 <=? z) && (z <? 4294967296) then Some (wrapI32 z) else None.

(** [Bytes.concatI32]: the four little-endian bytes of the 32-bit two's
    complement of [i] appended to [b]. *)
Definition concatI32 (b : Bytes) (i : Z) : Bytes :=
  b ++ [Z.land i 255; Z.land (Z.shiftr i 8) 255;
        Z.land (Z.shiftr i 16) 255; Z.land (Z.shiftr i 24) 255].

(** The zero address, [Bytes.fromHexString] of forty zero digits. *)
Definition zeroAddress : Bytes := replicate 20 0.

(** ** Entities

    The generated schema classes are not among the sources; each record lists
    the fields that the handlers assign or read, with the types they are used
    at.  An entity's [id] is the key it is stored under: rows carry no separate
    id field, [load] is lookup at the key and [save] is insert at the key the
    row was loaded or constructed with.  [set_f v r] is the assignment
    [r.f = v]. *)

(** One row per address (entity Account). *)
Module Account.
Record t := mk {
  usdfcBalance : BigInt; totalTransactionCount : BigInt; totalVolumeIn : BigInt;
  totalVolumeOut : BigInt; netVolume : BigInt; firstSeenBlock : BigInt;
  firstSeenTimestamp : BigInt; lastActiveBlock : BigInt; lastActiveTimestamp : BigInt;
  daysSinceFirstSeen : BigInt; daysSinceLastActive : BigInt; contractTransactionCount : BigInt;
  tokenTransferCount : BigInt; internalTransactionCount : BigInt; systemLogCount : BigInt;
  protocolOperationCount : BigInt; dexActivityCount : BigInt; bridgeActivityCount : BigInt;
  p2pTransferCount : BigInt; defiIntegrationCount : BigInt; protocolVolume : BigInt;
  dexVolume : BigInt; bridgeVolume : BigInt; p2pVolume : BigInt; defiIntegrationVolume : BigInt;
  userType : string; activityPatterns : list string; riskScore : BigDecimal;
  composabilityScore : BigDecimal; influenceScore : BigDecimal; retentionScore : BigDecimal
}.
Definition set_usdfcBalance (v : BigInt) (r : t) : t :=
  {|
    usdfcBalance := v; totalTransactionCount := totalTransactionCount r;
    totalVolumeIn := totalVolumeIn r; totalVolumeOut := totalVolumeOut r; netVolume := netVolume r;
    firstSeenBlock := firstSeenBlock r; firstSeenTimestamp := firstSeenTimestamp r;
    lastActiveBlock := lastActiveBlock r; lastActiveTimestamp := lastActiveTimestamp r;
    daysSinceFirstSeen := daysSinceFirstSeen r; daysSinceLastActive := daysSinceLastActive r;
    contractTransactionCount := contractTransactionCount r;
    tokenTransferCount := tokenTransferCount r;
    internalTransactionCount := internalTransactionCount r; systemLogCount := systemLogCount r;
    protocolOperationCount := protocolOperationCount r; dexActivityCount := dexActivityCount r;
    bridgeActivityCount := bridgeActivityCount r; p2pTransferCount := p2pTransferCount r;
    defiIntegrationCount := defiIntegrationCount r; protocolVolume := protocolVolume r;
    dexVolume := dexVolume r; bridgeVolume := bridgeVolume r; p2pVolume := p2pVolume r;
    defiIntegrationVolume := defiIntegrationVolume r; userType := userType r;
    activityPatterns := activityPatterns r; riskScore := riskScore r;
    composabilityScore := composabilityScore r; influenceScore := influenceScore r;
    retentionScore := retentionScore r
  |}.
Definition set_totalTransactionCount (v : BigInt) (r : t) : t :=
  {|
    usdfcBalance := usdfcBalance r; totalTransactionCount := v; totalVolumeIn := totalVolumeIn r;
    totalVolumeOut := totalVolumeOut r; netVolume := netVolume r;
    firstSeenBlock := firstSeenBlock r; firstSeenTimestamp := firstSeenTimestamp r;
    lastActiveBlock := lastActiveBlock r; lastActiveTimestamp := lastActiveTimestamp r;
    daysSinceFirstSeen := daysSinceFirstSeen r; daysSinceLastActive := daysSinceLastActive r;
    contractTransactionCount := contractTransactionCount r;
    tokenTransferCount := tokenTransferCount r;
    internalTransactionCount := internalTransactionCount r; systemLogCount := systemLogCount r;
    protocolOperationCount := protocolOperationCount r; dexActivityCount := dexActivityCount r;
    bridgeActivityCount := bridgeActivityCount r; p2pTransferCount := p2pTransferCount r;
    defiIntegrationCount := defiIntegrationCount r; protocolVolume := protocolVolume r;
    dexVolume := dexVolume r; bridgeVolume := bridgeVolume r; p2pVolume := p2pVolume r;
    defiIntegrationVolume := defiIntegrationVolume r; userType := userType r;
    activityPatterns := activityPatterns r; riskScore := riskScore r;
    composabilityScore := composabilityScore r; influenceScore := influenceScore r;
    retentionScore := retentionScore r
  |}.
Definition set_totalVolumeIn (v : BigInt) (r : t) : t :=
  {|
    usdfcBalance := usdfcBalance r; totalTransactionCount := totalTransactionCount r;
    totalVolumeIn := v; totalVolumeOut := totalVolumeOut r; netVolume := netVolume r;
    firstSeenBlock := firstSeenBlock r; firstSeenTimestamp := firstSeenTimestamp r;
    lastActiveBlock := lastActiveBlock r; lastActiveTimestamp := lastActiveTimestamp r;
    daysSinceFirstSeen := daysSinceFirstSeen r; daysSinceLastActive := daysSinceLastActive r;
    contractTransactionCount := contractTransactionCount r;
    tokenTransferCount := tokenTransferCount r;
    internalTransactionCount := internalTransactionCount r; systemLogCount := systemLogCount r;
    protocolOperationCount := protocolOperationCount r; dexActivityCount := dexActivityCount r;
    bridgeActivityCount := bridgeActivityCount r; p2pTransferCount := p2pTransferCount r;
    defiIntegrationCount := defiIntegrationCount r; protocolVolume := protocolVolume r;
    dexVolume := dexVolume r; bridgeVolume := bridgeVolume r; p2pVolume := p2pVolume r;
    defiIntegrationVolume := defiIntegrationVolume r; userType := userType r;
    activityPatterns := activityPatterns r; riskScore := riskScore r;
    composabilityScore := composabilityScore r; influenceScore := influenceScore r;
    retentionScore := retentionScore r
  |}.
Definition set_totalVolumeOut (v : BigInt) (r : t) : t :=
  {|
    usdfcBalance := usdfcBalance r; totalTransactionCount := totalTransactionCount r;
    totalVolumeIn := totalVolumeIn r; totalVolumeOut := v; netVolume := netVolume r;
    firstSeenBlock := firstSeenBlock r; firstSeenTimestamp := firstSeenTimestamp r;
    lastActiveBlock := lastActiveBlock r; lastActiveTimestamp := lastActiveTimestamp r;
    daysSinceFirstSeen := daysSinceFirstSeen r; daysSinceLastActive := daysSinceLastActive r;
    contractTransactionCount := contractTransactionCount r;
    tokenTransferCount := tokenTransferCount r;
    internalTransactionCount := internalTransactionCount r; systemLogCount := systemLogCount r;
    protocolOperationCount := protocolOperationCount r; dexActivityCount := dexActivityCount r;
    bridgeActivityCount := bridgeActivityCount r; p2pTransferCount := p2pTransferCount r;
    defiIntegrationCount := defiIntegrationCount r; protocolVolume := protocolVolume r;
    dexVolume := dexVolume r; bridgeVolume := bridgeVolume r; p2pVolume := p2pVolume r;
    defiIntegrationVolume := defiIntegrationVolume r; userType := userType r;
    activityPatterns := activityPatterns r; riskScore := riskScore r;
    composabilityScore := composabilityScore r; influenceScore := influenceScore r;
    retentionScore := retentionScore r
  |}.
Definition set_netVolume (v : BigInt) (r : t) : t :=
  {|
    usdfcBalance := usdfcBalance r; totalTransactionCount := totalTransactionCount r;
    totalVolumeIn := totalVolumeIn r; totalVolumeOut := totalVolumeOut r; netVolume := v;
    firstSeenBlock := firstSeenBlock r; firstSeenTimestamp := firstSeenTimestamp r;
    lastActiveBlock := lastActiveBlock r; lastActiveTimestamp := lastActiveTimestamp r;
    daysSinceFirstSeen := daysSinceFirstSeen r; daysSinceLastActive := daysSinceLastActive r;
    contractTransactionCount := contractTransactionCount r;
    tokenTransferCount := tokenTransferCount r;
    internalTransactionCount := internalTransactionCount r; systemLogCount := systemLogCount r;
    protocolOperationCount := protocolOperationCount r; dexActivityCount := dexActivityCount r;
    bridgeActivityCount := bridgeActivityCount r; p2pTransferCount := p2pTransferCount r;
    defiIntegrationCount := defiIntegrationCount r; protocolVolume := protocolVolume r;
    dexVolume := dexVolume r; bridgeVolume := bridgeVolume r; p2pVolume := p2pVolume r;
    defiIntegrationVolume := defiIntegrationVolume r; userType := userType r;
    activityPatterns := activityPatterns r; riskScore := riskScore r;
    composabilityScore := composabilityScore r; influenceScore := influenceScore r;
    retentionScore := retentionScore r
  |}.
Definition set_lastActiveBlock (v : BigInt) (r : t) : t :=
  {|
    usdfcBalance := usdfcBalance r; totalTransactionCount := totalTransactionCount r;
    totalVolumeIn := totalVolumeIn r; totalVolumeOut := totalVolumeOut r; netVolume := netVolume r;
    firstSeenBlock := firstSeenBlock r; firstSeenTimestamp := firstSeenTimestamp r;
    lastActiveBlock := v; lastActiveTimestamp := lastActiveTimestamp r;
    daysSinceFirstSeen := daysSinceFirstSeen r; daysSinceLastActive := daysSinceLastActive r;
    contractTransactionCount := contractTransactionCount r;
    tokenTransferCount := tokenTransferCount r;
    internalTransactionCount := internalTransactionCount r; systemLogCount := systemLogCount r;
    protocolOperationCount := protocolOperationCount r; dexActivityCount := dexActivityCount r;
    bridgeActivityCount := bridgeActivityCount r; p2pTransferCount := p2pTransferCount r;
    defiIntegrationCount := defiIntegrationCount r; protocolVolume := protocolVolume r;
    dexVolume := dexVolume r; bridgeVolume := bridgeVolume r; p2pVolume := p2pVolume r;
    defiIntegrationVolume := defiIntegrationVolume r; userType := userType r;
    activityPatterns := activityPatterns r; riskScore := riskScore r;
    composabilityScore := composabilityScore r; influenceScore := influenceScore r;
    retentionScore := retentionScore r
  |}.
Definition set_lastActiveTimestamp (v : BigInt) (r : t) : t :=
  {|
    usdfcBalance := usdfcBalance r; totalTransactionCount := totalTransactionCount r;
    totalVolumeIn := totalVolumeIn r; totalVolumeOut := totalVolumeOut r; netVolume := netVolume r;
    firstSeenBlock := firstSeenBlock r; firstSeenTimestamp := firstSeenTimestamp r;
    lastActiveBlock := lastActiveBlock r; lastActiveTimestamp := v;
    daysSinceFirstSeen := daysSinceFirstSeen r; daysSinceLastActive := daysSinceLastActive r;
    contractTransactionCount := contractTransactionCount r;
    tokenTransferCount := tokenTransferCount r;
    internalTransactionCount := internalTransactionCount r; systemLogCount := systemLogCount r;
    protocolOperationCount := protocolOperationCount r; dexActivityCount := dexActivityCount r;
    bridgeActivityCount := bridgeActivityCount r; p2pTransferCount := p2pTransferCount r;
    defiIntegrationCount := defiIntegrationCount r; protocolVolume := protocolVolume r;
    dexVolume := dexVolume r; bridgeVolume := bridgeVolume r; p2pVolume := p2pVolume r;
    defiIntegrationVolume := defiIntegrationVolume r; userType := userType r;
    activityPatterns := activityPatterns r; riskScore := riskScore r;
    composabilityScore := composabilityScore r; influenceScore := influenceScore r;
    retentionScore := retentionScore r
  |}.
Definition set_protocolOperationCount (v : BigInt) (r : t) : t :=
  {|
    usdfcBalance := usdfcBalance r; totalTransactionCount := totalTransactionCount r;
    totalVolumeIn := totalVolumeIn r; totalVolumeOut := totalVolumeOut r; netVolume := netVolume r;
    firstSeenBlock := firstSeenBlock r; firstSeenTimestamp := firstSeenTimestamp r;
    lastActiveBlock := lastActiveBlock r; lastActiveTimestamp := lastActiveTimestamp r;
    daysSinceFirstSeen := daysSinceFirstSeen r; daysSinceLastActive := daysSinceLastActive r;
    contractTransactionCount := contractTransactionCount r;
    tokenTransferCount := tokenTransferCount r;
    internalTransactionCount := internalTransactionCount r; systemLogCount := systemLogCount r;
    protocolOperationCount := v; dexActivityCount := dexActivityCount r;
    bridgeActivityCount := bridgeActivityCount r; p2pTransferCount := p2pTransferCount r;
    defiIntegrationCount := defiIntegrationCount r; protocolVolume := protocolVolume r;
    dexVolume := dexVolume r; bridgeVolume := bridgeVolume r; p2pVolume := p2pVolume r;
    defiIntegrationVolume := defiIntegrationVolume r; userType := userType r;
    activityPatterns := activityPatterns r; riskScore := riskScore r;
    composabilityScore := composabilityScore r; influenceScore := influenceScore r;
    retentionScore := retentionScore r
  |}.
Definition set_dexActivityCount (v : BigInt) (r : t) : t :=
  {|
    usdfcBalance := usdfcBalance r; totalTransactionCount := totalTransactionCount r;
    totalVolumeIn := totalVolumeIn r; totalVolumeOut := totalVolumeOut r; netVolume := netVolume r;
    firstSeenBlock := firstSeenBlock r; firstSeenTimestamp := firstSeenTimestamp r;
    lastActiveBlock := lastActiveBlock r; lastActiveTimestamp := lastActiveTimestamp r;
    daysSinceFirstSeen := daysSinceFirstSeen r; daysSinceLastActive := daysSinceLastActive r;
    contractTransactionCount := contractTransactionCount r;
    tokenTransferCount := tokenTransferCount r;
    internalTransactionCount := internalTransactionCount r; systemLogCount := systemLogCount r;
    protocolOperationCount := protocolOperationCount r; dexActivityCount := v;
    bridgeActivityCount := bridgeActivityCount r; p2pTransferCount := p2pTransferCount r;
    defiIntegrationCount := defiIntegrationCount r; protocolVolume := protocolVolume r;
    dexVolume := dexVolume r; bridgeVolume := bridgeVolume r; p2pVolume := p2pVolume r;
    defiIntegrationVolume := defiIntegrationVolume r; userType := userType r;
    activityPatterns := activityPatterns r; riskScore := riskScore r;
    composabilityScore := composabilityScore r; influenceScore := influenceScore r;
    retentionScore := retentionScore r
  |}.
Definition set_bridgeActivityCount (v : BigInt) (r : t) : t :=
  {|
    usdfcBalance := usdfcBalance r; totalTransactionCount := totalTransactionCount r;
    totalVolumeIn := totalVolumeIn r; totalVolumeOut := totalVolumeOut r; netVolume := netVolume r;
    firstSeenBlock := firstSeenBlock r; firstSeenTimestamp := firstSeenTimestamp r;
    lastActiveBlock := lastActiveBlock r; lastActiveTimestamp := lastActiveTimestamp r;
    daysSinceFirstSeen := daysSinceFirstSeen r; daysSinceLastActive := daysSinceLastActive r;
    contractTransactionCount := contractTransactionCount r;
    tokenTransferCount := tokenTransferCount r;
    internalTransactionCount := internalTransactionCount r; systemLogCount := systemLogCount r;
    protocolOperationCount := protocolOperationCount r; dexActivityCount := dexActivityCount r;
    bridgeActivityCount := v; p2pTransferCount := p2pTransferCount r;
    defiIntegrationCount := defiIntegrationCount r; protocolVolume := protocolVolume r;
    dexVolume := dexVolume r; bridgeVolume := bridgeVolume r; p2pVolume := p2pVolume r;
    defiIntegrationVolume := defiIntegrationVolume r; userType := userType r;
    activityPatterns := activityPatterns r; riskScore := riskScore r;
    composabilityScore := composabilityScore r; influenceScore := influenceScore r;
    retentionScore := retentionScore r
  |}.
Definition set_p2pTransferCount (v : BigInt) (r : t) : t :=
  {|
    usdfcBalance := usdfcBalance r; totalTransactionCount := totalTransactionCount r;
    totalVolumeIn := totalVolumeIn r; totalVolumeOut := totalVolumeOut r; netVolume := netVolume r;
    firstSeenBlock := firstSeenBlock r; firstSeenTimestamp := firstSeenTimestamp r;
    lastActiveBlock := lastActiveBlock r; lastActiveTimestamp := lastActiveTimestamp r;
    daysSinceFirstSeen := daysSinceFirstSeen r; daysSinceLastActive := daysSinceLastActive r;
    contractTransactionCount := contractTransactionCount r;
    tokenTransferCount := tokenTransferCount r;
    internalTransactionCount := internalTransactionCount r; systemLogCount := systemLogCount r;
    protocolOperationCount := protocolOperationCount r; dexActivityCount := dexActivityCount r;
    bridgeActivityCount := bridgeActivityCount r; p2pTransferCount := v;
    defiIntegrationCount := defiIntegrationCount r; protocolVolume := protocolVolume r;
    dexVolume := dexVolume r; bridgeVolume := bridgeVolume r; p2pVolume := p2pVolume r;
    defiIntegrationVolume := defiIntegrationVolume r; userType := userType r;
    activityPatterns := activityPatterns r; riskScore := riskScore r;
    composabilityScore := composabilityScore r; influenceScore := influenceScore r;
    retentionScore := retentionScore r
  |}.
Definition set_defiIntegrationCount (v : BigInt) (r : t) : t :=
  {|
    usdfcBalance := usdfcBalance r; totalTransactionCount := totalTransactionCount r;
    totalVolumeIn := totalVolumeIn r; totalVolumeOut := totalVolumeOut r; netVolume := netVolume r;
    firstSeenBlock := firstSeenBlock r; firstSeenTimestamp := firstSeenTimestamp r;
    lastActiveBlock := lastActiveBlock r; lastActiveTimestamp := lastActiveTimestamp r;
    daysSinceFirstSeen := daysSinceFirstSeen r; daysSinceLastActive := daysSinceLastActive r;
    contractTransactionCount := contractTransactionCount r;
    tokenTransferCount := tokenTransferCount r;
    internalTransactionCount := internalTransactionCount r; systemLogCount := systemLogCount r;
    protocolOperationCount := protocolOperationCount r; dexActivityCount := dexActivityCount r;
    bridgeActivityCount := bridgeActivityCount r; p2pTransferCount := p2pTransferCount r;
    defiIntegrationCount := v; protocolVolume := protocolVolume r; dexVolume := dexVolume r;
    bridgeVolume := bridgeVolume r; p2pVolume := p2pVolume r;
    defiIntegrationVolume := defiIntegrationVolume r; userType := userType r;
    activityPatterns := activityPatterns r; riskScore := riskScore r;
    composabilityScore := composabilityScore r; influenceScore := influenceScore r;
    retentionScore := retentionScore r
  |}.
Definition set_protocolVolume (v : BigInt) (r : t) : t :=
  {|
    usdfcBalance := usdfcBalance r; totalTransactionCount := totalTransactionCount r;
    totalVolumeIn := totalVolumeIn r; totalVolumeOut := totalVolumeOut r; netVolume := netVolume r;
    firstSeenBlock := firstSeenBlock r; firstSeenTimestamp := firstSeenTimestamp r;
    lastActiveBlock := lastActiveBlock r; lastActiveTimestamp := lastActiveTimestamp r;
    daysSinceFirstSeen := daysSinceFirstSeen r; daysSinceLastActive := daysSinceLastActive r;
    contractTransactionCount := contractTransactionCount r;
    tokenTransferCount := tokenTransferCount r;
    internalTransactionCount := internalTransactionCount r; systemLogCount := systemLogCount r;
    protocolOperationCount := protocolOperationCount r; dexActivityCount := dexActivityCount r;
    bridgeActivityCount := bridgeActivityCount r; p2pTransferCount := p2pTransferCount r;
    defiIntegrationCount := defiIntegrationCount r; protocolVolume := v; dexVolume := dexVolume r;
    bridgeVolume := bridgeVolume r; p2pVolume := p2pVolume r;
    defiIntegrationVolume := defiIntegrationVolume r; userType := userType r;
    activityPatterns := activityPatterns r; riskScore := riskScore r;
    composabilityScore := composabilityScore r; influenceScore := influenceScore r;
    retentionScore := retentionScore r
  |}.
Definition set_dexVolume (v : BigInt) (r : t) : t :=
  {|
    usdfcBalance := usdfcBalance r; totalTransactionCount := totalTransactionCount r;
    totalVolumeIn := totalVolumeIn r; totalVolumeOut := totalVolumeOut r; netVolume := netVolume r;
    firstSeenBlock := firstSeenBlock r; firstSeenTimestamp := firstSeenTimestamp r;
    lastActiveBlock := lastActiveBlock r; lastActiveTimestamp := lastActiveTimestamp r;
    daysSinceFirstSeen := daysSinceFirstSeen r; daysSinceLastActive := daysSinceLastActive r;
    contractTransactionCount := contractTransactionCount r;
    tokenTransferCount := tokenTransferCount r;
    internalTransactionCount := internalTransactionCount r; systemLogCount := systemLogCount r;
    protocolOperationCount := protocolOperationCount r; dexActivityCount := dexActivityCount r;
    bridgeActivityCount := bridgeActivityCount r; p2pTransferCount := p2pTransferCount r;
    defiIntegrationCount := defiIntegrationCount r; protocolVolume := protocolVolume r;
    dexVolume := v; bridgeVolume := bridgeVolume r; p2pVolume := p2pVolume r;
    defiIntegrationVolume := defiIntegrationVolume r; userType := userType r;
    activityPatterns := activityPatterns r; riskScore := riskScore r;
    composabilityScore := composabilityScore r; influenceScore := influenceScore r;
    retentionScore := retentionScore r
  |}.
Definition set_bridgeVolume (v : BigInt) (r : t) : t :=
  {|
    usdfcBalance := usdfcBalance r; totalTransactionCount := totalTransactionCount r;
    totalVolumeIn := totalVolumeIn r; totalVolumeOut := totalVolumeOut r; netVolume := netVolume r;
    firstSeenBlock := firstSeenBlock r; firstSeenTimestamp := firstSeenTimestamp r;
    lastActiveBlock := lastActiveBlock r; lastActiveTimestamp := lastActiveTimestamp r;
    daysSinceFirstSeen := daysSinceFirstSeen r; daysSinceLastActive := daysSinceLastActive r;
    contractTransactionCount := contractTransactionCount r;
    tokenTransferCount := tokenTransferCount r;
    internalTransactionCount := internalTransactionCount r; systemLogCount := systemLogCount r;
    protocolOperationCount := protocolOperationCount r; dexActivityCount := dexActivityCount r;
    bridgeActivityCount := bridgeActivityCount r; p2pTransferCount := p2pTransferCount r;
    defiIntegrationCount := defiIntegrationCount r; protocolVolume := protocolVolume r;
    dexVolume := dexVolume r; bridgeVolume := v; p2pVolume := p2pVolume r;
    defiIntegrationVolume := defiIntegrationVolume r; userType := userType r;
    activityPatterns := activityPatterns r; riskScore := riskScore r;
    composabilityScore := composabilityScore r; influenceScore := influenceScore r;
    retentionScore := retentionScore r
  |}.
Definition set_p2pVolume (v : BigInt) (r : t) : t :=
  {|
    usdfcBalance := usdfcBalance r; totalTransactionCount := totalTransactionCount r;
    totalVolumeIn := totalVolumeIn r; totalVolumeOut := totalVolumeOut r; netVolume := netVolume r;
    firstSeenBlock := firstSeenBlock r; firstSeenTimestamp := firstSeenTimestamp r;
    lastActiveBlock := lastActiveBlock r; lastActiveTimestamp := lastActiveTimestamp r;
    daysSinceFirstSeen := daysSinceFirstSeen r; daysSinceLastActive := daysSinceLastActive r;
    contractTransactionCount := contractTransactionCount r;
    tokenTransferCount := tokenTransferCount r;
    internalTransactionCount := internalTransactionCount r; systemLogCount := systemLogCount r;
    protocolOperationCount := protocolOperationCount r; dexActivityCount := dexActivityCount r;
    bridgeActivityCount := bridgeActivityCount r; p2pTransferCount := p2pTransferCount r;
    defiIntegrationCount := defiIntegrationCount r; protocolVolume := protocolVolume r;
    dexVolume := dexVolume r; bridgeVolume := bridgeVolume r; p2pVolume := v;
    defiIntegrationVolume := defiIntegrationVolume r; userType := userType r;
    activityPatterns := activityPatterns r; riskScore := riskScore r;
    composabilityScore := composabilityScore r; influenceScore := influenceScore r;
    retentionScore := retentionScore r
  |}.
Definition set_defiIntegrationVolume (v : BigInt) (r : t) : t :=
  {|
    usdfcBalance := usdfcBalance r; totalTransactionCount := totalTransactionCount r;
    totalVolumeIn := totalVolumeIn r; totalVolumeOut := totalVolumeOut r; netVolume := netVolume r;
    firstSeenBlock := firstSeenBlock r; firstSeenTimestamp := firstSeenTimestamp r;
    lastActiveBlock := lastActiveBlock r; lastActiveTimestamp := lastActiveTimestamp r;
    daysSinceFirstSeen := daysSinceFirstSeen r; daysSinceLastActive := daysSinceLastActive r;
    contractTransactionCount := contractTransactionCount r;
    tokenTransferCount := tokenTransferCount r;
    internalTransactionCount := internalTransactionCount r; systemLogCount := systemLogCount r;
    protocolOperationCount := protocolOperationCount r; dexActivityCount := dexActivityCount r;
    bridgeActivityCount := bridgeActivityCount r; p2pTransferCount := p2pTransferCount r;
    defiIntegrationCount := defiIntegrationCount r; protocolVolume := protocolVolume r;
    dexVolume := dexVolume r; bridgeVolume := bridgeVolume r; p2pVolume := p2pVolume r;
    defiIntegrationVolume := v; userType := userType r; activityPatterns := activityPatterns r;
    riskScore := riskScore r; composabilityScore := composabilityScore r;
    influenceScore := influenceScore r; retentionScore := retentionScore r
  |}.
Definition set_userType (v : string) (r : t) : t :=
  {|
    usdfcBalance := usdfcBalance r; totalTransactionCount := totalTransactionCount r;
    totalVolumeIn := totalVolumeIn r; totalVolumeOut := totalVolumeOut r; netVolume := netVolume r;
    firstSeenBlock := firstSeenBlock r; firstSeenTimestamp := firstSeenTimestamp r;
    lastActiveBlock := lastActiveBlock r; lastActiveTimestamp := lastActiveTimestamp r;
    daysSinceFirstSeen := daysSinceFirstSeen r; daysSinceLastActive := daysSinceLastActive r;
    contractTransactionCount := contractTransactionCount r;
    tokenTransferCount := tokenTransferCount r;
    internalTransactionCount := internalTransactionCount r; systemLogCount := systemLogCount r;
    protocolOperationCount := protocolOperationCount r; dexActivityCount := dexActivityCount r;
    bridgeActivityCount := bridgeActivityCount r; p2pTransferCount := p2pTransferCount r;
    defiIntegrationCount := defiIntegrationCount r; protocolVolume := protocolVolume r;
    dexVolume := dexVolume r; bridgeVolume := bridgeVolume r; p2pVolume := p2pVolume r;
    defiIntegrationVolume := defiIntegrationVolume r; userType := v;
    activityPatterns := activityPatterns r; riskScore := riskScore r;
    composabilityScore := composabilityScore r; influenceScore := influenceScore r;
    retentionScore := retentionScore r
  |}.
Definition set_composabilityScore (v : BigDecimal) (r : t) : t :=
  {|
    usdfcBalance := usdfcBalance r; totalTransactionCount := totalTransactionCount r;
    totalVolumeIn := totalVolumeIn r; totalVolumeOut := totalVolumeOut r; netVolume := netVolume r;
    firstSeenBlock := firstSeenBlock r; firstSeenTimestamp := firstSeenTimestamp r;
    lastActiveBlock := lastActiveBlock r; lastActiveTimestamp := lastActiveTimestamp r;
    daysSinceFirstSeen := daysSinceFirstSeen r; daysSinceLastActive := daysSinceLastActive r;
    contractTransactionCount := contractTransactionCount r;
    tokenTransferCount := tokenTransferCount r;
    internalTransactionCount := internalTransactionCount r; systemLogCount := systemLogCount r;
    protocolOperationCount := protocolOperationCount r; dexActivityCount := dexActivityCount r;
    bridgeActivityCount := bridgeActivityCount r; p2pTransferCount := p2pTransferCount r;
    defiIntegrationCount := defiIntegrationCount r; protocolVolume := protocolVolume r;
    dexVolume := dexVolume r; bridgeVolume := bridgeVolume r; p2pVolume := p2pVolume r;
    defiIntegrationVolume := defiIntegrationVolume r; userType := userType r;
    activityPatterns := activityPatterns r; riskScore := riskScore r; composabilityScore := v;
    influenceScore := influenceScore r; retentionScore := retentionScore r
  |}.
Definition set_influenceScore (v : BigDecimal) (r : t) : t :=
  {|
    usdfcBalance := usdfcBalance r; totalTransactionCount := totalTransactionCount r;
    totalVolumeIn := totalVolumeIn r; totalVolumeOut := totalVolumeOut r; netVolume := netVolume r;
    firstSeenBlock := firstSeenBlock r; firstSeenTimestamp := firstSeenTimestamp r;
    lastActiveBlock := lastActiveBlock r; lastActiveTimestamp := lastActiveTimestamp r;
    daysSinceFirstSeen := daysSinceFirstSeen r; daysSinceLastActive := daysSinceLastActive r;
    contractTransactionCount := contractTransactionCount r;
    tokenTransferCount := tokenTransferCount r;
    internalTransactionCount := internalTransactionCount r; systemLogCount := systemLogCount r;
    protocolOperationCount := protocolOperationCount r; dexActivityCount := dexActivityCount r;
    bridgeActivityCount := bridgeActivityCount r; p2pTransferCount := p2pTransferCount r;
    defiIntegrationCount := defiIntegrationCount r; protocolVolume := protocolVolume r;
    dexVolume := dexVolume r; bridgeVolume := bridgeVolume r; p2pVolume := p2pVolume r;
    defiIntegrationVolume := defiIntegrationVolume r; userType := userType r;
    activityPatterns := activityPatterns r; riskScore := riskScore r;
    composabilityScore := composabilityScore r; influenceScore := v;
    retentionScore := retentionScore r
  |}.
End Account.

(** The ledger row written once per (hash, log index) (entity Transaction). *)
Module Transaction.
Record t := mk {
  hash : Bytes; blockNumber : BigInt; blockTimestamp : BigInt; logIndex : option BigInt;
  from : Bytes; to : Bytes; value : BigInt; source : string; category : string; ecosystem : string;
  gasUsed : option BigInt; gasPrice : option BigInt; success : bool; errorMessage : option string;
  composabilityScore : BigDecimal; innovationScore : BigDecimal; riskScore : BigDecimal
}.
End Transaction.

(** The global ecosystem rollup (entity EcosystemStats). *)
Module EcosystemStats.
Record t := mk {
  totalSupply : BigInt; totalDebt : BigInt; activeTroveCount : BigInt; holderCount : BigInt;
  averageCollateralRatio : BigDecimal; medianCollateralRatio : BigDecimal;
  protocolHealth : BigDecimal; liquidationRisk : BigDecimal; ecosystemUserCount : BigInt;
  dexTradingVolume : BigInt; bridgeVolume : BigInt; p2pVolume : BigInt;
  defiIntegrationVolume : BigInt; totalEcosystemVolume : BigInt; dailyActiveUsers : BigInt;
  weeklyActiveUsers : BigInt; monthlyActiveUsers : BigInt; userRetentionRate : BigDecimal;
  userAcquisitionRate : BigDecimal; protocolIntegrations : BigInt;
  crossProtocolOperations : BigInt; composabilityScore : BigDecimal; innovationIndex : BigDecimal;
  predictedGrowth : BigDecimal; ecosystemHealthScore : BigDecimal; lastUpdateBlock : BigInt;
  lastUpdateTimestamp : BigInt
}.
Definition set_dexTradingVolume (v : BigInt) (r : t) : t :=
  {|
    totalSupply := totalSupply r; totalDebt := totalDebt r; activeTroveCount := activeTroveCount r;
    holderCount := holderCount r; averageCollateralRatio := averageCollateralRatio r;
    medianCollateralRatio := medianCollateralRatio r; protocolHealth := protocolHealth r;
    liquidationRisk := liquidationRisk r; ecosystemUserCount := ecosystemUserCount r;
    dexTradingVolume := v; bridgeVolume := bridgeVolume r; p2pVolume := p2pVolume r;
    defiIntegrationVolume := defiIntegrationVolume r;
    totalEcosystemVolume := totalEcosystemVolume r; dailyActiveUsers := dailyActiveUsers r;
    weeklyActiveUsers := weeklyActiveUsers r; monthlyActiveUsers := monthlyActiveUsers r;
    userRetentionRate := userRetentionRate r; userAcquisitionRate := userAcquisitionRate r;
    protocolIntegrations := protocolIntegrations r;
    crossProtocolOperations := crossProtocolOperations r;
    composabilityScore := composabilityScore r; innovationIndex := innovationIndex r;
    predictedGrowth := predictedGrowth r; ecosystemHealthScore := ecosystemHealthScore r;
    lastUpdateBlock := lastUpdateBlock r; lastUpdateTimestamp := lastUpdateTimestamp r
  |}.
Definition set_bridgeVolume (v : BigInt) (r : t) : t :=
  {|
    totalSupply := totalSupply r; totalDebt := totalDebt r; activeTroveCount := activeTroveCount r;
    holderCount := holderCount r; averageCollateralRatio := averageCollateralRatio r;
    medianCollateralRatio := medianCollateralRatio r; protocolHealth := protocolHealth r;
    liquidationRisk := liquidationRisk r; ecosystemUserCount := ecosystemUserCount r;
    dexTradingVolume := dexTradingVolume r; bridgeVolume := v; p2pVolume := p2pVolume r;
    defiIntegrationVolume := defiIntegrationVolume r;
    totalEcosystemVolume := totalEcosystemVolume r; dailyActiveUsers := dailyActiveUsers r;
    weeklyActiveUsers := weeklyActiveUsers r; monthlyActiveUsers := monthlyActiveUsers r;
    userRetentionRate := userRetentionRate r; userAcquisitionRate := userAcquisitionRate r;
    protocolIntegrations := protocolIntegrations r;
    crossProtocolOperations := crossProtocolOperations r;
    composabilityScore := composabilityScore r; innovationIndex := innovationIndex r;
    predictedGrowth := predictedGrowth r; ecosystemHealthScore := ecosystemHealthScore r;
    lastUpdateBlock := lastUpdateBlock r; lastUpdateTimestamp := lastUpdateTimestamp r
  |}.
Definition set_p2pVolume (v : BigInt) (r : t) : t :=
  {|
    totalSupply := totalSupply r; totalDebt := totalDebt r; activeTroveCount := activeTroveCount r;
    holderCount := holderCount r; averageCollateralRatio := averageCollateralRatio r;
    medianCollateralRatio := medianCollateralRatio r; protocolHealth := protocolHealth r;
    liquidationRisk := liquidationRisk r; ecosystemUserCount := ecosystemUserCount r;
    dexTradingVolume := dexTradingVolume r; bridgeVolume := bridgeVolume r; p2pVolume := v;
    defiIntegrationVolume := defiIntegrationVolume r;
    totalEcosystemVolume := totalEcosystemVolume r; dailyActiveUsers := dailyActiveUsers r;
    weeklyActiveUsers := weeklyActiveUsers r; monthlyActiveUsers := monthlyActiveUsers r;
    userRetentionRate := userRetentionRate r; userAcquisitionRate := userAcquisitionRate r;
    protocolIntegrations := protocolIntegrations r;
    crossProtocolOperations := crossProtocolOperations r;
    composabilityScore := composabilityScore r; innovationIndex := innovationIndex r;
    predictedGrowth := predictedGrowth r; ecosystemHealthScore := ecosystemHealthScore r;
    lastUpdateBlock := lastUpdateBlock r; lastUpdateTimestamp := lastUpdateTimestamp r
  |}.
Definition set_defiIntegrationVolume (v : BigInt) (r : t) : t :=
  {|
    totalSupply := totalSupply r; totalDebt := totalDebt r; activeTroveCount := activeTroveCount r;
    holderCount := holderCount r; averageCollateralRatio := averageCollateralRatio r;
    medianCollateralRatio := medianCollateralRatio r; protocolHealth := protocolHealth r;
    liquidationRisk := liquidationRisk r; ecosystemUserCount := ecosystemUserCount r;
    dexTradingVolume := dexTradingVolume r; bridgeVolume := bridgeVolume r;
    p2pVolume := p2pVolume r; defiIntegrationVolume := v;
    totalEcosystemVolume := totalEcosystemVolume r; dailyActiveUsers := dailyActiveUsers r;
    weeklyActiveUsers := weeklyActiveUsers r; monthlyActiveUsers := monthlyActiveUsers r;
    userRetentionRate := userRetentionRate r; userAcquisitionRate := userAcquisitionRate r;
    protocolIntegrations := protocolIntegrations r;
    crossProtocolOperations := crossProtocolOperations r;
    composabilityScore := composabilityScore r; innovationIndex := innovationIndex r;
    predictedGrowth := predictedGrowth r; ecosystemHealthScore := ecosystemHealthScore r;
    lastUpdateBlock := lastUpdateBlock r; lastUpdateTimestamp := lastUpdateTimestamp r
  |}.
Definition set_totalEcosystemVolume (v : BigInt) (r : t) : t :=
  {|
    totalSupply := totalSupply r; totalDebt := totalDebt r; activeTroveCount := activeTroveCount r;
    holderCount := holderCount r; averageCollateralRatio := averageCollateralRatio r;
    medianCollateralRatio := medianCollateralRatio r; protocolHealth := protocolHealth r;
    liquidationRisk := liquidationRisk r; ecosystemUserCount := ecosystemUserCount r;
    dexTradingVolume := dexTradingVolume r; bridgeVolume := bridgeVolume r;
    p2pVolume := p2pVolume r; defiIntegrationVolume := defiIntegrationVolume r;
    totalEcosystemVolume := v; dailyActiveUsers := dailyActiveUsers r;
    weeklyActiveUsers := weeklyActiveUsers r; monthlyActiveUsers := monthlyActiveUsers r;
    userRetentionRate := userRetentionRate r; userAcquisitionRate := userAcquisitionRate r;
    protocolIntegrations := protocolIntegrations r;
    crossProtocolOperations := crossProtocolOperations r;
    composabilityScore := composabilityScore r; innovationIndex := innovationIndex r;
    predictedGrowth := predictedGrowth r; ecosystemHealthScore := ecosystemHealthScore r;
    lastUpdateBlock := lastUpdateBlock r; lastUpdateTimestamp := lastUpdateTimestamp r
  |}.
Definition set_lastUpdateBlock (v : BigInt) (r : t) : t :=
  {|
    totalSupply := totalSupply r; totalDebt := totalDebt r; activeTroveCount := activeTroveCount r;
    holderCount := holderCount r; averageCollateralRatio := averageCollateralRatio r;
    medianCollateralRatio := medianCollateralRatio r; protocolHealth := protocolHealth r;
    liquidationRisk := liquidationRisk r; ecosystemUserCount := ecosystemUserCount r;
    dexTradingVolume := dexTradingVolume r; bridgeVolume := bridgeVolume r;
    p2pVolume := p2pVolume r; defiIntegrationVolume := defiIntegrationVolume r;
    totalEcosystemVolume := totalEcosystemVolume r; dailyActiveUsers := dailyActiveUsers r;
    weeklyActiveUsers := weeklyActiveUsers r; monthlyActiveUsers := monthlyActiveUsers r;
    userRetentionRate := userRetentionRate r; userAcquisitionRate := userAcquisitionRate r;
    protocolIntegrations := protocolIntegrations r;
    crossProtocolOperations := crossProtocolOperations r;
    composabilityScore := composabilityScore r; innovationIndex := innovationIndex r;
    predictedGrowth := predictedGrowth r; ecosystemHealthScore := ecosystemHealthScore r;
    lastUpdateBlock := v; lastUpdateTimestamp := lastUpdateTimestamp r
  |}.
Definition set_lastUpdateTimestamp (v : BigInt) (r : t) : t :=
  {|
    totalSupply := totalSupply r; totalDebt := totalDebt r; activeTroveCount := activeTroveCount r;
    holderCount := holderCount r; averageCollateralRatio := averageCollateralRatio r;
    medianCollateralRatio := medianCollateralRatio r; protocolHealth := protocolHealth r;
    liquidationRisk := liquidationRisk r; ecosystemUserCount := ecosystemUserCount r;
    dexTradingVolume := dexTradingVolume r; bridgeVolume := bridgeVolume r;
    p2pVolume := p2pVolume r; defiIntegrationVolume := defiIntegrationVolume r;
    totalEcosystemVolume := totalEcosystemVolume r; dailyActiveUsers := dailyActiveUsers r;
    weeklyActiveUsers := weeklyActiveUsers r; monthlyActiveUsers := monthlyActiveUsers r;
    userRetentionRate := userRetentionRate r; userAcquisitionRate := userAcquisitionRate r;
    protocolIntegrations := protocolIntegrations r;
    crossProtocolOperations := crossProtocolOperations r;
    composabilityScore := composabilityScore r; innovationIndex := innovationIndex r;
    predictedGrowth := predictedGrowth r; ecosystemHealthScore := ecosystemHealthScore r;
    lastUpdateBlock := lastUpdateBlock r; lastUpdateTimestamp := v
  |}.
End EcosystemStats.

(** One rollup row per calendar day (entity DailyEcosystemStats). *)
Module DailyEcosystemStats.
Record t := mk {
  date : Z; timestamp : BigInt; protocolTransferCount : BigInt; protocolTransferVolume : BigInt;
  protocolActiveUsers : BigInt; dexTradeCount : BigInt; dexTradeVolume : BigInt;
  dexActiveUsers : BigInt; bridgeOperationCount : BigInt; bridgeVolume : BigInt;
  bridgeActiveUsers : BigInt; p2pTransferCount : BigInt; p2pTransferVolume : BigInt;
  p2pActiveUsers : BigInt; totalEcosystemTransactionCount : BigInt; totalEcosystemVolume : BigInt;
  totalActiveUsers : BigInt; newUsers : BigInt; returningUsers : BigInt;
  averageTransactionSize : BigDecimal; medianTransactionSize : BigInt;
  uniqueTransactionTypes : BigInt; composabilityScore : BigDecimal; userGrowthRate : BigDecimal;
  volumeGrowthRate : BigDecimal; activityGrowthRate : BigDecimal
}.
Definition set_protocolTransferCount (v : BigInt) (r : t) : t :=
  {|
    date := date r; timestamp := timestamp r; protocolTransferCount := v;
    protocolTransferVolume := protocolTransferVolume r;
    protocolActiveUsers := protocolActiveUsers r; dexTradeCount := dexTradeCount r;
    dexTradeVolume := dexTradeVolume r; dexActiveUsers := dexActiveUsers r;
    bridgeOperationCount := bridgeOperationCount r; bridgeVolume := bridgeVolume r;
    bridgeActiveUsers := bridgeActiveUsers r; p2pTransferCount := p2pTransferCount r;
    p2pTransferVolume := p2pTransferVolume r; p2pActiveUsers := p2pActiveUsers r;
    totalEcosystemTransactionCount := totalEcosystemTransactionCount r;
    totalEcosystemVolume := totalEcosystemVolume r; totalActiveUsers := totalActiveUsers r;
    newUsers := newUsers r; returningUsers := returningUsers r;
    averageTransactionSize := averageTransactionSize r;
    medianTransactionSize := medianTransactionSize r;
    uniqueTransactionTypes := uniqueTransactionTypes r; composabilityScore := composabilityScore r;
    userGrowthRate := userGrowthRate r; volumeGrowthRate := volumeGrowthRate r;
    activityGrowthRate := activityGrowthRate r
  |}.
Definition set_protocolTransferVolume (v : BigInt) (r : t) : t :=
  {|
    date := date r; timestamp := timestamp r; protocolTransferCount := protocolTransferCount r;
    protocolTransferVolume := v; protocolActiveUsers := protocolActiveUsers r;
    dexTradeCount := dexTradeCount r; dexTradeVolume := dexTradeVolume r;
    dexActiveUsers := dexActiveUsers r; bridgeOperationCount := bridgeOperationCount r;
    bridgeVolume := bridgeVolume r; bridgeActiveUsers := bridgeActiveUsers r;
    p2pTransferCount := p2pTransferCount r; p2pTransferVolume := p2pTransferVolume r;
    p2pActiveUsers := p2pActiveUsers r;
    totalEcosystemTransactionCount := totalEcosystemTransactionCount r;
    totalEcosystemVolume := totalEcosystemVolume r; totalActiveUsers := totalActiveUsers r;
    newUsers := newUsers r; returningUsers := returningUsers r;
    averageTransactionSize := averageTransactionSize r;
    medianTransactionSize := medianTransactionSize r;
    uniqueTransactionTypes := uniqueTransactionTypes r; composabilityScore := composabilityScore r;
    userGrowthRate := userGrowthRate r; volumeGrowthRate := volumeGrowthRate r;
    activityGrowthRate := activityGrowthRate r
  |}.
Definition set_dexTradeCount (v : BigInt) (r : t) : t :=
  {|
    date := date r; timestamp := timestamp r; protocolTransferCount := protocolTransferCount r;
    protocolTransferVolume := protocolTransferVolume r;
    protocolActiveUsers := protocolActiveUsers r; dexTradeCount := v;
    dexTradeVolume := dexTradeVolume r; dexActiveUsers := dexActiveUsers r;
    bridgeOperationCount := bridgeOperationCount r; bridgeVolume := bridgeVolume r;
    bridgeActiveUsers := bridgeActiveUsers r; p2pTransferCount := p2pTransferCount r;
    p2pTransferVolume := p2pTransferVolume r; p2pActiveUsers := p2pActiveUsers r;
    totalEcosystemTransactionCount := totalEcosystemTransactionCount r;
    totalEcosystemVolume := totalEcosystemVolume r; totalActiveUsers := totalActiveUsers r;
    newUsers := newUsers r; returningUsers := returningUsers r;
    averageTransactionSize := averageTransactionSize r;
    medianTransactionSize := medianTransactionSize r;
    uniqueTransactionTypes := uniqueTransactionTypes r; composabilityScore := composabilityScore r;
    userGrowthRate := userGrowthRate r; volumeGrowthRate := volumeGrowthRate r;
    activityGrowthRate := activityGrowthRate r
  |}.
Definition set_dexTradeVolume (v : BigInt) (r : t) : t :=
  {|
    date := date r; timestamp := timestamp r; protocolTransferCount := protocolTransferCount r;
    protocolTransferVolume := protocolTransferVolume r;
    protocolActiveUsers := protocolActiveUsers r; dexTradeCount := dexTradeCount r;
    dexTradeVolume := v; dexActiveUsers := dexActiveUsers r;
    bridgeOperationCount := bridgeOperationCount r; bridgeVolume := bridgeVolume r;
    bridgeActiveUsers := bridgeActiveUsers r; p2pTransferCount := p2pTransferCount r;
    p2pTransferVolume := p2pTransferVolume r; p2pActiveUsers := p2pActiveUsers r;
    totalEcosystemTransactionCount := totalEcosystemTransactionCount r;
    totalEcosystemVolume := totalEcosystemVolume r; totalActiveUsers := totalActiveUsers r;
    newUsers := newUsers r; returningUsers := returningUsers r;
    averageTransactionSize := averageTransactionSize r;
    medianTransactionSize := medianTransactionSize r;
    uniqueTransactionTypes := uniqueTransactionTypes r; composabilityScore := composabilityScore r;
    userGrowthRate := userGrowthRate r; volumeGrowthRate := volumeGrowthRate r;
    activityGrowthRate := activityGrowthRate r
  |}.
Definition set_bridgeOperationCount (v : BigInt) (r : t) : t :=
  {|
    date := date r; timestamp := timestamp r; protocolTransferCount := protocolTransferCount r;
    protocolTransferVolume := protocolTransferVolume r;
    protocolActiveUsers := protocolActiveUsers r; dexTradeCount := dexTradeCount r;
    dexTradeVolume := dexTradeVolume r; dexActiveUsers := dexActiveUsers r;
    bridgeOperationCount := v; bridgeVolume := bridgeVolume r;
    bridgeActiveUsers := bridgeActiveUsers r; p2pTransferCount := p2pTransferCount r;
    p2pTransferVolume := p2pTransferVolume r; p2pActiveUsers := p2pActiveUsers r;
    totalEcosystemTransactionCount := totalEcosystemTransactionCount r;
    totalEcosystemVolume := totalEcosystemVolume r; totalActiveUsers := totalActiveUsers r;
    newUsers := newUsers r; returningUsers := returningUsers r;
    averageTransactionSize := averageTransactionSize r;
    medianTransactionSize := medianTransactionSize r;
    uniqueTransactionTypes := uniqueTransactionTypes r; composabilityScore := composabilityScore r;
    userGrowthRate := userGrowthRate r; volumeGrowthRate := volumeGrowthRate r;
    activityGrowthRate := activityGrowthRate r
  |}.
Definition set_bridgeVolume (v : BigInt) (r : t) : t :=
  {|
    date := date r; timestamp := timestamp r; protocolTransferCount := protocolTransferCount r;
    protocolTransferVolume := protocolTransferVolume r;
    protocolActiveUsers := protocolActiveUsers r; dexTradeCount := dexTradeCount r;
    dexTradeVolume := dexTradeVolume r; dexActiveUsers := dexActiveUsers r;
    bridgeOperationCount := bridgeOperationCount r; bridgeVolume := v;
    bridgeActiveUsers := bridgeActiveUsers r; p2pTransferCount := p2pTransferCount r;
    p2pTransferVolume := p2pTransferVolume r; p2pActiveUsers := p2pActiveUsers r;
    totalEcosystemTransactionCount := totalEcosystemTransactionCount r;
    totalEcosystemVolume := totalEcosystemVolume r; totalActiveUsers := totalActiveUsers r;
    newUsers := newUsers r; returningUsers := returningUsers r;
    averageTransactionSize := averageTransactionSize r;
    medianTransactionSize := medianTransactionSize r;
    uniqueTransactionTypes := uniqueTransactionTypes r; composabilityScore := composabilityScore r;
    userGrowthRate := userGrowthRate r; volumeGrowthRate := volumeGrowthRate r;
    activityGrowthRate := activityGrowthRate r
  |}.
Definition set_p2pTransferCount (v : BigInt) (r : t) : t :=
  {|
    date := date r; timestamp := timestamp r; protocolTransferCount := protocolTransferCount r;
    protocolTransferVolume := protocolTransferVolume r;
    protocolActiveUsers := protocolActiveUsers r; dexTradeCount := dexTradeCount r;
    dexTradeVolume := dexTradeVolume r; dexActiveUsers := dexActiveUsers r;
    bridgeOperationCount := bridgeOperationCount r; bridgeVolume := bridgeVolume r;
    bridgeActiveUsers := bridgeActiveUsers r; p2pTransferCount := v;
    p2pTransferVolume := p2pTransferVolume r; p2pActiveUsers := p2pActiveUsers r;
    totalEcosystemTransactionCount := totalEcosystemTransactionCount r;
    totalEcosystemVolume := totalEcosystemVolume r; totalActiveUsers := totalActiveUsers r;
    newUsers := newUsers r; returningUsers := returningUsers r;
    averageTransactionSize := averageTransactionSize r;
    medianTransactionSize := medianTransactionSize r;
    uniqueTransactionTypes := uniqueTransactionTypes r; composabilityScore := composabilityScore r;
    userGrowthRate := userGrowthRate r; volumeGrowthRate := volumeGrowthRate r;
    activityGrowthRate := activityGrowthRate r
  |}.
Definition set_p2pTransferVolume (v : BigInt) (r : t) : t :=
  {|
    date := date r; timestamp := timestamp r; protocolTransferCount := protocolTransferCount r;
    protocolTransferVolume := protocolTransferVolume r;
    protocolActiveUsers := protocolActiveUsers r; dexTradeCount := dexTradeCount r;
    dexTradeVolume := dexTradeVolume r; dexActiveUsers := dexActiveUsers r;
    bridgeOperationCount := bridgeOperationCount r; bridgeVolume := bridgeVolume r;
    bridgeActiveUsers := bridgeActiveUsers r; p2pTransferCount := p2pTransferCount r;
    p2pTransferVolume := v; p2pActiveUsers := p2pActiveUsers r;
    totalEcosystemTransactionCount := totalEcosystemTransactionCount r;
    totalEcosystemVolume := totalEcosystemVolume r; totalActiveUsers := totalActiveUsers r;
    newUsers := newUsers r; returningUsers := returningUsers r;
    averageTransactionSize := averageTransactionSize r;
    medianTransactionSize := medianTransactionSize r;
    uniqueTransactionTypes := uniqueTransactionTypes r; composabilityScore := composabilityScore r;
    userGrowthRate := userGrowthRate r; volumeGrowthRate := volumeGrowthRate r;
    activityGrowthRate := activityGrowthRate r
  |}.
Definition set_totalEcosystemTransactionCount (v : BigInt) (r : t) : t :=
  {|
    date := date r; timestamp := timestamp r; protocolTransferCount := protocolTransferCount r;
    protocolTransferVolume := protocolTransferVolume r;
    protocolActiveUsers := protocolActiveUsers r; dexTradeCount := dexTradeCount r;
    dexTradeVolume := dexTradeVolume r; dexActiveUsers := dexActiveUsers r;
    bridgeOperationCount := bridgeOperationCount r; bridgeVolume := bridgeVolume r;
    bridgeActiveUsers := bridgeActiveUsers r; p2pTransferCount := p2pTransferCount r;
    p2pTransferVolume := p2pTransferVolume r; p2pActiveUsers := p2pActiveUsers r;
    totalEcosystemTransactionCount := v; totalEcosystemVolume := totalEcosystemVolume r;
    totalActiveUsers := totalActiveUsers r; newUsers := newUsers r;
    returningUsers := returningUsers r; averageTransactionSize := averageTransactionSize r;
    medianTransactionSize := medianTransactionSize r;
    uniqueTransactionTypes := uniqueTransactionTypes r; composabilityScore := composabilityScore r;
    userGrowthRate := userGrowthRate r; volumeGrowthRate := volumeGrowthRate r;
    activityGrowthRate := activityGrowthRate r
  |}.
Definition set_totalEcosystemVolume (v : BigInt) (r : t) : t :=
  {|
    date := date r; timestamp := timestamp r; protocolTransferCount := protocolTransferCount r;
    protocolTransferVolume := protocolTransferVolume r;
    protocolActiveUsers := protocolActiveUsers r; dexTradeCount := dexTradeCount r;
    dexTradeVolume := dexTradeVolume r; dexActiveUsers := dexActiveUsers r;
    bridgeOperationCount := bridgeOperationCount r; bridgeVolume := bridgeVolume r;
    bridgeActiveUsers := bridgeActiveUsers r; p2pTransferCount := p2pTransferCount r;
    p2pTransferVolume := p2pTransferVolume r; p2pActiveUsers := p2pActiveUsers r;
    totalEcosystemTransactionCount := totalEcosystemTransactionCount r; totalEcosystemVolume := v;
    totalActiveUsers := totalActiveUsers r; newUsers := newUsers r;
    returningUsers := returningUsers r; averageTransactionSize := averageTransactionSize r;
    medianTransactionSize := medianTransactionSize r;
    uniqueTransactionTypes := uniqueTransactionTypes r; composabilityScore := composabilityScore r;
    userGrowthRate := userGrowthRate r; volumeGrowthRate := volumeGrowthRate r;
    activityGrowthRate := activityGrowthRate r
  |}.
Definition set_averageTransactionSize (v : BigDecimal) (r : t) : t :=
  {|
    date := date r; timestamp := timestamp r; protocolTransferCount := protocolTransferCount r;
    protocolTransferVolume := protocolTransferVolume r;
    protocolActiveUsers := protocolActiveUsers r; dexTradeCount := dexTradeCount r;
    dexTradeVolume := dexTradeVolume r; dexActiveUsers := dexActiveUsers r;
    bridgeOperationCount := bridgeOperationCount r; bridgeVolume := bridgeVolume r;
    bridgeActiveUsers := bridgeActiveUsers r; p2pTransferCount := p2pTransferCount r;
    p2pTransferVolume := p2pTransferVolume r; p2pActiveUsers := p2pActiveUsers r;
    totalEcosystemTransactionCount := totalEcosystemTransactionCount r;
    totalEcosystemVolume := totalEcosystemVolume r; totalActiveUsers := totalActiveUsers r;
    newUsers := newUsers r; returningUsers := returningUsers r; averageTransactionSize := v;
    medianTransactionSize := medianTransactionSize r;
    uniqueTransactionTypes := uniqueTransactionTypes r; composabilityScore := composabilityScore r;
    userGrowthRate := userGrowthRate r; volumeGrowthRate := volumeGrowthRate r;
    activityGrowthRate := activityGrowthRate r
  |}.
End DailyEcosystemStats.

(** The global protocol rollup (entity ProtocolStats). *)
Module ProtocolStats.
Record t := mk {
  totalSupply : BigInt; totalDebt : BigInt; totalCollateral : BigInt; activeTroveCount : BigInt;
  totalTroveCount : BigInt; holderCount : BigInt; lifetimeVolume : BigInt;
  lifetimeTransferCount : BigInt; lifetimeMintCount : BigInt; lifetimeBurnCount : BigInt;
  lifetimeLiquidationCount : BigInt; lifetimeRedemptionCount : BigInt; totalBorrowingFees : BigInt;
  totalRedemptionFees : BigInt; lastUpdateBlock : BigInt; lastUpdateTimestamp : BigInt
}.
Definition set_totalDebt (v : BigInt) (r : t) : t :=
  {|
    totalSupply := totalSupply r; totalDebt := v; totalCollateral := totalCollateral r;
    activeTroveCount := activeTroveCount r; totalTroveCount := totalTroveCount r;
    holderCount := holderCount r; lifetimeVolume := lifetimeVolume r;
    lifetimeTransferCount := lifetimeTransferCount r; lifetimeMintCount := lifetimeMintCount r;
    lifetimeBurnCount := lifetimeBurnCount r;
    lifetimeLiquidationCount := lifetimeLiquidationCount r;
    lifetimeRedemptionCount := lifetimeRedemptionCount r;
    totalBorrowingFees := totalBorrowingFees r; totalRedemptionFees := totalRedemptionFees r;
    lastUpdateBlock := lastUpdateBlock r; lastUpdateTimestamp := lastUpdateTimestamp r
  |}.
Definition set_totalCollateral (v : BigInt) (r : t) : t :=
  {|
    totalSupply := totalSupply r; totalDebt := totalDebt r; totalCollateral := v;
    activeTroveCount := activeTroveCount r; totalTroveCount := totalTroveCount r;
    holderCount := holderCount r; lifetimeVolume := lifetimeVolume r;
    lifetimeTransferCount := lifetimeTransferCount r; lifetimeMintCount := lifetimeMintCount r;
    lifetimeBurnCount := lifetimeBurnCount r;
    lifetimeLiquidationCount := lifetimeLiquidationCount r;
    lifetimeRedemptionCount := lifetimeRedemptionCount r;
    totalBorrowingFees := totalBorrowingFees r; totalRedemptionFees := totalRedemptionFees r;
    lastUpdateBlock := lastUpdateBlock r; lastUpdateTimestamp := lastUpdateTimestamp r
  |}.
Definition set_activeTroveCount (v : BigInt) (r : t) : t :=
  {|
    totalSupply := totalSupply r; totalDebt := totalDebt r; totalCollateral := totalCollateral r;
    activeTroveCount := v; totalTroveCount := totalTroveCount r; holderCount := holderCount r;
    lifetimeVolume := lifetimeVolume r; lifetimeTransferCount := lifetimeTransferCount r;
    lifetimeMintCount := lifetimeMintCount r; lifetimeBurnCount := lifetimeBurnCount r;
    lifetimeLiquidationCount := lifetimeLiquidationCount r;
    lifetimeRedemptionCount := lifetimeRedemptionCount r;
    totalBorrowingFees := totalBorrowingFees r; totalRedemptionFees := totalRedemptionFees r;
    lastUpdateBlock := lastUpdateBlock r; lastUpdateTimestamp := lastUpdateTimestamp r
  |}.
Definition set_totalTroveCount (v : BigInt) (r : t) : t :=
  {|
    totalSupply := totalSupply r; totalDebt := totalDebt r; totalCollateral := totalCollateral r;
    activeTroveCount := activeTroveCount r; totalTroveCount := v; holderCount := holderCount r;
    lifetimeVolume := lifetimeVolume r; lifetimeTransferCount := lifetimeTransferCount r;
    lifetimeMintCount := lifetimeMintCount r; lifetimeBurnCount := lifetimeBurnCount r;
    lifetimeLiquidationCount := lifetimeLiquidationCount r;
    lifetimeRedemptionCount := lifetimeRedemptionCount r;
    totalBorrowingFees := totalBorrowingFees r; totalRedemptionFees := totalRedemptionFees r;
    lastUpdateBlock := lastUpdateBlock r; lastUpdateTimestamp := lastUpdateTimestamp r
  |}.
Definition set_lifetimeLiquidationCount (v : BigInt) (r : t) : t :=
  {|
    totalSupply := totalSupply r; totalDebt := totalDebt r; totalCollateral := totalCollateral r;
    activeTroveCount := activeTroveCount r; totalTroveCount := totalTroveCount r;
    holderCount := holderCount r; lifetimeVolume := lifetimeVolume r;
    lifetimeTransferCount := lifetimeTransferCount r; lifetimeMintCount := lifetimeMintCount r;
    lifetimeBurnCount := lifetimeBurnCount r; lifetimeLiquidationCount := v;
    lifetimeRedemptionCount := lifetimeRedemptionCount r;
    totalBorrowingFees := totalBorrowingFees r; totalRedemptionFees := totalRedemptionFees r;
    lastUpdateBlock := lastUpdateBlock r; lastUpdateTimestamp := lastUpdateTimestamp r
  |}.
Definition set_lastUpdateBlock (v : BigInt) (r : t) : t :=
  {|
    totalSupply := totalSupply r; totalDebt := totalDebt r; totalCollateral := totalCollateral r;
    activeTroveCount := activeTroveCount r; totalTroveCount := totalTroveCount r;
    holderCount := holderCount r; lifetimeVolume := lifetimeVolume r;
    lifetimeTransferCount := lifetimeTransferCount r; lifetimeMintCount := lifetimeMintCount r;
    lifetimeBurnCount := lifetimeBurnCount r;
    lifetimeLiquidationCount := lifetimeLiquidationCount r;
    lifetimeRedemptionCount := lifetimeRedemptionCount r;
    totalBorrowingFees := totalBorrowingFees r; totalRedemptionFees := totalRedemptionFees r;
    lastUpdateBlock := v; lastUpdateTimestamp := lastUpdateTimestamp r
  |}.
Definition set_lastUpdateTimestamp (v : BigInt) (r : t) : t :=
  {|
    totalSupply := totalSupply r; totalDebt := totalDebt r; totalCollateral := totalCollateral r;
    activeTroveCount := activeTroveCount r; totalTroveCount := totalTroveCount r;
    holderCount := holderCount r; lifetimeVolume := lifetimeVolume r;
    lifetimeTransferCount := lifetimeTransferCount r; lifetimeMintCount := lifetimeMintCount r;
    lifetimeBurnCount := lifetimeBurnCount r;
    lifetimeLiquidationCount := lifetimeLiquidationCount r;
    lifetimeRedemptionCount := lifetimeRedemptionCount r;
    totalBorrowingFees := totalBorrowingFees r; totalRedemptionFees := totalRedemptionFees r;
    lastUpdateBlock := lastUpdateBlock r; lastUpdateTimestamp := v
  |}.
End ProtocolStats.

(** One row per borrower (entity Trove).  The required fields [collateral],
    [debt] and [status] are options: they are unset on a row that was just
    constructed, and the getter of an unset required field aborts. *)
Module Trove.
Record t := mk {
  owner : Bytes; openedAtBlock : BigInt; openedAtTimestamp : BigInt; totalBorrowed : BigInt;
  totalRepaid : BigInt; totalCollateralAdded : BigInt; totalCollateralWithdrawn : BigInt;
  borrowingFeesPaid : BigInt; operationCount : BigInt; averageCollateralRatio : BigDecimal;
  lowestCollateralRatio : BigDecimal; riskEvents : BigInt; performanceScore : BigDecimal;
  collateral : option BigInt; debt : option BigInt; status : option string; stake : BigInt;
  lastUpdateBlock : BigInt; lastUpdateTimestamp : BigInt; daysOpen : BigInt;
  closedAtBlock : option BigInt; closedAtTimestamp : option BigInt; collateralRatio : BigDecimal;
  healthScore : BigDecimal; riskLevel : string; liquidationPrice : BigDecimal;
  safetyMargin : BigDecimal; liquidationRiskScore : BigDecimal;
  optimizationSuggestions : list string
}.
Definition set_totalBorrowed (v : BigInt) (r : t) : t :=
  {|
    owner := owner r; openedAtBlock := openedAtBlock r; openedAtTimestamp := openedAtTimestamp r;
    totalBorrowed := v; totalRepaid := totalRepaid r;
    totalCollateralAdded := totalCollateralAdded r;
    totalCollateralWithdrawn := totalCollateralWithdrawn r;
    borrowingFeesPaid := borrowingFeesPaid r; operationCount := operationCount r;
    averageCollateralRatio := averageCollateralRatio r;
    lowestCollateralRatio := lowestCollateralRatio r; riskEvents := riskEvents r;
    performanceScore := performanceScore r; collateral := collateral r; debt := debt r;
    status := status r; stake := stake r; lastUpdateBlock := lastUpdateBlock r;
    lastUpdateTimestamp := lastUpdateTimestamp r; daysOpen := daysOpen r;
    closedAtBlock := closedAtBlock r; closedAtTimestamp := closedAtTimestamp r;
    collateralRatio := collateralRatio r; healthScore := healthScore r; riskLevel := riskLevel r;
    liquidationPrice := liquidationPrice r; safetyMargin := safetyMargin r;
    liquidationRiskScore := liquidationRiskScore r;
    optimizationSuggestions := optimizationSuggestions r
  |}.
Definition set_totalRepaid (v : BigInt) (r : t) : t :=
  {|
    owner := owner r; openedAtBlock := openedAtBlock r; openedAtTimestamp := openedAtTimestamp r;
    totalBorrowed := totalBorrowed r; totalRepaid := v;
    totalCollateralAdded := totalCollateralAdded r;
    totalCollateralWithdrawn := totalCollateralWithdrawn r;
    borrowingFeesPaid := borrowingFeesPaid r; operationCount := operationCount r;
    averageCollateralRatio := averageCollateralRatio r;
    lowestCollateralRatio := lowestCollateralRatio r; riskEvents := riskEvents r;
    performanceScore := performanceScore r; collateral := collateral r; debt := debt r;
    status := status r; stake := stake r; lastUpdateBlock := lastUpdateBlock r;
    lastUpdateTimestamp := lastUpdateTimestamp r; daysOpen := daysOpen r;
    closedAtBlock := closedAtBlock r; closedAtTimestamp := closedAtTimestamp r;
    collateralRatio := collateralRatio r; healthScore := healthScore r; riskLevel := riskLevel r;
    liquidationPrice := liquidationPrice r; safetyMargin := safetyMargin r;
    liquidationRiskScore := liquidationRiskScore r;
    optimizationSuggestions := optimizationSuggestions r
  |}.
Definition set_totalCollateralAdded (v : BigInt) (r : t) : t :=
  {|
    owner := owner r; openedAtBlock := openedAtBlock r; openedAtTimestamp := openedAtTimestamp r;
    totalBorrowed := totalBorrowed r; totalRepaid := totalRepaid r; totalCollateralAdded := v;
    totalCollateralWithdrawn := totalCollateralWithdrawn r;
    borrowingFeesPaid := borrowingFeesPaid r; operationCount := operationCount r;
    averageCollateralRatio := averageCollateralRatio r;
    lowestCollateralRatio := lowestCollateralRatio r; riskEvents := riskEvents r;
    performanceScore := performanceScore r; collateral := collateral r; debt := debt r;
    status := status r; stake := stake r; lastUpdateBlock := lastUpdateBlock r;
    lastUpdateTimestamp := lastUpdateTimestamp r; daysOpen := daysOpen r;
    closedAtBlock := closedAtBlock r; closedAtTimestamp := closedAtTimestamp r;
    collateralRatio := collateralRatio r; healthScore := healthScore r; riskLevel := riskLevel r;
    liquidationPrice := liquidationPrice r; safetyMargin := safetyMargin r;
    liquidationRiskScore := liquidationRiskScore r;
    optimizationSuggestions := optimizationSuggestions r
  |}.
Definition set_totalCollateralWithdrawn (v : BigInt) (r : t) : t :=
  {|
    owner := owner r; openedAtBlock := openedAtBlock r; openedAtTimestamp := openedAtTimestamp r;
    totalBorrowed := totalBorrowed r; totalRepaid := totalRepaid r;
    totalCollateralAdded := totalCollateralAdded r; totalCollateralWithdrawn := v;
    borrowingFeesPaid := borrowingFeesPaid r; operationCount := operationCount r;
    averageCollateralRatio := averageCollateralRatio r;
    lowestCollateralRatio := lowestCollateralRatio r; riskEvents := riskEvents r;
    performanceScore := performanceScore r; collateral := collateral r; debt := debt r;
    status := status r; stake := stake r; lastUpdateBlock := lastUpdateBlock r;
    lastUpdateTimestamp := lastUpdateTimestamp r; daysOpen := daysOpen r;
    closedAtBlock := closedAtBlock r; closedAtTimestamp := closedAtTimestamp r;
    collateralRatio := collateralRatio r; healthScore := healthScore r; riskLevel := riskLevel r;
    liquidationPrice := liquidationPrice r; safetyMargin := safetyMargin r;
    liquidationRiskScore := liquidationRiskScore r;
    optimizationSuggestions := optimizationSuggestions r
  |}.
Definition set_operationCount (v : BigInt) (r : t) : t :=
  {|
    owner := owner r; openedAtBlock := openedAtBlock r; openedAtTimestamp := openedAtTimestamp r;
    totalBorrowed := totalBorrowed r; totalRepaid := totalRepaid r;
    totalCollateralAdded := totalCollateralAdded r;
    totalCollateralWithdrawn := totalCollateralWithdrawn r;
    borrowingFeesPaid := borrowingFeesPaid r; operationCount := v;
    averageCollateralRatio := averageCollateralRatio r;
    lowestCollateralRatio := lowestCollateralRatio r; riskEvents := riskEvents r;
    performanceScore := performanceScore r; collateral := collateral r; debt := debt r;
    status := status r; stake := stake r; lastUpdateBlock := lastUpdateBlock r;
    lastUpdateTimestamp := lastUpdateTimestamp r; daysOpen := daysOpen r;
    closedAtBlock := closedAtBlock r; closedAtTimestamp := closedAtTimestamp r;
    collateralRatio := collateralRatio r; healthScore := healthScore r; riskLevel := riskLevel r;
    liquidationPrice := liquidationPrice r; safetyMargin := safetyMargin r;
    liquidationRiskScore := liquidationRiskScore r;
    optimizationSuggestions := optimizationSuggestions r
  |}.
Definition set_averageCollateralRatio (v : BigDecimal) (r : t) : t :=
  {|
    owner := owner r; openedAtBlock := openedAtBlock r; openedAtTimestamp := openedAtTimestamp r;
    totalBorrowed := totalBorrowed r; totalRepaid := totalRepaid r;
    totalCollateralAdded := totalCollateralAdded r;
    totalCollateralWithdrawn := totalCollateralWithdrawn r;
    borrowingFeesPaid := borrowingFeesPaid r; operationCount := operationCount r;
    averageCollateralRatio := v; lowestCollateralRatio := lowestCollateralRatio r;
    riskEvents := riskEvents r; performanceScore := performanceScore r; collateral := collateral r;
    debt := debt r; status := status r; stake := stake r; lastUpdateBlock := lastUpdateBlock r;
    lastUpdateTimestamp := lastUpdateTimestamp r; daysOpen := daysOpen r;
    closedAtBlock := closedAtBlock r; closedAtTimestamp := closedAtTimestamp r;
    collateralRatio := collateralRatio r; healthScore := healthScore r; riskLevel := riskLevel r;
    liquidationPrice := liquidationPrice r; safetyMargin := safetyMargin r;
    liquidationRiskScore := liquidationRiskScore r;
    optimizationSuggestions := optimizationSuggestions r
  |}.
Definition set_lowestCollateralRatio (v : BigDecimal) (r : t) : t :=
  {|
    owner := owner r; openedAtBlock := openedAtBlock r; openedAtTimestamp := openedAtTimestamp r;
    totalBorrowed := totalBorrowed r; totalRepaid := totalRepaid r;
    totalCollateralAdded := totalCollateralAdded r;
    totalCollateralWithdrawn := totalCollateralWithdrawn r;
    borrowingFeesPaid := borrowingFeesPaid r; operationCount := operationCount r;
    averageCollateralRatio := averageCollateralRatio r; lowestCollateralRatio := v;
    riskEvents := riskEvents r; performanceScore := performanceScore r; collateral := collateral r;
    debt := debt r; status := status r; stake := stake r; lastUpdateBlock := lastUpdateBlock r;
    lastUpdateTimestamp := lastUpdateTimestamp r; daysOpen := daysOpen r;
    closedAtBlock := closedAtBlock r; closedAtTimestamp := closedAtTimestamp r;
    collateralRatio := collateralRatio r; healthScore := healthScore r; riskLevel := riskLevel r;
    liquidationPrice := liquidationPrice r; safetyMargin := safetyMargin r;
    liquidationRiskScore := liquidationRiskScore r;
    optimizationSuggestions := optimizationSuggestions r
  |}.
Definition set_riskEvents (v : BigInt) (r : t) : t :=
  {|
    owner := owner r; openedAtBlock := openedAtBlock r; openedAtTimestamp := openedAtTimestamp r;
    totalBorrowed := totalBorrowed r; totalRepaid := totalRepaid r;
    totalCollateralAdded := totalCollateralAdded r;
    totalCollateralWithdrawn := totalCollateralWithdrawn r;
    borrowingFeesPaid := borrowingFeesPaid r; operationCount := operationCount r;
    averageCollateralRatio := averageCollateralRatio r;
    lowestCollateralRatio := lowestCollateralRatio r; riskEvents := v;
    performanceScore := performanceScore r; collateral := collateral r; debt := debt r;
    status := status r; stake := stake r; lastUpdateBlock := lastUpdateBlock r;
    lastUpdateTimestamp := lastUpdateTimestamp r; daysOpen := daysOpen r;
    closedAtBlock := closedAtBlock r; closedAtTimestamp := closedAtTimestamp r;
    collateralRatio := collateralRatio r; healthScore := healthScore r; riskLevel := riskLevel r;
    liquidationPrice := liquidationPrice r; safetyMargin := safetyMargin r;
    liquidationRiskScore := liquidationRiskScore r;
    optimizationSuggestions := optimizationSuggestions r
  |}.
Definition set_performanceScore (v : BigDecimal) (r : t) : t :=
  {|
    owner := owner r; openedAtBlock := openedAtBlock r; openedAtTimestamp := openedAtTimestamp r;
    totalBorrowed := totalBorrowed r; totalRepaid := totalRepaid r;
    totalCollateralAdded := totalCollateralAdded r;
    totalCollateralWithdrawn := totalCollateralWithdrawn r;
    borrowingFeesPaid := borrowingFeesPaid r; operationCount := operationCount r;
    averageCollateralRatio := averageCollateralRatio r;
    lowestCollateralRatio := lowestCollateralRatio r; riskEvents := riskEvents r;
    performanceScore := v; collateral := collateral r; debt := debt r; status := status r;
    stake := stake r; lastUpdateBlock := lastUpdateBlock r;
    lastUpdateTimestamp := lastUpdateTimestamp r; daysOpen := daysOpen r;
    closedAtBlock := closedAtBlock r; closedAtTimestamp := closedAtTimestamp r;
    collateralRatio := collateralRatio r; healthScore := healthScore r; riskLevel := riskLevel r;
    liquidationPrice := liquidationPrice r; safetyMargin := safetyMargin r;
    liquidationRiskScore := liquidationRiskScore r;
    optimizationSuggestions := optimizationSuggestions r
  |}.
Definition set_collateral (v : option BigInt) (r : t) : t :=
  {|
    owner := owner r; openedAtBlock := openedAtBlock r; openedAtTimestamp := openedAtTimestamp r;
    totalBorrowed := totalBorrowed r; totalRepaid := totalRepaid r;
    totalCollateralAdded := totalCollateralAdded r;
    totalCollateralWithdrawn := totalCollateralWithdrawn r;
    borrowingFeesPaid := borrowingFeesPaid r; operationCount := operationCount r;
    averageCollateralRatio := averageCollateralRatio r;
    lowestCollateralRatio := lowestCollateralRatio r; riskEvents := riskEvents r;
    performanceScore := performanceScore r; collateral := v; debt := debt r; status := status r;
    stake := stake r; lastUpdateBlock := lastUpdateBlock r;
    lastUpdateTimestamp := lastUpdateTimestamp r; daysOpen := daysOpen r;
    closedAtBlock := closedAtBlock r; closedAtTimestamp := closedAtTimestamp r;
    collateralRatio := collateralRatio r; healthScore := healthScore r; riskLevel := riskLevel r;
    liquidationPrice := liquidationPrice r; safetyMargin := safetyMargin r;
    liquidationRiskScore := liquidationRiskScore r;
    optimizationSuggestions := optimizationSuggestions r
  |}.
Definition set_debt (v : option BigInt) (r : t) : t :=
  {|
    owner := owner r; openedAtBlock := openedAtBlock r; openedAtTimestamp := openedAtTimestamp r;
    totalBorrowed := totalBorrowed r; totalRepaid := totalRepaid r;
    totalCollateralAdded := totalCollateralAdded r;
    totalCollateralWithdrawn := totalCollateralWithdrawn r;
    borrowingFeesPaid := borrowingFeesPaid r; operationCount := operationCount r;
    averageCollateralRatio := averageCollateralRatio r;
    lowestCollateralRatio := lowestCollateralRatio r; riskEvents := riskEvents r;
    performanceScore := performanceScore r; collateral := collateral r; debt := v;
    status := status r; stake := stake r; lastUpdateBlock := lastUpdateBlock r;
    lastUpdateTimestamp := lastUpdateTimestamp r; daysOpen := daysOpen r;
    closedAtBlock := closedAtBlock r; closedAtTimestamp := closedAtTimestamp r;
    collateralRatio := collateralRatio r; healthScore := healthScore r; riskLevel := riskLevel r;
    liquidationPrice := liquidationPrice r; safetyMargin := safetyMargin r;
    liquidationRiskScore := liquidationRiskScore r;
    optimizationSuggestions := optimizationSuggestions r
  |}.
Definition set_status (v : option string) (r : t) : t :=
  {|
    owner := owner r; openedAtBlock := openedAtBlock r; openedAtTimestamp := openedAtTimestamp r;
    totalBorrowed := totalBorrowed r; totalRepaid := totalRepaid r;
    totalCollateralAdded := totalCollateralAdded r;
    totalCollateralWithdrawn := totalCollateralWithdrawn r;
    borrowingFeesPaid := borrowingFeesPaid r; operationCount := operationCount r;
    averageCollateralRatio := averageCollateralRatio r;
    lowestCollateralRatio := lowestCollateralRatio r; riskEvents := riskEvents r;
    performanceScore := performanceScore r; collateral := collateral r; debt := debt r;
    status := v; stake := stake r; lastUpdateBlock := lastUpdateBlock r;
    lastUpdateTimestamp := lastUpdateTimestamp r; daysOpen := daysOpen r;
    closedAtBlock := closedAtBlock r; closedAtTimestamp := closedAtTimestamp r;
    collateralRatio := collateralRatio r; healthScore := healthScore r; riskLevel := riskLevel r;
    liquidationPrice := liquidationPrice r; safetyMargin := safetyMargin r;
    liquidationRiskScore := liquidationRiskScore r;
    optimizationSuggestions := optimizationSuggestions r
  |}.
Definition set_stake (v : BigInt) (r : t) : t :=
  {|
    owner := owner r; openedAtBlock := openedAtBlock r; openedAtTimestamp := openedAtTimestamp r;
    totalBorrowed := totalBorrowed r; totalRepaid := totalRepaid r;
    totalCollateralAdded := totalCollateralAdded r;
    totalCollateralWithdrawn := totalCollateralWithdrawn r;
    borrowingFeesPaid := borrowingFeesPaid r; operationCount := operationCount r;
    averageCollateralRatio := averageCollateralRatio r;
    lowestCollateralRatio := lowestCollateralRatio r; riskEvents := riskEvents r;
    performanceScore := performanceScore r; collateral := collateral r; debt := debt r;
    status := status r; stake := v; lastUpdateBlock := lastUpdateBlock r;
    lastUpdateTimestamp := lastUpdateTimestamp r; daysOpen := daysOpen r;
    closedAtBlock := closedAtBlock r; closedAtTimestamp := closedAtTimestamp r;
    collateralRatio := collateralRatio r; healthScore := healthScore r; riskLevel := riskLevel r;
    liquidationPrice := liquidationPrice r; safetyMargin := safetyMargin r;
    liquidationRiskScore := liquidationRiskScore r;
    optimizationSuggestions := optimizationSuggestions r
  |}.
Definition set_lastUpdateBlock (v : BigInt) (r : t) : t :=
  {|
    owner := owner r; openedAtBlock := openedAtBlock r; openedAtTimestamp := openedAtTimestamp r;
    totalBorrowed := totalBorrowed r; totalRepaid := totalRepaid r;
    totalCollateralAdded := totalCollateralAdded r;
    totalCollateralWithdrawn := totalCollateralWithdrawn r;
    borrowingFeesPaid := borrowingFeesPaid r; operationCount := operationCount r;
    averageCollateralRatio := averageCollateralRatio r;
    lowestCollateralRatio := lowestCollateralRatio r; riskEvents := riskEvents r;
    performanceScore := performanceScore r; collateral := collateral r; debt := debt r;
    status := status r; stake := stake r; lastUpdateBlock := v;
    lastUpdateTimestamp := lastUpdateTimestamp r; daysOpen := daysOpen r;
    closedAtBlock := closedAtBlock r; closedAtTimestamp := closedAtTimestamp r;
    collateralRatio := collateralRatio r; healthScore := healthScore r; riskLevel := riskLevel r;
    liquidationPrice := liquidationPrice r; safetyMargin := safetyMargin r;
    liquidationRiskScore := liquidationRiskScore r;
    optimizationSuggestions := optimizationSuggestions r
  |}.
Definition set_lastUpdateTimestamp (v : BigInt) (r : t) : t :=
  {|
    owner := owner r; openedAtBlock := openedAtBlock r; openedAtTimestamp := openedAtTimestamp r;
    totalBorrowed := totalBorrowed r; totalRepaid := totalRepaid r;
    totalCollateralAdded := totalCollateralAdded r;
    totalCollateralWithdrawn := totalCollateralWithdrawn r;
    borrowingFeesPaid := borrowingFeesPaid r; operationCount := operationCount r;
    averageCollateralRatio := averageCollateralRatio r;
    lowestCollateralRatio := lowestCollateralRatio r; riskEvents := riskEvents r;
    performanceScore := performanceScore r; collateral := collateral r; debt := debt r;
    status := status r; stake := stake r; lastUpdateBlock := lastUpdateBlock r;
    lastUpdateTimestamp := v; daysOpen := daysOpen r; closedAtBlock := closedAtBlock r;
    closedAtTimestamp := closedAtTimestamp r; collateralRatio := collateralRatio r;
    healthScore := healthScore r; riskLevel := riskLevel r; liquidationPrice := liquidationPrice r;
    safetyMargin := safetyMargin r; liquidationRiskScore := liquidationRiskScore r;
    optimizationSuggestions := optimizationSuggestions r
  |}.
Definition set_daysOpen (v : BigInt) (r : t) : t :=
  {|
    owner := owner r; openedAtBlock := openedAtBlock r; openedAtTimestamp := openedAtTimestamp r;
    totalBorrowed := totalBorrowed r; totalRepaid := totalRepaid r;
    totalCollateralAdded := totalCollateralAdded r;
    totalCollateralWithdrawn := totalCollateralWithdrawn r;
    borrowingFeesPaid := borrowingFeesPaid r; operationCount := operationCount r;
    averageCollateralRatio := averageCollateralRatio r;
    lowestCollateralRatio := lowestCollateralRatio r; riskEvents := riskEvents r;
    performanceScore := performanceScore r; collateral := collateral r; debt := debt r;
    status := status r; stake := stake r; lastUpdateBlock := lastUpdateBlock r;
    lastUpdateTimestamp := lastUpdateTimestamp r; daysOpen := v; closedAtBlock := closedAtBlock r;
    closedAtTimestamp := closedAtTimestamp r; collateralRatio := collateralRatio r;
    healthScore := healthScore r; riskLevel := riskLevel r; liquidationPrice := liquidationPrice r;
    safetyMargin := safetyMargin r; liquidationRiskScore := liquidationRiskScore r;
    optimizationSuggestions := optimizationSuggestions r
  |}.
Definition set_closedAtBlock (v : option BigInt) (r : t) : t :=
  {|
    owner := owner r; openedAtBlock := openedAtBlock r; openedAtTimestamp := openedAtTimestamp r;
    totalBorrowed := totalBorrowed r; totalRepaid := totalRepaid r;
    totalCollateralAdded := totalCollateralAdded r;
    totalCollateralWithdrawn := totalCollateralWithdrawn r;
    borrowingFeesPaid := borrowingFeesPaid r; operationCount := operationCount r;
    averageCollateralRatio := averageCollateralRatio r;
    lowestCollateralRatio := lowestCollateralRatio r; riskEvents := riskEvents r;
    performanceScore := performanceScore r; collateral := collateral r; debt := debt r;
    status := status r; stake := stake r; lastUpdateBlock := lastUpdateBlock r;
    lastUpdateTimestamp := lastUpdateTimestamp r; daysOpen := daysOpen r; closedAtBlock := v;
    closedAtTimestamp := closedAtTimestamp r; collateralRatio := collateralRatio r;
    healthScore := healthScore r; riskLevel := riskLevel r; liquidationPrice := liquidationPrice r;
    safetyMargin := safetyMargin r; liquidationRiskScore := liquidationRiskScore r;
    optimizationSuggestions := optimizationSuggestions r
  |}.
Definition set_closedAtTimestamp (v : option BigInt) (r : t) : t :=
  {|
    owner := owner r; openedAtBlock := openedAtBlock r; openedAtTimestamp := openedAtTimestamp r;
    totalBorrowed := totalBorrowed r; totalRepaid := totalRepaid r;
    totalCollateralAdded := totalCollateralAdded r;
    totalCollateralWithdrawn := totalCollateralWithdrawn r;
    borrowingFeesPaid := borrowingFeesPaid r; operationCount := operationCount r;
    averageCollateralRatio := averageCollateralRatio r;
    lowestCollateralRatio := lowestCollateralRatio r; riskEvents := riskEvents r;
    performanceScore := performanceScore r; collateral := collateral r; debt := debt r;
    status := status r; stake := stake r; lastUpdateBlock := lastUpdateBlock r;
    lastUpdateTimestamp := lastUpdateTimestamp r; daysOpen := daysOpen r;
    closedAtBlock := closedAtBlock r; closedAtTimestamp := v; collateralRatio := collateralRatio r;
    healthScore := healthScore r; riskLevel := riskLevel r; liquidationPrice := liquidationPrice r;
    safetyMargin := safetyMargin r; liquidationRiskScore := liquidationRiskScore r;
    optimizationSuggestions := optimizationSuggestions r
  |}.
Definition set_collateralRatio (v : BigDecimal) (r : t) : t :=
  {|
    owner := owner r; openedAtBlock := openedAtBlock r; openedAtTimestamp := openedAtTimestamp r;
    totalBorrowed := totalBorrowed r; totalRepaid := totalRepaid r;
    totalCollateralAdded := totalCollateralAdded r;
    totalCollateralWithdrawn := totalCollateralWithdrawn r;
    borrowingFeesPaid := borrowingFeesPaid r; operationCount := operationCount r;
    averageCollateralRatio := averageCollateralRatio r;
    lowestCollateralRatio := lowestCollateralRatio r; riskEvents := riskEvents r;
    performanceScore := performanceScore r; collateral := collateral r; debt := debt r;
    status := status r; stake := stake r; lastUpdateBlock := lastUpdateBlock r;
    lastUpdateTimestamp := lastUpdateTimestamp r; daysOpen := daysOpen r;
    closedAtBlock := closedAtBlock r; closedAtTimestamp := closedAtTimestamp r;
    collateralRatio := v; healthScore := healthScore r; riskLevel := riskLevel r;
    liquidationPrice := liquidationPrice r; safetyMargin := safetyMargin r;
    liquidationRiskScore := liquidationRiskScore r;
    optimizationSuggestions := optimizationSuggestions r
  |}.
Definition set_healthScore (v : BigDecimal) (r : t) : t :=
  {|
    owner := owner r; openedAtBlock := openedAtBlock r; openedAtTimestamp := openedAtTimestamp r;
    totalBorrowed := totalBorrowed r; totalRepaid := totalRepaid r;
    totalCollateralAdded := totalCollateralAdded r;
    totalCollateralWithdrawn := totalCollateralWithdrawn r;
    borrowingFeesPaid := borrowingFeesPaid r; operationCount := operationCount r;
    averageCollateralRatio := averageCollateralRatio r;
    lowestCollateralRatio := lowestCollateralRatio r; riskEvents := riskEvents r;
    performanceScore := performanceScore r; collateral := collateral r; debt := debt r;
    status := status r; stake := stake r; lastUpdateBlock := lastUpdateBlock r;
    lastUpdateTimestamp := lastUpdateTimestamp r; daysOpen := daysOpen r;
    closedAtBlock := closedAtBlock r; closedAtTimestamp := closedAtTimestamp r;
    collateralRatio := collateralRatio r; healthScore := v; riskLevel := riskLevel r;
    liquidationPrice := liquidationPrice r; safetyMargin := safetyMargin r;
    liquidationRiskScore := liquidationRiskScore r;
    optimizationSuggestions := optimizationSuggestions r
  |}.
Definition set_riskLevel (v : string) (r : t) : t :=
  {|
    owner := owner r; openedAtBlock := openedAtBlock r; openedAtTimestamp := openedAtTimestamp r;
    totalBorrowed := totalBorrowed r; totalRepaid := totalRepaid r;
    totalCollateralAdded := totalCollateralAdded r;
    totalCollateralWithdrawn := totalCollateralWithdrawn r;
    borrowingFeesPaid := borrowingFeesPaid r; operationCount := operationCount r;
    averageCollateralRatio := averageCollateralRatio r;
    lowestCollateralRatio := lowestCollateralRatio r; riskEvents := riskEvents r;
    performanceScore := performanceScore r; collateral := collateral r; debt := debt r;
    status := status r; stake := stake r; lastUpdateBlock := lastUpdateBlock r;
    lastUpdateTimestamp := lastUpdateTimestamp r; daysOpen := daysOpen r;
    closedAtBlock := closedAtBlock r; closedAtTimestamp := closedAtTimestamp r;
    collateralRatio := collateralRatio r; healthScore := healthScore r; riskLevel := v;
    liquidationPrice := liquidationPrice r; safetyMargin := safetyMargin r;
    liquidationRiskScore := liquidationRiskScore r;
    optimizationSuggestions := optimizationSuggestions r
  |}.
Definition set_liquidationPrice (v : BigDecimal) (r : t) : t :=
  {|
    owner := owner r; openedAtBlock := openedAtBlock r; openedAtTimestamp := openedAtTimestamp r;
    totalBorrowed := totalBorrowed r; totalRepaid := totalRepaid r;
    totalCollateralAdded := totalCollateralAdded r;
    totalCollateralWithdrawn := totalCollateralWithdrawn r;
    borrowingFeesPaid := borrowingFeesPaid r; operationCount := operationCount r;
    averageCollateralRatio := averageCollateralRatio r;
    lowestCollateralRatio := lowestCollateralRatio r; riskEvents := riskEvents r;
    performanceScore := performanceScore r; collateral := collateral r; debt := debt r;
    status := status r; stake := stake r; lastUpdateBlock := lastUpdateBlock r;
    lastUpdateTimestamp := lastUpdateTimestamp r; daysOpen := daysOpen r;
    closedAtBlock := closedAtBlock r; closedAtTimestamp := closedAtTimestamp r;
    collateralRatio := collateralRatio r; healthScore := healthScore r; riskLevel := riskLevel r;
    liquidationPrice := v; safetyMargin := safetyMargin r;
    liquidationRiskScore := liquidationRiskScore r;
    optimizationSuggestions := optimizationSuggestions r
  |}.
Definition set_safetyMargin (v : BigDecimal) (r : t) : t :=
  {|
    owner := owner r; openedAtBlock := openedAtBlock r; openedAtTimestamp := openedAtTimestamp r;
    totalBorrowed := totalBorrowed r; totalRepaid := totalRepaid r;
    totalCollateralAdded := totalCollateralAdded r;
    totalCollateralWithdrawn := totalCollateralWithdrawn r;
    borrowingFeesPaid := borrowingFeesPaid r; operationCount := operationCount r;
    averageCollateralRatio := averageCollateralRatio r;
    lowestCollateralRatio := lowestCollateralRatio r; riskEvents := riskEvents r;
    performanceScore := performanceScore r; collateral := collateral r; debt := debt r;
    status := status r; stake := stake r; lastUpdateBlock := lastUpdateBlock r;
    lastUpdateTimestamp := lastUpdateTimestamp r; daysOpen := daysOpen r;
    closedAtBlock := closedAtBlock r; closedAtTimestamp := closedAtTimestamp r;
    collateralRatio := collateralRatio r; healthScore := healthScore r; riskLevel := riskLevel r;
    liquidationPrice := liquidationPrice r; safetyMargin := v;
    liquidationRiskScore := liquidationRiskScore r;
    optimizationSuggestions := optimizationSuggestions r
  |}.
Definition set_liquidationRiskScore (v : BigDecimal) (r : t) : t :=
  {|
    owner := owner r; openedAtBlock := openedAtBlock r; openedAtTimestamp := openedAtTimestamp r;
    totalBorrowed := totalBorrowed r; totalRepaid := totalRepaid r;
    totalCollateralAdded := totalCollateralAdded r;
    totalCollateralWithdrawn := totalCollateralWithdrawn r;
    borrowingFeesPaid := borrowingFeesPaid r; operationCount := operationCount r;
    averageCollateralRatio := averageCollateralRatio r;
    lowestCollateralRatio := lowestCollateralRatio r; riskEvents := riskEvents r;
    performanceScore := performanceScore r; collateral := collateral r; debt := debt r;
    status := status r; stake := stake r; lastUpdateBlock := lastUpdateBlock r;
    lastUpdateTimestamp := lastUpdateTimestamp r; daysOpen := daysOpen r;
    closedAtBlock := closedAtBlock r; closedAtTimestamp := closedAtTimestamp r;
    collateralRatio := collateralRatio r; healthScore := healthScore r; riskLevel := riskLevel r;
    liquidationPrice := liquidationPrice r; safetyMargin := safetyMargin r;
    liquidationRiskScore := v; optimizationSuggestions := optimizationSuggestions r
  |}.
Definition set_optimizationSuggestions (v : list string) (r : t) : t :=
  {|
    owner := owner r; openedAtBlock := openedAtBlock r; openedAtTimestamp := openedAtTimestamp r;
    totalBorrowed := totalBorrowed r; totalRepaid := totalRepaid r;
    totalCollateralAdded := totalCollateralAdded r;
    totalCollateralWithdrawn := totalCollateralWithdrawn r;
    borrowingFeesPaid := borrowingFeesPaid r; operationCount := operationCount r;
    averageCollateralRatio := averageCollateralRatio r;
    lowestCollateralRatio := lowestCollateralRatio r; riskEvents := riskEvents r;
    performanceScore := performanceScore r; collateral := collateral r; debt := debt r;
    status := status r; stake := stake r; lastUpdateBlock := lastUpdateBlock r;
    lastUpdateTimestamp := lastUpdateTimestamp r; daysOpen := daysOpen r;
    closedAtBlock := closedAtBlock r; closedAtTimestamp := closedAtTimestamp r;
    collateralRatio := collateralRatio r; healthScore := healthScore r; riskLevel := riskLevel r;
    liquidationPrice := liquidationPrice r; safetyMargin := safetyMargin r;
    liquidationRiskScore := liquidationRiskScore r; optimizationSuggestions := v
  |}.
End Trove.

(** One row per handled TroveUpdated event (entity TroveOperation). *)
Module TroveOperation.
Record t := mk {
  timestamp : BigInt; trove : Bytes; collateralChange : BigInt; debtChange : BigInt;
  collateralBefore : BigInt; collateralAfter : BigInt; debtBefore : BigInt; debtAfter : BigInt;
  blockNumber : BigInt; transactionHash : Bytes; operation : string
}.
End TroveOperation.

(** One row per Liquidation event (entity Liquidation). *)
Module Liquidation.
Record t := mk {
  timestamp : BigInt; collateralLiquidated : BigInt; debtLiquidated : BigInt;
  collateralGasCompensation : BigInt; debtGasCompensation : BigInt; blockNumber : BigInt;
  transactionHash : Bytes
}.
End Liquidation.

(** One row per calendar day of price updates (entity MarketCondition). *)
Module MarketCondition.
Record t := mk {
  date : Z; timestamp : BigInt; openPrice : BigDecimal; highPrice : BigDecimal;
  lowPrice : BigDecimal; closePrice : BigDecimal; priceUpdatesCount : BigInt;
  volatilityScore : BigDecimal; trendDirection : string; lastUpdateTimestamp : BigInt
}.
Definition set_highPrice (v : BigDecimal) (r : t) : t :=
  {|
    date := date r; timestamp := timestamp r; openPrice := openPrice r; highPrice := v;
    lowPrice := lowPrice r; closePrice := closePrice r; priceUpdatesCount := priceUpdatesCount r;
    volatilityScore := volatilityScore r; trendDirection := trendDirection r;
    lastUpdateTimestamp := lastUpdateTimestamp r
  |}.
Definition set_lowPrice (v : BigDecimal) (r : t) : t :=
  {|
    date := date r; timestamp := timestamp r; openPrice := openPrice r; highPrice := highPrice r;
    lowPrice := v; closePrice := closePrice r; priceUpdatesCount := priceUpdatesCount r;
    volatilityScore := volatilityScore r; trendDirection := trendDirection r;
    lastUpdateTimestamp := lastUpdateTimestamp r
  |}.
Definition set_closePrice (v : BigDecimal) (r : t) : t :=
  {|
    date := date r; timestamp := timestamp r; openPrice := openPrice r; highPrice := highPrice r;
    lowPrice := lowPrice r; closePrice := v; priceUpdatesCount := priceUpdatesCount r;
    volatilityScore := volatilityScore r; trendDirection := trendDirection r;
    lastUpdateTimestamp := lastUpdateTimestamp r
  |}.
Definition set_priceUpdatesCount (v : BigInt) (r : t) : t :=
  {|
    date := date r; timestamp := timestamp r; openPrice := openPrice r; highPrice := highPrice r;
    lowPrice := lowPrice r; closePrice := closePrice r; priceUpdatesCount := v;
    volatilityScore := volatilityScore r; trendDirection := trendDirection r;
    lastUpdateTimestamp := lastUpdateTimestamp r
  |}.
Definition set_volatilityScore (v : BigDecimal) (r : t) : t :=
  {|
    date := date r; timestamp := timestamp r; openPrice := openPrice r; highPrice := highPrice r;
    lowPrice := lowPrice r; closePrice := closePrice r; priceUpdatesCount := priceUpdatesCount r;
    volatilityScore := v; trendDirection := trendDirection r;
    lastUpdateTimestamp := lastUpdateTimestamp r
  |}.
Definition set_trendDirection (v : string) (r : t) : t :=
  {|
    date := date r; timestamp := timestamp r; openPrice := openPrice r; highPrice := highPrice r;
    lowPrice := lowPrice r; closePrice := closePrice r; priceUpdatesCount := priceUpdatesCount r;
    volatilityScore := volatilityScore r; trendDirection := v;
    lastUpdateTimestamp := lastUpdateTimestamp r
  |}.
Definition set_lastUpdateTimestamp (v : BigInt) (r : t) : t :=
  {|
    date := date r; timestamp := timestamp r; openPrice := openPrice r; highPrice := highPrice r;
    lowPrice := lowPrice r; closePrice := closePrice r; priceUpdatesCount := priceUpdatesCount r;
    volatilityScore := volatilityScore r; trendDirection := trendDirection r;
    lastUpdateTimestamp := v
  |}.
End MarketCondition.

(** The entity store: one finite map per entity type, keyed as the handlers key it. *)
Module Store.
Record t := mk {
  accounts : gmap Bytes Account.t; transactions : gmap Bytes Transaction.t;
  ecosystemStats : gmap string EcosystemStats.t;
  dailyEcosystemStats : gmap Z DailyEcosystemStats.t; protocolStats : gmap string ProtocolStats.t;
  troves : gmap Bytes Trove.t; troveOperations : gmap Bytes TroveOperation.t;
  liquidations : gmap Bytes Liquidation.t; marketConditions : gmap Z MarketCondition.t
}.
Definition set_accounts (v : gmap Bytes Account.t) (r : t) : t :=
  {|
    accounts := v; transactions := transactions r; ecosystemStats := ecosystemStats r;
    dailyEcosystemStats := dailyEcosystemStats r; protocolStats := protocolStats r;
    troves := troves r; troveOperations := troveOperations r; liquidations := liquidations r;
    marketConditions := marketConditions r
  |}.
Definition set_transactions (v : gmap Bytes Transaction.t) (r : t) : t :=
  {|
    accounts := accounts r; transactions := v; ecosystemStats := ecosystemStats r;
    dailyEcosystemStats := dailyEcosystemStats r; protocolStats := protocolStats r;
    troves := troves r; troveOperations := troveOperations r; liquidations := liquidations r;
    marketConditions := marketConditions r
  |}.
Definition set_ecosystemStats (v : gmap string EcosystemStats.t) (r : t) : t :=
  {|
    accounts := accounts r; transactions := transactions r; ecosystemStats := v;
    dailyEcosystemStats := dailyEcosystemStats r; protocolStats := protocolStats r;
    troves := troves r; troveOperations := troveOperations r; liquidations := liquidations r;
    marketConditions := marketConditions r
  |}.
Definition set_dailyEcosystemStats (v : gmap Z DailyEcosystemStats.t) (r : t) : t :=
  {|
    accounts := accounts r; transactions := transactions r; ecosystemStats := ecosystemStats r;
    dailyEcosystemStats := v; protocolStats := protocolStats r; troves := troves r;
    troveOperations := troveOperations r; liquidations := liquidations r;
    marketConditions := marketConditions r
  |}.
Definition set_protocolStats (v : gmap string ProtocolStats.t) (r : t) : t :=
  {|
    accounts := accounts r; transactions := transactions r; ecosystemStats := ecosystemStats r;
    dailyEcosystemStats := dailyEcosystemStats r; protocolStats := v; troves := troves r;
    troveOperations := troveOperations r; liquidations := liquidations r;
    marketConditions := marketConditions r
  |}.
Definition set_troves (v : gmap Bytes Trove.t) (r : t) : t :=
  {|
    accounts := accounts r; transactions := transactions r; ecosystemStats := ecosystemStats r;
    dailyEcosystemStats := dailyEcosystemStats r; protocolStats := protocolStats r; troves := v;
    troveOperations := troveOperations r; liquidations := liquidations r;
    marketConditions := marketConditions r
  |}.
Definition set_troveOperations (v : gmap Bytes TroveOperation.t) (r : t) : t :=
  {|
    accounts := accounts r; transactions := transactions r; ecosystemStats := ecosystemStats r;
    dailyEcosystemStats := dailyEcosystemStats r; protocolStats := protocolStats r;
    troves := troves r; troveOperations := v; liquidations := liquidations r;
    marketConditions := marketConditions r
  |}.
Definition set_liquidations (v : gmap Bytes Liquidation.t) (r : t) : t :=
  {|
    accounts := accounts r; transactions := transactions r; ecosystemStats := ecosystemStats r;
    dailyEcosystemStats := dailyEcosystemStats r; protocolStats := protocolStats r;
    troves := troves r; troveOperations := troveOperations r; liquidations := v;
    marketConditions := marketConditions r
  |}.
Definition set_marketConditions (v : gmap Z MarketCondition.t) (r : t) : t :=
  {|
    accounts := accounts r; transactions := transactions r; ecosystemStats := ecosystemStats r;
    dailyEcosystemStats := dailyEcosystemStats r; protocolStats := protocolStats r;
    troves := troves r; troveOperations := troveOperations r; liquidations := liquidations r;
    marketConditions := v
  |}.
End Store.

(** ** utils/helpers.ts *)

Module Helpers.

(** [calculatePercentage]. *)
Definition calculatePercentage (numerator denominator : BigInt) : option BigDecimal :=
  if denominator =? ZERO_BI then Some ZERO_BD
  else
    q ← bd_div (toBigDecimal numerator) (toBigDecimal denominator);
    Some (q * bd 100 1)%Qc.

(** [calculateCollateralRatio] (collateral / debt * 100). *)
Definition calculateCollateralRatio (collateral debt : BigInt) : option BigDecimal :=
  if debt =? ZERO_BI then Some (bd 99999 1)
  else
    q ← bd_div (toBigDecimal collateral) (toBigDecimal debt);
    Some (q * bd 100 1)%Qc.

(** [safeDivision]. *)
Definition safeDivision (numerator denominator : BigInt) : option BigDecimal :=
  if denominator =? ZERO_BI then Some ZERO_BD
  else bd_div (toBigDecimal numerator) (toBigDecimal denominator).

(** [safeDivisionBD]. *)
Definition safeDivisionBD (numerator denominator : BigDecimal) : option BigDecimal :=
  if bd_equals denominator ZERO_BD then Some ZERO_BD
  else bd_div numerator denominator.

(** [clamp]. *)
Definition clamp (value min max : BigDecimal) : BigDecimal :=
  if bd_lt value min then min
  else if bd_gt value max then max
  else value.

(** [classifyUserType]. *)
Definition classifyUserType
    (totalActivity protocolActivity dexActivity bridgeActivity defiActivity totalVolume : BigInt)
    : option string :=
  if totalActivity =? ZERO_BI then Some "RETAIL_USER"
  else
    dexRatio ← safeDivision dexActivity totalActivity;
    protocolRatio ← safeDivision protocolActivity totalActivity;
    bridgeRatio ← safeDivision bridgeActivity totalActivity;
    defiRatio ← safeDivision defiActivity totalActivity;
    let institutionalThreshold := 1000000000000000000000000 in
    if totalVolume >? institutionalThreshold then Some "INSTITUTIONAL_USER"
    else if bd_gt dexRatio (bd 6 10) then Some "DEX_TRADER"
    else if bd_gt bridgeRatio (bd 4 10) then Some "BRIDGE_USER"
    else if bd_gt defiRatio (bd 5 10) then Some "DEFI_USER"
    else if bd_gt protocolRatio (bd 8 10) then Some "PROTOCOL_NATIVE"
    else if totalActivity >? 100 then Some "POWER_USER"
    else Some "RETAIL_USER".

(** [isZeroAddress]. *)
Definition isZeroAddress (address : Bytes) : bool := bool_decide (address = zeroAddress).

(** [calculateWeightedScore]: the loop over [values[i]], [weights[i]] after
    the guard on the lengths. *)
Fixpoint weightedSums (values weights : list BigDecimal)
    (totalWeightedValue totalWeight : BigDecimal) : BigDecimal * BigDecimal :=
  match values, weights with
  | value :: values, weight :: weights =>
      weightedSums values weights
        (totalWeightedValue + value * weight)%Qc (totalWeight + weight)%Qc
  | _, _ => (totalWeightedValue, totalWeight)
  end.

Definition calculateWeightedScore (values weights : list BigDecimal) : option BigDecimal :=
  if negb (length values =? length weights)%nat || (length values =? 0)%nat then Some ZERO_BD
  else
    let '(totalWeightedValue, totalWeight) := weightedSums values weights ZERO_BD ZERO_BD in
    safeDivisionBD totalWeightedValue totalWeight.

(** [getDayId] of this file: [timestamp.div(SECONDS_PER_DAY)], the decimal
    string of the day being represented by the day. *)
Definition getDayId (timestamp : BigInt) : option Z := bi_div timestamp 86400.

(** [getDayStartTimestamp]. *)
Definition getDayStartTimestamp (timestamp : BigInt) : option BigInt :=
  day ← bi_div timestamp 86400; Some (day * 86400).

(** [daysBetween]. *)
Definition daysBetween (start finish : BigInt) : option BigInt :=
  if finish <? start then Some ZERO_BI else bi_div (finish - start) 86400.

(** [normalizeRiskScore], with [MIN_RISK_SCORE] 0 and [MAX_RISK_SCORE] 100. *)
Definition normalizeRiskScore (score : BigDecimal) : BigDecimal :=
  clamp score (bd 0 1) (bd 100 1).

(** [calculateVolumeRisk]. *)
Definition calculateVolumeRisk (volume : BigInt) : BigDecimal :=
  let largeThreshold := 1000000000000000000000 in
  let whaleThreshold := 100000000000000000000000 in
  if volume >? whaleThreshold then bd 80 1
  else if volume >? largeThreshold then bd 40 1
  else bd 10 1.

(** [calculateComposabilityScore]. *)
Definition calculateComposabilityScore
    (protocolActivity dexActivity bridgeActivity p2pActivity defiActivity : BigInt)
    : BigDecimal :=
  let ecosystemCount := 0 in
  let ecosystemCount := if protocolActivity >? ZERO_BI then ecosystemCount + 1 else ecosystemCount in
  let ecosystemCount := if dexActivity >? ZERO_BI then ecosystemCount + 1 else ecosystemCount in
  let ecosystemCount := if bridgeActivity >? ZERO_BI then ecosystemCount + 1 else ecosystemCount in
  let ecosystemCount := if p2pActivity >? ZERO_BI then ecosystemCount + 1 else ecosystemCount in
  let ecosystemCount := if defiActivity >? ZERO_BI then ecosystemCount + 1 else ecosystemCount in
  (toBigDecimal ecosystemCount * bd 20 1)%Qc.

(** [validateTransfer]. *)
Definition validateTransfer (from to : Bytes) (value : BigInt) : bool :=
  if value <? ZERO_BI then false
  else if bool_decide (from = to) && negb (isZeroAddress from) then false
  else true.

(** [classifyEcosystemType]. *)
Definition classifyEcosystemType (from to : Bytes) (value : BigInt) : string :=
  if isZeroAddress from || isZeroAddress to then "PROTOCOL_NATIVE"
  else if value >? 1000000000000000000000000 then "INSTITUTIONAL_ECOSYSTEM"
  else "P2P_ECOSYSTEM".

End Helpers.

(** ** core/universal-transaction.ts *)

Module UniversalTransaction.

Definition ECOSYSTEM_TYPE_PROTOCOL_NATIVE : string := "PROTOCOL_NATIVE".
Definition ECOSYSTEM_TYPE_DEX_ECOSYSTEM : string := "DEX_ECOSYSTEM".
Definition ECOSYSTEM_TYPE_BRIDGE_ECOSYSTEM : string := "BRIDGE_ECOSYSTEM".
Definition ECOSYSTEM_TYPE_DEFI_ECOSYSTEM : string := "DEFI_ECOSYSTEM".
Definition ECOSYSTEM_TYPE_P2P_ECOSYSTEM : string := "P2P_ECOSYSTEM".

(** The two context getters are placeholders in the source. *)
Definition getCurrentBlock : BigInt := 0.
Definition getCurrentTimestamp : BigInt := 0.

(** [getDayId]: [timestamp.toI32() / 86400], 32-bit division truncating
    toward zero; the decimal string of the day is represented by the day. *)
Definition getDayId (timestamp : BigInt) : option Z :=
  t ← toI32 timestamp; Some (Z.quot t 86400).

Definition getDayString (timestamp : BigInt) : option Z :=
  t ← toI32 timestamp; Some (Z.quot t 86400).

Definition getDayStartTimestamp (timestamp : BigInt) : option BigInt :=
  t ← toI32 timestamp; Some (Z.quot t 86400 * 86400).

(** The row built under [if (account == null)] in [ensureAccount]. *)
Definition newAccount : Account.t :=
  {| Account.usdfcBalance := 0; Account.totalTransactionCount := 0;
     Account.totalVolumeIn := 0; Account.totalVolumeOut := 0; Account.netVolume := 0;
     Account.firstSeenBlock := getCurrentBlock;
     Account.firstSeenTimestamp := getCurrentTimestamp;
     Account.lastActiveBlock := getCurrentBlock;
     Account.lastActiveTimestamp := getCurrentTimestamp;
     Account.daysSinceFirstSeen := 0; Account.daysSinceLastActive := 0;
     Account.contractTransactionCount := 0; Account.tokenTransferCount := 0;
     Account.internalTransactionCount := 0; Account.systemLogCount := 0;
     Account.protocolOperationCount := 0; Account.dexActivityCount := 0;
     Account.bridgeActivityCount := 0; Account.p2pTransferCount := 0;
     Account.defiIntegrationCount := 0;
     Account.protocolVolume := 0; Account.dexVolume := 0; Account.bridgeVolume := 0;
     Account.p2pVolume := 0; Account.defiIntegrationVolume := 0;
     Account.userType := "RETAIL_USER";
     Account.activityPatterns := [];
     Account.riskScore := bd 50 1;
     Account.composabilityScore := bd 0 1;
     Account.influenceScore := bd 0 1;
     Account.retentionScore := bd 50 1 |}.

Definition saveAccount (address : Bytes) (account : Account.t) (s : Store.t) : Store.t :=
  Store.set_accounts (<[address := account]> (Store.accounts s)) s.

(** [ensureAccount]. *)
Definition ensureAccount (address : Bytes) (s : Store.t) : Account.t * Store.t :=
  match Store.accounts s !! address with
  | Some account => (account, s)
  | None => (newAccount, saveAccount address newAccount s)
  end.

(** [updateActivityCounters]. *)
Definition updateActivityCounters
    (account : Account.t) (category ecosystem : string) (value : BigInt) : Account.t :=
  let account :=
    if String.eqb ecosystem ECOSYSTEM_TYPE_PROTOCOL_NATIVE then
      let account :=
        Account.set_protocolOperationCount (Account.protocolOperationCount account + 1) account in
      Account.set_protocolVolume (Account.protocolVolume account + value) account
    else if String.eqb ecosystem ECOSYSTEM_TYPE_DEX_ECOSYSTEM then
      let account :=
        Account.set_dexActivityCount (Account.dexActivityCount account + 1) account in
      Account.set_dexVolume (Account.dexVolume account + value) account
    else if String.eqb ecosystem ECOSYSTEM_TYPE_BRIDGE_ECOSYSTEM then
      let account :=
        Account.set_bridgeActivityCount (Account.bridgeActivityCount account + 1) account in
      Account.set_bridgeVolume (Account.bridgeVolume account + value) account
    else if String.eqb ecosystem ECOSYSTEM_TYPE_P2P_ECOSYSTEM then
      let account :=
        Account.set_p2pTransferCount (Account.p2pTransferCount account + 1) account in
      Account.set_p2pVolume (Account.p2pVolume account + value) account
    else if String.eqb ecosystem ECOSYSTEM_TYPE_DEFI_ECOSYSTEM then
      let account :=
        Account.set_defiIntegrationCount (Account.defiIntegrationCount account + 1) account in
      Account.set_defiIntegrationVolume (Account.defiIntegrationVolume account + value) account
    else account in
  Account.set_netVolume (Account.totalVolumeIn account - Account.totalVolumeOut account) account.

(** The two activity ratios computed at the head of
    [updateUserIntelligence]. *)
Definition activityRatios (account : Account.t) : option (BigDecimal * BigDecimal) :=
  let totalActivity := Account.totalTransactionCount account in
  if totalActivity >? 0 then
    dexRatio ← bd_div (toBigDecimal (Account.dexActivityCount account))
                      (toBigDecimal totalActivity);
    protocolRatio ← bd_div (toBigDecimal (Account.protocolOperationCount account))
                           (toBigDecimal totalActivity);
    Some (dexRatio, protocolRatio)
  else Some (bd 0 1, bd 0 1).

(** The [if]/[else if] chain of [updateUserIntelligence] that assigns
    [userType]; no branch taken leaves the field as it was. *)
Definition classifyAccount (account : Account.t) (dexRatio protocolRatio : BigDecimal)
    : Account.t :=
  let totalActivity := Account.totalTransactionCount account in
  if bd_gt dexRatio (bd 6 10) then Account.set_userType "DEX_TRADER" account
  else if bd_gt protocolRatio (bd 8 10) then Account.set_userType "PROTOCOL_NATIVE" account
  else if totalActivity >? 100 then Account.set_userType "POWER_USER" account
  else if Account.bridgeActivityCount account >? 5 then
    Account.set_userType "BRIDGE_USER" account
  else if Account.defiIntegrationCount account >? 10 then
    Account.set_userType "DEFI_USER" account
  else account.

(** The count of ecosystems with activity, as [updateUserIntelligence]
    accumulates it. *)
Definition countEcosystems (account : Account.t) : Z :=
  let ecosystemCount := 0 in
  let ecosystemCount :=
    if Account.protocolOperationCount account >? 0 then ecosystemCount + 1
    else ecosystemCount in
  let ecosystemCount :=
    if Account.dexActivityCount account >? 0 then ecosystemCount + 1 else ecosystemCount in
  let ecosystemCount :=
    if Account.bridgeActivityCount account >? 0 then ecosystemCount + 1 else ecosystemCount in
  let ecosystemCount :=
    if Account.p2pTransferCount account >? 0 then ecosystemCount + 1 else ecosystemCount in
  let ecosystemCount :=
    if Account.defiIntegrationCount account >? 0 then ecosystemCount + 1
    else ecosystemCount in
  ecosystemCount.

(** [updateUserIntelligence]. *)
Definition updateUserIntelligence
    (account : Account.t) (category ecosystem : string) (value : BigInt)
    : option Account.t :=
  let totalActivity := Account.totalTransactionCount account in
  '(dexRatio, protocolRatio) ← activityRatios account;
  let account := classifyAccount account dexRatio protocolRatio in
  let ecosystemCount := countEcosystems account in
  let account :=
    Account.set_composabilityScore (toBigDecimal ecosystemCount * bd 20 1)%Qc account in
  volumeScore ←
    bd_div (toBigDecimal (Account.totalVolumeIn account + Account.totalVolumeOut account))
           (bd 1000000000000000000 1);
  let activityScore := toBigDecimal totalActivity in
  influence ← bd_div (volumeScore + activityScore)%Qc (bd 100 1);
  let account := Account.set_influenceScore influence account in
  let account :=
    if bd_gt (Account.influenceScore account) (bd 100 1) then
      Account.set_influenceScore (bd 100 1) account
    else account in
  Some account.

(** One side of [updateAccountActivity]: the sender when [isSender], the
    receiver otherwise. *)
Definition updateAccountSide
    (isSender : bool) (address : Bytes) (value : BigInt) (category ecosystem : string)
    (timestamp : BigInt) (s : Store.t) : option Store.t :=
  let '(account, s) := ensureAccount address s in
  let account :=
    Account.set_totalTransactionCount (Account.totalTransactionCount account + 1) account in
  let account :=
    if isSender then Account.set_totalVolumeOut (Account.totalVolumeOut account + value) account
    else Account.set_totalVolumeIn (Account.totalVolumeIn account + value) account in
  let account := Account.set_lastActiveBlock getCurrentBlock account in
  let account := Account.set_lastActiveTimestamp timestamp account in
  let account := updateActivityCounters account category ecosystem value in
  account ← updateUserIntelligence account category ecosystem value;
  Some (saveAccount address account s).

(** [updateAccountActivity]: the sender's row, then the receiver's. *)
Definition updateAccountActivity
    (from to : Bytes) (value : BigInt) (category ecosystem : string) (timestamp : BigInt)
    (s : Store.t) : option Store.t :=
  s ← updateAccountSide true from value category ecosystem timestamp s;
  updateAccountSide false to value category ecosystem timestamp s.

(** [initializeEcosystemStats] on a row just constructed; the two
    [lastUpdate] fields are assigned by the caller before the row is saved. *)
Definition initializeEcosystemStats : EcosystemStats.t :=
  {| EcosystemStats.totalSupply := 0; EcosystemStats.totalDebt := 0;
     EcosystemStats.activeTroveCount := 0; EcosystemStats.holderCount := 0;
     EcosystemStats.averageCollateralRatio := bd 0 1;
     EcosystemStats.medianCollateralRatio := bd 0 1;
     EcosystemStats.protocolHealth := bd 100 1;
     EcosystemStats.liquidationRisk := bd 0 1;
     EcosystemStats.ecosystemUserCount := 0; EcosystemStats.dexTradingVolume := 0;
     EcosystemStats.bridgeVolume := 0; EcosystemStats.p2pVolume := 0;
     EcosystemStats.defiIntegrationVolume := 0; EcosystemStats.totalEcosystemVolume := 0;
     EcosystemStats.dailyActiveUsers := 0; EcosystemStats.weeklyActiveUsers := 0;
     EcosystemStats.monthlyActiveUsers := 0;
     EcosystemStats.userRetentionRate := bd 0 1;
     EcosystemStats.userAcquisitionRate := bd 0 1;
     EcosystemStats.protocolIntegrations := 0; EcosystemStats.crossProtocolOperations := 0;
     EcosystemStats.composabilityScore := bd 0 1;
     EcosystemStats.innovationIndex := bd 0 1;
     EcosystemStats.predictedGrowth := bd 0 1;
     EcosystemStats.ecosystemHealthScore := bd 100 1;
     EcosystemStats.lastUpdateBlock := 0; EcosystemStats.lastUpdateTimestamp := 0 |}.

(** [initializeDailyStats] on a row just constructed for [date]/[timestamp]. *)
Definition initializeDailyStats (date : Z) (timestamp : BigInt) : DailyEcosystemStats.t :=
  {| DailyEcosystemStats.date := date; DailyEcosystemStats.timestamp := timestamp;
     DailyEcosystemStats.protocolTransferCount := 0;
     DailyEcosystemStats.protocolTransferVolume := 0;
     DailyEcosystemStats.protocolActiveUsers := 0;
     DailyEcosystemStats.dexTradeCount := 0; DailyEcosystemStats.dexTradeVolume := 0;
     DailyEcosystemStats.dexActiveUsers := 0;
     DailyEcosystemStats.bridgeOperationCount := 0; DailyEcosystemStats.bridgeVolume := 0;
     DailyEcosystemStats.bridgeActiveUsers := 0;
     DailyEcosystemStats.p2pTransferCount := 0; DailyEcosystemStats.p2pTransferVolume := 0;
     DailyEcosystemStats.p2pActiveUsers := 0;
     DailyEcosystemStats.totalEcosystemTransactionCount := 0;
     DailyEcosystemStats.totalEcosystemVolume := 0;
     DailyEcosystemStats.totalActiveUsers := 0; DailyEcosystemStats.newUsers := 0;
     DailyEcosystemStats.returningUsers := 0;
     DailyEcosystemStats.averageTransactionSize := bd 0 1;
     DailyEcosystemStats.medianTransactionSize := 0;
     DailyEcosystemStats.uniqueTransactionTypes := 0;
     DailyEcosystemStats.composabilityScore := bd 0 1;
     DailyEcosystemStats.userGrowthRate := bd 0 1;
     DailyEcosystemStats.volumeGrowthRate := bd 0 1;
     DailyEcosystemStats.activityGrowthRate := bd 0 1 |}.

(** [updateDailyEcosystemStats]. *)
Definition updateDailyEcosystemStats
    (category ecosystem : string) (value timestamp : BigInt) (s : Store.t) : option Store.t :=
  dayId ← getDayId timestamp;
  stats ←
    match Store.dailyEcosystemStats s !! dayId with
    | Some stats => Some stats
    | None =>
        date ← getDayString timestamp;
        start ← getDayStartTimestamp timestamp;
        Some (initializeDailyStats date start)
    end;
  let stats :=
    if String.eqb ecosystem ECOSYSTEM_TYPE_DEX_ECOSYSTEM then
      let stats :=
        DailyEcosystemStats.set_dexTradeCount (DailyEcosystemStats.dexTradeCount stats + 1) stats in
      DailyEcosystemStats.set_dexTradeVolume
        (DailyEcosystemStats.dexTradeVolume stats + value) stats
    else if String.eqb ecosystem ECOSYSTEM_TYPE_BRIDGE_ECOSYSTEM then
      let stats :=
        DailyEcosystemStats.set_bridgeOperationCount
          (DailyEcosystemStats.bridgeOperationCount stats + 1) stats in
      DailyEcosystemStats.set_bridgeVolume (DailyEcosystemStats.bridgeVolume stats + value) stats
    else if String.eqb ecosystem ECOSYSTEM_TYPE_P2P_ECOSYSTEM then
      let stats :=
        DailyEcosystemStats.set_p2pTransferCount
          (DailyEcosystemStats.p2pTransferCount stats + 1) stats in
      DailyEcosystemStats.set_p2pTransferVolume
        (DailyEcosystemStats.p2pTransferVolume stats + value) stats
    else if String.eqb ecosystem ECOSYSTEM_TYPE_PROTOCOL_NATIVE then
      let stats :=
        DailyEcosystemStats.set_protocolTransferCount
          (DailyEcosystemStats.protocolTransferCount stats + 1) stats in
      DailyEcosystemStats.set_protocolTransferVolume
        (DailyEcosystemStats.protocolTransferVolume stats + value) stats
    else stats in
  let stats :=
    DailyEcosystemStats.set_totalEcosystemTransactionCount
      (DailyEcosystemStats.protocolTransferCount stats
       + DailyEcosystemStats.dexTradeCount stats
       + DailyEcosystemStats.bridgeOperationCount stats
       + DailyEcosystemStats.p2pTransferCount stats) stats in
  let stats :=
    DailyEcosystemStats.set_totalEcosystemVolume
      (DailyEcosystemStats.protocolTransferVolume stats
       + DailyEcosystemStats.dexTradeVolume stats
       + DailyEcosystemStats.bridgeVolume stats
       + DailyEcosystemStats.p2pTransferVolume stats) stats in
  stats ←
    (if DailyEcosystemStats.totalEcosystemTransactionCount stats >? 0 then
       average ←
         bd_div (toBigDecimal (DailyEcosystemStats.totalEcosystemVolume stats))
                (toBigDecimal (DailyEcosystemStats.totalEcosystemTransactionCount stats));
       Some (DailyEcosystemStats.set_averageTransactionSize average stats)
     else Some stats);
  Some (Store.set_dailyEcosystemStats (<[dayId := stats]> (Store.dailyEcosystemStats s)) s).

(** [updateEcosystemStats]. *)
Definition updateEcosystemStats
    (category ecosystem : string) (value timestamp : BigInt) (s : Store.t) : option Store.t :=
  let stats :=
    match Store.ecosystemStats s !! "global" with
    | Some stats => stats
    | None => initializeEcosystemStats
    end in
  let stats :=
    if String.eqb ecosystem ECOSYSTEM_TYPE_DEX_ECOSYSTEM then
      EcosystemStats.set_dexTradingVolume (EcosystemStats.dexTradingVolume stats + value) stats
    else if String.eqb ecosystem ECOSYSTEM_TYPE_BRIDGE_ECOSYSTEM then
      EcosystemStats.set_bridgeVolume (EcosystemStats.bridgeVolume stats + value) stats
    else if String.eqb ecosystem ECOSYSTEM_TYPE_P2P_ECOSYSTEM then
      EcosystemStats.set_p2pVolume (EcosystemStats.p2pVolume stats + value) stats
    else if String.eqb ecosystem ECOSYSTEM_TYPE_DEFI_ECOSYSTEM then
      EcosystemStats.set_defiIntegrationVolume
        (EcosystemStats.defiIntegrationVolume stats + value) stats
    else stats in
  let stats :=
    EcosystemStats.set_totalEcosystemVolume
      (EcosystemStats.dexTradingVolume stats + EcosystemStats.bridgeVolume stats
       + EcosystemStats.p2pVolume stats + EcosystemStats.defiIntegrationVolume stats) stats in
  let stats := EcosystemStats.set_lastUpdateBlock getCurrentBlock stats in
  let stats := EcosystemStats.set_lastUpdateTimestamp timestamp stats in
  let s := Store.set_ecosystemStats (<["global" := stats]> (Store.ecosystemStats s)) s in
  updateDailyEcosystemStats category ecosystem value timestamp s.

(** The transaction id: the hash, with the log index appended when there is
    one. *)
Definition transactionId (hash : Bytes) (logIndex : option BigInt) : option Bytes :=
  match logIndex with
  | Some logIndex => i ← toI32 logIndex; Some (concatI32 hash i)
  | None => Some hash
  end.

(** [createUniversalTransaction]; the result is the id of the ledger row
    (callers read nothing else of it) and the store. *)
Definition createUniversalTransaction
    (hash : Bytes) (blockNumber blockTimestamp : BigInt) (from to : Bytes) (value : BigInt)
    (source category ecosystem : string) (logIndex gasUsed gasPrice : option BigInt)
    (success : bool) (errorMessage : option string) (s : Store.t)
    : option (Bytes * Store.t) :=
  txId ← transactionId hash logIndex;
  let s :=
    match Store.transactions s !! txId with
    | Some _ => s
    | None =>
        let '(_, s) := ensureAccount from s in
        let '(_, s) := ensureAccount to s in
        let transaction :=
          {| Transaction.hash := hash; Transaction.blockNumber := blockNumber;
             Transaction.blockTimestamp := blockTimestamp;
             Transaction.logIndex := logIndex;
             Transaction.from := from; Transaction.to := to;
             Transaction.value := value;
             Transaction.source := source; Transaction.category := category;
             Transaction.ecosystem := ecosystem;
             Transaction.gasUsed := gasUsed; Transaction.gasPrice := gasPrice;
             Transaction.success := success; Transaction.errorMessage := errorMessage;
             Transaction.composabilityScore := bd 0 1;
             Transaction.innovationScore := bd 0 1;
             Transaction.riskScore := bd 0 1 |} in
        Store.set_transactions (<[txId := transaction]> (Store.transactions s)) s
    end in
  s ← updateAccountActivity from to value category ecosystem blockTimestamp s;
  s ← updateEcosystemStats category ecosystem value blockTimestamp s;
  Some (txId, s).

End UniversalTransaction.

(** ** protocol/usdfc-token-final.ts *)

Module TokenFinal.

(** The row built under [if (account == null)] in this file's
    [ensureAccount]. *)
Definition newAccount : Account.t :=
  {| Account.usdfcBalance := 0; Account.totalTransactionCount := 0;
     Account.totalVolumeIn := 0; Account.totalVolumeOut := 0; Account.netVolume := 0;
     Account.firstSeenBlock := 0; Account.firstSeenTimestamp := 0;
     Account.lastActiveBlock := 0; Account.lastActiveTimestamp := 0;
     Account.daysSinceFirstSeen := 0; Account.daysSinceLastActive := 0;
     Account.contractTransactionCount := 0; Account.tokenTransferCount := 0;
     Account.internalTransactionCount := 0; Account.systemLogCount := 0;
     Account.protocolOperationCount := 0; Account.dexActivityCount := 0;
     Account.bridgeActivityCount := 0; Account.p2pTransferCount := 0;
     Account.defiIntegrationCount := 0;
     Account.protocolVolume := 0; Account.dexVolume := 0; Account.bridgeVolume := 0;
     Account.p2pVolume := 0; Account.defiIntegrationVolume := 0;
     Account.userType := "RETAIL_USER";
     Account.activityPatterns := [];
     Account.riskScore := bd 0 1;
     Account.composabilityScore := bd 0 1;
     Account.influenceScore := bd 0 1;
     Account.retentionScore := bd 0 1 |}.

Definition saveAccount (address : Bytes) (account : Account.t) (s : Store.t) : Store.t :=
  Store.set_accounts (<[address := account]> (Store.accounts s)) s.

(** [ensureAccount]. *)
Definition ensureAccount (address : Bytes) (s : Store.t) : Account.t * Store.t :=
  match Store.accounts s !! address with
  | Some account => (account, s)
  | None => (newAccount, saveAccount address newAccount s)
  end.

(** [class TransferAmountTiers]. *)
Module TransferAmountTiers.
Definition DUST_THRESHOLD : BigInt := 100000000000000000.
Definition MICRO_THRESHOLD : BigInt := 1000000000000000000.
Definition SMALL_THRESHOLD : BigInt := 100000000000000000000.
Definition MEDIUM_THRESHOLD : BigInt := 1000000000000000000000.
Definition LARGE_THRESHOLD : BigInt := 10000000000000000000000.
Definition WHALE_THRESHOLD : BigInt := 100000000000000000000000.
Definition INSTITUTIONAL_THRESHOLD : BigInt := 1000000000000000000000000.
End TransferAmountTiers.

(** [class RiskWeights]. *)
Module RiskWeights.
Definition DUST_RISK : BigDecimal := bd 0 1.
Definition MICRO_RISK : BigDecimal := bd 2 1.
Definition SMALL_RISK : BigDecimal := bd 5 1.
Definition MEDIUM_RISK : BigDecimal := bd 15 1.
Definition LARGE_RISK : BigDecimal := bd 25 1.
Definition WHALE_RISK : BigDecimal := bd 40 1.
Definition INSTITUTIONAL_RISK : BigDecimal := bd 60 1.
Definition NEW_ACCOUNT_RISK : BigDecimal := bd 10 1.
Definition OFF_HOURS_MULTIPLIER : BigDecimal := bd 12 10.
End RiskWeights.

(** [getTransferAmountTier]. *)
Definition getTransferAmountTier (amount : BigInt) : string :=
  if amount <? TransferAmountTiers.DUST_THRESHOLD then "DUST"
  else if amount <? TransferAmountTiers.MICRO_THRESHOLD then "MICRO"
  else if amount <? TransferAmountTiers.SMALL_THRESHOLD then "SMALL"
  else if amount <? TransferAmountTiers.MEDIUM_THRESHOLD then "MEDIUM"
  else if amount <? TransferAmountTiers.LARGE_THRESHOLD then "LARGE"
  else if amount <? TransferAmountTiers.WHALE_THRESHOLD then "WHALE"
  else "INSTITUTIONAL".

(** [getAmountRiskWeight]. *)
Definition getAmountRiskWeight (amount : BigInt) : BigDecimal :=
  let tier := getTransferAmountTier amount in
  if String.eqb tier "DUST" then RiskWeights.DUST_RISK
  else if String.eqb tier "MICRO" then RiskWeights.MICRO_RISK
  else if String.eqb tier "SMALL" then RiskWeights.SMALL_RISK
  else if String.eqb tier "MEDIUM" then RiskWeights.MEDIUM_RISK
  else if String.eqb tier "LARGE" then RiskWeights.LARGE_RISK
  else if String.eqb tier "WHALE" then RiskWeights.WHALE_RISK
  else RiskWeights.INSTITUTIONAL_RISK.

(** The three protocol contracts, as the bytes of their hexadecimal
    addresses.  The source keys its map by the lower-cased hexadecimal
    string of an address; that string determines the bytes and conversely,
    so the map is keyed by the bytes here. *)
Definition troveManagerAddress : Bytes :=
  [0x5a; 0xb8; 0x7c; 0x23; 0x98; 0x45; 0x41; 0x25; 0xdd; 0x42;
   0x44; 0x25; 0xe3; 0x9c; 0x89; 0x09; 0xbb; 0xe1; 0x60; 0x22].
Definition stabilityPoolAddress : Bytes :=
  [0x79; 0x1a; 0xd7; 0x8b; 0xbc; 0x58; 0x32; 0x40; 0x89; 0xd3;
   0xe0; 0xa8; 0x68; 0x9e; 0x7d; 0x04; 0x5b; 0x95; 0x92; 0xb5].
Definition stakingAddress : Bytes :=
  [0xc8; 0x70; 0x7b; 0x3d; 0x42; 0x6e; 0x7d; 0x7a; 0x07; 0x06;
   0xc4; 0x8d; 0xcd; 0x1a; 0x4b; 0x83; 0xbc; 0x22; 0x0d; 0xb3].

(** [getProtocolAddresses]. *)
Definition getProtocolAddresses : gmap Bytes string :=
  let addresses : gmap Bytes string := ∅ in
  let addresses := <[troveManagerAddress := "TROVE_MANAGER"]> addresses in
  let addresses := <[stabilityPoolAddress := "STABILITY_POOL"]> addresses in
  let addresses := <[stakingAddress := "STAKING"]> addresses in
  addresses.

(** [isProtocolAddress]. *)
Definition isProtocolAddress (address : Bytes) (protocolAddresses : gmap Bytes string) : bool :=
  match protocolAddresses !! address with Some _ => true | None => false end.

(** [t == "NAME"] on a value that is a role name or null. *)
Definition isType (t : option string) (name : string) : bool :=
  match t with Some x => String.eqb x name | None => false end.

(** [getProtocolOperationType]. *)
Definition getProtocolOperationType
    (from to : Bytes) (protocolAddresses : gmap Bytes string) : string :=
  let fromType := protocolAddresses !! from in
  let toType := protocolAddresses !! to in
  if isType fromType "TROVE_MANAGER" || isType toType "TROVE_MANAGER" then
    "LIQUIDATION_REWARD"
  else if isType fromType "STABILITY_POOL" then "STABILITY_WITHDRAWAL"
  else if isType toType "STABILITY_POOL" then "STABILITY_DEPOSIT"
  else if isType fromType "STAKING" || isType toType "STAKING" then "STAKING_OPERATION"
  else if bool_decide (is_Some fromType) || bool_decide (is_Some toType) then "NORMAL"
  else "NORMAL".

(** [isKnownDexAddress]: membership in the (placeholder) list. *)
Definition knownDexes : list Bytes := [replicate 19 0 ++ [1]].
Definition isKnownDexAddress (address : Bytes) : bool :=
  existsb (fun known => bool_decide (address = known)) knownDexes.

(** [isKnownBridgeAddress]: membership in the (placeholder) list. *)
Definition knownBridges : list Bytes := [replicate 19 0 ++ [2]].
Definition isKnownBridgeAddress (address : Bytes) : bool :=
  existsb (fun known => bool_decide (address = known)) knownBridges.

(** [getConfigurableTransferType]. *)
Definition getConfigurableTransferType (from to : Bytes) (value : BigInt) : string :=
  if bool_decide (from = zeroAddress) then "MINT_TO_BORROWER"
  else if bool_decide (to = zeroAddress) then "BURN_FROM_REPAYMENT"
  else
    let protocolAddresses := getProtocolAddresses in
    if isProtocolAddress from protocolAddresses || isProtocolAddress to protocolAddresses then
      getProtocolOperationType from to protocolAddresses
    else if isKnownDexAddress from then "DEX_SWAP_IN"
    else if isKnownDexAddress to then "DEX_SWAP_OUT"
    else if isKnownBridgeAddress from then "BRIDGE_WITHDRAWAL"
    else if isKnownBridgeAddress to then "BRIDGE_DEPOSIT"
    else "NORMAL".

(** [updateAccountBalances]. *)
Definition updateAccountBalances (from to : Bytes) (value : BigInt) (s : Store.t) : Store.t :=
  let s :=
    if negb (bool_decide (from = zeroAddress)) then
      let '(fromAccount, s) := ensureAccount from s in
      let fromAccount :=
        Account.set_usdfcBalance (Account.usdfcBalance fromAccount - value) fromAccount in
      saveAccount from fromAccount s
    else s in
  let s :=
    if negb (bool_decide (to = zeroAddress)) then
      let '(toAccount, s) := ensureAccount to s in
      let toAccount :=
        Account.set_usdfcBalance (Account.usdfcBalance toAccount + value) toAccount in
      saveAccount to toAccount s
    else s in
  s.

(** [isOffHoursTransaction]: 32-bit remainder and quotient, both truncating
    toward zero. *)
Definition isOffHoursTransaction (timestamp : BigInt) : option bool :=
  t ← toI32 timestamp;
  let hour := Z.quot (Z.rem t 86400) 3600 in
  Some ((hour >=? 22) || (hour <=? 6)).

(** [getComposableRiskScore]. *)
Definition getComposableRiskScore (from to : Bytes) (value timestamp : BigInt) (s : Store.t)
    : option BigDecimal :=
  let riskScore := bd 0 1 in
  let riskScore := (riskScore + getAmountRiskWeight value)%Qc in
  let fromAccount := Store.accounts s !! from in
  let toAccount := Store.accounts s !! to in
  let riskScore :=
    if match fromAccount with
       | None => true
       | Some account => Account.totalTransactionCount account <? 5
       end
    then (riskScore + RiskWeights.NEW_ACCOUNT_RISK)%Qc else riskScore in
  let riskScore :=
    if match toAccount with
       | None => true
       | Some account => Account.totalTransactionCount account <? 5
       end
    then (riskScore + RiskWeights.NEW_ACCOUNT_RISK)%Qc else riskScore in
  isOffHoursTransaction timestamp ≫= fun offHours : bool =>
  Some (if offHours then (riskScore * RiskWeights.OFF_HOURS_MULTIPLIER)%Qc else riskScore).

(** [handleMint]: the balance update (the rest of the handler logs). *)
Definition handleMint (holder : Bytes) (amount : BigInt) (s : Store.t) : Store.t :=
  let '(account, s) := ensureAccount holder s in
  let account := Account.set_usdfcBalance (Account.usdfcBalance account + amount) account in
  saveAccount holder account s.

(** [handleBurn]: the balance update (the rest of the handler logs). *)
Definition handleBurn (holder : Bytes) (amount : BigInt) (s : Store.t) : Store.t :=
  let '(account, s) := ensureAccount holder s in
  let account := Account.set_usdfcBalance (Account.usdfcBalance account - amount) account in
  saveAccount holder account s.

End TokenFinal.

(** ** protocol/trove-manager.ts *)

Module TroveManager.

Definition TX_SOURCE_CONTRACT_EVENT : string := "CONTRACT_EVENT".
Definition TX_CATEGORY_TROVE_OPERATION : string := "TROVE_OPERATION".
Definition TX_CATEGORY_LIQUIDATION : string := "LIQUIDATION".
Definition ECOSYSTEM_PROTOCOL_NATIVE : string := "PROTOCOL_NATIVE".
Definition GLOBAL_STATS_ID : string := "global".

(** The parts of a [TroveUpdated] event that the handler reads. *)
Record TroveUpdatedEvent := {
  tu_hash : Bytes; tu_logIndex : BigInt; tu_blockNumber : BigInt; tu_blockTimestamp : BigInt;
  tu_gasUsed : option BigInt; tu_gasPrice : option BigInt;
  tu_borrower : Bytes; tu_debt : BigInt; tu_coll : BigInt; tu_stake : BigInt
}.

(** The parts of a [TroveLiquidated] event that the handler reads. *)
Record TroveLiquidatedEvent := {
  tl_hash : Bytes; tl_logIndex : BigInt; tl_blockNumber : BigInt; tl_blockTimestamp : BigInt;
  tl_gasUsed : option BigInt; tl_gasPrice : option BigInt;
  tl_borrower : Bytes; tl_debt : BigInt
}.

(** The parts of a [Liquidation] event that the handler reads. *)
Record LiquidationEvent := {
  lq_hash : Bytes; lq_logIndex : BigInt; lq_blockNumber : BigInt; lq_blockTimestamp : BigInt;
  lq_liquidatedDebt : BigInt; lq_liquidatedColl : BigInt;
  lq_collGasCompensation : BigInt; lq_LUSDGasCompensation : BigInt
}.

(** [s || d] on a string: the empty string is falsy. *)
Definition orString (x d : string) : string := if String.eqb x "" then d else x.

(** [calculateTroveHealthScore]. *)
Definition calculateTroveHealthScore (collateralRatio : BigDecimal) : BigDecimal :=
  if bd_lt collateralRatio (bd 110 1) then ZERO_BD
  else if bd_lt collateralRatio (bd 125 1) then bd 25 1
  else if bd_lt collateralRatio (bd 150 1) then bd 50 1
  else if bd_lt collateralRatio (bd 200 1) then bd 75 1
  else bd 100 1.

(** [classifyTroveRiskLevel]. *)
Definition classifyTroveRiskLevel (collateralRatio : BigDecimal) : string :=
  if bd_gt collateralRatio (bd 200 1) then "VERY_LOW"
  else if bd_gt collateralRatio (bd 150 1) then "LOW"
  else if bd_gt collateralRatio (bd 125 1) then "MEDIUM"
  else if bd_gt collateralRatio (bd 110 1) then "HIGH"
  else if bd_gt collateralRatio (bd 105 1) then "VERY_HIGH"
  else "CRITICAL".

(** The accumulation loop shared by the two scoring functions: the running
    pair (weighted total, total weight) over [scores[i]], [weights[i]]. *)
Fixpoint weightedTotals (scores weights : list BigDecimal)
    (totalWeightedScore totalWeight : BigDecimal) : BigDecimal * BigDecimal :=
  match scores, weights with
  | score :: scores, weight :: weights =>
      weightedTotals scores weights
        (totalWeightedScore + score * weight)%Qc (totalWeight + weight)%Qc
  | _, _ => (totalWeightedScore, totalWeight)
  end.

(** The stability sub-score of [calculateTrovePerformanceScore]. *)
Definition stabilityScoreOf (lowestCollateralRatio : BigDecimal) : option BigDecimal :=
  stabilityScore ←
    (if bd_gt lowestCollateralRatio (bd 150 1) then Some (bd 100 1)
     else bd_div lowestCollateralRatio (bd 15 10));
  Some (Helpers.clamp stabilityScore ZERO_BD (bd 100 1)).

(** The risk-event sub-score of [calculateTrovePerformanceScore]. *)
Definition riskScoreOf (riskEvents : BigInt) : BigDecimal :=
  let riskPenalty := (toBigDecimal riskEvents * bd 10 1)%Qc in
  Helpers.clamp (bd 100 1 - riskPenalty)%Qc ZERO_BD (bd 100 1).

(** The age sub-score of [calculateTrovePerformanceScore]. *)
Definition ageBonusOf (daysOpen : BigInt) : option BigDecimal :=
  quotient ← bd_div (toBigDecimal daysOpen) (bd 30 1);
  Some (Helpers.clamp quotient ZERO_BD (bd 100 1)).

(** [calculateTrovePerformanceScore]. *)
Definition calculateTrovePerformanceScore (trove : Trove.t) : option BigDecimal :=
  let scores : list BigDecimal := [] in
  let weights : list BigDecimal := [] in
  let scores := scores ++ [Trove.healthScore trove] in
  let weights := weights ++ [bd 4 10] in
  stabilityScore ← stabilityScoreOf (Trove.lowestCollateralRatio trove);
  let scores := scores ++ [stabilityScore] in
  let weights := weights ++ [bd 3 10] in
  let riskScore := riskScoreOf (Trove.riskEvents trove) in
  let scores := scores ++ [riskScore] in
  let weights := weights ++ [bd 2 10] in
  ageBonus ← ageBonusOf (Trove.daysOpen trove);
  let scores := scores ++ [ageBonus] in
  let weights := weights ++ [bd 1 10] in
  let '(totalWeightedScore, totalWeight) := weightedTotals scores weights ZERO_BD ZERO_BD in
  if bd_gt totalWeight ZERO_BD then bd_div totalWeightedScore totalWeight
  else Some (bd 50 1).

(** [calculateLiquidationRiskScore]. *)
Definition calculateLiquidationRiskScore (trove : Trove.t) : option BigDecimal :=
  let riskFactors : list BigDecimal := [] in
  crRisk ← bd_div (bd 110 1) (Trove.collateralRatio trove + bd 1 1)%Qc;
  let riskFactors :=
    riskFactors ++ [Helpers.clamp (crRisk * bd 100 1)%Qc ZERO_BD (bd 100 1)] in
  let eventRisk := (toBigDecimal (Trove.riskEvents trove) * bd 15 1)%Qc in
  let riskFactors := riskFactors ++ [Helpers.clamp eventRisk ZERO_BD (bd 100 1)] in
  volatilityRisk ←
    (if Trove.operationCount trove >? ZERO_BI then
       frequency ←
         bd_div (toBigDecimal (Trove.operationCount trove))
                (toBigDecimal (Trove.daysOpen trove + 1));
       Some (frequency * bd 10 1)%Qc
     else Some ZERO_BD);
  let riskFactors := riskFactors ++ [Helpers.clamp volatilityRisk ZERO_BD (bd 100 1)] in
  let totalRisk := fold_left Qcplus riskFactors ZERO_BD in
  if 0 <? Z.of_nat (length riskFactors) then
    bd_div totalRisk (toBigDecimal (Z.of_nat (length riskFactors)))
  else Some (bd 50 1).

(** [generateOptimizationSuggestions]. *)
Definition generateOptimizationSuggestions (trove : Trove.t) : list string :=
  let suggestions : list string := [] in
  let suggestions :=
    if bd_lt (Trove.collateralRatio trove) (bd 150 1) then
      suggestions ++ ["Consider adding more collateral to improve safety margin"]
    else suggestions in
  let suggestions :=
    if bd_gt (Trove.collateralRatio trove) (bd 300 1) then
      suggestions ++
        ["Consider optimizing capital efficiency by borrowing more or withdrawing collateral"]
    else suggestions in
  let suggestions :=
    if Trove.riskEvents trove >? 2 then
      suggestions ++
        ["Consider maintaining higher collateral ratios to avoid future risk events"]
    else suggestions in
  let suggestions :=
    if (Trove.operationCount trove >? 20) && (Trove.daysOpen trove <? 30) then
      suggestions ++
        ["High operation frequency detected - consider longer-term position management"]
    else suggestions in
  suggestions.

(** [updateTroveAnalytics] is written block by block: each of the next six
    definitions is one run of consecutive statements of its body, in the
    order of the source. *)

(** Collateral ratio, lowest ratio, health score and risk level. *)
Definition analyticsRatio (collateralRatio : BigDecimal) (trove : Trove.t) : Trove.t :=
  let trove := Trove.set_collateralRatio collateralRatio trove in
  let trove :=
    if bd_lt (Trove.collateralRatio trove) (Trove.lowestCollateralRatio trove) then
      Trove.set_lowestCollateralRatio (Trove.collateralRatio trove) trove
    else trove in
  let trove :=
    Trove.set_healthScore
      (calculateTroveHealthScore (Trove.collateralRatio trove)) trove in
  Trove.set_riskLevel (classifyTroveRiskLevel (Trove.collateralRatio trove)) trove.

(** Liquidation price. *)
Definition analyticsLiquidationPrice (collateral debt : BigInt) (trove : Trove.t)
    : option Trove.t :=
  if debt >? ZERO_BI then
    let minCR := bd 11 10 in
    liquidationPrice ← bd_div (toBigDecimal debt * minCR)%Qc (toBigDecimal collateral);
    Some (Trove.set_liquidationPrice liquidationPrice trove)
  else Some (Trove.set_liquidationPrice ZERO_BD trove).

(** Safety margin, and the risk event of a ratio at or under 110. *)
Definition analyticsSafetyMargin (trove : Trove.t) : Trove.t :=
  let liquidationCR := bd 110 1 in
  if bd_gt (Trove.collateralRatio trove) liquidationCR then
    Trove.set_safetyMargin (Trove.collateralRatio trove - liquidationCR)%Qc trove
  else
    let trove := Trove.set_safetyMargin ZERO_BD trove in
    Trove.set_riskEvents (Trove.riskEvents trove + 1) trove.

(** Lifetime totals and the operation count. *)
Definition analyticsLifetime
    (collateral debt previousCollateral previousDebt : BigInt) (trove : Trove.t) : Trove.t :=
  let collateralChange := collateral - previousCollateral in
  let debtChange := debt - previousDebt in
  let trove :=
    if collateralChange >? ZERO_BI then
      Trove.set_totalCollateralAdded (Trove.totalCollateralAdded trove + collateralChange) trove
    else if collateralChange <? ZERO_BI then
      Trove.set_totalCollateralWithdrawn
        (Trove.totalCollateralWithdrawn trove + - collateralChange) trove
    else trove in
  let trove :=
    if debtChange >? ZERO_BI then
      Trove.set_totalBorrowed (Trove.totalBorrowed trove + debtChange) trove
    else if debtChange <? ZERO_BI then
      Trove.set_totalRepaid (Trove.totalRepaid trove + - debtChange) trove
    else trove in
  Trove.set_operationCount (Trove.operationCount trove + 1) trove.

(** Running average of the collateral ratio. *)
Definition analyticsAverage (trove : Trove.t) : option Trove.t :=
  if Trove.operationCount trove >? ZERO_BI then
    weight ← bd_div ONE_BD (toBigDecimal (Trove.operationCount trove));
    Some (Trove.set_averageCollateralRatio
            (Trove.averageCollateralRatio trove * (ONE_BD - weight)
             + Trove.collateralRatio trove * weight)%Qc trove)
  else Some trove.

(** Performance score, liquidation-risk score and suggestions. *)
Definition analyticsScores (trove : Trove.t) : option Trove.t :=
  performanceScore ← calculateTrovePerformanceScore trove;
  let trove := Trove.set_performanceScore performanceScore trove in
  liquidationRiskScore ← calculateLiquidationRiskScore trove;
  let trove := Trove.set_liquidationRiskScore liquidationRiskScore trove in
  Some (Trove.set_optimizationSuggestions
          (generateOptimizationSuggestions trove) trove).

(** [updateTroveAnalytics]. *)
Definition updateTroveAnalytics
    (trove : Trove.t) (previousCollateral previousDebt timestamp : BigInt) : option Trove.t :=
  collateral ← Trove.collateral trove;
  debt ← Trove.debt trove;
  collateralRatio ← Helpers.calculateCollateralRatio collateral debt;
  let trove := analyticsRatio collateralRatio trove in
  trove ← analyticsLiquidationPrice collateral debt trove;
  let trove := analyticsSafetyMargin trove in
  let trove := analyticsLifetime collateral debt previousCollateral previousDebt trove in
  trove ← analyticsAverage trove;
  analyticsScores trove.

(** [classifyTroveOperationType]. *)
Definition classifyTroveOperationType
    (collateralChange debtChange previousCollateral previousDebt : BigInt) : string :=
  let wasOpen := previousDebt >? ZERO_BI in
  let isOpen := previousDebt + debtChange >? ZERO_BI in
  if negb wasOpen && isOpen then "OPEN"
  else if wasOpen && negb isOpen then "CLOSE"
  else if (collateralChange >? ZERO_BI) && (debtChange =? ZERO_BI) then "ADD_COLLATERAL"
  else if (collateralChange <? ZERO_BI) && (debtChange =? ZERO_BI) then "WITHDRAW_COLLATERAL"
  else if (collateralChange =? ZERO_BI) && (debtChange >? ZERO_BI) then "BORROW"
  else if (collateralChange =? ZERO_BI) && (debtChange <? ZERO_BI) then "REPAY"
  else "ADJUST".

(** [createTroveOperation]. *)
Definition createTroveOperation
    (event : TroveUpdatedEvent) (troveId : Bytes) (previousCollateral previousDebt : BigInt)
    (universalTx : Bytes) (s : Store.t) : option Store.t :=
  i ← toI32 (tu_logIndex event);
  let operationId := concatI32 (tu_hash event) i in
  let collateralChange := tu_coll event - previousCollateral in
  let debtChange := tu_debt event - previousDebt in
  let operation :=
    {| TroveOperation.timestamp := tu_blockTimestamp event;
       TroveOperation.trove := troveId;
       TroveOperation.collateralChange := collateralChange;
       TroveOperation.debtChange := debtChange;
       TroveOperation.collateralBefore := previousCollateral;
       TroveOperation.collateralAfter := tu_coll event;
       TroveOperation.debtBefore := previousDebt;
       TroveOperation.debtAfter := tu_debt event;
       TroveOperation.blockNumber := tu_blockNumber event;
       TroveOperation.transactionHash := tu_hash event;
       TroveOperation.operation :=
         classifyTroveOperationType collateralChange debtChange
           previousCollateral previousDebt |} in
  Some (Store.set_troveOperations (<[operationId := operation]> (Store.troveOperations s)) s).

(** [updateProtocolStatsForTrove].  The source assigns
    [event.block.number] to [lastUpdateBlock] although no [event] is among
    the parameters; the block number is passed in here. *)
Definition updateProtocolStatsForTrove
    (trove : Trove.t) (previousStatus : string) (previousDebt previousCollateral : BigInt)
    (isNewTrove : bool) (timestamp blockNumber : BigInt) (s : Store.t) : option Store.t :=
  match Store.protocolStats s !! GLOBAL_STATS_ID with
  | None => Some s
  | Some stats =>
      let stats :=
        if isNewTrove then
          ProtocolStats.set_totalTroveCount (ProtocolStats.totalTroveCount stats + 1) stats
        else stats in
      status ← Trove.status trove;
      let stats :=
        if negb (String.eqb previousStatus status) then
          if String.eqb status "ACTIVE" && negb (String.eqb previousStatus "ACTIVE") then
            ProtocolStats.set_activeTroveCount (ProtocolStats.activeTroveCount stats + 1) stats
          else if String.eqb previousStatus "ACTIVE" && negb (String.eqb status "ACTIVE") then
            ProtocolStats.set_activeTroveCount (ProtocolStats.activeTroveCount stats - 1) stats
          else stats
        else stats in
      debt ← Trove.debt trove;
      collateral ← Trove.collateral trove;
      let debtChange := debt - previousDebt in
      let collateralChange := collateral - previousCollateral in
      let stats := ProtocolStats.set_totalDebt (ProtocolStats.totalDebt stats + debtChange) stats in
      let stats :=
        ProtocolStats.set_totalCollateral
          (ProtocolStats.totalCollateral stats + collateralChange) stats in
      let stats := ProtocolStats.set_lastUpdateBlock blockNumber stats in
      let stats := ProtocolStats.set_lastUpdateTimestamp timestamp stats in
      Some (Store.set_protocolStats (<[GLOBAL_STATS_ID := stats]> (Store.protocolStats s)) s)
  end.

(** [updateProtocolStatsForLiquidation]. *)
Definition updateProtocolStatsForLiquidation
    (liquidatedDebt liquidatedCollateral timestamp : BigInt) (s : Store.t) : Store.t :=
  match Store.protocolStats s !! GLOBAL_STATS_ID with
  | None => s
  | Some stats =>
      let stats :=
        ProtocolStats.set_lifetimeLiquidationCount
          (ProtocolStats.lifetimeLiquidationCount stats + 1) stats in
      let stats :=
        ProtocolStats.set_totalDebt (ProtocolStats.totalDebt stats - liquidatedDebt) stats in
      let stats :=
        ProtocolStats.set_totalCollateral
          (ProtocolStats.totalCollateral stats - liquidatedCollateral) stats in
      let stats := ProtocolStats.set_lastUpdateTimestamp timestamp stats in
      Store.set_protocolStats (<[GLOBAL_STATS_ID := stats]> (Store.protocolStats s)) s
  end.

(** The row built under [if (trove == null)] in [handleTroveUpdated].  The
    fields assigned there are as in the source; [collateral], [debt] and
    [status] are unset; every other field is assigned later in the handler
    before it is read or saved and holds the zero of its type until then. *)
Definition newTrove (event : TroveUpdatedEvent) : Trove.t :=
  {| Trove.owner := tu_borrower event;
     Trove.openedAtBlock := tu_blockNumber event;
     Trove.openedAtTimestamp := tu_blockTimestamp event;
     Trove.totalBorrowed := ZERO_BI; Trove.totalRepaid := ZERO_BI;
     Trove.totalCollateralAdded := ZERO_BI; Trove.totalCollateralWithdrawn := ZERO_BI;
     Trove.borrowingFeesPaid := ZERO_BI; Trove.operationCount := ZERO_BI;
     Trove.averageCollateralRatio := ZERO_BD;
     Trove.lowestCollateralRatio := bd 99999 1;
     Trove.riskEvents := ZERO_BI;
     Trove.performanceScore := bd 100 1;
     Trove.collateral := None; Trove.debt := None; Trove.status := None;
     Trove.stake := 0; Trove.lastUpdateBlock := 0; Trove.lastUpdateTimestamp := 0;
     Trove.daysOpen := 0; Trove.closedAtBlock := None; Trove.closedAtTimestamp := None;
     Trove.collateralRatio := ZERO_BD; Trove.healthScore := ZERO_BD;
     Trove.riskLevel := ""; Trove.liquidationPrice := ZERO_BD;
     Trove.safetyMargin := ZERO_BD; Trove.liquidationRiskScore := ZERO_BD;
     Trove.optimizationSuggestions := [] |}.

Definition saveTrove (borrower : Bytes) (trove : Trove.t) (s : Store.t) : Store.t :=
  Store.set_troves (<[borrower := trove]> (Store.troves s)) s.

(** [handleTroveUpdated].  The three reads [trove.collateral || ZERO_BI],
    [trove.debt || ZERO_BI] and [trove.status || "ACTIVE"] go through the
    getters of required fields, which abort on a field that was never
    assigned; on a stored row they return the field ([||] keeps a BigInt,
    and replaces only the empty string). *)
Definition handleTroveUpdated (event : TroveUpdatedEvent) (s : Store.t) : option Store.t :=
  '(universalTx, s) ←
    UniversalTransaction.createUniversalTransaction
      (tu_hash event) (tu_blockNumber event) (tu_blockTimestamp event)
      (tu_borrower event) (tu_borrower event) (tu_debt event)
      TX_SOURCE_CONTRACT_EVENT TX_CATEGORY_TROVE_OPERATION ECOSYSTEM_PROTOCOL_NATIVE
      (Some (tu_logIndex event)) (tu_gasUsed event) (tu_gasPrice event) true None s;
  let '(account, s) := UniversalTransaction.ensureAccount (tu_borrower event) s in
  let loaded := Store.troves s !! tu_borrower event in
  let isNewTrove := match loaded with None => true | Some _ => false end in
  let trove := match loaded with None => newTrove event | Some trove => trove end in
  previousCollateral ← Trove.collateral trove;
  previousDebt ← Trove.debt trove;
  previousStatus ← Trove.status trove;
  let previousStatus := orString previousStatus "ACTIVE" in
  let trove := Trove.set_collateral (Some (tu_coll event)) trove in
  let trove := Trove.set_debt (Some (tu_debt event)) trove in
  let trove := Trove.set_stake (tu_stake event) trove in
  let trove := Trove.set_lastUpdateBlock (tu_blockNumber event) trove in
  let trove := Trove.set_lastUpdateTimestamp (tu_blockTimestamp event) trove in
  daysOpen ← bi_div (tu_blockTimestamp event - Trove.openedAtTimestamp trove) 86400;
  let trove := Trove.set_daysOpen daysOpen trove in
  let trove :=
    if tu_debt event =? ZERO_BI then
      let trove := Trove.set_status (Some "CLOSED_BY_OWNER") trove in
      let trove := Trove.set_closedAtBlock (Some (tu_blockNumber event)) trove in
      Trove.set_closedAtTimestamp (Some (tu_blockTimestamp event)) trove
    else Trove.set_status (Some "ACTIVE") trove in
  trove ← updateTroveAnalytics trove previousCollateral previousDebt (tu_blockTimestamp event);
  s ← createTroveOperation event (tu_borrower event) previousCollateral previousDebt
        universalTx s;
  let s := saveTrove (tu_borrower event) trove s in
  updateProtocolStatsForTrove trove previousStatus previousDebt previousCollateral
    isNewTrove (tu_blockTimestamp event) (tu_blockNumber event) s.

(** [handleTroveLiquidated].  The three reads of the stored row before it
    is changed abort on a field that was never assigned. *)
Definition handleTroveLiquidated (event : TroveLiquidatedEvent) (s : Store.t)
    : option Store.t :=
  '(universalTx, s) ←
    UniversalTransaction.createUniversalTransaction
      (tl_hash event) (tl_blockNumber event) (tl_blockTimestamp event)
      (tl_borrower event) (tl_borrower event) (tl_debt event)
      TX_SOURCE_CONTRACT_EVENT TX_CATEGORY_LIQUIDATION ECOSYSTEM_PROTOCOL_NATIVE
      (Some (tl_logIndex event)) (tl_gasUsed event) (tl_gasPrice event) true None s;
  match Store.troves s !! tl_borrower event with
  | Some trove =>
      previousStatus ← Trove.status trove;
      previousDebt ← Trove.debt trove;
      previousCollateral ← Trove.collateral trove;
      let trove := Trove.set_status (Some "CLOSED_BY_LIQUIDATION") trove in
      let trove := Trove.set_closedAtBlock (Some (tl_blockNumber event)) trove in
      let trove := Trove.set_closedAtTimestamp (Some (tl_blockTimestamp event)) trove in
      let trove := Trove.set_riskEvents (Trove.riskEvents trove + 1) trove in
      let trove :=
        Trove.set_performanceScore (Trove.performanceScore trove * bd 5 10)%Qc trove in
      let trove :=
        Trove.set_performanceScore
          (Helpers.clamp (Trove.performanceScore trove) ZERO_BD (bd 100 1)) trove in
      let s := saveTrove (tl_borrower event) trove s in
      updateProtocolStatsForTrove trove previousStatus previousDebt previousCollateral
        false (tl_blockTimestamp event) (tl_blockNumber event) s
  | None => Some s
  end.

(** [handleLiquidation]. *)
Definition handleLiquidation (event : LiquidationEvent) (s : Store.t) : option Store.t :=
  i ← toI32 (lq_logIndex event);
  let liquidationId := concatI32 (lq_hash event) i in
  let liquidation :=
    {| Liquidation.timestamp := lq_blockTimestamp event;
       Liquidation.collateralLiquidated := lq_liquidatedColl event;
       Liquidation.debtLiquidated := lq_liquidatedDebt event;
       Liquidation.collateralGasCompensation := lq_collGasCompensation event;
       Liquidation.debtGasCompensation := lq_LUSDGasCompensation event;
       Liquidation.blockNumber := lq_blockNumber event;
       Liquidation.transactionHash := lq_hash event |} in
  liquidationRatio ←
    Helpers.calculateCollateralRatio (lq_liquidatedColl event) (lq_liquidatedDebt event);
  let s := Store.set_liquidations (<[liquidationId := liquidation]> (Store.liquidations s)) s in
  Some (updateProtocolStatsForLiquidation
          (lq_liquidatedDebt event) (lq_liquidatedColl event) (lq_blockTimestamp event) s).

End TroveManager.

(** ** The price-feed handler (enhanced price feed, [updateMarketConditions]) *)

Module PriceFeed.

(** The row built under [if (marketCondition == null)]; [closePrice] and
    [lastUpdateTimestamp] are assigned right after on both paths. *)
Definition newMarketCondition (dayId : Z) (currentPrice : BigDecimal) (timestamp : BigInt)
    : MarketCondition.t :=
  {| MarketCondition.date := dayId;
     MarketCondition.timestamp := timestamp;
     MarketCondition.openPrice := currentPrice;
     MarketCondition.highPrice := currentPrice;
     MarketCondition.lowPrice := currentPrice;
     MarketCondition.closePrice := ZERO_BD;
     MarketCondition.priceUpdatesCount := 1;
     MarketCondition.volatilityScore := ZERO_BD;
     MarketCondition.trendDirection := "NEUTRAL";
     MarketCondition.lastUpdateTimestamp := 0 |}.

(** [updateMarketConditions]; the day id is the decimal string of
    [timestamp / 86400], represented by that quotient. *)
Definition updateMarketConditions (currentPrice : BigDecimal) (timestamp : BigInt)
    (s : Store.t) : option Store.t :=
  dayId ← bi_div timestamp 86400;
  let marketCondition :=
    match Store.marketConditions s !! dayId with
    | None => newMarketCondition dayId currentPrice timestamp
    | Some marketCondition =>
        let marketCondition :=
          if bd_gt currentPrice (MarketCondition.highPrice marketCondition) then
            MarketCondition.set_highPrice currentPrice marketCondition
          else marketCondition in
        let marketCondition :=
          if bd_lt currentPrice (MarketCondition.lowPrice marketCondition) then
            MarketCondition.set_lowPrice currentPrice marketCondition
          else marketCondition in
        MarketCondition.set_priceUpdatesCount
          (MarketCondition.priceUpdatesCount marketCondition + 1) marketCondition
    end in
  let marketCondition := MarketCondition.set_closePrice currentPrice marketCondition in
  let marketCondition := MarketCondition.set_lastUpdateTimestamp timestamp marketCondition in
  marketCondition ←
    (if bd_gt (MarketCondition.openPrice marketCondition) ZERO_BD then
       let dailyRange :=
         (MarketCondition.highPrice marketCondition
          - MarketCondition.lowPrice marketCondition)%Qc in
       volatility ← bd_div dailyRange (MarketCondition.openPrice marketCondition);
       let marketCondition :=
         MarketCondition.set_volatilityScore (volatility * bd 100 1)%Qc marketCondition in
       let priceChange :=
         (MarketCondition.closePrice marketCondition
          - MarketCondition.openPrice marketCondition)%Qc in
       change ← bd_div priceChange (MarketCondition.openPrice marketCondition);
       let changePercent := (change * bd 100 1)%Qc in
       Some
         (if bd_gt changePercent (bd 2 1) then
            MarketCondition.set_trendDirection "BULLISH" marketCondition
          else if bd_lt changePercent (bd (-2) 1) then
            MarketCondition.set_trendDirection "BEARISH" marketCondition
          else MarketCondition.set_trendDirection "NEUTRAL" marketCondition)
     else Some marketCondition);
  Some (Store.set_marketConditions
          (<[dayId := marketCondition]> (Store.marketConditions s)) s).

(** A run of price updates, oldest first: each is one call of
    [updateMarketConditions] with the event's price and block timestamp; an
    abort stops the run. *)
Fixpoint updateMarketConditionsAll (updates : list (BigDecimal * BigInt)) (s : Store.t)
    : option Store.t :=
  match updates with
  | [] => Some s
  | (currentPrice, timestamp) :: updates =>
      s ← updateMarketConditions currentPrice timestamp s;
      updateMarketConditionsAll updates s
  end.

End PriceFeed.

(** The store with no rows. *)
Definition emptyStore : Store.t :=
  {| Store.accounts := ∅; Store.transactions := ∅; Store.ecosystemStats := ∅;
     Store.dailyEcosystemStats := ∅; Store.protocolStats := ∅; Store.troves := ∅;
     Store.troveOperations := ∅; Store.liquidations := ∅; Store.marketConditions := ∅ |}.

(** * Vocabulary of the statements

    Definitions used to state the properties: event descriptors, derived
    quantities read off the store, the claims as worded, and the sample
    inputs. *)

(** The relative error allowed for a quotient: the host rounds the two
    operands and the quotient to 34 significant digits, which moves the
    result by less than one part in 10^32. *)
Definition quotientTolerance : BigDecimal :=
  bd 1 100000000000000000000000000000000.

(** [near x y]: [x] is [y] to within [quotientTolerance] of [y]. *)
Definition near (x y : BigDecimal) : Prop :=
  (Qcabs (x - y) <= Qcabs y * quotientTolerance)%Qc.

(** The rule chain as the claim words it: DEX ratio, then bridge activity,
    then DeFi activity, then protocol ratio, then total activity, and the
    default RETAIL_USER. *)
Definition userType_claim (account : Account.t) (dexRatio protocolRatio : BigDecimal)
    : string :=
  if bd_gt dexRatio (bd 6 10) then "DEX_TRADER"
  else if Account.bridgeActivityCount account >? 5 then "BRIDGE_USER"
  else if Account.defiIntegrationCount account >? 10 then "DEFI_USER"
  else if bd_gt protocolRatio (bd 8 10) then "PROTOCOL_NATIVE"
  else if Account.totalTransactionCount account >? 100 then "POWER_USER"
  else "RETAIL_USER".

(** An account with 100 transactions: 90 protocol operations, 6 bridge
    operations and 4 peer-to-peer transfers. *)
Definition protocolAndBridgeAccount : Account.t :=
  Account.set_p2pTransferCount 4
    (Account.set_bridgeActivityCount 6
       (Account.set_protocolOperationCount 90
          (Account.set_totalTransactionCount 100 UniversalTransaction.newAccount))).

(** The age bonus as the claim words it: [min(100, daysOpen / 30 * 100)]. *)
Definition ageBonus_claim (daysOpen : BigInt) : BigDecimal :=
  let scaled := (toBigDecimal daysOpen / bd 30 1 * bd 100 1)%Qc in
  if bd_lt (bd 100 1) scaled then bd 100 1 else scaled.

(** The weighted average of four sub-scores with the weights 0.4, 0.3, 0.2
    and 0.1, divided by the total weight. *)
Definition weightedScore (health stability risk age : BigDecimal) : BigDecimal :=
  ((bd 0 1 + health * bd 4 10 + stability * bd 3 10 + risk * bd 2 10 + age * bd 1 10)
   / (bd 0 1 + bd 4 10 + bd 3 10 + bd 2 10 + bd 1 10))%Qc.

(** A trove with health score 100, lowest collateral ratio 200, no risk
    event, open for 30 days. *)
Definition thirtyDayTrove : Trove.t :=
  {| Trove.owner := replicate 20 17;
     Trove.openedAtBlock := 1; Trove.openedAtTimestamp := 0;
     Trove.totalBorrowed := 500; Trove.totalRepaid := 0;
     Trove.totalCollateralAdded := 1000; Trove.totalCollateralWithdrawn := 0;
     Trove.borrowingFeesPaid := 0; Trove.operationCount := 1;
     Trove.averageCollateralRatio := bd 200 1;
     Trove.lowestCollateralRatio := bd 200 1;
     Trove.riskEvents := 0;
     Trove.performanceScore := bd 100 1;
     Trove.collateral := Some 1000; Trove.debt := Some 500;
     Trove.status := Some "ACTIVE";
     Trove.stake := 0; Trove.lastUpdateBlock := 100; Trove.lastUpdateTimestamp := 2592000;
     Trove.daysOpen := 30; Trove.closedAtBlock := None; Trove.closedAtTimestamp := None;
     Trove.collateralRatio := bd 200 1; Trove.healthScore := bd 100 1;
     Trove.riskLevel := "LOW"; Trove.liquidationPrice := bd 55 100;
     Trove.safetyMargin := bd 90 1; Trove.liquidationRiskScore := bd 0 1;
     Trove.optimizationSuggestions := [] |}.

(** The balance recorded for an address; an address without a row has
    balance zero (the balance its row is created with). *)
Definition balanceOf (s : Store.t) (address : Bytes) : BigInt :=
  match Store.accounts s !! address with
  | Some account => Account.usdfcBalance account
  | None => 0
  end.

(** The sum of the balances of all account rows. *)
Definition totalBalance (s : Store.t) : BigInt :=
  map_fold (fun _ account total => Account.usdfcBalance account + total) 0
    (Store.accounts s).

(** One half of [updateAccountBalances]: load or create the row, replace
    its balance by [g] of it, save. *)
Definition adjustBalance (g : BigInt -> BigInt) (address : Bytes) (s : Store.t) : Store.t :=
  let '(account, s) := TokenFinal.ensureAccount address s in
  TokenFinal.saveAccount address
    (Account.set_usdfcBalance (g (Account.usdfcBalance account)) account) s.

(** The calendar day of a timestamp, as [updateMarketConditions] derives
    it. *)
Definition dayOf (timestamp : BigInt) : Z := Z.quot timestamp 86400.

(** The prices of the updates that fall on day [day], oldest first. *)
Fixpoint pricesOn (day : Z) (updates : list (BigDecimal * BigInt)) : list BigDecimal :=
  match updates with
  | [] => []
  | (price, timestamp) :: updates =>
      if decide (dayOf timestamp = day) then price :: pricesOn day updates
      else pricesOn day updates
  end.

(** What the row of a day records about the prices [seen] on that day. *)
Definition summarises (seen : list BigDecimal) (row : MarketCondition.t) : Prop :=
  head seen = Some (MarketCondition.openPrice row) /\
  MarketCondition.highPrice row ∈ seen /\
  (forall p, p ∈ seen -> (p <= MarketCondition.highPrice row)%Qc) /\
  MarketCondition.lowPrice row ∈ seen /\
  (forall p, p ∈ seen -> (MarketCondition.lowPrice row <= p)%Qc) /\
  (MarketCondition.lowPrice row <= MarketCondition.highPrice row)%Qc /\
  MarketCondition.priceUpdatesCount row = Z.of_nat (length seen).

(** The state of day [day] in the store after the prices [seen]: no row
    before the first price, a row that summarises them after. *)
Definition dayState (day : Z) (seen : list BigDecimal) (s : Store.t) : Prop :=
  match seen with
  | [] => Store.marketConditions s !! day = None
  | _ :: _ =>
      exists row, Store.marketConditions s !! day = Some row /\ summarises seen row
  end.

(** The row that [updateMarketConditions] saves, before the volatility and
    trend fields are refreshed. *)
Definition priceRow (currentPrice : BigDecimal) (timestamp : BigInt) (s : Store.t)
    : MarketCondition.t :=
  match Store.marketConditions s !! dayOf timestamp with
  | None => PriceFeed.newMarketCondition (dayOf timestamp) currentPrice timestamp
  | Some row =>
      let row :=
        if bd_gt currentPrice (MarketCondition.highPrice row) then
          MarketCondition.set_highPrice currentPrice row
        else row in
      let row :=
        if bd_lt currentPrice (MarketCondition.lowPrice row) then
          MarketCondition.set_lowPrice currentPrice row
        else row in
      MarketCondition.set_priceUpdatesCount (MarketCondition.priceUpdatesCount row + 1) row
  end.

(** The row of one side after its counters are bumped and before the
    classification is refreshed. *)
Definition bumpedAccount
    (isSender : bool) (value : BigInt) (category ecosystem : string) (timestamp : BigInt)
    (old : Account.t) : Account.t :=
  let account :=
    Account.set_totalTransactionCount (Account.totalTransactionCount old + 1) old in
  let account :=
    if isSender then Account.set_totalVolumeOut (Account.totalVolumeOut account + value) account
    else Account.set_totalVolumeIn (Account.totalVolumeIn account + value) account in
  let account :=
    Account.set_lastActiveBlock UniversalTransaction.getCurrentBlock account in
  let account := Account.set_lastActiveTimestamp timestamp account in
  UniversalTransaction.updateActivityCounters account category ecosystem value.

(** The tables that the universal-transaction hub never writes. *)
Definition positionTablesEqual (s s' : Store.t) : Prop :=
  Store.protocolStats s' = Store.protocolStats s /\
  Store.troves s' = Store.troves s /\
  Store.troveOperations s' = Store.troveOperations s /\
  Store.liquidations s' = Store.liquidations s /\
  Store.marketConditions s' = Store.marketConditions s.

(** An event descriptor: the arguments of one call of
    [createUniversalTransaction]. *)
Record EventDescriptor := {
  ed_hash : Bytes; ed_blockNumber : BigInt; ed_blockTimestamp : BigInt;
  ed_from : Bytes; ed_to : Bytes; ed_value : BigInt;
  ed_source : string; ed_category : string; ed_ecosystem : string;
  ed_logIndex : option BigInt; ed_gasUsed : option BigInt; ed_gasPrice : option BigInt;
  ed_success : bool; ed_errorMessage : option string
}.

(** Processing an event: one call of [createUniversalTransaction]. *)
Definition deliver (e : EventDescriptor) (s : Store.t) : option (Bytes * Store.t) :=
  UniversalTransaction.createUniversalTransaction
    (ed_hash e) (ed_blockNumber e) (ed_blockTimestamp e) (ed_from e) (ed_to e) (ed_value e)
    (ed_source e) (ed_category e) (ed_ecosystem e) (ed_logIndex e) (ed_gasUsed e)
    (ed_gasPrice e) (ed_success e) (ed_errorMessage e) s.

(** The aggregation that follows the ledger write in
    [createUniversalTransaction]. *)
Definition aggregate (e : EventDescriptor) (s : Store.t) : option Store.t :=
  s ← UniversalTransaction.updateAccountActivity (ed_from e) (ed_to e) (ed_value e)
        (ed_category e) (ed_ecosystem e) (ed_blockTimestamp e) s;
  UniversalTransaction.updateEcosystemStats (ed_category e) (ed_ecosystem e) (ed_value e)
    (ed_blockTimestamp e) s.

(** The ledger write of [createUniversalTransaction]: nothing when the row
    exists, else the two account rows are ensured and the row is saved. *)
Definition recordTransaction (e : EventDescriptor) (txId : Bytes) (s : Store.t) : Store.t :=
  match Store.transactions s !! txId with
  | Some _ => s
  | None =>
      let '(_, s) := UniversalTransaction.ensureAccount (ed_from e) s in
      let '(_, s) := UniversalTransaction.ensureAccount (ed_to e) s in
      Store.set_transactions
        (<[txId :=
             {| Transaction.hash := ed_hash e;
                Transaction.blockNumber := ed_blockNumber e;
                Transaction.blockTimestamp := ed_blockTimestamp e;
                Transaction.logIndex := ed_logIndex e;
                Transaction.from := ed_from e; Transaction.to := ed_to e;
                Transaction.value := ed_value e;
                Transaction.source := ed_source e;
                Transaction.category := ed_category e;
                Transaction.ecosystem := ed_ecosystem e;
                Transaction.gasUsed := ed_gasUsed e;
                Transaction.gasPrice := ed_gasPrice e;
                Transaction.success := ed_success e;
                Transaction.errorMessage := ed_errorMessage e;
                Transaction.composabilityScore := bd 0 1;
                Transaction.innovationScore := bd 0 1;
                Transaction.riskScore := bd 0 1 |}]> (Store.transactions s)) s
  end.

(** The transaction count, outgoing volume and incoming volume recorded for
    an address; zero without a row. *)
Definition transactionCountOf (s : Store.t) (address : Bytes) : BigInt :=
  match Store.accounts s !! address with
  | Some account => Account.totalTransactionCount account
  | None => 0
  end.
Definition volumeOutOf (s : Store.t) (address : Bytes) : BigInt :=
  match Store.accounts s !! address with
  | Some account => Account.totalVolumeOut account
  | None => 0
  end.
Definition volumeInOf (s : Store.t) (address : Bytes) : BigInt :=
  match Store.accounts s !! address with
  | Some account => Account.totalVolumeIn account
  | None => 0
  end.

(** The claim as worded: a second delivery of the same event leaves the
    account rows and both ecosystem rollups as the first delivery left
    them. *)
Definition redelivery_claim : Prop :=
  forall (e : EventDescriptor) (s s1 s2 : Store.t) (id1 id2 : Bytes),
    deliver e s = Some (id1, s1) -> deliver e s1 = Some (id2, s2) ->
    Store.accounts s2 = Store.accounts s1 /\
    Store.ecosystemStats s2 = Store.ecosystemStats s1 /\
    Store.dailyEcosystemStats s2 = Store.dailyEcosystemStats s1.

(** A peer-to-peer transfer of 5 from 0x11...11 to 0x22...22, log index 0
    of the transaction 0xab...ab, at second 1000. *)
Definition sampleTransfer : EventDescriptor :=
  {| ed_hash := replicate 32 171; ed_blockNumber := 7; ed_blockTimestamp := 1000;
     ed_from := replicate 20 17; ed_to := replicate 20 34; ed_value := 5;
     ed_source := "CONTRACT_EVENT"; ed_category := "P2P_TRANSFER";
     ed_ecosystem := "P2P_ECOSYSTEM";
     ed_logIndex := Some 0; ed_gasUsed := None; ed_gasPrice := None;
     ed_success := true; ed_errorMessage := None |}.

(** The fields of a trove row that identify the position and its state. *)
Definition positionOf (trove : Trove.t)
    : Bytes * BigInt * BigInt * option BigInt * option BigInt * option string * BigInt :=
  (Trove.owner trove, Trove.openedAtBlock trove, Trove.openedAtTimestamp trove,
   Trove.collateral trove, Trove.debt trove, Trove.status trove, Trove.daysOpen trove).

(** The call of [createUniversalTransaction] made by [handleTroveUpdated]. *)
Definition troveUpdatedDescriptor (event : TroveManager.TroveUpdatedEvent) : EventDescriptor :=
  {| ed_hash := TroveManager.tu_hash event;
     ed_blockNumber := TroveManager.tu_blockNumber event;
     ed_blockTimestamp := TroveManager.tu_blockTimestamp event;
     ed_from := TroveManager.tu_borrower event; ed_to := TroveManager.tu_borrower event;
     ed_value := TroveManager.tu_debt event;
     ed_source := TroveManager.TX_SOURCE_CONTRACT_EVENT;
     ed_category := TroveManager.TX_CATEGORY_TROVE_OPERATION;
     ed_ecosystem := TroveManager.ECOSYSTEM_PROTOCOL_NATIVE;
     ed_logIndex := Some (TroveManager.tu_logIndex event);
     ed_gasUsed := TroveManager.tu_gasUsed event;
     ed_gasPrice := TroveManager.tu_gasPrice event;
     ed_success := true; ed_errorMessage := None |}.

(** A stored row of a borrower with its three required fields assigned. *)
Definition storedTrove (s : Store.t) (borrower : Bytes) (trove : Trove.t)
    (collateral debt : BigInt) (status : string) : Prop :=
  Store.troves s !! borrower = Some trove /\
  Trove.collateral trove = Some collateral /\ Trove.debt trove = Some debt /\
  Trove.status trove = Some status.

(** The status [handleTroveUpdated] assigns: closed when the debt is zero,
    active otherwise. *)
Definition statusOfDebt (debt : BigInt) : string :=
  if debt =? 0 then "CLOSED_BY_OWNER" else "ACTIVE".

(** An event the handler can complete on for the stored row [trove]: log
    index and timestamp fit 32 bits and are not negative, collateral and
    debt are not negative, there is collateral whenever there is debt, and
    the trove was not opened after the event. *)
Definition troveEventOk (event : TroveManager.TroveUpdatedEvent) (trove : Trove.t) : Prop :=
  0 <= TroveManager.tu_logIndex event <= 2147483647 /\
  0 <= TroveManager.tu_blockTimestamp event <= 2147483647 /\
  0 <= TroveManager.tu_coll event /\ 0 <= TroveManager.tu_debt event /\
  (0 < TroveManager.tu_debt event -> TroveManager.tu_coll event <> 0) /\
  Trove.openedAtTimestamp trove <= TroveManager.tu_blockTimestamp event.

(** The effect of [updateProtocolStatsForTrove] on the counter of active
    troves: plus one when the status becomes ACTIVE, minus one when it stops
    being ACTIVE, nothing otherwise. *)
Definition activeDelta (previousStatus status : string) : Z :=
  if String.eqb status "ACTIVE" && negb (String.eqb previousStatus "ACTIVE") then 1
  else if String.eqb previousStatus "ACTIVE" && negb (String.eqb status "ACTIVE") then -1
  else 0.

(** The call of [createUniversalTransaction] made by
    [handleTroveLiquidated]. *)
Definition troveLiquidatedDescriptor (event : TroveManager.TroveLiquidatedEvent)
    : EventDescriptor :=
  {| ed_hash := TroveManager.tl_hash event;
     ed_blockNumber := TroveManager.tl_blockNumber event;
     ed_blockTimestamp := TroveManager.tl_blockTimestamp event;
     ed_from := TroveManager.tl_borrower event; ed_to := TroveManager.tl_borrower event;
     ed_value := TroveManager.tl_debt event;
     ed_source := TroveManager.TX_SOURCE_CONTRACT_EVENT;
     ed_category := TroveManager.TX_CATEGORY_LIQUIDATION;
     ed_ecosystem := TroveManager.ECOSYSTEM_PROTOCOL_NATIVE;
     ed_logIndex := Some (TroveManager.tl_logIndex event);
     ed_gasUsed := TroveManager.tl_gasUsed event;
     ed_gasPrice := TroveManager.tl_gasPrice event;
     ed_success := true; ed_errorMessage := None |}.

(** A [TroveUpdated] event of 0x11...11 with collateral 2000 and debt 500
    (log index 0 of transaction 0xab...ab, block 1, second 1000). *)
Definition openingEvent : TroveManager.TroveUpdatedEvent :=
  {| TroveManager.tu_hash := replicate 32 171; TroveManager.tu_logIndex := 0;
     TroveManager.tu_blockNumber := 1; TroveManager.tu_blockTimestamp := 1000;
     TroveManager.tu_gasUsed := None; TroveManager.tu_gasPrice := Some 1;
     TroveManager.tu_borrower := replicate 20 17;
     TroveManager.tu_debt := 500; TroveManager.tu_coll := 2000;
     TroveManager.tu_stake := 2000 |}.

(** Later events of the same borrower, with the given log index and debt. *)
Definition adjustmentEvent (logIndex debt : BigInt) : TroveManager.TroveUpdatedEvent :=
  {| TroveManager.tu_hash := replicate 32 172; TroveManager.tu_logIndex := logIndex;
     TroveManager.tu_blockNumber := 2; TroveManager.tu_blockTimestamp := 2000;
     TroveManager.tu_gasUsed := None; TroveManager.tu_gasPrice := Some 1;
     TroveManager.tu_borrower := replicate 20 17;
     TroveManager.tu_debt := debt; TroveManager.tu_coll := 2000;
     TroveManager.tu_stake := 2000 |}.

(** A stored active trove of 0x11...11 with collateral 2000 and debt 500,
    opened at second 1000. *)
Definition sampleTrove : Trove.t :=
  Trove.set_status (Some "ACTIVE")
    (Trove.set_debt (Some 500)
       (Trove.set_collateral (Some 2000) (TroveManager.newTrove openingEvent))).


(** [initializeProtocolStats] of the token handler, the only place that
    creates the statistics row: every total is zero. *)
Definition initializeProtocolStats : ProtocolStats.t :=
  {| ProtocolStats.totalSupply := ZERO_BI; ProtocolStats.totalDebt := ZERO_BI;
     ProtocolStats.totalCollateral := ZERO_BI; ProtocolStats.activeTroveCount := ZERO_BI;
     ProtocolStats.totalTroveCount := ZERO_BI; ProtocolStats.holderCount := ZERO_BI;
     ProtocolStats.lifetimeVolume := ZERO_BI; ProtocolStats.lifetimeTransferCount := ZERO_BI;
     ProtocolStats.lifetimeMintCount := ZERO_BI; ProtocolStats.lifetimeBurnCount := ZERO_BI;
     ProtocolStats.lifetimeLiquidationCount := ZERO_BI;
     ProtocolStats.lifetimeRedemptionCount := ZERO_BI;
     ProtocolStats.totalBorrowingFees := ZERO_BI; ProtocolStats.totalRedemptionFees := ZERO_BI;
     ProtocolStats.lastUpdateBlock := ZERO_BI; ProtocolStats.lastUpdateTimestamp := ZERO_BI |}.

(** The store that holds the freshly initialised statistics row and nothing
    else. *)
Definition statisticsOnlyStore : Store.t :=
  Store.set_protocolStats {[TroveManager.GLOBAL_STATS_ID := initializeProtocolStats]}
    emptyStore.

(** A run of trove updates, oldest first. *)
Fixpoint handleTroveUpdates (events : list TroveManager.TroveUpdatedEvent) (s : Store.t)
    : option Store.t :=
  match events with
  | [] => Some s
  | event :: events => s ← TroveManager.handleTroveUpdated event s; handleTroveUpdates events s
  end.

(** The ledger row that [createUniversalTransaction] writes for an event. *)
Definition ledgerRow (e : EventDescriptor) : Transaction.t :=
  {| Transaction.hash := ed_hash e;
     Transaction.blockNumber := ed_blockNumber e;
     Transaction.blockTimestamp := ed_blockTimestamp e;
     Transaction.logIndex := ed_logIndex e;
     Transaction.from := ed_from e; Transaction.to := ed_to e;
     Transaction.value := ed_value e;
     Transaction.source := ed_source e;
     Transaction.category := ed_category e;
     Transaction.ecosystem := ed_ecosystem e;
     Transaction.gasUsed := ed_gasUsed e;
     Transaction.gasPrice := ed_gasPrice e;
     Transaction.success := ed_success e;
     Transaction.errorMessage := ed_errorMessage e;
     Transaction.composabilityScore := bd 0 1;
     Transaction.innovationScore := bd 0 1;
     Transaction.riskScore := bd 0 1 |}.

(** The ranges on which the two 32-bit conversions of a delivery complete. *)
Definition convertible (e : EventDescriptor) : Prop :=
  match ed_logIndex e with
  | Some logIndex => -4294967296 <= logIndex < 4294967296
  | None => True
  end /\
  -4294967296 <= ed_blockTimestamp e < 4294967296.

(** A run of deliveries, each on the store left by the one before. *)
Fixpoint deliverAll (events : list EventDescriptor) (s : Store.t) : option Store.t :=
  match events with
  | [] => Some s
  | e :: rest => deliver e s ≫= fun r => deliverAll rest (snd r)
  end.

(** An event that [createUniversalTransaction] can process: the 32-bit
    conversions of its log index (if any) and of its timestamp complete. *)
Definition deliverable (e : EventDescriptor) : Prop :=
  is_Some (UniversalTransaction.transactionId (ed_hash e) (ed_logIndex e)) /\
  is_Some (toI32 (ed_blockTimestamp e)).

(** The daily row of a day, or the initial row when there is none. *)
Definition dailyOf (s : Store.t) (day : Z) : DailyEcosystemStats.t :=
  default (UniversalTransaction.initializeDailyStats day (day * 86400))
          (Store.dailyEcosystemStats s !! day).

(** The global row, or the initial row when there is none. *)
Definition globalOf (s : Store.t) : EcosystemStats.t :=
  default UniversalTransaction.initializeEcosystemStats
          (Store.ecosystemStats s !! "global").

Definition inEcosystem (ecosystem : string) (e : EventDescriptor) : bool :=
  String.eqb (ed_ecosystem e) ecosystem.

(** The day id that [getDayId] computes for a timestamp it can convert:
    the day of the 32-bit reading of the timestamp (the day of the timestamp
    itself when that fits 32 bits). *)
Definition dayIdOf (timestamp : BigInt) : Z := Z.quot (wrapI32 timestamp) 86400.

Definition onDay (day : Z) (ecosystem : string) (e : EventDescriptor) : bool :=
  (dayIdOf (ed_blockTimestamp e) =? day) && inEcosystem ecosystem e.

(** Number and total value of the events selected by [select]. *)
Definition countOf (select : EventDescriptor -> bool) (events : list EventDescriptor) : Z :=
  Z.of_nat (length (List.filter select events)).

Definition volumeOf (select : EventDescriptor -> bool) (events : list EventDescriptor) : Z :=
  foldr Z.add 0 (map ed_value (List.filter select events)).

Definition flag (b : bool) : Z := if b then 1 else 0.

Definition share (b : bool) (value : Z) : Z := if b then value else 0.

Definition sampleTrade : EventDescriptor :=
  {| ed_hash := [2]; ed_blockNumber := 11; ed_blockTimestamp := 86500;
     ed_from := [10]; ed_to := [30]; ed_value := 40;
     ed_source := "TOKEN_TRANSFER"; ed_category := "DEX_TRADE";
     ed_ecosystem := "DEX_ECOSYSTEM";
     ed_logIndex := Some 1; ed_gasUsed := None; ed_gasPrice := None;
     ed_success := true; ed_errorMessage := None |}.

(** The lifetime totals of a trove row and its lowest collateral ratio. *)
Definition lifetimeOf (trove : Trove.t) : BigInt * BigInt * BigInt * BigInt * BigDecimal :=
  (Trove.totalBorrowed trove, Trove.totalRepaid trove, Trove.totalCollateralAdded trove,
   Trove.totalCollateralWithdrawn trove, Trove.lowestCollateralRatio trove).

(** The store that holds the sample trove and a freshly initialised
    statistics row. *)
Definition sampleTroveStore : Store.t :=
  Store.set_troves {[replicate 20 17 := sampleTrove]} statisticsOnlyStore.

Definition sampleLiquidated : TroveManager.TroveLiquidatedEvent :=
  {| TroveManager.tl_hash := replicate 32 173; TroveManager.tl_logIndex := 4;
     TroveManager.tl_blockNumber := 3; TroveManager.tl_blockTimestamp := 3000;
     TroveManager.tl_gasUsed := None; TroveManager.tl_gasPrice := Some 1;
     TroveManager.tl_borrower := replicate 20 17; TroveManager.tl_debt := 500 |}.

Definition sampleLiquidation : TroveManager.LiquidationEvent :=
  {| TroveManager.lq_hash := replicate 32 173; TroveManager.lq_logIndex := 5;
     TroveManager.lq_blockNumber := 3; TroveManager.lq_blockTimestamp := 3000;
     TroveManager.lq_liquidatedDebt := 500; TroveManager.lq_liquidatedColl := 2000;
     TroveManager.lq_collGasCompensation := 10; TroveManager.lq_LUSDGasCompensation := 5 |}.

(** The role of an address in the transfer classification. *)
Definition isTroveManager (address : Bytes) : bool :=
  bool_decide (address = TokenFinal.troveManagerAddress).
Definition isStabilityPool (address : Bytes) : bool :=
  bool_decide (address = TokenFinal.stabilityPoolAddress).
Definition isStaking (address : Bytes) : bool :=
  bool_decide (address = TokenFinal.stakingAddress).

(** * Properties *)

(** ** Host arithmetic *)

Lemma bd_lt_spec (a b : BigDecimal) : bd_lt a b = true <-> (a < b)%Qc.
Proof. unfold bd_lt, Qclt, Qlt. apply Z.ltb_lt. Qed.

Lemma bd_lt_false (a b : BigDecimal) : bd_lt a b = false <-> (b <= a)%Qc.
Proof. unfold bd_lt, Qcle, Qle. apply Z.ltb_ge. Qed.

Lemma bd_gt_spec (a b : BigDecimal) : bd_gt a b = true <-> (b < a)%Qc.
Proof. apply bd_lt_spec. Qed.

Lemma bd_gt_false (a b : BigDecimal) : bd_gt a b = false <-> (a <= b)%Qc.
Proof. apply bd_lt_false. Qed.

Lemma bd_equals_spec (a b : BigDecimal) : bd_equals a b = true <-> a = b.
Proof.
  unfold bd_equals. rewrite Z.eqb_eq. split.
  - intros H. apply Qc_is_canon. exact H.
  - intros ->. reflexivity.
Qed.

Lemma toBigDecimal_zero (z : BigInt) : bd_equals (toBigDecimal z) ZERO_BD = (z =? 0).
Proof.
  unfold bd_equals, toBigDecimal, ZERO_BD, bd. simpl.
  rewrite Z.mul_1_r. reflexivity.
Qed.

Lemma bd_div_nonzero (a : BigDecimal) (z : BigInt) :
  z <> 0 -> bd_div a (toBigDecimal z) = Some (a / toBigDecimal z)%Qc.
Proof.
  intros Hz. unfold bd_div. rewrite toBigDecimal_zero.
  destruct (Z.eqb_spec z 0); [contradiction | reflexivity].
Qed.

(** ** C3: the collateral ratio is total *)

Lemma near_refl (x : BigDecimal) : near x x.
Proof.
  unfold near. unfold Qcminus. rewrite Qcplus_opp_r.
  apply (Qcle_trans _ (0 * quotientTolerance)%Qc).
  - apply bd_lt_false. vm_compute. reflexivity.
  - apply Qcmult_le_compat_r; [apply Qcabs_nonneg |].
    apply bd_lt_false. vm_compute. reflexivity.
Qed.

(** C3.  For every collateral [c] and debt [d], [calculateCollateralRatio]
    returns a value (it never aborts): the sentinel 99999 when [d] is zero,
    with no division performed, and otherwise [c / d * 100] to the precision
    of the host's decimals (within one part in 10^32; the embedding computes
    the quotient exactly). *)
Theorem calculateCollateralRatio_total (c d : BigInt) :
  exists ratio,
    Helpers.calculateCollateralRatio c d = Some ratio /\
    (d = 0 -> ratio = bd 99999 1) /\
    (d <> 0 -> near ratio (toBigDecimal c / toBigDecimal d * bd 100 1)%Qc).
Proof.
  unfold Helpers.calculateCollateralRatio, ZERO_BI.
  destruct (Z.eqb_spec d 0) as [Hd | Hd].
  - eexists. split; [reflexivity |]. split; [reflexivity | contradiction].
  - rewrite bd_div_nonzero by assumption. cbn [mbind option_bind].
    eexists. split; [reflexivity |]. split; [contradiction |].
    intros _. apply near_refl.
Qed.

(** The theorem at collateral 1000 with no debt, and at collateral 1 with
    debt 3. *)
Lemma calculateCollateralRatio_total_witness :
  Helpers.calculateCollateralRatio 1000 0 = Some (bd 99999 1) /\
  exists ratio,
    Helpers.calculateCollateralRatio 1 3 = Some ratio /\
    near ratio (toBigDecimal 1 / toBigDecimal 3 * bd 100 1)%Qc.
Proof.
  split.
  - destruct (calculateCollateralRatio_total 1000 0) as (ratio & Hrun & Hzero & _).
    rewrite Hrun, (Hzero eq_refl). reflexivity.
  - destruct (calculateCollateralRatio_total 1 3) as (ratio & Hrun & _ & Hvalue).
    exists ratio. split; [exact Hrun | apply Hvalue; discriminate].
Defined.

(** ** C6: amount tiers use strict less-than at every boundary *)

(** C6.  [getTransferAmountTier] places an amount in a tier exactly when it
    is at least the tier's lower threshold and strictly below its upper
    threshold; hence an amount equal to a threshold falls in the tier above
    it.  In particular 100 whole USDFC (100 * 10^18 base units) is MEDIUM and
    every amount from the MICRO threshold up to, but excluding, that boundary
    is SMALL. *)
Theorem getTransferAmountTier_strict (amount : BigInt) :
  let tier := TokenFinal.getTransferAmountTier in
  (tier amount = "DUST" <-> amount < TokenFinal.TransferAmountTiers.DUST_THRESHOLD) /\
  (tier amount = "MICRO" <->
     TokenFinal.TransferAmountTiers.DUST_THRESHOLD <= amount
     < TokenFinal.TransferAmountTiers.MICRO_THRESHOLD) /\
  (tier amount = "SMALL" <->
     TokenFinal.TransferAmountTiers.MICRO_THRESHOLD <= amount
     < TokenFinal.TransferAmountTiers.SMALL_THRESHOLD) /\
  (tier amount = "MEDIUM" <->
     TokenFinal.TransferAmountTiers.SMALL_THRESHOLD <= amount
     < TokenFinal.TransferAmountTiers.MEDIUM_THRESHOLD) /\
  (tier amount = "LARGE" <->
     TokenFinal.TransferAmountTiers.MEDIUM_THRESHOLD <= amount
     < TokenFinal.TransferAmountTiers.LARGE_THRESHOLD) /\
  (tier amount = "WHALE" <->
     TokenFinal.TransferAmountTiers.LARGE_THRESHOLD <= amount
     < TokenFinal.TransferAmountTiers.WHALE_THRESHOLD) /\
  (tier amount = "INSTITUTIONAL" <->
     TokenFinal.TransferAmountTiers.WHALE_THRESHOLD <= amount) /\
  tier TokenFinal.TransferAmountTiers.DUST_THRESHOLD = "MICRO" /\
  tier TokenFinal.TransferAmountTiers.MICRO_THRESHOLD = "SMALL" /\
  tier TokenFinal.TransferAmountTiers.SMALL_THRESHOLD = "MEDIUM" /\
  tier TokenFinal.TransferAmountTiers.MEDIUM_THRESHOLD = "LARGE" /\
  tier TokenFinal.TransferAmountTiers.LARGE_THRESHOLD = "WHALE" /\
  tier TokenFinal.TransferAmountTiers.WHALE_THRESHOLD = "INSTITUTIONAL" /\
  tier (100 * 10 ^ 18) = "MEDIUM" /\
  (TokenFinal.TransferAmountTiers.MICRO_THRESHOLD <= amount < 100 * 10 ^ 18 ->
   tier amount = "SMALL").
Proof.
  cbv zeta.
  unfold TokenFinal.getTransferAmountTier,
    TokenFinal.TransferAmountTiers.DUST_THRESHOLD,
    TokenFinal.TransferAmountTiers.MICRO_THRESHOLD,
    TokenFinal.TransferAmountTiers.SMALL_THRESHOLD,
    TokenFinal.TransferAmountTiers.MEDIUM_THRESHOLD,
    TokenFinal.TransferAmountTiers.LARGE_THRESHOLD,
    TokenFinal.TransferAmountTiers.WHALE_THRESHOLD.
  change (100 * 10 ^ 18) with 100000000000000000000.
  repeat match goal with |- _ /\ _ => split end;
    try reflexivity;
    repeat
      match goal with
      | |- context [amount <? ?b] => destruct (Z.ltb_spec amount b)
      end;
    try split; intros; try discriminate; try lia; try reflexivity.
Qed.

(** The theorem at 5 whole USDFC, an amount between the MICRO threshold
    and the SMALL/MEDIUM boundary. *)
Lemma getTransferAmountTier_strict_witness :
  TokenFinal.getTransferAmountTier 5000000000000000000 = "SMALL".
Proof.
  apply (getTransferAmountTier_strict 5000000000000000000).
  unfold TokenFinal.TransferAmountTiers.MICRO_THRESHOLD. lia.
Defined.

(** ** C7: direction of a stability-pool transfer *)

Lemma protocolAddresses_troveManager :
  TokenFinal.getProtocolAddresses !! TokenFinal.troveManagerAddress = Some "TROVE_MANAGER".
Proof. reflexivity. Qed.

Lemma protocolAddresses_stabilityPool :
  TokenFinal.getProtocolAddresses !! TokenFinal.stabilityPoolAddress = Some "STABILITY_POOL".
Proof. reflexivity. Qed.

Lemma protocolAddresses_staking :
  TokenFinal.getProtocolAddresses !! TokenFinal.stakingAddress = Some "STAKING".
Proof. reflexivity. Qed.

Lemma protocolAddresses_other (address : Bytes) :
  address <> TokenFinal.troveManagerAddress ->
  address <> TokenFinal.stabilityPoolAddress ->
  address <> TokenFinal.stakingAddress ->
  TokenFinal.getProtocolAddresses !! address = None.
Proof.
  intros H1 H2 H3. unfold TokenFinal.getProtocolAddresses.
  rewrite !lookup_insert_ne by congruence. apply lookup_empty.
Qed.

(** The role of an address that is not the trove manager is never
    ["TROVE_MANAGER"]. *)
Lemma isType_troveManager (address : Bytes) :
  address <> TokenFinal.troveManagerAddress ->
  TokenFinal.isType (TokenFinal.getProtocolAddresses !! address) "TROVE_MANAGER" = false.
Proof.
  intros H.
  destruct (decide (address = TokenFinal.stabilityPoolAddress)) as [-> | H2];
    [rewrite protocolAddresses_stabilityPool; reflexivity |].
  destruct (decide (address = TokenFinal.stakingAddress)) as [-> | H3];
    [rewrite protocolAddresses_staking; reflexivity |].
  rewrite protocolAddresses_other by assumption. reflexivity.
Qed.

Lemma isType_stabilityPool (address : Bytes) :
  TokenFinal.isType (TokenFinal.getProtocolAddresses !! address) "STABILITY_POOL" =
  bool_decide (address = TokenFinal.stabilityPoolAddress).
Proof.
  destruct (decide (address = TokenFinal.stabilityPoolAddress)) as [-> | H2];
    [rewrite protocolAddresses_stabilityPool; reflexivity |].
  rewrite bool_decide_eq_false_2 by assumption.
  destruct (decide (address = TokenFinal.troveManagerAddress)) as [-> | H1];
    [rewrite protocolAddresses_troveManager; reflexivity |].
  destruct (decide (address = TokenFinal.stakingAddress)) as [-> | H3];
    [rewrite protocolAddresses_staking; reflexivity |].
  rewrite protocolAddresses_other by assumption. reflexivity.
Qed.

(** The classification with the stability pool on one side, for a transfer
    that is neither a mint, a burn nor a trove-manager transfer. *)
Lemma stabilityPool_sides (from to : Bytes) (value : BigInt) :
  from <> zeroAddress -> to <> zeroAddress ->
  from <> TokenFinal.troveManagerAddress -> to <> TokenFinal.troveManagerAddress ->
  (from = TokenFinal.stabilityPoolAddress ->
   TokenFinal.getConfigurableTransferType from to value = "STABILITY_WITHDRAWAL") /\
  (to = TokenFinal.stabilityPoolAddress -> from <> TokenFinal.stabilityPoolAddress ->
   TokenFinal.getConfigurableTransferType from to value = "STABILITY_DEPOSIT").
Proof.
  intros Hf0 Ht0 HfTM HtTM.
  unfold TokenFinal.getConfigurableTransferType.
  rewrite (bool_decide_eq_false_2 _ Hf0), (bool_decide_eq_false_2 _ Ht0).
  unfold TokenFinal.getProtocolOperationType.
  rewrite (isType_troveManager from HfTM), (isType_troveManager to HtTM).
  rewrite !isType_stabilityPool. cbn [orb].
  split.
  - intros ->. unfold TokenFinal.isProtocolAddress.
    rewrite protocolAddresses_stabilityPool. reflexivity.
  - intros -> HfSP. unfold TokenFinal.isProtocolAddress.
    rewrite protocolAddresses_stabilityPool, orb_true_r.
    rewrite (bool_decide_eq_false_2 _ HfSP). reflexivity.
Qed.

(** C7.  The classification of a stability-pool transfer depends on its
    direction.  For every counterparty that is not the zero address, the
    trove manager or the pool itself, and every value, the transfer from the
    pool to the counterparty is a STABILITY_WITHDRAWAL and the transfer of
    the same value from the counterparty to the pool is a
    STABILITY_DEPOSIT. *)
Theorem stabilityDirection (counterparty : Bytes) (value : BigInt) :
  counterparty <> zeroAddress ->
  counterparty <> TokenFinal.troveManagerAddress ->
  counterparty <> TokenFinal.stabilityPoolAddress ->
  TokenFinal.getConfigurableTransferType TokenFinal.stabilityPoolAddress counterparty value
    = "STABILITY_WITHDRAWAL" /\
  TokenFinal.getConfigurableTransferType counterparty TokenFinal.stabilityPoolAddress value
    = "STABILITY_DEPOSIT".
Proof.
  intros Hzero Hmanager Hpool. split.
  - apply (stabilityPool_sides TokenFinal.stabilityPoolAddress counterparty value);
      try assumption; try discriminate; reflexivity.
  - apply (stabilityPool_sides counterparty TokenFinal.stabilityPoolAddress value);
      try assumption; try discriminate; reflexivity.
Qed.

(** The theorem at the counterparty 0x11...11 and the value 7. *)
Lemma stabilityDirection_witness :
  TokenFinal.getConfigurableTransferType
    TokenFinal.stabilityPoolAddress (replicate 20 17) 7 = "STABILITY_WITHDRAWAL" /\
  TokenFinal.getConfigurableTransferType
    (replicate 20 17) TokenFinal.stabilityPoolAddress 7 = "STABILITY_DEPOSIT".
Proof.
  apply (stabilityDirection (replicate 20 17) 7); discriminate.
Defined.

(** ** C5: the order of the user-type rules *)

(** A quotient of two integers with a positive divisor exceeds [a / b]
    exactly when cross multiplication says so. *)
Lemma ratio_gt (n d a : Z) (b : positive) :
  0 < d ->
  bd_gt (toBigDecimal n / toBigDecimal d)%Qc (bd a b) = (a * d <? Z.pos b * n).
Proof.
  intros Hd. apply eq_true_iff_eq. rewrite bd_gt_spec, Z.ltb_lt.
  unfold Qclt, Qcdiv, Qcmult, Qcinv, bd, toBigDecimal, Qc_of_Z. cbn [this Q2Qc].
  repeat setoid_rewrite Qred_correct.
  destruct d as [| p | p]; try lia.
  unfold Qlt, Qmult, Qinv, inject_Z. cbn. lia.
Qed.

(** The ratios of [updateUserIntelligence] are always computed: the division
    is guarded by [totalActivity > 0]. *)
Lemma activityRatios_total (account : Account.t) :
  UniversalTransaction.activityRatios account =
  Some (if Account.totalTransactionCount account >? 0 then
          ((toBigDecimal (Account.dexActivityCount account)
            / toBigDecimal (Account.totalTransactionCount account))%Qc,
           (toBigDecimal (Account.protocolOperationCount account)
            / toBigDecimal (Account.totalTransactionCount account))%Qc)
        else (bd 0 1, bd 0 1)).
Proof.
  unfold UniversalTransaction.activityRatios.
  destruct (Z.gtb_spec (Account.totalTransactionCount account) 0) as [H | H];
    [| reflexivity].
  rewrite !bd_div_nonzero by lia. reflexivity.
Qed.

Lemma bd_div_constant (a : BigDecimal) (num : Z) (den : positive) :
  num <> 0 -> bd_div a (bd num den) = Some (a / bd num den)%Qc.
Proof.
  intros Hn. unfold bd_div.
  destruct (bd_equals (bd num den) ZERO_BD) eqn:E; [| reflexivity].
  apply bd_equals_spec in E. exfalso.
  assert (Hq : (num # den == 0)%Q).
  { unfold bd, ZERO_BD, bd in E. apply (f_equal this) in E. cbn [this Q2Qc] in E.
    rewrite <- (Qred_correct (num # den)), E. reflexivity. }
  unfold Qeq in Hq. cbn in Hq. lia.
Qed.

(** [updateUserIntelligence] never aborts, and the row it returns carries
    the user type chosen by its rule chain. *)
Lemma updateUserIntelligence_total
    (account : Account.t) (category ecosystem : string) (value : BigInt) :
  exists account',
    UniversalTransaction.updateUserIntelligence account category ecosystem value
      = Some account' /\
    exists dexRatio protocolRatio,
      UniversalTransaction.activityRatios account = Some (dexRatio, protocolRatio) /\
      Account.userType account' =
        Account.userType
          (UniversalTransaction.classifyAccount account dexRatio protocolRatio) /\
      Account.totalTransactionCount account' = Account.totalTransactionCount account /\
      Account.totalVolumeIn account' = Account.totalVolumeIn account /\
      Account.totalVolumeOut account' = Account.totalVolumeOut account /\
      Account.usdfcBalance account' = Account.usdfcBalance account.
Proof.
  unfold UniversalTransaction.updateUserIntelligence.
  rewrite activityRatios_total.
  set (ratios := if Account.totalTransactionCount account >? 0 then _ else _).
  destruct ratios as [dexRatio protocolRatio]. cbn [mbind option_bind].
  rewrite !bd_div_constant by discriminate. cbn [mbind option_bind].
  eexists. split; [reflexivity |].
  exists dexRatio, protocolRatio. split; [reflexivity |].
  unfold UniversalTransaction.classifyAccount.
  repeat match goal with |- context [if ?c then _ else _] => destruct c end;
    cbn; repeat split; reflexivity.
Qed.

(** C5, counterexample.  On the account above the protocol ratio is 0.9 and
    the bridge activity is 6: the order of the claim gives BRIDGE_USER, the
    handler assigns PROTOCOL_NATIVE.  The separate helper [classifyUserType]
    tests the bridge share of the activity (above 0.4), not the bridge
    count, and leaves an account with 6 bridge operations out of 100 at
    RETAIL_USER. *)
Lemma userType_order_counterexample :
  userType_claim protocolAndBridgeAccount (bd 0 1) (bd 9 10) = "BRIDGE_USER" /\
  Account.userType <$>
    UniversalTransaction.updateUserIntelligence protocolAndBridgeAccount "TRANSFER"
      "PROTOCOL_NATIVE" 0
  = Some "PROTOCOL_NATIVE" /\
  UniversalTransaction.activityRatios protocolAndBridgeAccount = Some (bd 0 1, bd 9 10) /\
  Helpers.classifyUserType 100 0 0 6 0 0 = Some "RETAIL_USER".
Proof.
  repeat split; try reflexivity.
  vm_compute. f_equal. f_equal; apply Qc_is_canon; reflexivity.
Qed.

(** C5, amended.  [updateUserIntelligence] always returns, and the user type
    of the row is decided by the first rule that matches, in this order:
    DEX share of the activity above 0.6 gives DEX_TRADER; else protocol share
    above 0.8 gives PROTOCOL_NATIVE; else more than 100 transactions gives
    POWER_USER; else more than 5 bridge operations gives BRIDGE_USER; else
    more than 10 DeFi operations gives DEFI_USER; else the user type is left
    as it was.  The shares are 0 when the account has no transaction. *)
Theorem userType_order
    (account : Account.t) (category ecosystem : string) (value : BigInt) :
  let total := Account.totalTransactionCount account in
  exists account',
    UniversalTransaction.updateUserIntelligence account category ecosystem value
      = Some account' /\
    Account.userType account' =
      if (0 <? total) && (6 * total <? 10 * Account.dexActivityCount account) then
        "DEX_TRADER"
      else if (0 <? total) && (8 * total <? 10 * Account.protocolOperationCount account) then
        "PROTOCOL_NATIVE"
      else if 100 <? total then "POWER_USER"
      else if 5 <? Account.bridgeActivityCount account then "BRIDGE_USER"
      else if 10 <? Account.defiIntegrationCount account then "DEFI_USER"
      else Account.userType account.
Proof.
  cbv zeta.
  destruct (updateUserIntelligence_total account category ecosystem value)
    as (account' & Hrun & dexRatio & protocolRatio & Hratios & Htype & _).
  exists account'. split; [exact Hrun |].
  rewrite Htype. rewrite activityRatios_total in Hratios.
  unfold UniversalTransaction.classifyAccount.
  rewrite !Z.gtb_ltb in *.
  destruct (Z.ltb_spec 0 (Account.totalTransactionCount account)) as [Hpos | Hzero].
  - injection Hratios as <- <-.
    rewrite !ratio_gt by assumption. cbn [andb].
    repeat match goal with |- context [?a <? ?b] => destruct (a <? b) end;
      reflexivity.
  - injection Hratios as <- <-. cbn [andb].
    change (bd_gt (bd 0 1) (bd 6 10)) with false.
    change (bd_gt (bd 0 1) (bd 8 10)) with false. cbv iota.
    repeat match goal with |- context [?a <? ?b] => destruct (a <? b) end;
      reflexivity.
Qed.

(** ** C4: the trove performance score *)

(** The score is the weighted average of the four sub-scores the function
    computes; it never aborts. *)
Lemma calculateTrovePerformanceScore_weighted (trove : Trove.t) :
  exists stability age,
    TroveManager.stabilityScoreOf (Trove.lowestCollateralRatio trove) = Some stability /\
    TroveManager.ageBonusOf (Trove.daysOpen trove) = Some age /\
    TroveManager.calculateTrovePerformanceScore trove =
      Some (weightedScore (Trove.healthScore trove) stability
              (TroveManager.riskScoreOf (Trove.riskEvents trove)) age).
Proof.
  unfold TroveManager.calculateTrovePerformanceScore, TroveManager.stabilityScoreOf,
    TroveManager.ageBonusOf.
  rewrite !bd_div_constant by discriminate.
  destruct (bd_gt (Trove.lowestCollateralRatio trove) (bd 150 1));
    cbn [mbind option_bind app TroveManager.weightedTotals];
    (eexists; eexists; split; [reflexivity |]; split; [reflexivity |]);
    unfold weightedScore, ZERO_BD;
    (match goal with
     | |- (if ?c then _ else _) = _ => replace c with true
     end; [apply bd_div_constant with (num := 1) (den := 1%positive); discriminate |]);
    symmetry; apply bd_gt_spec; reflexivity.
Qed.

(** C4, the code at the failing input.  For the trove above the claim's age
    bonus is 100, so that all four sub-scores are 100 and the score should
    be 100; the function computes the age bonus 1 (the quotient
    [daysOpen / 30] is clamped without being scaled by 100) and returns
    90.1. *)
Theorem performanceScore_thirtyDayTrove :
  ageBonus_claim (Trove.daysOpen thirtyDayTrove) = bd 100 1 /\
  TroveManager.stabilityScoreOf (Trove.lowestCollateralRatio thirtyDayTrove)
    = Some (bd 100 1) /\
  TroveManager.riskScoreOf (Trove.riskEvents thirtyDayTrove) = bd 100 1 /\
  Trove.healthScore thirtyDayTrove = bd 100 1 /\
  weightedScore (bd 100 1) (bd 100 1) (bd 100 1) (bd 100 1) = bd 100 1 /\
  TroveManager.ageBonusOf (Trove.daysOpen thirtyDayTrove) = Some (bd 1 1) /\
  TroveManager.calculateTrovePerformanceScore thirtyDayTrove = Some (bd 901 10).
Proof.
  repeat split; try reflexivity;
    try (apply Qc_is_canon; reflexivity);
    vm_compute; f_equal; apply Qc_is_canon; reflexivity.
Qed.

(** ** C8: a transfer between two accounts conserves the balances *)

Lemma updateAccountBalances_unfold (from to : Bytes) (value : BigInt) (s : Store.t) :
  from <> zeroAddress -> to <> zeroAddress ->
  TokenFinal.updateAccountBalances from to value s =
  adjustBalance (fun b => b + value) to (adjustBalance (fun b => b - value) from s).
Proof.
  intros Hf Ht. unfold TokenFinal.updateAccountBalances, adjustBalance.
  rewrite (bool_decide_eq_false_2 _ Hf), (bool_decide_eq_false_2 _ Ht).
  reflexivity.
Qed.

Lemma adjustBalance_accounts (g : BigInt -> BigInt) (address : Bytes) (s : Store.t) :
  Store.accounts (adjustBalance g address s) =
  <[address :=
      Account.set_usdfcBalance (g (balanceOf s address))
        (default TokenFinal.newAccount (Store.accounts s !! address))]>
    (Store.accounts s).
Proof.
  unfold adjustBalance, TokenFinal.ensureAccount, balanceOf.
  destruct (Store.accounts s !! address) as [account |] eqn:E; cbn.
  - reflexivity.
  - apply insert_insert_eq.
Qed.

Lemma adjustBalance_balanceOf (g : BigInt -> BigInt) (address other : Bytes) (s : Store.t) :
  balanceOf (adjustBalance g address s) other =
  if decide (other = address) then g (balanceOf s address) else balanceOf s other.
Proof.
  unfold balanceOf at 1. rewrite adjustBalance_accounts.
  destruct (decide (other = address)) as [-> | Hne].
  - rewrite lookup_insert_eq. reflexivity.
  - rewrite lookup_insert_ne by congruence. reflexivity.
Qed.

Lemma sum_insert (m : gmap Bytes Account.t) (address : Bytes) (account : Account.t) :
  map_fold (fun _ a total => Account.usdfcBalance a + total) 0 (<[address := account]> m) =
  map_fold (fun _ a total => Account.usdfcBalance a + total) 0 m
  - match m !! address with Some old => Account.usdfcBalance old | None => 0 end
  + Account.usdfcBalance account.
Proof.
  assert (Hcomm : forall (m' : gmap Bytes Account.t) (j1 j2 : Bytes) (z1 z2 : Account.t)
                         (y : Z),
             j1 <> j2 -> m' !! j1 = Some z1 -> m' !! j2 = Some z2 ->
             Account.usdfcBalance z1 + (Account.usdfcBalance z2 + y) =
             Account.usdfcBalance z2 + (Account.usdfcBalance z1 + y)) by (intros; lia).
  destruct (m !! address) as [old |] eqn:E.
  - rewrite <- (insert_delete_eq m address account).
    rewrite <- (insert_delete_id m address old E) at 2.
    rewrite !map_fold_insert_L; try apply lookup_delete_eq; try (apply Hcomm).
    lia.
  - rewrite map_fold_insert_L; [lia | apply Hcomm | exact E].
Qed.

Lemma adjustBalance_totalBalance (g : BigInt -> BigInt) (address : Bytes) (s : Store.t) :
  totalBalance (adjustBalance g address s) =
  totalBalance s - balanceOf s address + g (balanceOf s address).
Proof.
  unfold totalBalance. rewrite adjustBalance_accounts, sum_insert.
  unfold balanceOf. destruct (Store.accounts s !! address); reflexivity.
Qed.

(** C8.  For a transfer of [value] whose sender and receiver are both
    different from the zero address, [updateAccountBalances] takes [value]
    off the sender's balance and adds the same [value] to the receiver's
    balance, and touches no other balance: the balance of every address
    changes by [- value] if it is the sender, plus [value] if it is the
    receiver.  Hence the sum of all balances is unchanged. *)
Theorem updateAccountBalances_conservation
    (from to : Bytes) (value : BigInt) (s : Store.t) :
  from <> zeroAddress -> to <> zeroAddress ->
  let s' := TokenFinal.updateAccountBalances from to value s in
  (forall address : Bytes,
     balanceOf s' address =
     balanceOf s address
     - (if decide (address = from) then value else 0)
     + (if decide (address = to) then value else 0)) /\
  totalBalance s' = totalBalance s.
Proof.
  intros Hf Ht s'. subst s'. rewrite updateAccountBalances_unfold by assumption.
  split.
  - intros address. rewrite !adjustBalance_balanceOf.
    destruct (decide (address = to)) as [-> | Hto];
      destruct (decide (to = from)) as [-> | Hft];
      repeat case_decide; subst; try congruence; cbv beta; lia.
  - rewrite !adjustBalance_totalBalance, adjustBalance_balanceOf.
    case_decide; cbv beta; lia.
Qed.

(** The theorem at a transfer of 400 from 0x11...11 to 0x22...22 on the
    empty store. *)
Lemma updateAccountBalances_conservation_witness :
  let s' :=
    TokenFinal.updateAccountBalances (replicate 20 17) (replicate 20 34) 400 emptyStore in
  balanceOf s' (replicate 20 17) = -400 /\ balanceOf s' (replicate 20 34) = 400 /\
  totalBalance s' = totalBalance emptyStore.
Proof.
  cbv zeta.
  destruct (updateAccountBalances_conservation
              (replicate 20 17) (replicate 20 34) 400 emptyStore)
    as [Hbalance Htotal]; [discriminate | discriminate |].
  split; [| split].
  - rewrite Hbalance. vm_compute. reflexivity.
  - rewrite Hbalance. vm_compute. reflexivity.
  - exact Htotal.
Defined.

(** ** C10: the daily market-condition row *)

Lemma bd_div_positive (a b : BigDecimal) :
  bd_gt b ZERO_BD = true -> bd_div a b = Some (a / b)%Qc.
Proof.
  intros Hb. unfold bd_div.
  destruct (bd_equals b ZERO_BD) eqn:E; [| reflexivity].
  apply bd_equals_spec in E. subst b. discriminate Hb.
Qed.

(** [updateMarketConditions] never aborts; it writes the row of the
    timestamp's day only, and the open, high and low prices and the count
    of the saved row are those of [priceRow]. *)
Lemma updateMarketConditions_step (currentPrice : BigDecimal) (timestamp : BigInt)
    (s : Store.t) :
  exists s' row,
    PriceFeed.updateMarketConditions currentPrice timestamp s = Some s' /\
    Store.marketConditions s' = <[dayOf timestamp := row]> (Store.marketConditions s) /\
    MarketCondition.openPrice row
      = MarketCondition.openPrice (priceRow currentPrice timestamp s) /\
    MarketCondition.highPrice row
      = MarketCondition.highPrice (priceRow currentPrice timestamp s) /\
    MarketCondition.lowPrice row
      = MarketCondition.lowPrice (priceRow currentPrice timestamp s) /\
    MarketCondition.priceUpdatesCount row
      = MarketCondition.priceUpdatesCount (priceRow currentPrice timestamp s).
Proof.
  unfold PriceFeed.updateMarketConditions, bi_div. cbn [mbind option_bind Z.eqb].
  fold (dayOf timestamp).
  set (row0 := match Store.marketConditions s !! dayOf timestamp with
               | None => _ | Some _ => _ end).
  assert (Hrow0 : row0 = priceRow currentPrice timestamp s) by reflexivity.
  clearbody row0.
  destruct (bd_gt (MarketCondition.openPrice
                     (MarketCondition.set_lastUpdateTimestamp timestamp
                        (MarketCondition.set_closePrice currentPrice row0))) ZERO_BD)
    eqn:Hopen.
  - rewrite bd_div_positive by exact Hopen. cbn [mbind option_bind].
    rewrite bd_div_positive by exact Hopen. cbn [mbind option_bind].
    eexists; eexists. split; [reflexivity |]. split; [reflexivity |].
    rewrite <- Hrow0.
    repeat match goal with |- context [if ?c then _ else _] => destruct c end;
      repeat split; reflexivity.
  - cbn [mbind option_bind].
    eexists; eexists. split; [reflexivity |]. split; [reflexivity |].
    rewrite <- Hrow0. repeat split; reflexivity.
Qed.

Lemma summarises_first (currentPrice : BigDecimal) (timestamp : BigInt) (day : Z)
    (row : MarketCondition.t) :
  MarketCondition.openPrice row = currentPrice ->
  MarketCondition.highPrice row = currentPrice ->
  MarketCondition.lowPrice row = currentPrice ->
  MarketCondition.priceUpdatesCount row = 1 ->
  summarises [currentPrice] row.
Proof.
  intros Ho Hh Hl Hc. unfold summarises. rewrite Ho, Hh, Hl, Hc.
  repeat split; try (apply list_elem_of_singleton; reflexivity);
    try (intros p Hp; apply list_elem_of_singleton in Hp; subst p);
    apply Qcle_refl.
Qed.

Lemma summarises_next (seen : list BigDecimal) (currentPrice : BigDecimal)
    (old row : MarketCondition.t) :
  seen <> [] ->
  summarises seen old ->
  MarketCondition.openPrice row = MarketCondition.openPrice old ->
  MarketCondition.highPrice row =
    (if bd_gt currentPrice (MarketCondition.highPrice old) then currentPrice
     else MarketCondition.highPrice old) ->
  MarketCondition.lowPrice row =
    (if bd_lt currentPrice (MarketCondition.lowPrice old) then currentPrice
     else MarketCondition.lowPrice old) ->
  MarketCondition.priceUpdatesCount row = MarketCondition.priceUpdatesCount old + 1 ->
  summarises (seen ++ [currentPrice]) row.
Proof.
  intros Hne (Hopen & Hhin & Hhub & Hlin & Hllb & Hlh & Hcount) Ho Hh Hl Hc.
  unfold summarises. rewrite Ho, Hh, Hl, Hc, Hcount.
  assert (Hhigh : forall p, p ∈ seen ++ [currentPrice] ->
            (p <= (if bd_gt currentPrice (MarketCondition.highPrice old)
                   then currentPrice else MarketCondition.highPrice old))%Qc).
  { intros p Hp. apply elem_of_app in Hp as [Hp | Hp].
    - destruct (bd_gt currentPrice (MarketCondition.highPrice old)) eqn:E.
      + apply bd_gt_spec in E. eapply Qcle_trans; [apply Hhub, Hp |].
        apply Qclt_le_weak, E.
      + apply Hhub, Hp.
    - apply list_elem_of_singleton in Hp. subst p.
      destruct (bd_gt currentPrice (MarketCondition.highPrice old)) eqn:E.
      + apply Qcle_refl.
      + apply bd_gt_false, E. }
  assert (Hlow : forall p, p ∈ seen ++ [currentPrice] ->
            ((if bd_lt currentPrice (MarketCondition.lowPrice old)
              then currentPrice else MarketCondition.lowPrice old) <= p)%Qc).
  { intros p Hp. apply elem_of_app in Hp as [Hp | Hp].
    - destruct (bd_lt currentPrice (MarketCondition.lowPrice old)) eqn:E.
      + apply bd_lt_spec in E. eapply Qcle_trans; [| apply Hllb, Hp].
        apply Qclt_le_weak, E.
      + apply Hllb, Hp.
    - apply list_elem_of_singleton in Hp. subst p.
      destruct (bd_lt currentPrice (MarketCondition.lowPrice old)) eqn:E.
      + apply Qcle_refl.
      + apply bd_lt_false, E. }
  assert (Hhmem : (if bd_gt currentPrice (MarketCondition.highPrice old)
                   then currentPrice else MarketCondition.highPrice old)
                  ∈ seen ++ [currentPrice]).
  { apply elem_of_app. destruct (bd_gt currentPrice (MarketCondition.highPrice old)).
    - right. apply list_elem_of_singleton. reflexivity.
    - left. exact Hhin. }
  assert (Hlmem : (if bd_lt currentPrice (MarketCondition.lowPrice old)
                   then currentPrice else MarketCondition.lowPrice old)
                  ∈ seen ++ [currentPrice]).
  { apply elem_of_app. destruct (bd_lt currentPrice (MarketCondition.lowPrice old)).
    - right. apply list_elem_of_singleton. reflexivity.
    - left. exact Hlin. }
  repeat split; try assumption.
  - destruct seen; [contradiction | exact Hopen].
  - apply Hhigh, Hlmem.
  - rewrite length_app. cbn [length]. lia.
Qed.

(** One update moves the state of every day along: the day of the update
    gains the price, the other days are as before. *)
Lemma updateMarketConditions_dayState (currentPrice : BigDecimal) (timestamp : BigInt)
    (day : Z) (seen : list BigDecimal) (s : Store.t) :
  dayState day seen s ->
  exists s',
    PriceFeed.updateMarketConditions currentPrice timestamp s = Some s' /\
    dayState day
      (if decide (dayOf timestamp = day) then seen ++ [currentPrice] else seen) s'.
Proof.
  intros Hstate.
  destruct (updateMarketConditions_step currentPrice timestamp s)
    as (s' & row & Hrun & Hmap & Ho & Hh & Hl & Hc).
  exists s'. split; [exact Hrun |].
  destruct (decide (dayOf timestamp = day)) as [Hday | Hday].
  - unfold priceRow in Ho, Hh, Hl, Hc. rewrite Hday in *.
    destruct seen as [| first rest]; unfold dayState in *.
    + rewrite Hstate in Ho, Hh, Hl, Hc. cbn [app].
      exists row. rewrite Hmap, lookup_insert_eq. split; [reflexivity |].
      eapply summarises_first; eassumption.
    + destruct Hstate as (old & Hold & Hsum). rewrite Hold in Ho, Hh, Hl, Hc.
      change ((first :: rest) ++ [currentPrice])
        with (first :: (rest ++ [currentPrice])).
      exists row. rewrite Hmap, lookup_insert_eq. split; [reflexivity |].
      change (first :: (rest ++ [currentPrice]))
        with ((first :: rest) ++ [currentPrice]).
      apply (summarises_next (first :: rest) currentPrice old row);
        [discriminate | exact Hsum | | | |].
      * rewrite Ho. cbn.
        repeat match goal with |- context [if ?c then _ else _] => destruct c end;
          reflexivity.
      * rewrite Hh. cbn.
        repeat match goal with |- context [if ?c then _ else _] => destruct c end;
          reflexivity.
      * rewrite Hl. cbn.
        destruct (bd_gt currentPrice (MarketCondition.highPrice old)); cbn;
          destruct (bd_lt currentPrice (MarketCondition.lowPrice old)); reflexivity.
      * rewrite Hc. cbn.
        repeat match goal with |- context [if ?c then _ else _] => destruct c end;
          reflexivity.
  - unfold dayState in *. rewrite Hmap.
    destruct seen; rewrite lookup_insert_ne by exact Hday; exact Hstate.
Qed.

Lemma updateMarketConditionsAll_dayState (updates : list (BigDecimal * BigInt))
    (day : Z) (seen : list BigDecimal) (s : Store.t) :
  dayState day seen s ->
  exists s',
    PriceFeed.updateMarketConditionsAll updates s = Some s' /\
    dayState day (seen ++ pricesOn day updates) s'.
Proof.
  revert seen s. induction updates as [| [currentPrice timestamp] updates IH];
    intros seen s Hstate.
  - exists s. cbn. rewrite app_nil_r. split; [reflexivity | exact Hstate].
  - destruct (updateMarketConditions_dayState currentPrice timestamp day seen s Hstate)
      as (s1 & Hrun & Hstate1).
    destruct (IH _ s1 Hstate1) as (s' & Hrest & Hfinal).
    exists s'. cbn [PriceFeed.updateMarketConditionsAll pricesOn].
    rewrite Hrun. cbn [mbind option_bind]. split; [exact Hrest |].
    destruct (decide (dayOf timestamp = day)).
    + rewrite <- app_assoc in Hfinal. exact Hfinal.
    + exact Hfinal.
Qed.

(** C10.  Starting from a store without a row for [day], every run of price
    updates completes, and afterwards: if no update fell on [day] there is
    still no row; otherwise the row of [day] has as open price the first
    price of the day, as high price the greatest and as low price the least
    of the day's prices (so low is at most high), and as update count the
    number of the day's prices.  The run is arbitrary, so this holds after
    each update of the day. *)
Theorem marketCondition_daily (updates : list (BigDecimal * BigInt)) (day : Z)
    (s : Store.t) :
  Store.marketConditions s !! day = None ->
  exists s',
    PriceFeed.updateMarketConditionsAll updates s = Some s' /\
    match pricesOn day updates with
    | [] => Store.marketConditions s' !! day = None
    | first :: rest =>
        exists row,
          Store.marketConditions s' !! day = Some row /\
          MarketCondition.openPrice row = first /\
          MarketCondition.highPrice row ∈ first :: rest /\
          (forall p, p ∈ first :: rest -> (p <= MarketCondition.highPrice row)%Qc) /\
          MarketCondition.lowPrice row ∈ first :: rest /\
          (forall p, p ∈ first :: rest -> (MarketCondition.lowPrice row <= p)%Qc) /\
          (MarketCondition.lowPrice row <= MarketCondition.highPrice row)%Qc /\
          MarketCondition.priceUpdatesCount row = Z.of_nat (length (first :: rest))
    end.
Proof.
  intros Hnone.
  destruct (updateMarketConditionsAll_dayState updates day [] s Hnone)
    as (s' & Hrun & Hstate).
  exists s'. split; [exact Hrun |]. cbn [app] in Hstate.
  unfold dayState in Hstate.
  destruct (pricesOn day updates) as [| first rest]; [exact Hstate |].
  destruct Hstate as (row & Hrow & Hopen & Hrest).
  exists row. split; [exact Hrow |]. split; [| exact Hrest].
  cbn in Hopen. congruence.
Qed.

(** The theorem on the empty store, for day 0 and the prices 5, 9, 3 on day
    0 and 7 on day 1. *)
Lemma marketCondition_daily_witness :
  exists s' row,
    PriceFeed.updateMarketConditionsAll
      [(bd 5 1, 10); (bd 9 1, 20); (bd 7 1, 86400); (bd 3 1, 30)] emptyStore = Some s' /\
    Store.marketConditions s' !! 0 = Some row /\
    MarketCondition.openPrice row = bd 5 1 /\
    MarketCondition.priceUpdatesCount row = 3.
Proof.
  destruct (marketCondition_daily
              [(bd 5 1, 10); (bd 9 1, 20); (bd 7 1, 86400); (bd 3 1, 30)] 0 emptyStore)
    as (s' & Hrun & row & Hrow & Hopen & _ & _ & _ & _ & _ & Hcount);
    [reflexivity |].
  exists s', row. repeat split; assumption.
Defined.

(** ** The account and ecosystem aggregators never abort *)

(** [updateActivityCounters] leaves the transaction count, the two volume
    totals and the balance alone, and makes the net volume the difference of
    the totals. *)
Lemma updateActivityCounters_frame
    (account : Account.t) (category ecosystem : string) (value : BigInt) :
  let account' :=
    UniversalTransaction.updateActivityCounters account category ecosystem value in
  Account.totalTransactionCount account' = Account.totalTransactionCount account /\
  Account.totalVolumeIn account' = Account.totalVolumeIn account /\
  Account.totalVolumeOut account' = Account.totalVolumeOut account /\
  Account.usdfcBalance account' = Account.usdfcBalance account /\
  Account.netVolume account' =
    Account.totalVolumeIn account - Account.totalVolumeOut account.
Proof.
  unfold UniversalTransaction.updateActivityCounters.
  repeat match goal with |- context [String.eqb ?a ?b] => destruct (String.eqb a b) end;
    repeat split; reflexivity.
Qed.

Lemma bumpedAccount_fields
    (isSender : bool) (value : BigInt) (category ecosystem : string) (timestamp : BigInt)
    (old : Account.t) :
  let account := bumpedAccount isSender value category ecosystem timestamp old in
  Account.totalTransactionCount account = Account.totalTransactionCount old + 1 /\
  Account.totalVolumeOut account =
    Account.totalVolumeOut old + (if isSender then value else 0) /\
  Account.totalVolumeIn account =
    Account.totalVolumeIn old + (if isSender then 0 else value) /\
  Account.usdfcBalance account = Account.usdfcBalance old.
Proof.
  unfold bumpedAccount. cbv zeta.
  match goal with
  | |- context [UniversalTransaction.updateActivityCounters ?a ?c ?e ?v] =>
      destruct (updateActivityCounters_frame a c e v) as (Fcount & Fin & Fout & Fbal & _)
  end.
  rewrite Fcount, Fin, Fout, Fbal.
  destruct isSender; cbn; repeat split; lia.
Qed.

(** One side of [updateAccountActivity] always completes; it rewrites the
    row of [address] only, having added one to its transaction count and
    the value to the volume total of its side. *)
Lemma updateAccountSide_run
    (isSender : bool) (address : Bytes) (value : BigInt) (category ecosystem : string)
    (timestamp : BigInt) (s : Store.t) :
  exists account',
    UniversalTransaction.updateAccountSide isSender address value category ecosystem
      timestamp s
    = Some (Store.set_accounts (<[address := account']> (Store.accounts s)) s) /\
    let old := default UniversalTransaction.newAccount (Store.accounts s !! address) in
    Account.totalTransactionCount account' = Account.totalTransactionCount old + 1 /\
    Account.totalVolumeOut account' =
      Account.totalVolumeOut old + (if isSender then value else 0) /\
    Account.totalVolumeIn account' =
      Account.totalVolumeIn old + (if isSender then 0 else value) /\
    Account.usdfcBalance account' = Account.usdfcBalance old.
Proof.
  set (old := default UniversalTransaction.newAccount (Store.accounts s !! address)).
  destruct (updateUserIntelligence_total
              (bumpedAccount isSender value category ecosystem timestamp old)
              category ecosystem value)
    as (account' & Hrun & _ & _ & _ & _ & Hcount & Hin & Hout & Hbalance).
  destruct (bumpedAccount_fields isSender value category ecosystem timestamp old)
    as (Fcount & Fout & Fin & Fbalance).
  exists account'. split.
  - unfold UniversalTransaction.updateAccountSide, UniversalTransaction.ensureAccount.
    subst old. destruct (Store.accounts s !! address) as [account |];
      cbv [default from_option id] in Hrun.
    + change (UniversalTransaction.updateUserIntelligence
                (bumpedAccount isSender value category ecosystem timestamp account)
                category ecosystem value
              ≫= (fun account0 =>
                    Some (UniversalTransaction.saveAccount address account0 s))
              = Some (Store.set_accounts (<[address := account']> (Store.accounts s)) s)).
      rewrite Hrun. reflexivity.
    + change (UniversalTransaction.updateUserIntelligence
                (bumpedAccount isSender value category ecosystem timestamp
                   UniversalTransaction.newAccount)
                category ecosystem value
              ≫= (fun account0 =>
                    Some (UniversalTransaction.saveAccount address account0
                            (UniversalTransaction.saveAccount address
                               UniversalTransaction.newAccount s)))
              = Some (Store.set_accounts (<[address := account']> (Store.accounts s)) s)).
      rewrite Hrun. cbn [mbind option_bind]. unfold UniversalTransaction.saveAccount.
      cbn [Store.accounts Store.set_accounts]. rewrite insert_insert_eq. reflexivity.
  - cbv zeta. rewrite Hcount, Hin, Hout, Hbalance. repeat split; assumption.
Qed.

(** [toI32] returns the 32-bit reading of its argument or aborts; a value
    that fits 32 bits is returned as it is. *)
Lemma toI32_Some (z i : Z) :
  toI32 z = Some i -> i = wrapI32 z /\ -4294967296 <= z < 4294967296.
Proof.
  unfold toI32.
  destruct (Z.leb_spec (-4294967296) z) as [Hlo | Hlo],
    (Z.ltb_spec z 4294967296) as [Hhi | Hhi];
    cbn [andb]; intros Heq; try discriminate Heq.
  injection Heq as <-. split; [reflexivity | lia].
Qed.

Lemma toI32_defined (z : Z) :
  -4294967296 <= z < 4294967296 -> toI32 z = Some (wrapI32 z).
Proof.
  intros H. unfold toI32.
  destruct (Z.leb_spec (-4294967296) z); [| lia].
  destruct (Z.ltb_spec z 4294967296); [reflexivity | lia].
Qed.

Lemma wrapI32_in_range (z : Z) :
  -2147483648 <= z <= 2147483647 -> wrapI32 z = z.
Proof.
  intros H. unfold wrapI32.
  rewrite Z.mod_small by lia. lia.
Qed.

Lemma wrapI32_range (z : Z) : -2147483648 <= wrapI32 z <= 2147483647.
Proof.
  unfold wrapI32.
  pose proof (Z.mod_pos_bound (z + 2147483648) 4294967296 ltac:(lia)). lia.
Qed.

Lemma toI32_in_range (z : Z) :
  -2147483648 <= z <= 2147483647 -> toI32 z = Some z.
Proof.
  intros H. rewrite toI32_defined by lia. rewrite wrapI32_in_range by exact H. reflexivity.
Qed.

(** [updateDailyEcosystemStats] completes exactly when the conversion of
    the timestamp by [toI32] does; it writes the daily table only. *)
Lemma updateDailyEcosystemStats_run
    (category ecosystem : string) (value timestamp : BigInt) (s : Store.t) :
  match toI32 timestamp with
  | None =>
      UniversalTransaction.updateDailyEcosystemStats category ecosystem value timestamp s
      = None
  | Some _ =>
      exists daily,
        UniversalTransaction.updateDailyEcosystemStats category ecosystem value timestamp s
        = Some (Store.set_dailyEcosystemStats daily s)
  end.
Proof.
  unfold UniversalTransaction.updateDailyEcosystemStats, UniversalTransaction.getDayId,
    UniversalTransaction.getDayString, UniversalTransaction.getDayStartTimestamp.
  destruct (toI32 timestamp) as [t |]; [| reflexivity].
  cbn [mbind option_bind].
  set (stats0 := match Store.dailyEcosystemStats s !! (t `quot` 86400) with
                 | Some stats => Some stats | None => _ end).
  assert (Hstats0 : is_Some stats0).
  { subst stats0. destruct (Store.dailyEcosystemStats s !! _); eauto. }
  destruct Hstats0 as [stats ->]. cbn [mbind option_bind].
  match goal with
  | |- context [if ?total >? 0 then _ else Some ?row] =>
      destruct (Z.gtb_spec total 0) as [Hpos | Hzero]
  end.
  - rewrite bd_div_nonzero by lia. cbn [mbind option_bind]. eexists. reflexivity.
  - cbn [mbind option_bind]. eexists. reflexivity.
Qed.

(** [updateEcosystemStats] completes exactly when the conversion of the
    timestamp by [toI32] does; it writes the two ecosystem tables only. *)
Lemma updateEcosystemStats_run
    (category ecosystem : string) (value timestamp : BigInt) (s : Store.t) :
  match toI32 timestamp with
  | None =>
      UniversalTransaction.updateEcosystemStats category ecosystem value timestamp s = None
  | Some _ =>
      exists global daily,
        UniversalTransaction.updateEcosystemStats category ecosystem value timestamp s
        = Some (Store.set_dailyEcosystemStats daily (Store.set_ecosystemStats global s))
  end.
Proof.
  unfold UniversalTransaction.updateEcosystemStats.
  match goal with
  | |- context [UniversalTransaction.updateDailyEcosystemStats _ _ _ _ ?s1] =>
      pose proof (updateDailyEcosystemStats_run category ecosystem value timestamp s1)
        as Hdaily
  end.
  destruct (toI32 timestamp); [| exact Hdaily].
  destruct Hdaily as [daily Hdaily]. eexists; eexists. exact Hdaily.
Qed.

(** [updateAccountActivity] always completes and writes the account table
    only. *)
Lemma updateAccountActivity_run
    (from to : Bytes) (value : BigInt) (category ecosystem : string) (timestamp : BigInt)
    (s : Store.t) :
  exists fromAccount toAccount,
    UniversalTransaction.updateAccountActivity from to value category ecosystem timestamp s
    = Some (Store.set_accounts
              (<[to := toAccount]> (<[from := fromAccount]> (Store.accounts s))) s) /\
    let oldFrom := default UniversalTransaction.newAccount (Store.accounts s !! from) in
    let oldTo :=
      default UniversalTransaction.newAccount
        (<[from := fromAccount]> (Store.accounts s) !! to) in
    Account.totalTransactionCount fromAccount = Account.totalTransactionCount oldFrom + 1 /\
    Account.totalVolumeOut fromAccount = Account.totalVolumeOut oldFrom + value /\
    Account.totalVolumeIn fromAccount = Account.totalVolumeIn oldFrom /\
    Account.usdfcBalance fromAccount = Account.usdfcBalance oldFrom /\
    Account.totalTransactionCount toAccount = Account.totalTransactionCount oldTo + 1 /\
    Account.totalVolumeIn toAccount = Account.totalVolumeIn oldTo + value /\
    Account.totalVolumeOut toAccount = Account.totalVolumeOut oldTo /\
    Account.usdfcBalance toAccount = Account.usdfcBalance oldTo.
Proof.
  unfold UniversalTransaction.updateAccountActivity.
  destruct (updateAccountSide_run true from value category ecosystem timestamp s)
    as (fromAccount & Hfrom & Fc & Fo & Fi & Fb).
  rewrite Hfrom. cbn [mbind option_bind].
  destruct (updateAccountSide_run false to value category ecosystem timestamp
              (Store.set_accounts (<[from := fromAccount]> (Store.accounts s)) s))
    as (toAccount & Hto & Tc & To & Ti & Tb).
  rewrite Hto. exists fromAccount, toAccount.
  split; [reflexivity |].
  cbn [Store.accounts Store.set_accounts] in Tc, To, Ti, Tb.
  cbv zeta. rewrite Fc, Fo, Fi, Fb, Tc, To, Ti, Tb.
  repeat split; lia.
Qed.

(** ** C1: redelivery of an event *)

Lemma deliver_unfold (e : EventDescriptor) (s : Store.t) :
  deliver e s =
  txId ← UniversalTransaction.transactionId (ed_hash e) (ed_logIndex e);
  s ← aggregate e (recordTransaction e txId s);
  Some (txId, s).
Proof.
  unfold deliver, UniversalTransaction.createUniversalTransaction, aggregate.
  destruct (UniversalTransaction.transactionId (ed_hash e) (ed_logIndex e)) as [txId |];
    [| reflexivity].
  cbn [mbind option_bind]. unfold recordTransaction.
  destruct (Store.transactions s !! txId); cbn [mbind option_bind].
  - destruct (UniversalTransaction.updateAccountActivity _ _ _ _ _ _ _); reflexivity.
  - destruct (UniversalTransaction.ensureAccount (ed_from e) s) as [a1 s1].
    destruct (UniversalTransaction.ensureAccount (ed_to e) s1) as [a2 s2].
    destruct (UniversalTransaction.updateAccountActivity _ _ _ _ _ _ _); reflexivity.
Qed.

Lemma ensureAccount_transactions (address : Bytes) (s : Store.t) :
  Store.transactions (UniversalTransaction.ensureAccount address s).2 = Store.transactions s.
Proof.
  unfold UniversalTransaction.ensureAccount.
  destruct (Store.accounts s !! address); reflexivity.
Qed.

(** After the ledger write the row exists. *)
Lemma recordTransaction_present (e : EventDescriptor) (txId : Bytes) (s : Store.t) :
  is_Some (Store.transactions (recordTransaction e txId s) !! txId).
Proof.
  unfold recordTransaction.
  destruct (Store.transactions s !! txId) as [row |] eqn:E; [rewrite E; eauto |].
  destruct (UniversalTransaction.ensureAccount (ed_from e) s) as [a1 s1].
  destruct (UniversalTransaction.ensureAccount (ed_to e) s1) as [a2 s2].
  cbn. rewrite lookup_insert_eq. eauto.
Qed.

(** The ledger write does nothing when the row exists. *)
Lemma recordTransaction_again (e : EventDescriptor) (txId : Bytes) (s : Store.t) :
  is_Some (Store.transactions s !! txId) -> recordTransaction e txId s = s.
Proof. intros [row E]. unfold recordTransaction. rewrite E. reflexivity. Qed.

(** The aggregation completes exactly when the block timestamp fits 32
    bits, and writes the account table and the two ecosystem tables only. *)
Lemma aggregate_run (e : EventDescriptor) (s : Store.t) :
  match toI32 (ed_blockTimestamp e) with
  | None => aggregate e s = None
  | Some _ =>
      exists fromAccount toAccount global daily,
        aggregate e s =
        Some (Store.set_dailyEcosystemStats daily
                (Store.set_ecosystemStats global
                   (Store.set_accounts
                      (<[ed_to e := toAccount]>
                         (<[ed_from e := fromAccount]> (Store.accounts s))) s))) /\
        let oldFrom :=
          default UniversalTransaction.newAccount (Store.accounts s !! ed_from e) in
        let oldTo :=
          default UniversalTransaction.newAccount
            (<[ed_from e := fromAccount]> (Store.accounts s) !! ed_to e) in
        Account.totalTransactionCount fromAccount
          = Account.totalTransactionCount oldFrom + 1 /\
        Account.totalVolumeOut fromAccount = Account.totalVolumeOut oldFrom + ed_value e /\
        Account.totalVolumeIn fromAccount = Account.totalVolumeIn oldFrom /\
        Account.totalTransactionCount toAccount = Account.totalTransactionCount oldTo + 1 /\
        Account.totalVolumeIn toAccount = Account.totalVolumeIn oldTo + ed_value e /\
        Account.totalVolumeOut toAccount = Account.totalVolumeOut oldTo
  end.
Proof.
  unfold aggregate.
  destruct (updateAccountActivity_run (ed_from e) (ed_to e) (ed_value e) (ed_category e)
              (ed_ecosystem e) (ed_blockTimestamp e) s)
    as (fromAccount & toAccount & Hrun & Fc & Fo & Fi & _ & Tc & Ti & To & _).
  rewrite Hrun. cbn [mbind option_bind].
  match goal with
  | |- context [UniversalTransaction.updateEcosystemStats ?c ?ec ?v ?t ?s1] =>
      pose proof (updateEcosystemStats_run c ec v t s1) as Heco
  end.
  destruct (toI32 (ed_blockTimestamp e)); [| exact Heco].
  destruct Heco as (global & daily & Heco).
  exists fromAccount, toAccount, global, daily. split; [exact Heco |].
  cbv zeta. repeat split; assumption.
Qed.

(** The aggregation adds one to the transaction count of each side (two
    when both sides are one address), the value to the sender's outgoing
    volume and to the receiver's incoming volume. *)
Lemma aggregate_deltas (e : EventDescriptor) (s s' : Store.t) :
  aggregate e s = Some s' ->
  Store.transactions s' = Store.transactions s /\
  positionTablesEqual s s' /\
  transactionCountOf s' (ed_from e) =
    transactionCountOf s (ed_from e) + (if decide (ed_from e = ed_to e) then 2 else 1) /\
  transactionCountOf s' (ed_to e) =
    transactionCountOf s (ed_to e) + (if decide (ed_from e = ed_to e) then 2 else 1) /\
  volumeOutOf s' (ed_from e) = volumeOutOf s (ed_from e) + ed_value e /\
  volumeInOf s' (ed_to e) = volumeInOf s (ed_to e) + ed_value e.
Proof.
  intros Hrun. pose proof (aggregate_run e s) as H.
  destruct (toI32 (ed_blockTimestamp e)); [| congruence].
  destruct H
    as (fromAccount & toAccount & global & daily & Heq & Fc & Fo & Fi & Tc & Ti & To).
  rewrite Heq in Hrun. injection Hrun as <-.
  split; [reflexivity |]. split; [repeat split |].
  unfold transactionCountOf, volumeOutOf, volumeInOf.
  cbn [Store.accounts Store.set_accounts Store.set_ecosystemStats
         Store.set_dailyEcosystemStats].
  destruct (decide (ed_from e = ed_to e)) as [Heq2 | Hne].
  - rewrite <- Heq2 in *. rewrite !lookup_insert_eq in *.
    destruct (Store.accounts s !! ed_from e);
      cbv [default from_option id] in Fc, Fo, Fi, Tc, Ti, To;
      cbn in Fc, Fo, Fi; repeat split; lia.
  - rewrite lookup_insert_eq, (lookup_insert_ne _ (ed_to e) (ed_from e)) by congruence.
    rewrite lookup_insert_eq.
    rewrite lookup_insert_ne in Tc, Ti by congruence.
    destruct (Store.accounts s !! ed_from e), (Store.accounts s !! ed_to e);
      cbv [default from_option id] in Fc, Fo, Fi, Tc, Ti, To;
      cbn in Fc, Fo, Fi, Tc, Ti; repeat split; lia.
Qed.

(** A delivery completes when the conversions of the log index (if any) and
    of the block timestamp by [toI32] do. *)
Lemma deliver_total (e : EventDescriptor) (s : Store.t) (txId : Bytes) :
  UniversalTransaction.transactionId (ed_hash e) (ed_logIndex e) = Some txId ->
  is_Some (toI32 (ed_blockTimestamp e)) ->
  exists s1, deliver e s = Some (txId, s1).
Proof.
  intros Hid [t Ht]. rewrite deliver_unfold, Hid. cbn [mbind option_bind].
  pose proof (aggregate_run e (recordTransaction e txId s)) as H. rewrite Ht in H.
  destruct H as (a & b & g & d & H & _). rewrite H. eexists. reflexivity.
Qed.

Lemma sampleTransfer_delivered :
  exists result, deliver sampleTransfer emptyStore = Some result.
Proof.
  destruct (deliver_total sampleTransfer emptyStore
              (concatI32 (ed_hash sampleTransfer) 0)) as [s1 H];
    [reflexivity | eexists; reflexivity |].
  eexists. exact H.
Qed.

(** What a second delivery does, for any event and store. *)
Lemma redelivery_run (e : EventDescriptor) (s s1 : Store.t) (id : Bytes) :
  deliver e s = Some (id, s1) ->
  exists s2,
    deliver e s1 = Some (id, s2) /\
    aggregate e s1 = Some s2 /\
    Store.transactions s2 = Store.transactions s1 /\
    positionTablesEqual s1 s2 /\
    transactionCountOf s2 (ed_from e) =
      transactionCountOf s1 (ed_from e) + (if decide (ed_from e = ed_to e) then 2 else 1) /\
    transactionCountOf s2 (ed_to e) =
      transactionCountOf s1 (ed_to e) + (if decide (ed_from e = ed_to e) then 2 else 1) /\
    volumeOutOf s2 (ed_from e) = volumeOutOf s1 (ed_from e) + ed_value e /\
    volumeInOf s2 (ed_to e) = volumeInOf s1 (ed_to e) + ed_value e.
Proof.
  intros Hfirst. rewrite deliver_unfold in Hfirst.
  destruct (UniversalTransaction.transactionId (ed_hash e) (ed_logIndex e)) as [txId |] eqn:Hid;
    [| discriminate Hfirst].
  cbn [mbind option_bind] in Hfirst.
  destruct (aggregate e (recordTransaction e txId s)) as [s1' |] eqn:A1;
    [| discriminate Hfirst].
  injection Hfirst as <- <-.
  assert (Hpresent : is_Some (Store.transactions s1' !! txId)).
  { apply aggregate_deltas in A1 as (Htx & _). rewrite Htx.
    apply recordTransaction_present. }
  pose proof (aggregate_run e s1') as H.
  pose proof (aggregate_run e (recordTransaction e txId s)) as H0.
  destruct (toI32 (ed_blockTimestamp e)); [| congruence]. clear H0.
  destruct H as (a & b & g & d & Hsecond & _).
  eexists. split; [| split; [exact Hsecond | apply aggregate_deltas; exact Hsecond]].
  rewrite deliver_unfold, Hid. cbn [mbind option_bind].
  rewrite (recordTransaction_again e txId s1' Hpresent), Hsecond. reflexivity.
Qed.

(** C1, counterexample.  Delivered once on the empty store, the sample
    transfer leaves the sender with transaction count 1 and outgoing volume
    5, the global peer-to-peer volume at 5 and the day's transfer count at 1;
    delivered a second time it leaves them at 2, 10, 10 and 2. *)
Lemma redelivery_counterexample :
  (s1 ← snd <$> deliver sampleTransfer emptyStore;
   Some (transactionCountOf s1 (ed_from sampleTransfer),
         volumeOutOf s1 (ed_from sampleTransfer),
         EcosystemStats.p2pVolume <$> Store.ecosystemStats s1 !! "global",
         DailyEcosystemStats.p2pTransferCount <$> Store.dailyEcosystemStats s1 !! 0))
  = Some (1, 5, Some 5, Some 1) /\
  (s1 ← snd <$> deliver sampleTransfer emptyStore;
   s2 ← snd <$> deliver sampleTransfer s1;
   Some (transactionCountOf s2 (ed_from sampleTransfer),
         volumeOutOf s2 (ed_from sampleTransfer),
         EcosystemStats.p2pVolume <$> Store.ecosystemStats s2 !! "global",
         DailyEcosystemStats.p2pTransferCount <$> Store.dailyEcosystemStats s2 !! 0))
  = Some (2, 10, Some 10, Some 2) /\
  ~ redelivery_claim.
Proof.
  split; [vm_compute; reflexivity |]. split; [vm_compute; reflexivity |].
  intros claim.
  destruct sampleTransfer_delivered as [[id1 s1] E1].
  destruct (redelivery_run sampleTransfer emptyStore s1 id1 E1)
    as (s2 & E2 & _ & _ & _ & Hcount & _).
  destruct (claim _ _ _ _ _ _ E1 E2) as (Haccounts & _).
  unfold transactionCountOf in Hcount. rewrite Haccounts in Hcount.
  destruct (decide (ed_from sampleTransfer = ed_to sampleTransfer)) as [Heq | _];
    [discriminate Heq |].
  destruct (Store.accounts s1 !! ed_from sampleTransfer); lia.
Qed.

(** C1, amended.  When an event has been delivered, delivering it again
    completes, returns the same ledger id and leaves the ledger table as it
    was, but applies the aggregation once more: the second delivery is
    exactly the aggregation ([updateAccountActivity], then
    [updateEcosystemStats]) run on the store the first delivery left.  The
    position tables are untouched; the transaction counts of sender and
    receiver grow by one more (by two when they are one address), the
    sender's outgoing volume and the receiver's incoming volume by the value
    once more. *)
Theorem redelivery_reapplies
    (e : EventDescriptor) (s s1 : Store.t) (id : Bytes) :
  deliver e s = Some (id, s1) ->
  exists s2,
    deliver e s1 = Some (id, s2) /\
    aggregate e s1 = Some s2 /\
    Store.transactions s2 = Store.transactions s1 /\
    positionTablesEqual s1 s2 /\
    transactionCountOf s2 (ed_from e) =
      transactionCountOf s1 (ed_from e) + (if decide (ed_from e = ed_to e) then 2 else 1) /\
    transactionCountOf s2 (ed_to e) =
      transactionCountOf s1 (ed_to e) + (if decide (ed_from e = ed_to e) then 2 else 1) /\
    volumeOutOf s2 (ed_from e) = volumeOutOf s1 (ed_from e) + ed_value e /\
    volumeInOf s2 (ed_to e) = volumeInOf s1 (ed_to e) + ed_value e.
Proof. exact (redelivery_run e s s1 id). Qed.

(** The amended statement at the sample transfer on the empty store. *)
Lemma redelivery_reapplies_witness :
  exists id s1 s2,
    deliver sampleTransfer emptyStore = Some (id, s1) /\
    deliver sampleTransfer s1 = Some (id, s2) /\
    transactionCountOf s2 (ed_from sampleTransfer)
      = transactionCountOf s1 (ed_from sampleTransfer) + 1.
Proof.
  destruct sampleTransfer_delivered as [[id s1] E1].
  destruct (redelivery_reapplies sampleTransfer emptyStore s1 id E1)
    as (s2 & Hsecond & _ & _ & _ & Hcount & _).
  exists id, s1, s2. split; [exact E1 |]. split; [exact Hsecond |].
  exact Hcount.
Defined.

(** ** The trove handlers: when they complete and what they write *)

(** The value of [calculateCollateralRatio]; it never aborts. *)
Lemma calculateCollateralRatio_value (c d : BigInt) :
  Helpers.calculateCollateralRatio c d =
    Some (if d =? 0 then bd 99999 1
          else (toBigDecimal c / toBigDecimal d * bd 100 1)%Qc).
Proof.
  unfold Helpers.calculateCollateralRatio, ZERO_BI.
  destruct (Z.eqb_spec d 0) as [Hd | Hd]; [reflexivity |].
  rewrite bd_div_nonzero by assumption. reflexivity.
Qed.

(** With non-negative collateral and debt the ratio is not negative. *)
Lemma collateralRatio_nonneg (c d : BigInt) :
  0 <= c -> 0 <= d ->
  (0 <= (if d =? 0 then bd 99999 1
         else (toBigDecimal c / toBigDecimal d * bd 100 1)%Qc))%Qc.
Proof.
  intros Hc Hd. destruct (Z.eqb_spec d 0) as [-> | Hne]; [discriminate |].
  unfold Qcle, Qcdiv, Qcmult, Qcinv, bd, toBigDecimal, Qc_of_Z. cbn [this Q2Qc].
  repeat setoid_rewrite Qred_correct.
  destruct d as [| p | p]; try lia.
  unfold Qle, Qmult, Qinv, inject_Z. cbn. nia.
Qed.

(** A non-negative decimal plus one is not zero. *)
Lemma nonneg_plus_one (x : BigDecimal) :
  (0 <= x)%Qc -> bd_equals (x + bd 1 1)%Qc ZERO_BD = false.
Proof.
  intros Hx. destruct (bd_equals (x + bd 1 1)%Qc ZERO_BD) eqn:E; [| reflexivity].
  apply bd_equals_spec in E. apply (f_equal this) in E.
  unfold Qcplus, bd, ZERO_BD, bd in E. cbn [this Q2Qc] in E.
  assert (Hq : (x + Qred (1 # 1) == 0)%Q).
  { rewrite <- (Qred_correct (x + Qred (1 # 1))), E. reflexivity. }
  rewrite Qred_correct in Hq. unfold Qcle in Hx. cbn [this Q2Qc] in Hx.
  change (Qred 0) with (0 # 1)%Q in Hx. clear E. exfalso.
  unfold Qeq, Qle, Qplus in *. cbn in *. lia.
Qed.

Lemma bd_div_defined (a b : BigDecimal) :
  bd_equals b ZERO_BD = false -> bd_div a b = Some (a / b)%Qc.
Proof. intros H. unfold bd_div. rewrite H. reflexivity. Qed.

(** [calculateLiquidationRiskScore] completes when the collateral ratio is
    not negative and the trove was not opened in the future. *)
Lemma calculateLiquidationRiskScore_run (trove : Trove.t) :
  (0 <= Trove.collateralRatio trove)%Qc -> 0 <= Trove.daysOpen trove ->
  is_Some (TroveManager.calculateLiquidationRiskScore trove).
Proof.
  intros Hcr Hdays. unfold TroveManager.calculateLiquidationRiskScore.
  rewrite (bd_div_defined _ (Trove.collateralRatio trove + bd 1 1)%Qc)
    by (apply nonneg_plus_one; exact Hcr).
  cbn [mbind option_bind].
  destruct (Trove.operationCount trove >? ZERO_BI).
  - rewrite bd_div_nonzero by lia. cbn [mbind option_bind app length Z.of_nat Z.ltb].
    cbn. rewrite (bd_div_nonzero _ 3) by lia. eauto.
  - cbn [mbind option_bind app length]. cbn. rewrite (bd_div_nonzero _ 3) by lia. eauto.
Qed.

Lemma analyticsRatio_fields (collateralRatio : BigDecimal) (trove : Trove.t) :
  let trove' := TroveManager.analyticsRatio collateralRatio trove in
  positionOf trove' = positionOf trove /\
  Trove.collateralRatio trove' = collateralRatio /\
  Trove.healthScore trove' = TroveManager.calculateTroveHealthScore collateralRatio /\
  Trove.riskLevel trove' = TroveManager.classifyTroveRiskLevel collateralRatio /\
  Trove.operationCount trove' = Trove.operationCount trove /\
  Trove.riskEvents trove' = Trove.riskEvents trove.
Proof.
  unfold TroveManager.analyticsRatio, positionOf. cbv zeta.
  destruct (bd_lt _ _); repeat split; reflexivity.
Qed.

Lemma analyticsSafetyMargin_fields (trove : Trove.t) :
  let trove' := TroveManager.analyticsSafetyMargin trove in
  positionOf trove' = positionOf trove /\
  Trove.collateralRatio trove' = Trove.collateralRatio trove /\
  Trove.healthScore trove' = Trove.healthScore trove /\
  Trove.riskLevel trove' = Trove.riskLevel trove /\
  Trove.operationCount trove' = Trove.operationCount trove /\
  Trove.riskEvents trove' =
    Trove.riskEvents trove
    + (if bd_gt (Trove.collateralRatio trove) (bd 110 1) then 0 else 1).
Proof.
  unfold TroveManager.analyticsSafetyMargin, positionOf. cbv zeta.
  destruct (bd_gt _ _); cbn; repeat split; try reflexivity; lia.
Qed.

Lemma analyticsLifetime_fields
    (collateral debt previousCollateral previousDebt : BigInt) (trove : Trove.t) :
  let trove' :=
    TroveManager.analyticsLifetime collateral debt previousCollateral previousDebt trove in
  positionOf trove' = positionOf trove /\
  Trove.collateralRatio trove' = Trove.collateralRatio trove /\
  Trove.healthScore trove' = Trove.healthScore trove /\
  Trove.riskLevel trove' = Trove.riskLevel trove /\
  Trove.operationCount trove' = Trove.operationCount trove + 1 /\
  Trove.riskEvents trove' = Trove.riskEvents trove.
Proof.
  unfold TroveManager.analyticsLifetime, positionOf. cbv zeta.
  destruct (_ >? _); [| destruct (_ <? _)];
    (destruct (_ >? _); [| destruct (_ <? _)]); repeat split; reflexivity.
Qed.

(** The block chain completes on a trove with non-negative collateral and
    debt, collateral present whenever there is debt, and an opening time
    that is not in the future; it leaves the position fields as they were
    and records the ratio, the health score and the risk level of the new
    collateral and debt. *)
Lemma updateTroveAnalytics_run
    (trove : Trove.t) (previousCollateral previousDebt timestamp collateral debt : BigInt) :
  Trove.collateral trove = Some collateral -> Trove.debt trove = Some debt ->
  0 <= collateral -> 0 <= debt -> (0 < debt -> collateral <> 0) ->
  0 <= Trove.daysOpen trove ->
  exists trove' collateralRatio,
    TroveManager.updateTroveAnalytics trove previousCollateral previousDebt timestamp
      = Some trove' /\
    Helpers.calculateCollateralRatio collateral debt = Some collateralRatio /\
    positionOf trove' = positionOf trove /\
    Trove.collateralRatio trove' = collateralRatio /\
    Trove.healthScore trove' = TroveManager.calculateTroveHealthScore collateralRatio /\
    Trove.riskLevel trove' = TroveManager.classifyTroveRiskLevel collateralRatio /\
    Trove.operationCount trove' = Trove.operationCount trove + 1 /\
    Trove.riskEvents trove' =
      Trove.riskEvents trove + (if bd_gt collateralRatio (bd 110 1) then 0 else 1).
Proof.
  intros Hcoll Hdebt Hc Hd Hcd Hdays.
  unfold TroveManager.updateTroveAnalytics. rewrite Hcoll, Hdebt. cbn [mbind option_bind].
  rewrite calculateCollateralRatio_value. cbn [mbind option_bind].
  pose proof (collateralRatio_nonneg collateral debt Hc Hd) as Hcr.
  set (cr := if debt =? 0 then _ else _) in *. clearbody cr.
  destruct (analyticsRatio_fields cr trove) as (P1 & C1 & H1 & R1 & O1 & E1).
  set (t1 := TroveManager.analyticsRatio cr trove) in *. clearbody t1.
  assert (Hprice : exists t2,
             TroveManager.analyticsLiquidationPrice collateral debt t1 = Some t2 /\
             positionOf t2 = positionOf t1 /\
             Trove.collateralRatio t2 = Trove.collateralRatio t1 /\
             Trove.healthScore t2 = Trove.healthScore t1 /\
             Trove.riskLevel t2 = Trove.riskLevel t1 /\
             Trove.operationCount t2 = Trove.operationCount t1 /\
             Trove.riskEvents t2 = Trove.riskEvents t1).
  { unfold TroveManager.analyticsLiquidationPrice, ZERO_BI.
    destruct (Z.gtb_spec debt 0) as [Hpos | _].
    - rewrite bd_div_nonzero by (apply Hcd; lia). cbn [mbind option_bind].
      eexists. split; [reflexivity |]. repeat split; reflexivity.
    - eexists. split; [reflexivity |]. repeat split; reflexivity. }
  destruct Hprice as (t2 & -> & P2 & C2 & H2 & R2 & O2 & E2). cbn [mbind option_bind].
  destruct (analyticsSafetyMargin_fields t2) as (P3 & C3 & H3 & R3 & O3 & E3).
  set (t3 := TroveManager.analyticsSafetyMargin t2) in *. clearbody t3.
  destruct (analyticsLifetime_fields collateral debt previousCollateral previousDebt t3)
    as (P4 & C4 & H4 & R4 & O4 & E4).
  set (t4 := TroveManager.analyticsLifetime collateral debt previousCollateral
               previousDebt t3) in *.
  clearbody t4.
  assert (Hfive : exists t5,
             TroveManager.analyticsAverage t4 = Some t5 /\
             positionOf t5 = positionOf t4 /\
             Trove.collateralRatio t5 = Trove.collateralRatio t4 /\
             Trove.healthScore t5 = Trove.healthScore t4 /\
             Trove.riskLevel t5 = Trove.riskLevel t4 /\
             Trove.operationCount t5 = Trove.operationCount t4 /\
             Trove.riskEvents t5 = Trove.riskEvents t4).
  { unfold TroveManager.analyticsAverage, ZERO_BI.
    destruct (Z.gtb_spec (Trove.operationCount t4) 0) as [Hpos | _].
    - rewrite bd_div_nonzero by lia. cbn [mbind option_bind].
      eexists. split; [reflexivity |]. repeat split; reflexivity.
    - eexists. split; [reflexivity |]. repeat split; reflexivity. }
  destruct Hfive as (t5 & -> & P5 & C5 & H5 & R5 & O5 & E5). cbn [mbind option_bind].
  unfold TroveManager.analyticsScores.
  destruct (calculateTrovePerformanceScore_weighted t5) as (stab & age & _ & _ & ->).
  cbn [mbind option_bind].
  set (score := weightedScore _ _ _ _). clearbody score.
  assert (Hdays5 : Trove.daysOpen t5 = Trove.daysOpen trove).
  { apply (f_equal snd) in P5, P4, P3, P2, P1. cbn [snd positionOf] in P5, P4, P3, P2, P1.
    congruence. }
  destruct (calculateLiquidationRiskScore_run (Trove.set_performanceScore score t5))
    as [risk Hrisk].
  - change (0 <= Trove.collateralRatio t5)%Qc.
    rewrite C5, C4, C3, C2, C1. exact Hcr.
  - change (0 <= Trove.daysOpen t5). rewrite Hdays5. exact Hdays.
  - rewrite Hrisk. cbn [mbind option_bind].
    eexists. exists cr. split; [reflexivity |]. split; [reflexivity |].
    split; [| split; [| split; [| split; [| split]]]].
    + change (positionOf t5 = positionOf trove). congruence.
    + change (Trove.collateralRatio t5 = cr). congruence.
    + change (Trove.healthScore t5 = TroveManager.calculateTroveHealthScore cr). congruence.
    + change (Trove.riskLevel t5 = TroveManager.classifyTroveRiskLevel cr). congruence.
    + change (Trove.operationCount t5 = Trove.operationCount trove + 1). congruence.
    + change (Trove.riskEvents t5 =
              Trove.riskEvents trove + (if bd_gt cr (bd 110 1) then 0 else 1)).
      rewrite E5, E4, E3, C2, C1, E2, E1. reflexivity.
Qed.

(** The ledger write and the aggregation leave the position tables alone. *)
Lemma ensureAccount_positionTables (address : Bytes) (s : Store.t) :
  positionTablesEqual s (UniversalTransaction.ensureAccount address s).2.
Proof.
  unfold UniversalTransaction.ensureAccount, positionTablesEqual.
  destruct (Store.accounts s !! address); repeat split; reflexivity.
Qed.

Lemma positionTablesEqual_trans (s1 s2 s3 : Store.t) :
  positionTablesEqual s1 s2 -> positionTablesEqual s2 s3 -> positionTablesEqual s1 s3.
Proof.
  unfold positionTablesEqual. intros (A1 & A2 & A3 & A4 & A5) (B1 & B2 & B3 & B4 & B5).
  repeat split; congruence.
Qed.

Lemma recordTransaction_positionTables (e : EventDescriptor) (txId : Bytes) (s : Store.t) :
  positionTablesEqual s (recordTransaction e txId s).
Proof.
  unfold recordTransaction.
  destruct (Store.transactions s !! txId); [repeat split; reflexivity |].
  pose proof (ensureAccount_positionTables (ed_from e) s) as H1.
  destruct (UniversalTransaction.ensureAccount (ed_from e) s) as [a1 s1].
  pose proof (ensureAccount_positionTables (ed_to e) s1) as H2.
  destruct (UniversalTransaction.ensureAccount (ed_to e) s1) as [a2 s2].
  cbn [snd] in H1, H2.
  apply (positionTablesEqual_trans _ s1); [exact H1 |].
  apply (positionTablesEqual_trans _ s2); [exact H2 |].
  repeat split; reflexivity.
Qed.

Lemma deliver_positionTables (e : EventDescriptor) (s s1 : Store.t) (id : Bytes) :
  deliver e s = Some (id, s1) -> positionTablesEqual s s1.
Proof.
  rewrite deliver_unfold. intros H.
  destruct (UniversalTransaction.transactionId _ _) as [txId |]; [| discriminate H].
  cbn [mbind option_bind] in H.
  destruct (aggregate e (recordTransaction e txId s)) as [s' |] eqn:A; [| discriminate H].
  injection H as _ <-.
  apply aggregate_deltas in A as (_ & Hpos & _).
  eapply positionTablesEqual_trans; [apply recordTransaction_positionTables | exact Hpos].
Qed.

(** For a borrower without a stored row the handler constructs a row and
    then reads its [collateral], which was never assigned: the handler
    aborts, whatever the event and the rest of the store. *)
Lemma handleTroveUpdated_new_borrower (event : TroveManager.TroveUpdatedEvent) (s : Store.t) :
  Store.troves s !! TroveManager.tu_borrower event = None ->
  TroveManager.handleTroveUpdated event s = None.
Proof.
  intros Hnone. unfold TroveManager.handleTroveUpdated.
  change (UniversalTransaction.createUniversalTransaction _ _ _ _ _ _ _ _ _ _ _ _ _ _ s)
    with (deliver (troveUpdatedDescriptor event) s).
  destruct (deliver (troveUpdatedDescriptor event) s) as [[id s1] |] eqn:Hdeliver;
    [| reflexivity].
  cbn [mbind option_bind].
  pose proof (deliver_positionTables _ _ _ _ Hdeliver) as Hpos1.
  pose proof (ensureAccount_positionTables (TroveManager.tu_borrower event) s1) as Hpos2.
  destruct (UniversalTransaction.ensureAccount (TroveManager.tu_borrower event) s1)
    as [account s1'].
  cbn [snd] in Hpos2.
  pose proof (positionTablesEqual_trans _ _ _ Hpos1 Hpos2) as (_ & Ptroves & _).
  rewrite Ptroves, Hnone. reflexivity.
Qed.

(** [handleTroveUpdated] up to its last call: for a stored trove and an
    event it can complete on, the handler reaches
    [updateProtocolStatsForTrove] with the trove row and its operation row
    written and the protocol statistics not yet touched. *)
Lemma handleTroveUpdated_run (event : TroveManager.TroveUpdatedEvent) (s : Store.t)
    (old : Trove.t) (previousCollateral previousDebt : BigInt) (previousStatus : string) :
  storedTrove s (TroveManager.tu_borrower event) old previousCollateral previousDebt
    previousStatus ->
  troveEventOk event old ->
  exists s2 trove' operation collateralRatio,
    TroveManager.handleTroveUpdated event s =
      TroveManager.updateProtocolStatsForTrove trove'
        (TroveManager.orString previousStatus "ACTIVE") previousDebt previousCollateral
        false (TroveManager.tu_blockTimestamp event)
        (TroveManager.tu_blockNumber event) s2 /\
    Store.protocolStats s2 = Store.protocolStats s /\
    Store.liquidations s2 = Store.liquidations s /\
    Store.marketConditions s2 = Store.marketConditions s /\
    Store.troves s2 = <[TroveManager.tu_borrower event := trove']> (Store.troves s) /\
    Store.troveOperations s2 =
      <[concatI32 (TroveManager.tu_hash event) (TroveManager.tu_logIndex event)
          := operation]> (Store.troveOperations s) /\
    TroveOperation.trove operation = TroveManager.tu_borrower event /\
    TroveOperation.collateralAfter operation = TroveManager.tu_coll event /\
    TroveOperation.debtAfter operation = TroveManager.tu_debt event /\
    Trove.collateral trove' = Some (TroveManager.tu_coll event) /\
    Trove.debt trove' = Some (TroveManager.tu_debt event) /\
    Trove.status trove' = Some (statusOfDebt (TroveManager.tu_debt event)) /\
    Helpers.calculateCollateralRatio (TroveManager.tu_coll event)
      (TroveManager.tu_debt event) = Some collateralRatio /\
    Trove.collateralRatio trove' = collateralRatio /\
    Trove.healthScore trove' = TroveManager.calculateTroveHealthScore collateralRatio /\
    Trove.riskLevel trove' = TroveManager.classifyTroveRiskLevel collateralRatio /\
    Trove.operationCount trove' = Trove.operationCount old + 1.
Proof.
  intros (Hold & Hpc & Hpd & Hps) (Hlog & Hts & Hc & Hd & Hcd & Hopened).
  unfold TroveManager.handleTroveUpdated.
  change (UniversalTransaction.createUniversalTransaction _ _ _ _ _ _ _ _ _ _ _ _ _ _ s)
    with (deliver (troveUpdatedDescriptor event) s).
  destruct (deliver_total (troveUpdatedDescriptor event) s
              (concatI32 (TroveManager.tu_hash event) (TroveManager.tu_logIndex event)))
    as [s1 Hdeliver].
  { cbn [UniversalTransaction.transactionId troveUpdatedDescriptor ed_hash ed_logIndex].
    rewrite toI32_in_range by lia. reflexivity. }
  { cbn [troveUpdatedDescriptor ed_blockTimestamp]. rewrite toI32_in_range by lia. eauto. }
  rewrite Hdeliver. cbn [mbind option_bind].
  pose proof (deliver_positionTables _ _ _ _ Hdeliver) as Hpos1.
  pose proof (ensureAccount_positionTables (TroveManager.tu_borrower event) s1) as Hpos2.
  destruct (UniversalTransaction.ensureAccount (TroveManager.tu_borrower event) s1)
    as [account s1'].
  cbn [snd] in Hpos2.
  pose proof (positionTablesEqual_trans _ _ _ Hpos1 Hpos2) as (Pstats & Ptroves & Pops & Pliq & Pmkt).
  clear Hpos1 Hpos2 Hdeliver.
  rewrite Ptroves, Hold, Hpc, Hpd, Hps. cbn [mbind option_bind].
  unfold bi_div. cbn [Z.eqb mbind option_bind].
  set (days := (TroveManager.tu_blockTimestamp event - Trove.openedAtTimestamp _) `quot` 86400).
  assert (Hdays : 0 <= days).
  { subst days. cbn. apply Z.quot_pos; lia. }
  clearbody days.
  set (t0 := if TroveManager.tu_debt event =? ZERO_BI then _ else _).
  assert (Ht0 : Trove.collateral t0 = Some (TroveManager.tu_coll event) /\
                Trove.debt t0 = Some (TroveManager.tu_debt event) /\
                Trove.status t0 = Some (statusOfDebt (TroveManager.tu_debt event)) /\
                Trove.daysOpen t0 = days /\
                Trove.operationCount t0 = Trove.operationCount old).
  { subst t0. unfold statusOfDebt, ZERO_BI.
    destruct (TroveManager.tu_debt event =? 0); repeat split; reflexivity. }
  clearbody t0. destruct Ht0 as (T0c & T0d & T0s & T0days & T0ops).
  destruct (updateTroveAnalytics_run t0 previousCollateral previousDebt
              (TroveManager.tu_blockTimestamp event)
              (TroveManager.tu_coll event) (TroveManager.tu_debt event))
    as (trove' & cr & Hrun & Hcr & Hposition & Hratio & Hhealth & Hlevel & Hops & _);
    try assumption; [rewrite T0days; exact Hdays |].
  rewrite Hrun. cbn [mbind option_bind].
  unfold TroveManager.createTroveOperation. rewrite toI32_in_range by lia.
  cbn [mbind option_bind].
  eexists. exists trove'. eexists. exists cr.
  split; [reflexivity |].
  unfold positionOf in Hposition.
  cbn [Store.protocolStats Store.liquidations Store.marketConditions Store.troves
         Store.troveOperations TroveManager.saveTrove Store.set_troves
         Store.set_troveOperations TroveOperation.trove TroveOperation.collateralAfter
         TroveOperation.debtAfter].
  rewrite Pops, Ptroves.
  repeat split; try assumption; try reflexivity; try congruence.
Qed.

(** Without a statistics row [updateProtocolStatsForTrove] returns the
    store as it is. *)
Lemma updateProtocolStatsForTrove_absent
    (trove : Trove.t) (previousStatus : string) (previousDebt previousCollateral : BigInt)
    (isNew : bool) (timestamp blockNumber : BigInt) (s : Store.t) :
  Store.protocolStats s !! TroveManager.GLOBAL_STATS_ID = None ->
  TroveManager.updateProtocolStatsForTrove trove previousStatus previousDebt
    previousCollateral isNew timestamp blockNumber s = Some s.
Proof.
  intros H. unfold TroveManager.updateProtocolStatsForTrove. rewrite H. reflexivity.
Qed.

(** With a statistics row, and a trove whose status, debt and collateral
    are set, [updateProtocolStatsForTrove] rewrites that row only: the trove
    total grows by one for a new trove, the active count moves by
    [activeDelta], debt and collateral totals move by the change of the
    trove. *)
Lemma updateProtocolStatsForTrove_present
    (trove : Trove.t) (previousStatus status : string)
    (previousDebt previousCollateral debt collateral : BigInt)
    (isNew : bool) (timestamp blockNumber : BigInt) (s : Store.t) (stats : ProtocolStats.t) :
  Store.protocolStats s !! TroveManager.GLOBAL_STATS_ID = Some stats ->
  Trove.status trove = Some status -> Trove.debt trove = Some debt ->
  Trove.collateral trove = Some collateral ->
  exists stats',
    TroveManager.updateProtocolStatsForTrove trove previousStatus previousDebt
      previousCollateral isNew timestamp blockNumber s
    = Some (Store.set_protocolStats
              (<[TroveManager.GLOBAL_STATS_ID := stats']> (Store.protocolStats s)) s) /\
    ProtocolStats.activeTroveCount stats' =
      ProtocolStats.activeTroveCount stats + activeDelta previousStatus status /\
    ProtocolStats.totalTroveCount stats' =
      ProtocolStats.totalTroveCount stats + (if isNew then 1 else 0) /\
    ProtocolStats.totalDebt stats' = ProtocolStats.totalDebt stats + (debt - previousDebt) /\
    ProtocolStats.totalCollateral stats' =
      ProtocolStats.totalCollateral stats + (collateral - previousCollateral) /\
    ProtocolStats.lifetimeLiquidationCount stats' =
      ProtocolStats.lifetimeLiquidationCount stats.
Proof.
  intros Hstats Hstatus Hdebt Hcoll.
  unfold TroveManager.updateProtocolStatsForTrove.
  rewrite Hstats, Hstatus, Hdebt, Hcoll. cbn [mbind option_bind].
  eexists. split; [reflexivity |].
  unfold activeDelta.
  destruct (String.eqb_spec previousStatus status) as [-> | Hne].
  - destruct (String.eqb status "ACTIVE"), isNew; cbn; repeat split; lia.
  - destruct (String.eqb status "ACTIVE"), (String.eqb previousStatus "ACTIVE"), isNew;
      cbn; repeat split; lia.
Qed.

(** ** C9: no statistics row, no statistics update *)



Lemma sampleTrove_stored (s : Store.t) :
  Store.troves s !! replicate 20 17 = Some sampleTrove ->
  storedTrove s (replicate 20 17) sampleTrove 2000 500 "ACTIVE".
Proof. intros H. repeat split. exact H. Qed.

Lemma adjustmentEvent_ok (logIndex debt : BigInt) :
  0 <= logIndex <= 2147483647 -> 0 <= debt ->
  troveEventOk (adjustmentEvent logIndex debt) sampleTrove.
Proof.
  intros Hlog Hdebt. unfold troveEventOk. cbn. repeat split; try lia; discriminate.
Qed.


(** ** C2: the counter of active troves *)

(** C2, the code at the failing input.  A [TroveUpdated] event of a
    borrower without a stored trove is not handled at all: the handler
    constructs a row and aborts on the first read of its [collateral], which
    was never assigned.  So the opening of a trove writes no trove row and
    leaves the count of active troves as it was, and every run of updates
    that starts with such an event aborts. *)
Theorem activeTroveCount_first_opening
    (event : TroveManager.TroveUpdatedEvent) (s : Store.t) :
  Store.troves s !! TroveManager.tu_borrower event = None ->
  TroveManager.handleTroveUpdated event s = None /\
  forall later, handleTroveUpdates (event :: later) s = None.
Proof.
  intros Hnone.
  pose proof (handleTroveUpdated_new_borrower event s Hnone) as Habort.
  split; [exact Habort |].
  intros later. cbn [handleTroveUpdates]. rewrite Habort. reflexivity.
Qed.

(** The theorem at the opening event (collateral 2000, debt 500) on the
    store whose statistics row has just been initialised, and at the run
    that opens, adjusts twice and closes. *)
Lemma activeTroveCount_first_opening_witness :
  TroveManager.handleTroveUpdated openingEvent statisticsOnlyStore = None /\
  handleTroveUpdates
    [openingEvent; adjustmentEvent 0 600; adjustmentEvent 1 550; adjustmentEvent 2 0]
    statisticsOnlyStore = None.
Proof.
  destruct (activeTroveCount_first_opening openingEvent statisticsOnlyStore eq_refl)
    as [Habort Hrun].
  split; [exact Habort | apply Hrun].
Defined.

(** * Further properties of the scoring and classification functions *)

(** The rational value of a decimal literal. *)
Lemma bd_this (n : Z) (d : positive) : (this (bd n d) == n # d)%Q.
Proof. unfold bd. cbn [this Q2Qc]. apply Qred_correct. Qed.

Ltac bd_cases :=
  repeat match goal with
         | |- context [bd_lt ?a ?b] =>
             let E := fresh "E" in
             destruct (bd_lt a b) eqn:E;
             [apply bd_lt_spec in E | apply bd_lt_false in E]
         | |- context [bd_gt ?a ?b] =>
             let E := fresh "E" in
             destruct (bd_gt a b) eqn:E;
             [apply bd_gt_spec in E | apply bd_gt_false in E]
         end.

Ltac to_Q :=
  unfold Qclt, Qcle in *;
  repeat match goal with
         | H : context [this (bd ?n ?d)] |- _ => rewrite (bd_this n d) in H
         | |- context [this (bd ?n ?d)] => rewrite (bd_this n d)
         end.

(** The risk weight of an amount is one of the seven configured weights. *)
Lemma amountRiskWeight_values (amount : BigInt) :
  TokenFinal.getAmountRiskWeight amount
    ∈ [bd 0 1; bd 2 1; bd 5 1; bd 15 1; bd 25 1; bd 40 1; bd 60 1].
Proof.
  unfold TokenFinal.getAmountRiskWeight, TokenFinal.getTransferAmountTier.
  repeat match goal with
         | |- context [?x <? ?y] => destruct (x <? y)
         end; cbn [String.eqb Ascii.eqb Bool.eqb]; set_solver.
Qed.

(** [clamp] with bounds in order returns a value between them. *)
Lemma clamp_between (value min max : BigDecimal) :
  (min <= max)%Qc ->
  (min <= Helpers.clamp value min max)%Qc /\ (Helpers.clamp value min max <= max)%Qc.
Proof.
  intros Hbounds. unfold Helpers.clamp. bd_cases; split; to_Q; lra.
Qed.

(** X1.  With bounds in order, [clamp] returns a value between them, and
    returns its argument unchanged when that already lies between them. *)
Theorem clamp_range (value min max : BigDecimal) :
  (min <= max)%Qc ->
  (min <= Helpers.clamp value min max)%Qc /\
  (Helpers.clamp value min max <= max)%Qc /\
  ((min <= value)%Qc -> (value <= max)%Qc -> Helpers.clamp value min max = value).
Proof.
  intros Hbounds. unfold Helpers.clamp.
  bd_cases; repeat split; intros; to_Q; try lra; try reflexivity.
Qed.

Lemma clamp_range_witness :
  (bd 0 1 <= Helpers.clamp (bd 250 1) (bd 0 1) (bd 100 1))%Qc /\
  (Helpers.clamp (bd 250 1) (bd 0 1) (bd 100 1) <= bd 100 1)%Qc.
Proof.
  destruct (clamp_range (bd 250 1) (bd 0 1) (bd 100 1)) as (Hlow & Hhigh & _).
  - to_Q. lra.
  - split; assumption.
Defined.

(** X2.  The health score is a step function that never decreases when the
    collateral ratio grows, and it is one of 0, 25, 50, 75, 100. *)
Theorem healthScore_monotone (a b : BigDecimal) :
  (a <= b)%Qc ->
  (TroveManager.calculateTroveHealthScore a
   <= TroveManager.calculateTroveHealthScore b)%Qc /\
  TroveManager.calculateTroveHealthScore a
    ∈ [bd 0 1; bd 25 1; bd 50 1; bd 75 1; bd 100 1].
Proof.
  intros Hab. split.
  - unfold TroveManager.calculateTroveHealthScore, ZERO_BD. bd_cases; to_Q; lra.
  - unfold TroveManager.calculateTroveHealthScore, ZERO_BD.
    repeat match goal with |- context [bd_lt ?x ?y] => destruct (bd_lt x y) end;
      set_solver.
Qed.

Lemma healthScore_monotone_witness :
  (TroveManager.calculateTroveHealthScore (bd 120 1)
   <= TroveManager.calculateTroveHealthScore (bd 180 1))%Qc.
Proof.
  apply (healthScore_monotone (bd 120 1) (bd 180 1)). to_Q. lra.
Defined.

(** X3.  The risk level of a collateral ratio is decided by half-open
    intervals that are closed at their upper end: VERY_LOW above 200, LOW in
    (150, 200], MEDIUM in (125, 150], HIGH in (110, 125], VERY_HIGH in
    (105, 110], CRITICAL up to 105.  The health bands are closed at their
    lower end instead, so a ratio of exactly 200 has the top health score
    but not the top risk level. *)
Theorem riskLevel_intervals (ratio : BigDecimal) :
  let level := TroveManager.classifyTroveRiskLevel ratio in
  (level = "VERY_LOW" <-> (bd 200 1 < ratio)%Qc) /\
  (level = "LOW" <-> (bd 150 1 < ratio)%Qc /\ (ratio <= bd 200 1)%Qc) /\
  (level = "MEDIUM" <-> (bd 125 1 < ratio)%Qc /\ (ratio <= bd 150 1)%Qc) /\
  (level = "HIGH" <-> (bd 110 1 < ratio)%Qc /\ (ratio <= bd 125 1)%Qc) /\
  (level = "VERY_HIGH" <-> (bd 105 1 < ratio)%Qc /\ (ratio <= bd 110 1)%Qc) /\
  (level = "CRITICAL" <-> (ratio <= bd 105 1)%Qc) /\
  (TroveManager.calculateTroveHealthScore ratio = bd 100 1 <-> (bd 200 1 <= ratio)%Qc).
Proof.
  cbv zeta. unfold TroveManager.classifyTroveRiskLevel,
    TroveManager.calculateTroveHealthScore, ZERO_BD.
  bd_cases; repeat split; intros; try discriminate; try reflexivity;
    repeat match goal with H : _ /\ _ |- _ => destruct H end;
    try (to_Q; lra);
    try (exfalso;
         match goal with
         | H : bd _ _ = bd _ _ |- _ => apply (f_equal this) in H; vm_compute in H;
                                         discriminate H
         end).
Qed.

(** X4.  The risk weight of an amount never decreases when the amount
    grows, and it is one of the seven configured weights. *)
Theorem amountRiskWeight_monotone (a b : BigInt) :
  a <= b ->
  (TokenFinal.getAmountRiskWeight a <= TokenFinal.getAmountRiskWeight b)%Qc /\
  TokenFinal.getAmountRiskWeight a
    ∈ [bd 0 1; bd 2 1; bd 5 1; bd 15 1; bd 25 1; bd 40 1; bd 60 1].
Proof.
  intros Hab.
  unfold TokenFinal.getAmountRiskWeight, TokenFinal.getTransferAmountTier,
    TokenFinal.TransferAmountTiers.DUST_THRESHOLD,
    TokenFinal.TransferAmountTiers.MICRO_THRESHOLD,
    TokenFinal.TransferAmountTiers.SMALL_THRESHOLD,
    TokenFinal.TransferAmountTiers.MEDIUM_THRESHOLD,
    TokenFinal.TransferAmountTiers.LARGE_THRESHOLD,
    TokenFinal.TransferAmountTiers.WHALE_THRESHOLD,
    TokenFinal.RiskWeights.DUST_RISK, TokenFinal.RiskWeights.MICRO_RISK,
    TokenFinal.RiskWeights.SMALL_RISK, TokenFinal.RiskWeights.MEDIUM_RISK,
    TokenFinal.RiskWeights.LARGE_RISK, TokenFinal.RiskWeights.WHALE_RISK,
    TokenFinal.RiskWeights.INSTITUTIONAL_RISK.
  split.
  - repeat match goal with
           | |- context [?x <? ?y] => destruct (Z.ltb_spec x y)
           end; cbn [String.eqb Ascii.eqb Bool.eqb]; try lia; to_Q; lra.
  - repeat match goal with
           | |- context [?x <? ?y] => destruct (Z.ltb_spec x y)
           end; cbn [String.eqb Ascii.eqb Bool.eqb]; set_solver.
Qed.

Lemma amountRiskWeight_monotone_witness :
  (TokenFinal.getAmountRiskWeight 5 <= TokenFinal.getAmountRiskWeight 2000000000000000000000)%Qc.
Proof. apply (amountRiskWeight_monotone 5 2000000000000000000000). lia. Defined.

Lemma riskLevel_intervals_witness :
  TroveManager.classifyTroveRiskLevel (bd 200 1) = "LOW" /\
  TroveManager.calculateTroveHealthScore (bd 200 1) = bd 100 1.
Proof.
  destruct (riskLevel_intervals (bd 200 1)) as (_ & Hlow & _ & _ & _ & _ & Hhealth).
  split.
  - apply Hlow. split; to_Q; lra.
  - apply Hhealth. to_Q. lra.
Defined.

(** X5.  For a timestamp that fits 32 bits and is not negative,
    [isOffHoursTransaction] holds exactly when the second of the day is
    before 07:00:00 or from 22:00:00 on (the hour 6 is included: the test is
    [hour <= 6]).  For a negative timestamp that fits 32 bits it always
    holds.  The function aborts exactly outside [-2^32, 2^32); between 2^31
    and 2^32, and between -2^32 and -2^31, it answers for the wrapped
    32-bit reading of the timestamp. *)
Theorem offHours_window (timestamp : BigInt) :
  (0 <= timestamp <= 2147483647 ->
   TokenFinal.isOffHoursTransaction timestamp =
   Some ((timestamp mod 86400 <? 25200) || (79200 <=? timestamp mod 86400))) /\
  (-2147483648 <= timestamp < 0 ->
   TokenFinal.isOffHoursTransaction timestamp = Some true) /\
  (TokenFinal.isOffHoursTransaction timestamp = None <->
   timestamp < -4294967296 \/ 4294967296 <= timestamp) /\
  (-4294967296 <= timestamp < 4294967296 ->
   TokenFinal.isOffHoursTransaction timestamp =
   TokenFinal.isOffHoursTransaction (wrapI32 timestamp)).
Proof.
  unfold TokenFinal.isOffHoursTransaction. split; [| split; [| split]].
  - intros Hrange. rewrite toI32_in_range by lia. cbn [mbind option_bind]. f_equal.
    rewrite Z.rem_mod_nonneg by lia.
    rewrite Z.quot_div_nonneg by (try apply Z.mod_pos_bound; lia).
    pose proof (Z.mod_pos_bound timestamp 86400 ltac:(lia)) as Hmod.
    set (second := timestamp mod 86400) in *. clearbody second.
    destruct (Z.ltb_spec second 25200), (Z.leb_spec 79200 second),
      (Z.geb_spec (second / 3600) 22), (Z.leb_spec (second / 3600) 6);
      try reflexivity; exfalso;
      pose proof (Z.div_mod second 3600 ltac:(lia));
      pose proof (Z.mod_pos_bound second 3600 ltac:(lia)); lia.
  - intros Hrange. rewrite toI32_in_range by lia. cbn [mbind option_bind]. f_equal.
    assert (Hrem : Z.rem timestamp 86400 <= 0) by (apply Z.rem_nonpos; lia).
    assert (Hquot : Z.rem timestamp 86400 `quot` 3600 <= 0).
    { apply Z.quot_le_upper_bound; lia. }
    destruct (Z.leb_spec (Z.rem timestamp 86400 `quot` 3600) 6); [| lia].
    apply orb_true_r.
  - split.
    + intros Hnone.
      destruct (Z.lt_ge_cases timestamp (-4294967296)) as [Hlow | Hlow]; [left; exact Hlow |].
      destruct (Z.lt_ge_cases timestamp 4294967296) as [Hhigh | Hhigh]; [| right; exact Hhigh].
      rewrite toI32_defined in Hnone by lia. discriminate Hnone.
    + intros Hout. unfold toI32.
      destruct (Z.leb_spec (-4294967296) timestamp), (Z.ltb_spec timestamp 4294967296);
        try reflexivity; lia.
  - intros Hrange. rewrite toI32_defined by exact Hrange.
    rewrite (toI32_in_range (wrapI32 timestamp)) by apply wrapI32_range. reflexivity.
Qed.

(** The theorem at 06:30, at noon, and at 2^31 + 12 hours, which reads as
    a time in the year 1901. *)
Lemma offHours_window_witness :
  TokenFinal.isOffHoursTransaction 23400 = Some true /\
  TokenFinal.isOffHoursTransaction 43200 = Some false /\
  TokenFinal.isOffHoursTransaction 2147526848 =
  TokenFinal.isOffHoursTransaction (-2147440448).
Proof.
  split; [| split].
  - destruct (offHours_window 23400) as (H & _). rewrite H by lia. reflexivity.
  - destruct (offHours_window 43200) as (H & _). rewrite H by lia. reflexivity.
  - destruct (offHours_window 2147526848) as (_ & _ & _ & H). rewrite H by lia.
    reflexivity.
Defined.

(** X6.  Whatever the store, [getComposableRiskScore] completes when the
    timestamp fits 32 bits, and the score lies between 0 and 96 (the largest
    amount weight plus both new-account weights, times the off-hours
    multiplier). *)
Theorem composableRiskScore_bounds
    (from to : Bytes) (value timestamp : BigInt) (s : Store.t) :
  -2147483648 <= timestamp <= 2147483647 ->
  exists score,
    TokenFinal.getComposableRiskScore from to value timestamp s = Some score /\
    (bd 0 1 <= score)%Qc /\ (score <= bd 96 1)%Qc.
Proof.
  intros Hrange. unfold TokenFinal.getComposableRiskScore.
  unfold TokenFinal.isOffHoursTransaction. rewrite toI32_in_range by exact Hrange.
  cbn [mbind option_bind]. eexists. split; [reflexivity |].
  pose proof (amountRiskWeight_values value) as Hweight.
  set (weight := TokenFinal.getAmountRiskWeight value) in *. clearbody weight.
  unfold TokenFinal.RiskWeights.NEW_ACCOUNT_RISK, TokenFinal.RiskWeights.OFF_HOURS_MULTIPLIER.
  repeat match goal with
         | |- context [if ?c then _ else _] => destruct c
         end;
    repeat (apply elem_of_cons in Hweight as [-> | Hweight]);
    try (apply elem_of_nil in Hweight; contradiction);
    split; apply bd_lt_false; vm_compute; reflexivity.
Qed.

Lemma composableRiskScore_bounds_witness :
  exists score,
    TokenFinal.getComposableRiskScore (replicate 20 17) (replicate 20 34)
      2000000000000000000000000 1000 emptyStore = Some score /\
    (score <= bd 96 1)%Qc.
Proof.
  destruct (composableRiskScore_bounds (replicate 20 17) (replicate 20 34)
              2000000000000000000000000 1000 emptyStore) as (score & Hrun & _ & Hhigh).
  - lia.
  - exists score. split; assumption.
Defined.

(** The four bytes appended by [concatI32] determine the integer modulo
    2^32. *)
Lemma concatI32_bytes (i : Z) :
  Z.land i 255 + 256 * Z.land (Z.shiftr i 8) 255
  + 65536 * Z.land (Z.shiftr i 16) 255 + 16777216 * Z.land (Z.shiftr i 24) 255
  = i mod 4294967296.
Proof.
  change 255 with (Z.ones 8).
  rewrite !Z.land_ones, !Z.shiftr_div_pow2 by lia.
  change (2 ^ 8) with 256. change (2 ^ 16) with 65536. change (2 ^ 24) with 16777216.
  Z.div_mod_to_equations. lia.
Qed.

(** Two ids of hashes of one length are equal only for equal hashes and
    log indices with the same 32-bit reading. *)
Lemma transactionId_equal
    (hash1 hash2 : Bytes) (logIndex1 logIndex2 : option BigInt) (id : Bytes) :
  length hash1 = length hash2 ->
  UniversalTransaction.transactionId hash1 logIndex1 = Some id ->
  UniversalTransaction.transactionId hash2 logIndex2 = Some id ->
  hash1 = hash2 /\ wrapI32 <$> logIndex1 = wrapI32 <$> logIndex2.
Proof.
  intros Hlen H1 H2. unfold UniversalTransaction.transactionId in *.
  destruct logIndex1 as [i1 |], logIndex2 as [i2 |].
  - destruct (toI32 i1) as [j1 |] eqn:E1; [| discriminate H1].
    destruct (toI32 i2) as [j2 |] eqn:E2; [| discriminate H2].
    cbn [mbind option_bind] in H1, H2.
    apply toI32_Some in E1 as [-> _]. apply toI32_Some in E2 as [-> _].
    assert (Heq : concatI32 hash1 (wrapI32 i1) = concatI32 hash2 (wrapI32 i2))
      by congruence.
    unfold concatI32 in Heq. apply app_inj_1 in Heq as [Hhash Hbytes]; [| exact Hlen].
    split; [exact Hhash |]. cbn [fmap option_fmap option_map]. f_equal.
    pose proof (concatI32_bytes (wrapI32 i1)) as B1.
    pose proof (concatI32_bytes (wrapI32 i2)) as B2.
    injection Hbytes as Hb0 Hb1 Hb2 Hb3. rewrite Hb0, Hb1, Hb2, Hb3 in B1.
    rewrite B1 in B2.
    pose proof (wrapI32_range i1). pose proof (wrapI32_range i2).
    revert B2. Z.div_mod_to_equations. lia.
  - exfalso. destruct (toI32 i1) as [j1 |]; [| discriminate H1].
    cbn [mbind option_bind] in H1.
    assert (Hl : length (concatI32 hash1 j1) = length hash2) by congruence.
    unfold concatI32 in Hl. rewrite length_app in Hl. cbn [length] in Hl. lia.
  - exfalso. destruct (toI32 i2) as [j2 |]; [| discriminate H2].
    cbn [mbind option_bind] in H2.
    assert (Hl : length (concatI32 hash2 j2) = length hash1) by congruence.
    unfold concatI32 in Hl. rewrite length_app in Hl. cbn [length] in Hl. lia.
  - split; [congruence | reflexivity].
Qed.

(** X7.  The ledger key separates events up to the 32-bit reading of the log
    index.  Two events with hashes of one length get the same transaction
    id only if they have the same hash and log indices that are both absent
    or have the same 32-bit reading; so log indices within [-2^31, 2^31)
    are told apart.  Log indices that differ by 2^32 are not: 2^31 and
    -2^31 give the same id. *)
Theorem transactionId_injective (hash1 hash2 : Bytes) :
  (forall (logIndex1 logIndex2 : option BigInt) (id : Bytes),
     length hash1 = length hash2 ->
     UniversalTransaction.transactionId hash1 logIndex1 = Some id ->
     UniversalTransaction.transactionId hash2 logIndex2 = Some id ->
     hash1 = hash2 /\ wrapI32 <$> logIndex1 = wrapI32 <$> logIndex2) /\
  (forall i1 i2 : BigInt,
     -2147483648 <= i1 <= 2147483647 -> -2147483648 <= i2 <= 2147483647 ->
     UniversalTransaction.transactionId hash1 (Some i1)
     = UniversalTransaction.transactionId hash1 (Some i2) ->
     i1 = i2) /\
  UniversalTransaction.transactionId hash1 (Some 2147483648)
  = UniversalTransaction.transactionId hash1 (Some (-2147483648)).
Proof.
  split; [| split].
  - intros logIndex1 logIndex2 id. apply transactionId_equal.
  - intros i1 i2 Hr1 Hr2 Heq.
    destruct (transactionId_equal hash1 hash1 (Some i1) (Some i2) (concatI32 hash1 i1))
      as [_ Hwrap].
    + reflexivity.
    + cbn [UniversalTransaction.transactionId]. rewrite toI32_in_range by exact Hr1.
      reflexivity.
    + rewrite <- Heq. cbn [UniversalTransaction.transactionId].
      rewrite toI32_in_range by exact Hr1. reflexivity.
    + cbn [fmap option_fmap option_map] in Hwrap. injection Hwrap as Hwrap.
      rewrite !wrapI32_in_range in Hwrap by assumption. exact Hwrap.
  - reflexivity.
Qed.

Lemma transactionId_injective_witness :
  UniversalTransaction.transactionId (replicate 32 171) (Some 3)
  <> UniversalTransaction.transactionId (replicate 32 171) (Some 4).
Proof.
  intros Heq.
  destruct (transactionId_injective (replicate 32 171) (replicate 32 171))
    as (_ & Hindex & _).
  specialize (Hindex 3 4 ltac:(lia) ltac:(lia) Heq). discriminate Hindex.
Defined.

(** X8.  [getDayStartTimestamp] of the helpers never aborts; the start of
    the day is a multiple of a day, has the same day id as the timestamp and
    is its own day start.  For a timestamp that is not negative it is at
    most the timestamp and less than a day before it; for a negative
    timestamp the division truncates toward zero, so it is at least the
    timestamp and less than a day after it. *)
Theorem dayStart_roundtrip (timestamp : BigInt) :
  exists start,
    Helpers.getDayStartTimestamp timestamp = Some start /\
    Helpers.getDayId start = Helpers.getDayId timestamp /\
    Helpers.getDayStartTimestamp start = Some start /\
    (0 <= timestamp -> start <= timestamp < start + 86400) /\
    (timestamp <= 0 -> timestamp <= start < timestamp + 86400).
Proof.
  unfold Helpers.getDayStartTimestamp, Helpers.getDayId, bi_div.
  cbn [Z.eqb mbind option_bind]. eexists. split; [reflexivity |].
  rewrite Z.quot_mul by lia.
  split; [reflexivity |]. split; [reflexivity |].
  split; intros Hsign; Z.to_euclidean_division_equations; lia.
Qed.

Lemma dayStart_roundtrip_witness :
  exists start,
    Helpers.getDayStartTimestamp 100000 = Some start /\ start <= 100000 < start + 86400.
Proof.
  destruct (dayStart_roundtrip 100000) as (start & Hrun & _ & _ & Hrange & _).
  exists start. split; [exact Hrun | apply Hrange; lia].
Defined.

(** X9.  [daysBetween] never aborts and never returns a negative number:
    it is 0 when the end precedes the start, and otherwise the number of
    whole days from start to end. *)
Theorem daysBetween_whole_days (start finish : BigInt) :
  exists days,
    Helpers.daysBetween start finish = Some days /\
    0 <= days /\
    (finish < start -> days = 0) /\
    (start <= finish -> days * 86400 <= finish - start < (days + 1) * 86400).
Proof.
  unfold Helpers.daysBetween, bi_div, ZERO_BI. cbn [Z.eqb].
  destruct (Z.ltb_spec finish start) as [Hlt | Hge].
  - exists 0. repeat split; try reflexivity; lia.
  - eexists. split; [reflexivity |].
    rewrite Z.quot_div_nonneg by lia.
    pose proof (Z.div_mod (finish - start) 86400 ltac:(lia)) as Hdm.
    pose proof (Z.mod_pos_bound (finish - start) 86400 ltac:(lia)) as Hmod.
    assert (0 <= (finish - start) / 86400) by (apply Z.div_pos; lia).
    repeat split; lia.
Qed.

Lemma daysBetween_whole_days_witness :
  exists days,
    Helpers.daysBetween 1000 200000 = Some days /\
    days * 86400 <= 200000 - 1000 < (days + 1) * 86400.
Proof.
  destruct (daysBetween_whole_days 1000 200000) as (days & Hrun & _ & _ & Hbounds).
  exists days. split; [exact Hrun | apply Hbounds; lia].
Defined.

Ltac qc_to_Q :=
  unfold Qclt, Qcle, Qcminus, Qcopp, Qcdiv, Qcinv, Qcplus, Qcmult, bd, ZERO_BD, ONE_BD, bd in *;
  cbn [this Q2Qc] in *;
  repeat setoid_rewrite Qred_correct;
  repeat match goal with H : context [Qred] |- _ => setoid_rewrite Qred_correct in H end.

Lemma weightedScore_range (h s r a : BigDecimal) :
  (bd 0 1 <= h)%Qc -> (h <= bd 100 1)%Qc ->
  (bd 0 1 <= s)%Qc -> (s <= bd 100 1)%Qc ->
  (bd 0 1 <= r)%Qc -> (r <= bd 100 1)%Qc ->
  (bd 0 1 <= a)%Qc -> (a <= bd 100 1)%Qc ->
  (bd 0 1 <= weightedScore h s r a)%Qc /\ (weightedScore h s r a <= bd 100 1)%Qc.
Proof.
  intros. unfold weightedScore. qc_to_Q.
  assert (E : (/ (0 + 0.4 + 0.3 + 0.2 + 0.1) == 1)%Q) by (vm_compute; reflexivity).
  rewrite E. split; lra.
Qed.

Lemma zero_le_hundred : (bd 0 1 <= bd 100 1)%Qc.
Proof. to_Q. lra. Qed.

(** X10.  For a trove whose health score lies between 0 and 100,
    [calculateTrovePerformanceScore] completes and the score lies between 0
    and 100: the other three sub-scores are clamped to that range and the
    weights are positive. *)
Theorem performanceScore_range (trove : Trove.t) :
  (bd 0 1 <= Trove.healthScore trove)%Qc -> (Trove.healthScore trove <= bd 100 1)%Qc ->
  exists score,
    TroveManager.calculateTrovePerformanceScore trove = Some score /\
    (bd 0 1 <= score)%Qc /\ (score <= bd 100 1)%Qc.
Proof.
  intros Hlow Hhigh.
  destruct (calculateTrovePerformanceScore_weighted trove)
    as (stability & age & Hstability & Hage & Hscore).
  eexists. split; [exact Hscore |].
  unfold TroveManager.stabilityScoreOf in Hstability.
  unfold TroveManager.ageBonusOf in Hage.
  destruct (if bd_gt (Trove.lowestCollateralRatio trove) (bd 150 1) then _ else _)
    as [raw |]; [| discriminate Hstability].
  destruct (bd_div (toBigDecimal (Trove.daysOpen trove)) (bd 30 1)) as [quotient |];
    [| discriminate Hage].
  cbn [mbind option_bind] in Hstability, Hage.
  injection Hstability as <-. injection Hage as <-.
  apply weightedScore_range; try assumption;
    try apply (clamp_between _ _ _ zero_le_hundred).
Qed.

Lemma performanceScore_range_witness :
  exists score,
    TroveManager.calculateTrovePerformanceScore thirtyDayTrove = Some score /\
    (score <= bd 100 1)%Qc.
Proof.
  destruct (performanceScore_range thirtyDayTrove) as (score & Hrun & _ & Hhigh).
  - apply bd_lt_false. vm_compute. reflexivity.
  - apply bd_lt_false. vm_compute. reflexivity.
  - exists score. split; assumption.
Defined.

(** X11.  For a trove whose collateral ratio is not negative and which was
    not opened in the future, [calculateLiquidationRiskScore] completes and
    the estimate lies between 0 and 100: it is the mean of three sub-scores
    clamped to that range. *)
Theorem liquidationRiskScore_range (trove : Trove.t) :
  (0 <= Trove.collateralRatio trove)%Qc -> 0 <= Trove.daysOpen trove ->
  exists score,
    TroveManager.calculateLiquidationRiskScore trove = Some score /\
    (bd 0 1 <= score)%Qc /\ (score <= bd 100 1)%Qc.
Proof.
  intros Hcr Hdays. unfold TroveManager.calculateLiquidationRiskScore.
  rewrite (bd_div_defined _ (Trove.collateralRatio trove + bd 1 1)%Qc)
    by (apply nonneg_plus_one; exact Hcr).
  cbn [mbind option_bind].
  assert (Hvol : exists volatility,
             (if Trove.operationCount trove >? ZERO_BI then
                frequency ←
                  bd_div (toBigDecimal (Trove.operationCount trove))
                         (toBigDecimal (Trove.daysOpen trove + 1));
                Some (frequency * bd 10 1)%Qc
              else Some ZERO_BD) = Some volatility).
  { destruct (Trove.operationCount trove >? ZERO_BI); [| eauto].
    rewrite bd_div_nonzero by lia. cbn [mbind option_bind]. eauto. }
  destruct Hvol as [volatility ->]. cbn [mbind option_bind app length fold_left].
  change (0 <? Z.of_nat 3) with true. cbv iota.
  rewrite (bd_div_nonzero _ (Z.of_nat 3)) by (cbn; lia).
  eexists. split; [reflexivity |].
  destruct (clamp_between
              (bd 110 1 / (Trove.collateralRatio trove + bd 1 1) * bd 100 1)%Qc _ _
              zero_le_hundred) as [A1 A2].
  destruct (clamp_between (toBigDecimal (Trove.riskEvents trove) * bd 15 1)%Qc _ _
              zero_le_hundred) as [B1 B2].
  destruct (clamp_between volatility _ _ zero_le_hundred) as [C1 C2].
  set (c1 := Helpers.clamp _ _ _) in *. clearbody c1.
  set (c2 := Helpers.clamp (toBigDecimal (Trove.riskEvents trove) * bd 15 1)%Qc _ _) in *.
  clearbody c2.
  set (c3 := Helpers.clamp volatility _ _) in *. clearbody c3.
  unfold toBigDecimal, Qc_of_Z. qc_to_Q.
  change (inject_Z (Z.of_nat 3)) with (3 # 1)%Q.
  assert (E : (/ (3 # 1) == 1 # 3)%Q) by (vm_compute; reflexivity).
  rewrite E. split; lra.
Qed.

Lemma liquidationRiskScore_range_witness :
  exists score,
    TroveManager.calculateLiquidationRiskScore thirtyDayTrove = Some score /\
    (score <= bd 100 1)%Qc.
Proof.
  destruct (liquidationRiskScore_range thirtyDayTrove) as (score & Hrun & _ & Hhigh).
  - apply bd_lt_false. vm_compute. reflexivity.
  - cbn. lia.
  - exists score. split; assumption.
Defined.

(** With weights that are all zero the total weight stays where it was. *)
Lemma weightedSums_zero_weights (values weights : list BigDecimal)
    (totalWeightedValue totalWeight : BigDecimal) :
  Forall (eq (bd 0 1)) weights ->
  snd (Helpers.weightedSums values weights totalWeightedValue totalWeight) = totalWeight.
Proof.
  revert weights totalWeightedValue totalWeight.
  induction values as [| v values IH]; intros [| w weights] a b Hall; try reflexivity.
  inversion Hall as [| ? ? Hw Hrest]; subst. cbn [Helpers.weightedSums].
  rewrite IH by exact Hrest. unfold bd. ring.
Qed.

Lemma safeDivisionBD_total (numerator denominator : BigDecimal) :
  Helpers.safeDivisionBD numerator denominator =
  Some (if bd_equals denominator ZERO_BD then ZERO_BD else (numerator / denominator)%Qc).
Proof.
  unfold Helpers.safeDivisionBD, bd_div. destruct (bd_equals denominator ZERO_BD); reflexivity.
Qed.

(** X12.  [calculateWeightedScore] never aborts, whatever the lists: the
    division is guarded by [safeDivisionBD].  It is 0 when the two lists
    differ in length or are empty, and 0 when every weight is 0. *)
Theorem calculateWeightedScore_total (values weights : list BigDecimal) :
  (exists score, Helpers.calculateWeightedScore values weights = Some score) /\
  (length values <> length weights \/ values = [] ->
   Helpers.calculateWeightedScore values weights = Some ZERO_BD) /\
  (Forall (eq (bd 0 1)) weights ->
   Helpers.calculateWeightedScore values weights = Some ZERO_BD).
Proof.
  unfold Helpers.calculateWeightedScore. repeat split.
  - destruct (negb _ || _); [eauto |].
    destruct (Helpers.weightedSums values weights ZERO_BD ZERO_BD) as [a b].
    rewrite safeDivisionBD_total. eauto.
  - intros [Hlen | ->].
    + destruct (Nat.eqb_spec (length values) (length weights)); [contradiction |].
      reflexivity.
    + destruct (negb _); reflexivity.
  - intros Hzero. destruct (negb _ || _); [reflexivity |].
    pose proof (weightedSums_zero_weights values weights ZERO_BD ZERO_BD Hzero) as Hsum.
    destruct (Helpers.weightedSums values weights ZERO_BD ZERO_BD) as [a b].
    cbn [snd] in Hsum. subst b. reflexivity.
Qed.

Lemma calculateWeightedScore_total_witness :
  Helpers.calculateWeightedScore [bd 70 1; bd 70 1] [bd 4 10] = Some ZERO_BD /\
  Helpers.calculateWeightedScore [bd 70 1; bd 30 1] [bd 0 1; bd 0 1] = Some ZERO_BD.
Proof.
  split.
  - destruct (calculateWeightedScore_total [bd 70 1; bd 70 1] [bd 4 10])
      as (_ & Hguard & _).
    apply Hguard. left. cbn. lia.
  - destruct (calculateWeightedScore_total [bd 70 1; bd 30 1] [bd 0 1; bd 0 1])
      as (_ & _ & Hzero).
    apply Hzero. repeat constructor.
Defined.

Lemma safeDivision_total (numerator denominator : BigInt) :
  Helpers.safeDivision numerator denominator =
  Some (if denominator =? 0 then ZERO_BD
        else (toBigDecimal numerator / toBigDecimal denominator)%Qc).
Proof.
  unfold Helpers.safeDivision, ZERO_BI.
  destruct (Z.eqb_spec denominator 0); [reflexivity |].
  apply bd_div_nonzero. assumption.
Qed.

(** X13.  The helper [classifyUserType] never aborts and returns one of the
    seven user types it names; an account without activity is a
    RETAIL_USER whatever its volume, and an account with activity and a
    volume above 1,000,000 USDFC is an INSTITUTIONAL_USER whatever its
    activity shares. *)
Theorem classifyUserType_total
    (totalActivity protocolActivity dexActivity bridgeActivity defiActivity totalVolume
       : BigInt) :
  exists userType,
    Helpers.classifyUserType totalActivity protocolActivity dexActivity bridgeActivity
      defiActivity totalVolume = Some userType /\
    userType ∈ ["RETAIL_USER"; "INSTITUTIONAL_USER"; "DEX_TRADER"; "BRIDGE_USER";
                 "DEFI_USER"; "PROTOCOL_NATIVE"; "POWER_USER"] /\
    (totalActivity = 0 -> userType = "RETAIL_USER") /\
    (totalActivity <> 0 -> 1000000000000000000000000 < totalVolume ->
     userType = "INSTITUTIONAL_USER").
Proof.
  unfold Helpers.classifyUserType, ZERO_BI.
  destruct (Z.eqb_spec totalActivity 0) as [Hzero | Hnonzero].
  - eexists. split; [reflexivity |]. repeat split; try contradiction; set_solver.
  - rewrite !safeDivision_total. cbn [mbind option_bind].
    destruct (Z.gtb_spec totalVolume 1000000000000000000000000) as [Hbig | Hsmall].
    + eexists. split; [reflexivity |]. repeat split; try contradiction; set_solver.
    + repeat match goal with
             | |- context [if bd_gt ?a ?b then _ else _] => destruct (bd_gt a b)
             | |- context [if ?a >? ?b then _ else _] => destruct (a >? b)
             end;
        (eexists; split; [reflexivity |]; repeat split; try contradiction; try lia;
         set_solver).
Qed.

Lemma classifyUserType_total_witness :
  Helpers.classifyUserType 10 0 9 0 0 2000000000000000000000000 = Some "INSTITUTIONAL_USER".
Proof.
  destruct (classifyUserType_total 10 0 9 0 0 2000000000000000000000000)
    as (userType & Hrun & _ & _ & Hinst).
  rewrite Hrun, Hinst by lia. reflexivity.
Defined.

Lemma countEcosystems_range (account : Account.t) :
  0 <= UniversalTransaction.countEcosystems account <= 5.
Proof.
  unfold UniversalTransaction.countEcosystems.
  repeat match goal with |- context [if ?c then _ else _] => destruct c end; lia.
Qed.

Lemma countEcosystems_classifyAccount (account : Account.t) (d p : BigDecimal) :
  UniversalTransaction.countEcosystems (UniversalTransaction.classifyAccount account d p)
  = UniversalTransaction.countEcosystems account.
Proof.
  unfold UniversalTransaction.classifyAccount.
  repeat match goal with |- context [if ?c then _ else _] => destruct c end; reflexivity.
Qed.

(** X14.  After [updateUserIntelligence] the composability score of the row
    is 20 times the number of ecosystems (protocol, DEX, bridge,
    peer-to-peer, DeFi) in which the account has a positive activity count,
    hence one of 0, 20, ..., 100, and the influence score is at most 100. *)
Theorem userIntelligence_scores
    (account : Account.t) (category ecosystem : string) (value : BigInt) :
  exists account',
    UniversalTransaction.updateUserIntelligence account category ecosystem value
      = Some account' /\
    Account.composabilityScore account' =
      (toBigDecimal (UniversalTransaction.countEcosystems account) * bd 20 1)%Qc /\
    0 <= UniversalTransaction.countEcosystems account <= 5 /\
    (Account.influenceScore account' <= bd 100 1)%Qc.
Proof.
  unfold UniversalTransaction.updateUserIntelligence.
  rewrite activityRatios_total.
  set (ratios := if Account.totalTransactionCount account >? 0 then _ else _).
  destruct ratios as [dexRatio protocolRatio]. cbn [mbind option_bind].
  rewrite !bd_div_constant by discriminate. cbn [mbind option_bind].
  eexists. split; [reflexivity |].
  split; [| split; [apply countEcosystems_range |]].
  - rewrite <- (countEcosystems_classifyAccount account dexRatio protocolRatio).
    destruct (bd_gt _ (bd 100 1)); reflexivity.
  - match goal with
    | |- context [if bd_gt ?x (bd 100 1) then _ else _] =>
        destruct (bd_gt x (bd 100 1)) eqn:E
    end.
    + cbn. apply Qcle_refl.
    + apply bd_gt_false in E. exact E.
Qed.

(** * Further properties of the ledger and the aggregators *)

Lemma recordTransaction_transactions (e : EventDescriptor) (txId : Bytes) (s : Store.t) :
  Store.transactions (recordTransaction e txId s) =
  match Store.transactions s !! txId with
  | Some _ => Store.transactions s
  | None => <[txId := ledgerRow e]> (Store.transactions s)
  end.
Proof.
  unfold recordTransaction.
  destruct (Store.transactions s !! txId); [reflexivity |].
  pose proof (ensureAccount_transactions (ed_from e) s) as H1.
  destruct (UniversalTransaction.ensureAccount (ed_from e) s) as [a1 s1].
  pose proof (ensureAccount_transactions (ed_to e) s1) as H2.
  destruct (UniversalTransaction.ensureAccount (ed_to e) s1) as [a2 s2].
  cbn [snd] in H1, H2. cbn [Store.transactions Store.set_transactions].
  rewrite H2, H1. reflexivity.
Qed.

(** The shape of a completed delivery. *)
Lemma deliver_shape (e : EventDescriptor) (s s1 : Store.t) (id : Bytes) :
  deliver e s = Some (id, s1) ->
  UniversalTransaction.transactionId (ed_hash e) (ed_logIndex e) = Some id /\
  is_Some (toI32 (ed_blockTimestamp e)) /\
  aggregate e (recordTransaction e id s) = Some s1.
Proof.
  rewrite deliver_unfold. intros H.
  destruct (UniversalTransaction.transactionId _ _) as [txId |]; [| discriminate H].
  cbn [mbind option_bind] in H.
  destruct (aggregate e (recordTransaction e txId s)) as [s' |] eqn:A; [| discriminate H].
  injection H as <- <-. split; [reflexivity | split; [| exact A]].
  pose proof (aggregate_run e (recordTransaction e txId s)) as R.
  destruct (toI32 (ed_blockTimestamp e)); [eauto | congruence].
Qed.

Lemma toI32_is_Some (z : Z) :
  is_Some (toI32 z) <-> -4294967296 <= z < 4294967296.
Proof.
  split.
  - intros [i H]. apply toI32_Some in H as [_ H]. exact H.
  - intros H. rewrite toI32_defined by exact H. eauto.
Qed.

(** X15.  A delivery completes exactly when the log index (if there is one)
    and the block timestamp lie in [-2^32, 2^32), where [toI32] does not
    abort.  It returns the hash with the four bytes of the 32-bit reading of
    the log index appended (the hash alone when there is no log index); a
    log index outside [-2^31, 2^31) is wrapped, not refused. *)
Theorem deliver_defined (e : EventDescriptor) (s : Store.t) :
  (is_Some (deliver e s) <-> convertible e) /\
  (forall id s1, deliver e s = Some (id, s1) ->
     id = match ed_logIndex e with
          | Some logIndex => concatI32 (ed_hash e) (wrapI32 logIndex)
          | None => ed_hash e
          end).
Proof.
  unfold convertible. split; [split |].
  - intros [[id s1] H]. apply deliver_shape in H as (Hid & Hts & _).
    split; [| apply toI32_is_Some; exact Hts].
    unfold UniversalTransaction.transactionId in Hid.
    destruct (ed_logIndex e) as [logIndex |]; [| exact I].
    destruct (toI32 logIndex) as [i |] eqn:E; [| discriminate Hid].
    apply toI32_Some in E as [_ E]. exact E.
  - intros [Hlog Hts].
    assert (Hid : is_Some (UniversalTransaction.transactionId (ed_hash e) (ed_logIndex e))).
    { unfold UniversalTransaction.transactionId.
      destruct (ed_logIndex e) as [logIndex |]; [| eauto].
      rewrite toI32_defined by exact Hlog. cbn. eauto. }
    destruct Hid as [id Hid]. apply toI32_is_Some in Hts.
    destruct (deliver_total e s id Hid Hts) as [s1 H]. eauto.
  - intros id s1 H. apply deliver_shape in H as (Hid & _).
    unfold UniversalTransaction.transactionId in Hid.
    destruct (ed_logIndex e) as [logIndex |]; [| congruence].
    destruct (toI32 logIndex) as [i |] eqn:E; [| discriminate Hid].
    apply toI32_Some in E as [-> _]. cbn in Hid. congruence.
Qed.

(** The theorem at the sample transfer, and at the same transfer with the
    log index 2^31. *)
Lemma deliver_defined_witness :
  is_Some (deliver sampleTransfer emptyStore) /\
  is_Some (deliver
             {| ed_hash := replicate 32 171; ed_blockNumber := 7; ed_blockTimestamp := 1000;
                ed_from := replicate 20 17; ed_to := replicate 20 34; ed_value := 5;
                ed_source := "CONTRACT_EVENT"; ed_category := "P2P_TRANSFER";
                ed_ecosystem := "P2P_ECOSYSTEM";
                ed_logIndex := Some 2147483648; ed_gasUsed := None; ed_gasPrice := None;
                ed_success := true; ed_errorMessage := None |} emptyStore).
Proof.
  split.
  - apply (deliver_defined sampleTransfer emptyStore). unfold convertible. cbn. lia.
  - apply deliver_defined. unfold convertible. cbn. lia.
Defined.

(** What a completed delivery does to the ledger and to the rows of the two
    parties. *)
Lemma deliver_ledger (e : EventDescriptor) (s s1 : Store.t) (id : Bytes) :
  deliver e s = Some (id, s1) ->
  (forall id' row, Store.transactions s !! id' = Some row ->
                   Store.transactions s1 !! id' = Some row) /\
  (Store.transactions s !! id = None -> Store.transactions s1 !! id = Some (ledgerRow e)) /\
  (forall id', id' <> id -> Store.transactions s1 !! id' = Store.transactions s !! id') /\
  is_Some (Store.accounts s1 !! ed_from e) /\ is_Some (Store.accounts s1 !! ed_to e).
Proof.
  intros H. apply deliver_shape in H as (_ & [t Ht] & Hagg).
  pose proof (aggregate_deltas _ _ _ Hagg) as (Htx & _).
  rewrite Htx, recordTransaction_transactions.
  repeat split.
  - intros id' row Hrow. destruct (Store.transactions s !! id) eqn:E; [exact Hrow |].
    rewrite lookup_insert_ne; [exact Hrow | congruence].
  - intros ->. apply lookup_insert_eq.
  - intros id' Hne. destruct (Store.transactions s !! id); [reflexivity |].
    rewrite lookup_insert_ne by congruence. reflexivity.
  - pose proof (aggregate_run e (recordTransaction e id s)) as R. rewrite Ht in R.
    destruct R as (a & b & g & d & R & _). rewrite R in Hagg. injection Hagg as <-.
    cbn [Store.accounts Store.set_accounts Store.set_ecosystemStats
           Store.set_dailyEcosystemStats].
    destruct (decide (ed_from e = ed_to e)) as [Heq | Hne].
    + rewrite Heq, lookup_insert_eq. eauto.
    + rewrite lookup_insert_ne by congruence. rewrite lookup_insert_eq. eauto.
  - pose proof (aggregate_run e (recordTransaction e id s)) as R. rewrite Ht in R.
    destruct R as (a & b & g & d & R & _). rewrite R in Hagg. injection Hagg as <-.
    cbn [Store.accounts Store.set_accounts Store.set_ecosystemStats
           Store.set_dailyEcosystemStats].
    rewrite lookup_insert_eq. eauto.
Qed.

(** X16.  The ledger is written once: a completed delivery leaves every row
    that was in the ledger exactly as it was, writes the row of its own id
    with the event's fields when that id had no row, and touches no other
    id.  Both parties have an account row afterwards. *)
Theorem ledger_written_once (e : EventDescriptor) (s s1 : Store.t) (id : Bytes) :
  deliver e s = Some (id, s1) ->
  (forall id' row, Store.transactions s !! id' = Some row ->
                   Store.transactions s1 !! id' = Some row) /\
  (Store.transactions s !! id = None -> Store.transactions s1 !! id = Some (ledgerRow e)) /\
  (forall id', id' <> id -> Store.transactions s1 !! id' = Store.transactions s !! id') /\
  is_Some (Store.accounts s1 !! ed_from e) /\ is_Some (Store.accounts s1 !! ed_to e).
Proof.
  exact (deliver_ledger e s s1 id).
Qed.

Lemma ledger_written_once_witness :
  exists id s1,
    deliver sampleTransfer emptyStore = Some (id, s1) /\
    Store.transactions s1 !! id = Some (ledgerRow sampleTransfer).
Proof.
  destruct sampleTransfer_delivered as [[id s1] H].
  exists id, s1. split; [exact H |].
  apply (ledger_written_once sampleTransfer emptyStore s1 id H). reflexivity.
Defined.

(** [updateUserIntelligence] leaves the net volume alone. *)
Lemma updateUserIntelligence_netVolume
    (account account' : Account.t) (category ecosystem : string) (value : BigInt) :
  UniversalTransaction.updateUserIntelligence account category ecosystem value
    = Some account' ->
  Account.netVolume account' = Account.netVolume account.
Proof.
  unfold UniversalTransaction.updateUserIntelligence.
  rewrite activityRatios_total.
  set (ratios := if Account.totalTransactionCount account >? 0 then _ else _).
  destruct ratios as [dexRatio protocolRatio]. cbn [mbind option_bind].
  rewrite !bd_div_constant by discriminate. cbn [mbind option_bind].
  intros H. injection H as <-.
  unfold UniversalTransaction.classifyAccount.
  repeat match goal with |- context [if ?c then _ else _] => destruct c end; reflexivity.
Qed.

(** The row saved by one side of [updateAccountActivity] has its net volume
    equal to the difference of its volume totals. *)
Lemma updateAccountSide_netVolume
    (isSender : bool) (address : Bytes) (value : BigInt) (category ecosystem : string)
    (timestamp : BigInt) (s s' : Store.t) :
  UniversalTransaction.updateAccountSide isSender address value category ecosystem
    timestamp s = Some s' ->
  exists account,
    Store.accounts s' = <[address := account]> (Store.accounts s) /\
    Account.netVolume account
      = Account.totalVolumeIn account - Account.totalVolumeOut account.
Proof.
  intros Hrun.
  set (old := default UniversalTransaction.newAccount (Store.accounts s !! address)).
  destruct (updateUserIntelligence_total
              (bumpedAccount isSender value category ecosystem timestamp old)
              category ecosystem value)
    as (account' & Hint & _ & _ & _ & _ & _ & Hin & Hout & _).
  pose proof (updateUserIntelligence_netVolume _ _ _ _ _ Hint) as Hnet.
  destruct (updateAccountSide_run isSender address value category ecosystem timestamp s)
    as (saved & Hsaved & _).
  assert (Hsame : UniversalTransaction.updateAccountSide isSender address value category
                    ecosystem timestamp s
                  = Some (Store.set_accounts (<[address := account']> (Store.accounts s)) s)).
  { unfold UniversalTransaction.updateAccountSide, UniversalTransaction.ensureAccount.
    subst old. destruct (Store.accounts s !! address) as [account |];
      cbv [default from_option id] in Hint.
    - change (UniversalTransaction.updateUserIntelligence
                (bumpedAccount isSender value category ecosystem timestamp account)
                category ecosystem value
              ≫= (fun account0 =>
                    Some (UniversalTransaction.saveAccount address account0 s))
              = Some (Store.set_accounts (<[address := account']> (Store.accounts s)) s)).
      rewrite Hint. reflexivity.
    - change (UniversalTransaction.updateUserIntelligence
                (bumpedAccount isSender value category ecosystem timestamp
                   UniversalTransaction.newAccount)
                category ecosystem value
              ≫= (fun account0 =>
                    Some (UniversalTransaction.saveAccount address account0
                            (UniversalTransaction.saveAccount address
                               UniversalTransaction.newAccount s)))
              = Some (Store.set_accounts (<[address := account']> (Store.accounts s)) s)).
      rewrite Hint. cbn [mbind option_bind]. unfold UniversalTransaction.saveAccount.
      cbn [Store.accounts Store.set_accounts]. rewrite insert_insert_eq. reflexivity. }
  rewrite Hsame in Hrun. injection Hrun as <-.
  exists account'. split; [reflexivity |].
  rewrite Hnet, Hin, Hout. unfold bumpedAccount. cbv zeta.
  match goal with
  | |- context [UniversalTransaction.updateActivityCounters ?a ?c ?e ?v] =>
      destruct (updateActivityCounters_frame a c e v) as (_ & Fin & Fout & _ & Fnet)
  end.
  rewrite Fnet, Fin, Fout. reflexivity.
Qed.

(** X17.  After a completed delivery the account rows of the sender and of
    the receiver satisfy [netVolume = totalVolumeIn - totalVolumeOut]. *)
Theorem netVolume_invariant (e : EventDescriptor) (s s1 : Store.t) (id : Bytes) :
  deliver e s = Some (id, s1) ->
  forall address, address = ed_from e \/ address = ed_to e ->
    exists account,
      Store.accounts s1 !! address = Some account /\
      Account.netVolume account
        = Account.totalVolumeIn account - Account.totalVolumeOut account.
Proof.
  intros H address Haddress. apply deliver_shape in H as (_ & _ & Hagg).
  unfold aggregate in Hagg.
  destruct (UniversalTransaction.updateAccountActivity _ _ _ _ _ _ _) as [s2 |] eqn:Hact;
    [| discriminate Hagg].
  cbn [mbind option_bind] in Hagg.
  assert (Haccounts : Store.accounts s1 = Store.accounts s2).
  { pose proof (updateEcosystemStats_run (ed_category e) (ed_ecosystem e) (ed_value e)
                  (ed_blockTimestamp e) s2) as R.
    destruct (toI32 (ed_blockTimestamp e)); [| congruence].
    destruct R as (g & d & R). rewrite R in Hagg. injection Hagg as <-. reflexivity. }
  rewrite Haccounts. clear Hagg Haccounts.
  unfold UniversalTransaction.updateAccountActivity in Hact.
  destruct (UniversalTransaction.updateAccountSide true _ _ _ _ _ _) as [sf |] eqn:Hfrom;
    [| discriminate Hact].
  cbn [mbind option_bind] in Hact.
  apply updateAccountSide_netVolume in Hfrom as (fromAccount & Hfa & Hfn).
  apply updateAccountSide_netVolume in Hact as (toAccount & Hta & Htn).
  rewrite Hta, Hfa.
  destruct (decide (address = ed_to e)) as [-> | Hne].
  - exists toAccount. rewrite lookup_insert_eq. split; [reflexivity | exact Htn].
  - destruct Haddress as [-> | ->]; [| contradiction].
    exists fromAccount. rewrite lookup_insert_ne by congruence.
    rewrite lookup_insert_eq. split; [reflexivity | exact Hfn].
Qed.

Lemma netVolume_invariant_witness :
  exists id s1 account,
    deliver sampleTransfer emptyStore = Some (id, s1) /\
    Store.accounts s1 !! ed_to sampleTransfer = Some account /\
    Account.netVolume account
      = Account.totalVolumeIn account - Account.totalVolumeOut account.
Proof.
  destruct sampleTransfer_delivered as [[id s1] H].
  destruct (netVolume_invariant sampleTransfer emptyStore s1 id H (ed_to sampleTransfer))
    as (account & Hrow & Hnet); [right; reflexivity |].
  exists id, s1, account. repeat split; assumption.
Defined.

(** * The ecosystem roll-ups over a run of events *)

Lemma countOf_cons (select : EventDescriptor -> bool) (e : EventDescriptor)
    (events : list EventDescriptor) :
  countOf select (e :: events) = flag (select e) + countOf select events.
Proof.
  unfold countOf, flag. cbn [List.filter]. destruct (select e); cbn [length]; lia.
Qed.

Lemma volumeOf_cons (select : EventDescriptor -> bool) (e : EventDescriptor)
    (events : list EventDescriptor) :
  volumeOf select (e :: events) = share (select e) (ed_value e) + volumeOf select events.
Proof.
  unfold volumeOf, share. cbn [List.filter]. destruct (select e); cbn; lia.
Qed.

(** One call of [updateDailyEcosystemStats]: the day's row moves by the
    event in the column of its ecosystem, and the totals are the sums of the
    four columns. *)
Lemma updateDailyEcosystemStats_step
    (category ecosystem : string) (value timestamp : BigInt) (s s' : Store.t) :
  UniversalTransaction.updateDailyEcosystemStats category ecosystem value timestamp s
    = Some s' ->
  let day := dayIdOf timestamp in
  let old := dailyOf s day in
  exists row,
    Store.dailyEcosystemStats s' = <[day := row]> (Store.dailyEcosystemStats s) /\
    (DailyEcosystemStats.dexTradeCount row
       = DailyEcosystemStats.dexTradeCount old + flag (String.eqb ecosystem "DEX_ECOSYSTEM") /\
     DailyEcosystemStats.bridgeOperationCount row
       = DailyEcosystemStats.bridgeOperationCount old
         + flag (String.eqb ecosystem "BRIDGE_ECOSYSTEM") /\
     DailyEcosystemStats.p2pTransferCount row
       = DailyEcosystemStats.p2pTransferCount old + flag (String.eqb ecosystem "P2P_ECOSYSTEM") /\
     DailyEcosystemStats.protocolTransferCount row
       = DailyEcosystemStats.protocolTransferCount old
         + flag (String.eqb ecosystem "PROTOCOL_NATIVE")) /\
    (DailyEcosystemStats.dexTradeVolume row
       = DailyEcosystemStats.dexTradeVolume old
         + share (String.eqb ecosystem "DEX_ECOSYSTEM") value /\
     DailyEcosystemStats.bridgeVolume row
       = DailyEcosystemStats.bridgeVolume old
         + share (String.eqb ecosystem "BRIDGE_ECOSYSTEM") value /\
     DailyEcosystemStats.p2pTransferVolume row
       = DailyEcosystemStats.p2pTransferVolume old
         + share (String.eqb ecosystem "P2P_ECOSYSTEM") value /\
     DailyEcosystemStats.protocolTransferVolume row
       = DailyEcosystemStats.protocolTransferVolume old
         + share (String.eqb ecosystem "PROTOCOL_NATIVE") value) /\
    DailyEcosystemStats.totalEcosystemTransactionCount row
      = DailyEcosystemStats.protocolTransferCount row + DailyEcosystemStats.dexTradeCount row
        + DailyEcosystemStats.bridgeOperationCount row
        + DailyEcosystemStats.p2pTransferCount row /\
    DailyEcosystemStats.totalEcosystemVolume row
      = DailyEcosystemStats.protocolTransferVolume row + DailyEcosystemStats.dexTradeVolume row
        + DailyEcosystemStats.bridgeVolume row + DailyEcosystemStats.p2pTransferVolume row.
Proof.
  unfold UniversalTransaction.updateDailyEcosystemStats, UniversalTransaction.getDayId,
    UniversalTransaction.getDayString, UniversalTransaction.getDayStartTimestamp, dailyOf,
    UniversalTransaction.ECOSYSTEM_TYPE_DEX_ECOSYSTEM,
    UniversalTransaction.ECOSYSTEM_TYPE_BRIDGE_ECOSYSTEM,
    UniversalTransaction.ECOSYSTEM_TYPE_P2P_ECOSYSTEM,
    UniversalTransaction.ECOSYSTEM_TYPE_PROTOCOL_NATIVE.
  destruct (toI32 timestamp) as [t |] eqn:Et; [| discriminate].
  apply toI32_Some in Et as [-> _]. cbn [mbind option_bind]. unfold dayIdOf.
  destruct (Store.dailyEcosystemStats s !! (wrapI32 timestamp `quot` 86400)) as [old |];
    cbn [mbind option_bind default from_option id];
    destruct (String.eqb_spec ecosystem "DEX_ECOSYSTEM") as [-> | _];
    cbn [String.eqb Ascii.eqb Bool.eqb];
    try destruct (String.eqb_spec ecosystem "BRIDGE_ECOSYSTEM") as [-> | _];
    cbn [String.eqb Ascii.eqb Bool.eqb];
    try destruct (String.eqb_spec ecosystem "P2P_ECOSYSTEM") as [-> | _];
    cbn [String.eqb Ascii.eqb Bool.eqb];
    try destruct (String.eqb_spec ecosystem "PROTOCOL_NATIVE") as [-> | _];
    cbn [String.eqb Ascii.eqb Bool.eqb];
    match goal with
    | |- context [if ?total >? 0 then _ else Some ?row] =>
        destruct (Z.gtb_spec total 0) as [Hpos | Hzero];
        [rewrite bd_div_nonzero by lia |]
    end;
    cbn [mbind option_bind]; intros H; injection H as <-;
    eexists; (split; [reflexivity |]); unfold flag, share; cbn; repeat split; lia.
Qed.

(** One call of [updateEcosystemStats] on the global row. *)
Lemma updateEcosystemStats_global
    (category ecosystem : string) (value timestamp : BigInt) (s : Store.t) :
  let old := globalOf s in
  exists row,
    UniversalTransaction.updateEcosystemStats category ecosystem value timestamp s
    = UniversalTransaction.updateDailyEcosystemStats category ecosystem value timestamp
        (Store.set_ecosystemStats (<["global" := row]> (Store.ecosystemStats s)) s) /\
    (EcosystemStats.dexTradingVolume row
       = EcosystemStats.dexTradingVolume old + share (String.eqb ecosystem "DEX_ECOSYSTEM") value /\
     EcosystemStats.bridgeVolume row
       = EcosystemStats.bridgeVolume old + share (String.eqb ecosystem "BRIDGE_ECOSYSTEM") value /\
     EcosystemStats.p2pVolume row
       = EcosystemStats.p2pVolume old + share (String.eqb ecosystem "P2P_ECOSYSTEM") value /\
     EcosystemStats.defiIntegrationVolume row
       = EcosystemStats.defiIntegrationVolume old
         + share (String.eqb ecosystem "DEFI_ECOSYSTEM") value) /\
    EcosystemStats.totalEcosystemVolume row
      = EcosystemStats.dexTradingVolume row + EcosystemStats.bridgeVolume row
        + EcosystemStats.p2pVolume row + EcosystemStats.defiIntegrationVolume row /\
    EcosystemStats.lastUpdateTimestamp row = timestamp.
Proof.
  unfold UniversalTransaction.updateEcosystemStats, globalOf,
    UniversalTransaction.ECOSYSTEM_TYPE_DEX_ECOSYSTEM,
    UniversalTransaction.ECOSYSTEM_TYPE_BRIDGE_ECOSYSTEM,
    UniversalTransaction.ECOSYSTEM_TYPE_P2P_ECOSYSTEM,
    UniversalTransaction.ECOSYSTEM_TYPE_DEFI_ECOSYSTEM.
  cbv zeta.
  destruct (Store.ecosystemStats s !! "global") as [old |];
    cbn [default from_option id];
    destruct (String.eqb_spec ecosystem "DEX_ECOSYSTEM") as [-> | _];
    cbn [String.eqb Ascii.eqb Bool.eqb];
    try destruct (String.eqb_spec ecosystem "BRIDGE_ECOSYSTEM") as [-> | _];
    cbn [String.eqb Ascii.eqb Bool.eqb];
    try destruct (String.eqb_spec ecosystem "P2P_ECOSYSTEM") as [-> | _];
    cbn [String.eqb Ascii.eqb Bool.eqb];
    try destruct (String.eqb_spec ecosystem "DEFI_ECOSYSTEM") as [-> | _];
    cbn [String.eqb Ascii.eqb Bool.eqb];
    eexists; (split; [reflexivity |]); unfold share; cbn; repeat split; lia.
Qed.

(** What one completed delivery does to the two ecosystem tables. *)
Lemma deliver_ecosystem (e : EventDescriptor) (s s1 : Store.t) (id : Bytes) :
  deliver e s = Some (id, s1) ->
  let day := dayIdOf (ed_blockTimestamp e) in
  (forall day', day' <> day -> dailyOf s1 day' = dailyOf s day') /\
  (DailyEcosystemStats.dexTradeCount (dailyOf s1 day)
     = DailyEcosystemStats.dexTradeCount (dailyOf s day)
       + flag (inEcosystem "DEX_ECOSYSTEM" e) /\
   DailyEcosystemStats.bridgeOperationCount (dailyOf s1 day)
     = DailyEcosystemStats.bridgeOperationCount (dailyOf s day)
       + flag (inEcosystem "BRIDGE_ECOSYSTEM" e) /\
   DailyEcosystemStats.p2pTransferCount (dailyOf s1 day)
     = DailyEcosystemStats.p2pTransferCount (dailyOf s day)
       + flag (inEcosystem "P2P_ECOSYSTEM" e) /\
   DailyEcosystemStats.protocolTransferCount (dailyOf s1 day)
     = DailyEcosystemStats.protocolTransferCount (dailyOf s day)
       + flag (inEcosystem "PROTOCOL_NATIVE" e)) /\
  (DailyEcosystemStats.dexTradeVolume (dailyOf s1 day)
     = DailyEcosystemStats.dexTradeVolume (dailyOf s day)
       + share (inEcosystem "DEX_ECOSYSTEM" e) (ed_value e) /\
   DailyEcosystemStats.bridgeVolume (dailyOf s1 day)
     = DailyEcosystemStats.bridgeVolume (dailyOf s day)
       + share (inEcosystem "BRIDGE_ECOSYSTEM" e) (ed_value e) /\
   DailyEcosystemStats.p2pTransferVolume (dailyOf s1 day)
     = DailyEcosystemStats.p2pTransferVolume (dailyOf s day)
       + share (inEcosystem "P2P_ECOSYSTEM" e) (ed_value e) /\
   DailyEcosystemStats.protocolTransferVolume (dailyOf s1 day)
     = DailyEcosystemStats.protocolTransferVolume (dailyOf s day)
       + share (inEcosystem "PROTOCOL_NATIVE" e) (ed_value e)) /\
  (DailyEcosystemStats.totalEcosystemTransactionCount (dailyOf s1 day)
     = DailyEcosystemStats.protocolTransferCount (dailyOf s1 day)
       + DailyEcosystemStats.dexTradeCount (dailyOf s1 day)
       + DailyEcosystemStats.bridgeOperationCount (dailyOf s1 day)
       + DailyEcosystemStats.p2pTransferCount (dailyOf s1 day) /\
   DailyEcosystemStats.totalEcosystemVolume (dailyOf s1 day)
     = DailyEcosystemStats.protocolTransferVolume (dailyOf s1 day)
       + DailyEcosystemStats.dexTradeVolume (dailyOf s1 day)
       + DailyEcosystemStats.bridgeVolume (dailyOf s1 day)
       + DailyEcosystemStats.p2pTransferVolume (dailyOf s1 day)) /\
  (EcosystemStats.dexTradingVolume (globalOf s1)
     = EcosystemStats.dexTradingVolume (globalOf s)
       + share (inEcosystem "DEX_ECOSYSTEM" e) (ed_value e) /\
   EcosystemStats.bridgeVolume (globalOf s1)
     = EcosystemStats.bridgeVolume (globalOf s)
       + share (inEcosystem "BRIDGE_ECOSYSTEM" e) (ed_value e) /\
   EcosystemStats.p2pVolume (globalOf s1)
     = EcosystemStats.p2pVolume (globalOf s)
       + share (inEcosystem "P2P_ECOSYSTEM" e) (ed_value e) /\
   EcosystemStats.defiIntegrationVolume (globalOf s1)
     = EcosystemStats.defiIntegrationVolume (globalOf s)
       + share (inEcosystem "DEFI_ECOSYSTEM" e) (ed_value e)) /\
  EcosystemStats.totalEcosystemVolume (globalOf s1)
    = EcosystemStats.dexTradingVolume (globalOf s1) + EcosystemStats.bridgeVolume (globalOf s1)
      + EcosystemStats.p2pVolume (globalOf s1)
      + EcosystemStats.defiIntegrationVolume (globalOf s1) /\
  EcosystemStats.lastUpdateTimestamp (globalOf s1) = ed_blockTimestamp e.
Proof.
  intros H day. apply deliver_shape in H as (_ & _ & Hagg).
  unfold aggregate in Hagg.
  destruct (updateAccountActivity_run (ed_from e) (ed_to e) (ed_value e) (ed_category e)
              (ed_ecosystem e) (ed_blockTimestamp e) (recordTransaction e id s))
    as (fromAccount & toAccount & Hact & _).
  rewrite Hact in Hagg. cbn [mbind option_bind] in Hagg.
  set (s0 := Store.set_accounts _ _) in Hagg.
  assert (Hdaily0 : Store.dailyEcosystemStats s0 = Store.dailyEcosystemStats s).
  { subst s0. cbn [Store.dailyEcosystemStats Store.set_accounts].
    unfold recordTransaction. destruct (Store.transactions s !! id); [reflexivity |].
    unfold UniversalTransaction.ensureAccount, UniversalTransaction.saveAccount.
    repeat match goal with
           | |- context [match ?m !! ?k with _ => _ end] => destruct (m !! k)
           end; reflexivity. }
  assert (Hglobal0 : Store.ecosystemStats s0 = Store.ecosystemStats s).
  { subst s0. cbn [Store.ecosystemStats Store.set_accounts].
    unfold recordTransaction. destruct (Store.transactions s !! id); [reflexivity |].
    unfold UniversalTransaction.ensureAccount, UniversalTransaction.saveAccount.
    repeat match goal with
           | |- context [match ?m !! ?k with _ => _ end] => destruct (m !! k)
           end; reflexivity. }
  clearbody s0.
  destruct (updateEcosystemStats_global (ed_category e) (ed_ecosystem e) (ed_value e)
              (ed_blockTimestamp e) s0) as (row & Heq & Hvol & Htot & Hts).
  rewrite Heq in Hagg.
  pose proof (updateDailyEcosystemStats_run (ed_category e) (ed_ecosystem e) (ed_value e)
                (ed_blockTimestamp e)
                (Store.set_ecosystemStats (<["global" := row]> (Store.ecosystemStats s0)) s0))
    as Hrun.
  pose proof (updateDailyEcosystemStats_step _ _ _ _ _ _ Hagg)
    as (dayRow & Hday & Hcount & Hvolume & Hsum).
  cbn [Store.dailyEcosystemStats Store.set_ecosystemStats] in Hday.
  destruct (toI32 (ed_blockTimestamp e)); [| congruence].
  destruct Hrun as (daily & Hrun). rewrite Hrun in Hagg. injection Hagg as <-.
  cbn [Store.dailyEcosystemStats Store.set_dailyEcosystemStats] in Hday.
  unfold dailyOf, globalOf in *.
  cbn [Store.dailyEcosystemStats Store.set_dailyEcosystemStats Store.ecosystemStats
         Store.set_ecosystemStats] in *.
  rewrite Hday, Hdaily0, Hglobal0 in *. fold day in Hcount, Hvolume, Hsum |- *.
  rewrite !lookup_insert_eq. cbn [default from_option Datatypes.id].
  unfold inEcosystem.
  split; [intros day' Hne; rewrite lookup_insert_ne by congruence; reflexivity |].
  repeat split; first [apply Hcount | apply Hvolume | apply Hsum | apply Hvol
                      | apply Htot | apply Hts].
Qed.

(** Every run of deliverable events completes. *)
Lemma deliverAll_total (events : list EventDescriptor) :
  Forall deliverable events -> forall s, is_Some (deliverAll events s).
Proof.
  induction 1 as [| e rest [[id Hid] Hts] _ IH]; intros s; [cbn; eauto |].
  destruct (deliver_total e s id Hid Hts) as [s1 H].
  cbn [deliverAll]. rewrite H. cbn [mbind option_bind snd]. apply IH.
Qed.

(** X18.  The daily roll-up is additive.  Over any run of events that can be
    processed, from any store, each of the four per-ecosystem columns of a
    day's row grows by the number (and by the total value) of the run's
    events of that day and that ecosystem; DeFi events, and events of any
    other ecosystem name, are in no column. *)
Theorem dailyRollup_additive (events : list EventDescriptor) (s : Store.t) (day : Z) :
  Forall deliverable events ->
  exists s',
    deliverAll events s = Some s' /\
    (DailyEcosystemStats.dexTradeCount (dailyOf s' day)
       = DailyEcosystemStats.dexTradeCount (dailyOf s day)
         + countOf (onDay day "DEX_ECOSYSTEM") events /\
     DailyEcosystemStats.bridgeOperationCount (dailyOf s' day)
       = DailyEcosystemStats.bridgeOperationCount (dailyOf s day)
         + countOf (onDay day "BRIDGE_ECOSYSTEM") events /\
     DailyEcosystemStats.p2pTransferCount (dailyOf s' day)
       = DailyEcosystemStats.p2pTransferCount (dailyOf s day)
         + countOf (onDay day "P2P_ECOSYSTEM") events /\
     DailyEcosystemStats.protocolTransferCount (dailyOf s' day)
       = DailyEcosystemStats.protocolTransferCount (dailyOf s day)
         + countOf (onDay day "PROTOCOL_NATIVE") events) /\
    (DailyEcosystemStats.dexTradeVolume (dailyOf s' day)
       = DailyEcosystemStats.dexTradeVolume (dailyOf s day)
         + volumeOf (onDay day "DEX_ECOSYSTEM") events /\
     DailyEcosystemStats.bridgeVolume (dailyOf s' day)
       = DailyEcosystemStats.bridgeVolume (dailyOf s day)
         + volumeOf (onDay day "BRIDGE_ECOSYSTEM") events /\
     DailyEcosystemStats.p2pTransferVolume (dailyOf s' day)
       = DailyEcosystemStats.p2pTransferVolume (dailyOf s day)
         + volumeOf (onDay day "P2P_ECOSYSTEM") events /\
     DailyEcosystemStats.protocolTransferVolume (dailyOf s' day)
       = DailyEcosystemStats.protocolTransferVolume (dailyOf s day)
         + volumeOf (onDay day "PROTOCOL_NATIVE") events).
Proof.
  intros Hall. revert s.
  induction Hall as [| e rest [[id Hid] Hts] _ IH]; intros s.
  - exists s. split; [reflexivity |]. unfold countOf, volumeOf. cbn. repeat split; lia.
  - destruct (deliver_total e s id Hid Hts) as [s1 H].
    destruct (IH s1) as (s' & Hrun & Hc & Hv).
    exists s'. split; [cbn [deliverAll]; rewrite H; exact Hrun |].
    pose proof (deliver_ecosystem e s s1 id H) as (Hother & Hc1 & Hv1 & _).
    rewrite !countOf_cons, !volumeOf_cons. unfold onDay at 1 3 5 7 9 11 13 15.
    destruct (Z.eqb_spec (dayIdOf (ed_blockTimestamp e)) day) as [<- | Hne].
    + cbn [andb]. destruct Hc as (? & ? & ? & ?), Hv as (? & ? & ? & ?),
        Hc1 as (? & ? & ? & ?), Hv1 as (? & ? & ? & ?).
      repeat split; lia.
    + cbn [andb]. rewrite <- (Hother day) by congruence. unfold flag, share.
      destruct Hc as (? & ? & ? & ?), Hv as (? & ? & ? & ?). repeat split; lia.
Qed.

Lemma sampleRun_deliverable : Forall deliverable [sampleTransfer; sampleTrade; sampleTrade].
Proof.
  repeat constructor; eexists; reflexivity.
Qed.

Lemma dailyRollup_additive_witness :
  exists s',
    deliverAll [sampleTransfer; sampleTrade; sampleTrade] emptyStore = Some s' /\
    DailyEcosystemStats.dexTradeCount (dailyOf s' 1) = 2 /\
    DailyEcosystemStats.dexTradeVolume (dailyOf s' 1) = 80.
Proof.
  destruct (dailyRollup_additive [sampleTransfer; sampleTrade; sampleTrade] emptyStore 1
              sampleRun_deliverable)
    as (s' & Hrun & (Hc & _) & (Hv & _)).
  exists s'. split; [exact Hrun |]. split; [exact Hc | exact Hv].
Defined.

(** X19.  After every completed delivery the day's total count and total
    volume are the sums of the four per-ecosystem columns, and the global
    total volume is the sum of the DEX, bridge, P2P and DeFi volumes. *)
Theorem ecosystem_totals_are_sums (e : EventDescriptor) (s s1 : Store.t) (id : Bytes) :
  deliver e s = Some (id, s1) ->
  let daily := dailyOf s1 (dayIdOf (ed_blockTimestamp e)) in
  let global := globalOf s1 in
  is_Some (Store.dailyEcosystemStats s1 !! dayIdOf (ed_blockTimestamp e)) /\
  is_Some (Store.ecosystemStats s1 !! "global") /\
  DailyEcosystemStats.totalEcosystemTransactionCount daily
    = DailyEcosystemStats.protocolTransferCount daily + DailyEcosystemStats.dexTradeCount daily
      + DailyEcosystemStats.bridgeOperationCount daily
      + DailyEcosystemStats.p2pTransferCount daily /\
  DailyEcosystemStats.totalEcosystemVolume daily
    = DailyEcosystemStats.protocolTransferVolume daily + DailyEcosystemStats.dexTradeVolume daily
      + DailyEcosystemStats.bridgeVolume daily + DailyEcosystemStats.p2pTransferVolume daily /\
  EcosystemStats.totalEcosystemVolume global
    = EcosystemStats.dexTradingVolume global + EcosystemStats.bridgeVolume global
      + EcosystemStats.p2pVolume global + EcosystemStats.defiIntegrationVolume global.
Proof.
  intros H daily global.
  pose proof (deliver_ecosystem e s s1 id H) as (_ & _ & _ & (Hc & Hv) & _ & Hg & _).
  assert (Hrows : is_Some (Store.dailyEcosystemStats s1
                             !! dayIdOf (ed_blockTimestamp e)) /\
                  is_Some (Store.ecosystemStats s1 !! "global")).
  { apply deliver_shape in H as (_ & _ & Hagg). unfold aggregate in Hagg.
    destruct (UniversalTransaction.updateAccountActivity _ _ _ _ _ _ _) as [s0 |];
      [| discriminate Hagg].
    cbn [mbind option_bind] in Hagg.
    destruct (updateEcosystemStats_global (ed_category e) (ed_ecosystem e) (ed_value e)
                (ed_blockTimestamp e) s0) as (row & Heq & _).
    rewrite Heq in Hagg.
    pose proof (updateDailyEcosystemStats_run (ed_category e) (ed_ecosystem e) (ed_value e)
                  (ed_blockTimestamp e)
                  (Store.set_ecosystemStats (<["global" := row]> (Store.ecosystemStats s0)) s0))
      as Hrun.
    pose proof (updateDailyEcosystemStats_step _ _ _ _ _ _ Hagg) as (dayRow & Hday & _).
    destruct (toI32 (ed_blockTimestamp e)); [| congruence].
    destruct Hrun as (d & Hrun). rewrite Hrun in Hagg. injection Hagg as <-.
    rewrite Hday.
    cbn [Store.ecosystemStats Store.set_ecosystemStats Store.set_dailyEcosystemStats].
    rewrite !lookup_insert_eq. eauto. }
  destruct Hrows as [Hd Hgl]. repeat split; assumption.
Qed.

Lemma ecosystem_totals_are_sums_witness :
  exists id s1,
    deliver sampleTransfer emptyStore = Some (id, s1) /\
    EcosystemStats.totalEcosystemVolume (globalOf s1)
    = EcosystemStats.dexTradingVolume (globalOf s1) + EcosystemStats.bridgeVolume (globalOf s1)
      + EcosystemStats.p2pVolume (globalOf s1)
      + EcosystemStats.defiIntegrationVolume (globalOf s1).
Proof.
  destruct sampleTransfer_delivered as [[id s1] H].
  exists id, s1. split; [exact H |].
  apply (ecosystem_totals_are_sums sampleTransfer emptyStore s1 id H).
Defined.

(** X20.  The global volumes are additive over a run: each of the DEX,
    bridge, P2P and DeFi volumes grows by the total value of the run's
    events of that ecosystem; protocol-native events add to none of them. *)
Theorem globalVolumes_additive (events : list EventDescriptor) (s : Store.t) :
  Forall deliverable events ->
  exists s',
    deliverAll events s = Some s' /\
    EcosystemStats.dexTradingVolume (globalOf s')
      = EcosystemStats.dexTradingVolume (globalOf s)
        + volumeOf (inEcosystem "DEX_ECOSYSTEM") events /\
    EcosystemStats.bridgeVolume (globalOf s')
      = EcosystemStats.bridgeVolume (globalOf s)
        + volumeOf (inEcosystem "BRIDGE_ECOSYSTEM") events /\
    EcosystemStats.p2pVolume (globalOf s')
      = EcosystemStats.p2pVolume (globalOf s)
        + volumeOf (inEcosystem "P2P_ECOSYSTEM") events /\
    EcosystemStats.defiIntegrationVolume (globalOf s')
      = EcosystemStats.defiIntegrationVolume (globalOf s)
        + volumeOf (inEcosystem "DEFI_ECOSYSTEM") events.
Proof.
  intros Hall. revert s.
  induction Hall as [| e rest [[id Hid] Hts] _ IH]; intros s.
  - exists s. split; [reflexivity |]. unfold volumeOf. cbn. repeat split; lia.
  - destruct (deliver_total e s id Hid Hts) as [s1 H].
    destruct (IH s1) as (s' & Hrun & ? & ? & ? & ?).
    exists s'. split; [cbn [deliverAll]; rewrite H; exact Hrun |].
    pose proof (deliver_ecosystem e s s1 id H) as (_ & _ & _ & _ & (? & ? & ? & ?) & _).
    rewrite !volumeOf_cons. repeat split; lia.
Qed.

Lemma globalVolumes_additive_witness :
  exists s',
    deliverAll [sampleTransfer; sampleTrade; sampleTrade] emptyStore = Some s' /\
    EcosystemStats.dexTradingVolume (globalOf s') = 80.
Proof.
  destruct (globalVolumes_additive [sampleTransfer; sampleTrade; sampleTrade] emptyStore
              sampleRun_deliverable)
    as (s' & Hrun & Hdex & _).
  exists s'. split; [exact Hrun | exact Hdex].
Defined.

(** * Further properties of the trove handlers *)

(** [updateProtocolStatsForTrove] on a trove whose status, debt and
    collateral are set: it completes and writes the statistics table only. *)
Lemma updateProtocolStatsForTrove_frame
    (trove : Trove.t) (previousStatus status : string)
    (previousDebt previousCollateral debt collateral : BigInt)
    (isNew : bool) (timestamp blockNumber : BigInt) (s : Store.t) :
  Trove.status trove = Some status -> Trove.debt trove = Some debt ->
  Trove.collateral trove = Some collateral ->
  exists s',
    TroveManager.updateProtocolStatsForTrove trove previousStatus previousDebt
      previousCollateral isNew timestamp blockNumber s = Some s' /\
    Store.troves s' = Store.troves s /\
    Store.troveOperations s' = Store.troveOperations s /\
    Store.liquidations s' = Store.liquidations s /\
    Store.transactions s' = Store.transactions s /\
    Store.accounts s' = Store.accounts s.
Proof.
  intros Hstatus Hdebt Hcoll.
  destruct (Store.protocolStats s !! TroveManager.GLOBAL_STATS_ID) as [stats |] eqn:E.
  - destruct (updateProtocolStatsForTrove_present trove previousStatus status previousDebt
                previousCollateral debt collateral isNew timestamp blockNumber s stats
                E Hstatus Hdebt Hcoll) as (stats' & -> & _).
    eexists. split; [reflexivity |]. repeat split; reflexivity.
  - rewrite updateProtocolStatsForTrove_absent by exact E.
    exists s. repeat split; reflexivity.
Qed.

Lemma analyticsLiquidationPrice_lifetime
    (collateral debt : BigInt) (trove trove' : Trove.t) :
  TroveManager.analyticsLiquidationPrice collateral debt trove = Some trove' ->
  lifetimeOf trove' = lifetimeOf trove /\
  Trove.collateralRatio trove' = Trove.collateralRatio trove.
Proof.
  unfold TroveManager.analyticsLiquidationPrice.
  destruct (debt >? ZERO_BI).
  - destruct (bd_div _ _); [| discriminate]. cbn [mbind option_bind].
    intros H. injection H as <-. split; reflexivity.
  - intros H. injection H as <-. split; reflexivity.
Qed.

Lemma analyticsAverage_lifetime (trove trove' : Trove.t) :
  TroveManager.analyticsAverage trove = Some trove' ->
  lifetimeOf trove' = lifetimeOf trove /\
  Trove.collateralRatio trove' = Trove.collateralRatio trove.
Proof.
  unfold TroveManager.analyticsAverage.
  destruct (Trove.operationCount trove >? ZERO_BI).
  - destruct (bd_div _ _); [| discriminate]. cbn [mbind option_bind].
    intros H. injection H as <-. split; reflexivity.
  - intros H. injection H as <-. split; reflexivity.
Qed.

Lemma analyticsScores_lifetime (trove trove' : Trove.t) :
  TroveManager.analyticsScores trove = Some trove' ->
  lifetimeOf trove' = lifetimeOf trove /\
  Trove.collateralRatio trove' = Trove.collateralRatio trove.
Proof.
  unfold TroveManager.analyticsScores.
  destruct (TroveManager.calculateTrovePerformanceScore trove); [| discriminate].
  cbn [mbind option_bind].
  destruct (TroveManager.calculateLiquidationRiskScore _); [| discriminate].
  cbn [mbind option_bind].
  intros H. injection H as <-. split; reflexivity.
Qed.

(** What [updateTroveAnalytics] does to the lifetime totals and to the
    lowest ratio. *)
Lemma updateTroveAnalytics_lifetime
    (trove trove' : Trove.t) (previousCollateral previousDebt timestamp collateral debt : BigInt) :
  TroveManager.updateTroveAnalytics trove previousCollateral previousDebt timestamp
    = Some trove' ->
  Trove.collateral trove = Some collateral -> Trove.debt trove = Some debt ->
  Trove.totalBorrowed trove' = Trove.totalBorrowed trove + Z.max 0 (debt - previousDebt) /\
  Trove.totalRepaid trove' = Trove.totalRepaid trove + Z.max 0 (previousDebt - debt) /\
  Trove.totalCollateralAdded trove'
    = Trove.totalCollateralAdded trove + Z.max 0 (collateral - previousCollateral) /\
  Trove.totalCollateralWithdrawn trove'
    = Trove.totalCollateralWithdrawn trove + Z.max 0 (previousCollateral - collateral) /\
  Trove.lowestCollateralRatio trove'
    = (if bd_lt (Trove.collateralRatio trove') (Trove.lowestCollateralRatio trove)
       then Trove.collateralRatio trove' else Trove.lowestCollateralRatio trove).
Proof.
  intros H Hcoll Hdebt.
  unfold TroveManager.updateTroveAnalytics in H. rewrite Hcoll, Hdebt in H.
  cbn [mbind option_bind] in H.
  destruct (Helpers.calculateCollateralRatio collateral debt) as [cr |]; [| discriminate H].
  cbn [mbind option_bind] in H.
  destruct (TroveManager.analyticsLiquidationPrice _ _ _) as [t2 |] eqn:E2; [| discriminate H].
  cbn [mbind option_bind] in H.
  destruct (TroveManager.analyticsAverage _) as [t5 |] eqn:E5; [| discriminate H].
  cbn [mbind option_bind] in H.
  apply analyticsScores_lifetime in H as [L6 C6].
  apply analyticsAverage_lifetime in E5 as [L5 C5].
  apply analyticsLiquidationPrice_lifetime in E2 as [L2 C2].
  assert (L1 : lifetimeOf (TroveManager.analyticsRatio cr trove)
               = (Trove.totalBorrowed trove, Trove.totalRepaid trove,
                  Trove.totalCollateralAdded trove, Trove.totalCollateralWithdrawn trove,
                  if bd_lt cr (Trove.lowestCollateralRatio trove) then cr
                  else Trove.lowestCollateralRatio trove) /\
               Trove.collateralRatio (TroveManager.analyticsRatio cr trove) = cr).
  { unfold TroveManager.analyticsRatio, lifetimeOf. cbv zeta.
    cbn [Trove.collateralRatio Trove.lowestCollateralRatio Trove.set_collateralRatio].
    destruct (bd_lt cr (Trove.lowestCollateralRatio trove)); split; reflexivity. }
  destruct L1 as [L1 C1].
  set (t1 := TroveManager.analyticsRatio cr trove) in *. clearbody t1.
  assert (L3 : lifetimeOf (TroveManager.analyticsSafetyMargin t2) = lifetimeOf t2 /\
               Trove.collateralRatio (TroveManager.analyticsSafetyMargin t2)
               = Trove.collateralRatio t2).
  { unfold TroveManager.analyticsSafetyMargin. cbv zeta.
    destruct (bd_gt _ _); split; reflexivity. }
  destruct L3 as [L3 C3].
  set (t3 := TroveManager.analyticsSafetyMargin t2) in *. clearbody t3.
  assert (Hcr : Trove.collateralRatio trove' = cr).
  { rewrite C6, C5.
    unfold TroveManager.analyticsLifetime. cbv zeta.
    destruct (_ >? _); [| destruct (_ <? _)];
      (destruct (_ >? _); [| destruct (_ <? _)]); cbn; congruence. }
  rewrite Hcr.
  assert (L4 : lifetimeOf
                 (TroveManager.analyticsLifetime collateral debt previousCollateral
                    previousDebt t3)
               = (Trove.totalBorrowed t3 + Z.max 0 (debt - previousDebt),
                  Trove.totalRepaid t3 + Z.max 0 (previousDebt - debt),
                  Trove.totalCollateralAdded t3 + Z.max 0 (collateral - previousCollateral),
                  Trove.totalCollateralWithdrawn t3
                    + Z.max 0 (previousCollateral - collateral),
                  Trove.lowestCollateralRatio t3)).
  { unfold TroveManager.analyticsLifetime, lifetimeOf, ZERO_BI. cbv zeta.
    destruct (Z.gtb_spec (collateral - previousCollateral) 0);
      [| destruct (Z.ltb_spec (collateral - previousCollateral) 0)];
      (destruct (Z.gtb_spec (debt - previousDebt) 0);
       [| destruct (Z.ltb_spec (debt - previousDebt) 0)]);
      cbn; repeat f_equal; lia. }
  rewrite L4 in L5. rewrite L5 in L6.
  assert (L123 : lifetimeOf t3
                 = (Trove.totalBorrowed trove, Trove.totalRepaid trove,
                    Trove.totalCollateralAdded trove, Trove.totalCollateralWithdrawn trove,
                    if bd_lt cr (Trove.lowestCollateralRatio trove) then cr
                    else Trove.lowestCollateralRatio trove)) by congruence.
  unfold lifetimeOf in L6, L123.
  injection L123 as B R A W Lo. injection L6 as B' R' A' W' Lo'.
  rewrite B', R', A', W', Lo', B, R, A, W, Lo. repeat split; reflexivity.
Qed.

(** [handleTroveUpdated] up to its last call, for a stored trove, with the
    row that went into [updateTroveAnalytics]. *)
Lemma handleTroveUpdated_analytics (event : TroveManager.TroveUpdatedEvent) (s : Store.t)
    (old : Trove.t) (previousCollateral previousDebt : BigInt) (previousStatus : string) :
  storedTrove s (TroveManager.tu_borrower event) old previousCollateral previousDebt
    previousStatus ->
  troveEventOk event old ->
  exists s2 t0 trove',
    TroveManager.handleTroveUpdated event s =
      TroveManager.updateProtocolStatsForTrove trove'
        (TroveManager.orString previousStatus "ACTIVE") previousDebt previousCollateral
        false (TroveManager.tu_blockTimestamp event)
        (TroveManager.tu_blockNumber event) s2 /\
    Store.protocolStats s2 = Store.protocolStats s /\
    Store.troves s2 = <[TroveManager.tu_borrower event := trove']> (Store.troves s) /\
    TroveManager.updateTroveAnalytics t0 previousCollateral previousDebt
      (TroveManager.tu_blockTimestamp event) = Some trove' /\
    Trove.collateral t0 = Some (TroveManager.tu_coll event) /\
    Trove.debt t0 = Some (TroveManager.tu_debt event) /\
    lifetimeOf t0 = lifetimeOf old /\
    Trove.collateral trove' = Some (TroveManager.tu_coll event) /\
    Trove.debt trove' = Some (TroveManager.tu_debt event) /\
    Trove.status trove' = Some (statusOfDebt (TroveManager.tu_debt event)).
Proof.
  intros (Hold & Hpc & Hpd & Hps) (Hlog & Hts & Hc & Hd & Hcd & Hopened).
  unfold TroveManager.handleTroveUpdated.
  change (UniversalTransaction.createUniversalTransaction _ _ _ _ _ _ _ _ _ _ _ _ _ _ s)
    with (deliver (troveUpdatedDescriptor event) s).
  destruct (deliver_total (troveUpdatedDescriptor event) s
              (concatI32 (TroveManager.tu_hash event) (TroveManager.tu_logIndex event)))
    as [s1 Hdeliver].
  { cbn [UniversalTransaction.transactionId troveUpdatedDescriptor ed_hash ed_logIndex].
    rewrite toI32_in_range by lia. reflexivity. }
  { cbn [troveUpdatedDescriptor ed_blockTimestamp]. rewrite toI32_in_range by lia. eauto. }
  rewrite Hdeliver. cbn [mbind option_bind].
  pose proof (deliver_positionTables _ _ _ _ Hdeliver) as Hpos1.
  pose proof (ensureAccount_positionTables (TroveManager.tu_borrower event) s1) as Hpos2.
  destruct (UniversalTransaction.ensureAccount (TroveManager.tu_borrower event) s1)
    as [account s1'].
  cbn [snd] in Hpos2.
  pose proof (positionTablesEqual_trans _ _ _ Hpos1 Hpos2)
    as (Pstats & Ptroves & Pops & Pliq & Pmkt).
  clear Hpos1 Hpos2 Hdeliver.
  rewrite Ptroves, Hold, Hpc, Hpd, Hps. cbn [mbind option_bind].
  unfold bi_div. cbn [Z.eqb mbind option_bind].
  set (days := (TroveManager.tu_blockTimestamp event - Trove.openedAtTimestamp _) `quot` 86400).
  assert (Hdays : 0 <= days).
  { subst days. cbn. apply Z.quot_pos; lia. }
  clearbody days.
  set (t0 := if TroveManager.tu_debt event =? ZERO_BI then _ else _).
  assert (Ht0 : Trove.collateral t0 = Some (TroveManager.tu_coll event) /\
                Trove.debt t0 = Some (TroveManager.tu_debt event) /\
                Trove.status t0 = Some (statusOfDebt (TroveManager.tu_debt event)) /\
                Trove.daysOpen t0 = days /\
                lifetimeOf t0 = lifetimeOf old).
  { subst t0. unfold statusOfDebt, ZERO_BI.
    destruct (TroveManager.tu_debt event =? 0); repeat split; reflexivity. }
  clearbody t0. destruct Ht0 as (T0c & T0d & T0s & T0days & T0life).
  destruct (updateTroveAnalytics_run t0 previousCollateral previousDebt
              (TroveManager.tu_blockTimestamp event)
              (TroveManager.tu_coll event) (TroveManager.tu_debt event))
    as (trove' & cr & Hrun & Hcr & Hposition & _);
    try assumption; [rewrite T0days; exact Hdays |].
  rewrite Hrun. cbn [mbind option_bind].
  unfold TroveManager.createTroveOperation. rewrite toI32_in_range by lia.
  cbn [mbind option_bind].
  eexists. exists t0, trove'.
  split; [reflexivity |].
  unfold positionOf in Hposition.
  cbn [Store.protocolStats Store.troves Store.troveOperations TroveManager.saveTrove
         Store.set_troves Store.set_troveOperations].
  rewrite Ptroves.
  repeat split; try assumption; try reflexivity; try congruence.
Qed.

(** X21.  A trove update of a stored trove, with a statistics row.  The
    handler completes; the count of active troves moves by the transition
    from the stored status to the new one (plus one when a trove that was
    not ACTIVE gets a debt, minus one when an ACTIVE trove loses its debt,
    nothing when the status stays), the count of troves is unchanged, and the
    debt and collateral totals move by the change of the trove. *)
Theorem handleTroveUpdated_statistics
    (event : TroveManager.TroveUpdatedEvent) (s : Store.t) (old : Trove.t)
    (previousCollateral previousDebt : BigInt) (previousStatus : string)
    (stats : ProtocolStats.t) :
  storedTrove s (TroveManager.tu_borrower event) old previousCollateral previousDebt
    previousStatus ->
  troveEventOk event old ->
  Store.protocolStats s !! TroveManager.GLOBAL_STATS_ID = Some stats ->
  exists s' stats',
    TroveManager.handleTroveUpdated event s = Some s' /\
    Store.protocolStats s' !! TroveManager.GLOBAL_STATS_ID = Some stats' /\
    ProtocolStats.activeTroveCount stats'
      = ProtocolStats.activeTroveCount stats
        + activeDelta (TroveManager.orString previousStatus "ACTIVE")
            (statusOfDebt (TroveManager.tu_debt event)) /\
    ProtocolStats.totalTroveCount stats' = ProtocolStats.totalTroveCount stats /\
    ProtocolStats.totalDebt stats'
      = ProtocolStats.totalDebt stats + (TroveManager.tu_debt event - previousDebt) /\
    ProtocolStats.totalCollateral stats'
      = ProtocolStats.totalCollateral stats
        + (TroveManager.tu_coll event - previousCollateral) /\
    ProtocolStats.lifetimeLiquidationCount stats'
      = ProtocolStats.lifetimeLiquidationCount stats /\
    (previousStatus = "ACTIVE" -> TroveManager.tu_debt event <> 0 ->
     ProtocolStats.activeTroveCount stats' = ProtocolStats.activeTroveCount stats) /\
    (previousStatus = "ACTIVE" -> TroveManager.tu_debt event = 0 ->
     ProtocolStats.activeTroveCount stats' = ProtocolStats.activeTroveCount stats - 1) /\
    (previousStatus = "CLOSED_BY_OWNER" -> TroveManager.tu_debt event <> 0 ->
     ProtocolStats.activeTroveCount stats' = ProtocolStats.activeTroveCount stats + 1).
Proof.
  intros Hstored Hok Hstats.
  destruct (handleTroveUpdated_run event s old previousCollateral previousDebt
              previousStatus Hstored Hok)
    as (s2 & trove' & operation & cr & Hrun & Pstats & _ & _ & _ & _ & _ & _ & _
        & Tc & Td & Ts & _).
  rewrite <- Pstats in Hstats.
  destruct (updateProtocolStatsForTrove_present trove'
              (TroveManager.orString previousStatus "ACTIVE")
              (statusOfDebt (TroveManager.tu_debt event))
              previousDebt previousCollateral
              (TroveManager.tu_debt event) (TroveManager.tu_coll event)
              false (TroveManager.tu_blockTimestamp event)
              (TroveManager.tu_blockNumber event) s2 stats Hstats Ts Td Tc)
    as (stats' & Hupd & Ha & Hn & Hd & Hc & Hl).
  eexists. exists stats'. split; [rewrite Hrun; exact Hupd |].
  cbn [Store.protocolStats Store.set_protocolStats]. rewrite lookup_insert_eq.
  split; [reflexivity |]. split; [exact Ha |]. split; [lia |].
  split; [exact Hd |]. split; [exact Hc |]. split; [exact Hl |].
  rewrite Ha. unfold statusOfDebt, activeDelta.
  split; [| split]; intros -> Hdebt;
    destruct (Z.eqb_spec (TroveManager.tu_debt event) 0); try contradiction; cbn; lia.
Qed.

(** The theorem at an update of the sample trove to debt 600. *)
Lemma handleTroveUpdated_statistics_witness :
  exists s' stats',
    TroveManager.handleTroveUpdated (adjustmentEvent 0 600) sampleTroveStore = Some s' /\
    Store.protocolStats s' !! TroveManager.GLOBAL_STATS_ID = Some stats' /\
    ProtocolStats.totalDebt stats' = 100 /\ ProtocolStats.activeTroveCount stats' = 0.
Proof.
  destruct (handleTroveUpdated_statistics (adjustmentEvent 0 600) sampleTroveStore
              sampleTrove 2000 500 "ACTIVE" initializeProtocolStats)
    as (s' & stats' & Hrun & Hrow & _ & _ & Hd & _ & _ & Hsame & _).
  - apply sampleTrove_stored. reflexivity.
  - apply adjustmentEvent_ok; lia.
  - reflexivity.
  - exists s', stats'. split; [exact Hrun |]. split; [exact Hrow |].
    split; [rewrite Hd; reflexivity |].
    rewrite Hsame; [reflexivity | reflexivity | discriminate].
Defined.

(** X22.  The lifetime totals of a stored trove.  After a trove update the
    stored row has [totalBorrowed - totalRepaid] moved by the change of the
    debt and [totalCollateralAdded - totalCollateralWithdrawn] moved by the
    change of the collateral, and none of the four totals decreases.  The
    lowest collateral ratio is at most the new ratio and at most what it
    was. *)
Theorem trove_lifetime_totals (event : TroveManager.TroveUpdatedEvent) (s : Store.t)
    (old : Trove.t) (previousCollateral previousDebt : BigInt) (previousStatus : string) :
  storedTrove s (TroveManager.tu_borrower event) old previousCollateral previousDebt
    previousStatus ->
  troveEventOk event old ->
  exists s' trove',
    TroveManager.handleTroveUpdated event s = Some s' /\
    Store.troves s' !! TroveManager.tu_borrower event = Some trove' /\
    Trove.totalBorrowed trove' - Trove.totalRepaid trove'
      = Trove.totalBorrowed old - Trove.totalRepaid old
        + (TroveManager.tu_debt event - previousDebt) /\
    Trove.totalCollateralAdded trove' - Trove.totalCollateralWithdrawn trove'
      = Trove.totalCollateralAdded old - Trove.totalCollateralWithdrawn old
        + (TroveManager.tu_coll event - previousCollateral) /\
    (Trove.totalBorrowed old <= Trove.totalBorrowed trove' /\
     Trove.totalRepaid old <= Trove.totalRepaid trove' /\
     Trove.totalCollateralAdded old <= Trove.totalCollateralAdded trove' /\
     Trove.totalCollateralWithdrawn old <= Trove.totalCollateralWithdrawn trove') /\
    (Trove.lowestCollateralRatio trove' <= Trove.collateralRatio trove')%Qc /\
    (Trove.lowestCollateralRatio trove' <= Trove.lowestCollateralRatio old)%Qc.
Proof.
  intros Hstored Hok.
  destruct (handleTroveUpdated_analytics event s old previousCollateral previousDebt
              previousStatus Hstored Hok)
    as (s2 & t0 & trove' & Hrun & _ & Ptroves & Hana & T0c & T0d & T0life & Tc & Td & Ts).
  destruct (updateProtocolStatsForTrove_frame trove'
              (TroveManager.orString previousStatus "ACTIVE")
              (statusOfDebt (TroveManager.tu_debt event))
              previousDebt previousCollateral
              (TroveManager.tu_debt event) (TroveManager.tu_coll event)
              false (TroveManager.tu_blockTimestamp event)
              (TroveManager.tu_blockNumber event) s2 Ts Td Tc)
    as (s' & Hupd & Ftroves & _).
  exists s', trove'. split; [rewrite Hrun; exact Hupd |].
  split; [rewrite Ftroves, Ptroves; apply lookup_insert_eq |].
  destruct (updateTroveAnalytics_lifetime _ _ _ _ _ _ _ Hana T0c T0d)
    as (B & R & A & W & Lo).
  unfold lifetimeOf in T0life. injection T0life as B0 R0 A0 W0 Lo0.
  rewrite B0 in B. rewrite R0 in R. rewrite A0 in A. rewrite W0 in W. rewrite Lo0 in Lo.
  split; [lia |]. split; [lia |]. split; [repeat split; lia |].
  rewrite Lo.
  destruct (bd_lt (Trove.collateralRatio trove') (Trove.lowestCollateralRatio old)) eqn:E.
  - split; [apply Qcle_refl |]. apply bd_lt_spec in E. apply Qclt_le_weak. exact E.
  - apply bd_lt_false in E. split; [exact E | apply Qcle_refl].
Qed.

(** The theorem at an update of the sample trove to debt 600. *)
Lemma trove_lifetime_totals_witness :
  exists s' trove',
    TroveManager.handleTroveUpdated (adjustmentEvent 0 600) sampleTroveStore = Some s' /\
    Store.troves s' !! replicate 20 17 = Some trove' /\
    Trove.totalBorrowed trove' - Trove.totalRepaid trove' = 100.
Proof.
  destruct (trove_lifetime_totals (adjustmentEvent 0 600) sampleTroveStore
              sampleTrove 2000 500 "ACTIVE")
    as (s' & trove' & Hrun & Hrow & Hnet & _).
  - apply sampleTrove_stored. reflexivity.
  - apply adjustmentEvent_ok; lia.
  - exists s', trove'. split; [exact Hrun |]. split; [exact Hrow |].
    rewrite Hnet. reflexivity.
Defined.

(** * Liquidations *)

(** X23.  A [TroveLiquidated] event for a borrower without a stored trove.
    The handler completes when log index and timestamp fit 32 bits; it
    writes no trove, no operation, no liquidation and no statistics, but the
    event is in the ledger and the borrower has an account row. *)
Theorem handleTroveLiquidated_unknown_borrower
    (event : TroveManager.TroveLiquidatedEvent) (s : Store.t) :
  0 <= TroveManager.tl_logIndex event <= 2147483647 ->
  0 <= TroveManager.tl_blockTimestamp event <= 2147483647 ->
  Store.troves s !! TroveManager.tl_borrower event = None ->
  exists s',
    TroveManager.handleTroveLiquidated event s = Some s' /\
    Store.troves s' = Store.troves s /\
    Store.troveOperations s' = Store.troveOperations s /\
    Store.liquidations s' = Store.liquidations s /\
    Store.protocolStats s' = Store.protocolStats s /\
    is_Some (Store.transactions s'
               !! concatI32 (TroveManager.tl_hash event) (TroveManager.tl_logIndex event)) /\
    is_Some (Store.accounts s' !! TroveManager.tl_borrower event).
Proof.
  intros Hlog Hts Htrove.
  unfold TroveManager.handleTroveLiquidated.
  change (UniversalTransaction.createUniversalTransaction _ _ _ _ _ _ _ _ _ _ _ _ _ _ s)
    with (deliver (troveLiquidatedDescriptor event) s).
  destruct (deliver_total (troveLiquidatedDescriptor event) s
              (concatI32 (TroveManager.tl_hash event) (TroveManager.tl_logIndex event)))
    as [s1 Hdeliver].
  { cbn [UniversalTransaction.transactionId troveLiquidatedDescriptor ed_hash ed_logIndex].
    rewrite toI32_in_range by lia. reflexivity. }
  { cbn [troveLiquidatedDescriptor ed_blockTimestamp].
    rewrite toI32_in_range by lia. eauto. }
  rewrite Hdeliver. cbn [mbind option_bind].
  destruct (deliver_positionTables _ _ _ _ Hdeliver) as (Pstats & Ptroves & Pops & Pliq & _).
  rewrite Ptroves, Htrove.
  exists s1. split; [reflexivity |].
  destruct (deliver_ledger _ _ _ _ Hdeliver) as (Hkept & Hnew & _ & Hfrom & _).
  repeat split; try congruence.
  - destruct (Store.transactions s
                !! concatI32 (TroveManager.tl_hash event) (TroveManager.tl_logIndex event))
      as [row |] eqn:E.
    + rewrite (Hkept _ _ E). eauto.
    + rewrite Hnew by reflexivity. eauto.
  - exact Hfrom.
Qed.

Lemma handleTroveLiquidated_unknown_borrower_witness :
  exists s',
    TroveManager.handleTroveLiquidated sampleLiquidated statisticsOnlyStore = Some s' /\
    Store.troves s' = ∅ /\
    Store.protocolStats s' = Store.protocolStats statisticsOnlyStore.
Proof.
  destruct (handleTroveLiquidated_unknown_borrower sampleLiquidated statisticsOnlyStore)
    as (s' & Hrun & Htroves & _ & _ & Hstats & _).
  - cbn. lia.
  - cbn. lia.
  - reflexivity.
  - exists s'. repeat split; assumption.
Defined.

(** X24.  A [TroveLiquidated] event for a stored trove, with a statistics
    row.  The trove is closed by liquidation, keeps its debt and collateral
    and has one more risk event; its performance score is penalised: it
    lies within 0 and 100 and is at most the score before when that was not
    negative.  The count of active troves falls by one exactly when the
    trove was ACTIVE, and the debt and collateral totals, the trove count
    and the liquidation count are unchanged. *)
Theorem handleTroveLiquidated_statistics
    (event : TroveManager.TroveLiquidatedEvent) (s : Store.t) (trove : Trove.t)
    (stats : ProtocolStats.t) (status : string) (debt collateral : BigInt) :
  0 <= TroveManager.tl_logIndex event <= 2147483647 ->
  0 <= TroveManager.tl_blockTimestamp event <= 2147483647 ->
  Store.troves s !! TroveManager.tl_borrower event = Some trove ->
  Trove.status trove = Some status -> Trove.debt trove = Some debt ->
  Trove.collateral trove = Some collateral ->
  Store.protocolStats s !! TroveManager.GLOBAL_STATS_ID = Some stats ->
  exists s' trove' stats',
    TroveManager.handleTroveLiquidated event s = Some s' /\
    Store.troves s' = <[TroveManager.tl_borrower event := trove']> (Store.troves s) /\
    Store.protocolStats s' !! TroveManager.GLOBAL_STATS_ID = Some stats' /\
    Trove.status trove' = Some "CLOSED_BY_LIQUIDATION" /\
    Trove.closedAtBlock trove' = Some (TroveManager.tl_blockNumber event) /\
    Trove.closedAtTimestamp trove' = Some (TroveManager.tl_blockTimestamp event) /\
    Trove.debt trove' = Some debt /\ Trove.collateral trove' = Some collateral /\
    Trove.riskEvents trove' = Trove.riskEvents trove + 1 /\
    (bd 0 1 <= Trove.performanceScore trove')%Qc /\
    (Trove.performanceScore trove' <= bd 100 1)%Qc /\
    ((bd 0 1 <= Trove.performanceScore trove)%Qc ->
     (Trove.performanceScore trove' <= Trove.performanceScore trove)%Qc) /\
    ProtocolStats.activeTroveCount stats'
      = ProtocolStats.activeTroveCount stats
        - (if String.eqb status "ACTIVE" then 1 else 0) /\
    ProtocolStats.totalDebt stats' = ProtocolStats.totalDebt stats /\
    ProtocolStats.totalCollateral stats' = ProtocolStats.totalCollateral stats /\
    ProtocolStats.totalTroveCount stats' = ProtocolStats.totalTroveCount stats /\
    ProtocolStats.lifetimeLiquidationCount stats'
      = ProtocolStats.lifetimeLiquidationCount stats.
Proof.
  intros Hlog Hts Htrove Hstatus Hdebt Hcoll Hstats.
  unfold TroveManager.handleTroveLiquidated.
  change (UniversalTransaction.createUniversalTransaction _ _ _ _ _ _ _ _ _ _ _ _ _ _ s)
    with (deliver (troveLiquidatedDescriptor event) s).
  destruct (deliver_total (troveLiquidatedDescriptor event) s
              (concatI32 (TroveManager.tl_hash event) (TroveManager.tl_logIndex event)))
    as [s1 Hdeliver].
  { cbn [UniversalTransaction.transactionId troveLiquidatedDescriptor ed_hash ed_logIndex].
    rewrite toI32_in_range by lia. reflexivity. }
  { cbn [troveLiquidatedDescriptor ed_blockTimestamp].
    rewrite toI32_in_range by lia. eauto. }
  rewrite Hdeliver. cbn [mbind option_bind].
  destruct (deliver_positionTables _ _ _ _ Hdeliver) as (Pstats & Ptroves & Pops & _).
  rewrite Ptroves, Htrove, Hstatus, Hdebt, Hcoll. cbn [mbind option_bind].
  set (trove' := Trove.set_performanceScore _ _).
  assert (Hfields :
            Trove.status trove' = Some "CLOSED_BY_LIQUIDATION" /\
            Trove.closedAtBlock trove' = Some (TroveManager.tl_blockNumber event) /\
            Trove.closedAtTimestamp trove' = Some (TroveManager.tl_blockTimestamp event) /\
            Trove.debt trove' = Some debt /\ Trove.collateral trove' = Some collateral /\
            Trove.riskEvents trove' = Trove.riskEvents trove + 1 /\
            Trove.performanceScore trove'
            = Helpers.clamp (Trove.performanceScore trove * bd 5 10)%Qc ZERO_BD (bd 100 1)).
  { subst trove'. repeat split; try assumption; reflexivity. }
  clearbody trove'. destruct Hfields as (Fs & Fb & Ft & Fd & Fc & Fr & Fp).
  assert (Hscore : (bd 0 1 <= Trove.performanceScore trove')%Qc /\
                   (Trove.performanceScore trove' <= bd 100 1)%Qc /\
                   ((bd 0 1 <= Trove.performanceScore trove)%Qc ->
                    (Trove.performanceScore trove' <= Trove.performanceScore trove)%Qc)).
  { rewrite Fp. clear.
    destruct (clamp_between (Trove.performanceScore trove * bd 5 10)%Qc ZERO_BD (bd 100 1))
      as [Hlow Hhigh]; [apply bd_lt_false; reflexivity |].
    split; [exact Hlow |]. split; [exact Hhigh |].
    intros Hold. unfold Helpers.clamp. bd_cases; qc_to_Q; lra. }
  destruct Hscore as (Slow & Shigh & Sold).
  assert (Hstats1 : Store.protocolStats (TroveManager.saveTrove (TroveManager.tl_borrower event)
                                           trove' s1)
                      !! TroveManager.GLOBAL_STATS_ID = Some stats).
  { cbn [TroveManager.saveTrove Store.protocolStats Store.set_troves].
    rewrite Pstats. exact Hstats. }
  destruct (updateProtocolStatsForTrove_present trove' status "CLOSED_BY_LIQUIDATION"
              debt collateral debt collateral false (TroveManager.tl_blockTimestamp event)
              (TroveManager.tl_blockNumber event) _ stats Hstats1 Fs Fd Fc)
    as (stats' & Hupd & Ha & Hn & Hd & Hc & Hl).
  rewrite Hupd. eexists. exists trove', stats'. split; [reflexivity |].
  cbn [Store.protocolStats Store.troves Store.set_protocolStats TroveManager.saveTrove
         Store.set_troves].
  rewrite lookup_insert_eq, Ptroves.
  repeat split; try assumption; try lia.
  rewrite Ha. unfold activeDelta. destruct (String.eqb status "ACTIVE"); cbn; lia.
Qed.

(** X25.  A [Liquidation] event.  The handler completes exactly when the log
    index lies in [-2^32, 2^32), where [toI32] does not abort; it writes the
    liquidation row under the hash followed by the 32-bit reading of the log
    index and, when there is a statistics row, counts the liquidation and
    takes the liquidated debt and collateral off the totals.  It writes
    neither the ledger nor any account, trove or operation, and leaves the
    count of active troves alone. *)
Theorem handleLiquidation_effect (event : TroveManager.LiquidationEvent) (s : Store.t) :
  (is_Some (TroveManager.handleLiquidation event s)
   <-> -4294967296 <= TroveManager.lq_logIndex event < 4294967296) /\
  (forall s', TroveManager.handleLiquidation event s = Some s' ->
     Store.transactions s' = Store.transactions s /\
     Store.accounts s' = Store.accounts s /\
     Store.troves s' = Store.troves s /\
     Store.troveOperations s' = Store.troveOperations s /\
     (exists liquidation,
        Store.liquidations s'
        = <[concatI32 (TroveManager.lq_hash event) (wrapI32 (TroveManager.lq_logIndex event))
              := liquidation]> (Store.liquidations s) /\
        Liquidation.debtLiquidated liquidation = TroveManager.lq_liquidatedDebt event /\
        Liquidation.collateralLiquidated liquidation = TroveManager.lq_liquidatedColl event) /\
     match Store.protocolStats s !! TroveManager.GLOBAL_STATS_ID with
     | None => Store.protocolStats s' = Store.protocolStats s
     | Some stats =>
         exists stats',
           Store.protocolStats s'
           = <[TroveManager.GLOBAL_STATS_ID := stats']> (Store.protocolStats s) /\
           ProtocolStats.lifetimeLiquidationCount stats'
           = ProtocolStats.lifetimeLiquidationCount stats + 1 /\
           ProtocolStats.totalDebt stats'
           = ProtocolStats.totalDebt stats - TroveManager.lq_liquidatedDebt event /\
           ProtocolStats.totalCollateral stats'
           = ProtocolStats.totalCollateral stats - TroveManager.lq_liquidatedColl event /\
           ProtocolStats.activeTroveCount stats' = ProtocolStats.activeTroveCount stats /\
           ProtocolStats.totalTroveCount stats' = ProtocolStats.totalTroveCount stats
     end).
Proof.
  unfold TroveManager.handleLiquidation. split.
  - split.
    + intros [s' H]. destruct (toI32 (TroveManager.lq_logIndex event)) eqn:E;
        [| discriminate H].
      apply toI32_Some in E as [_ E]. exact E.
    + intros Hlog. rewrite toI32_defined by exact Hlog. cbn [mbind option_bind].
      rewrite calculateCollateralRatio_value. cbn [mbind option_bind]. eauto.
  - intros s' H.
    destruct (toI32 (TroveManager.lq_logIndex event)) as [i |] eqn:E; [| discriminate H].
    apply toI32_Some in E as [-> _]. cbn [mbind option_bind] in H.
    rewrite calculateCollateralRatio_value in H. cbn [mbind option_bind] in H.
    injection H as <-.
    unfold TroveManager.updateProtocolStatsForLiquidation.
    cbn [Store.protocolStats Store.set_liquidations].
    destruct (Store.protocolStats s !! TroveManager.GLOBAL_STATS_ID) as [stats |].
    + repeat split; try reflexivity.
      * eexists. split; [reflexivity |]. split; reflexivity.
      * eexists. split; [reflexivity |]. repeat split; reflexivity.
    + repeat split; try reflexivity.
      eexists. split; [reflexivity |]. split; reflexivity.
Qed.

Lemma handleLiquidation_effect_witness :
  exists s' stats',
    TroveManager.handleLiquidation sampleLiquidation statisticsOnlyStore = Some s' /\
    Store.protocolStats s' !! TroveManager.GLOBAL_STATS_ID = Some stats' /\
    ProtocolStats.totalDebt stats' = -500 /\
    ProtocolStats.lifetimeLiquidationCount stats' = 1.
Proof.
  destruct (handleLiquidation_effect sampleLiquidation statisticsOnlyStore)
    as [[_ Hruns] Heffect].
  destruct Hruns as [s' Hrun]; [cbn; lia |].
  destruct (Heffect s' Hrun) as (_ & _ & _ & _ & _ & Hstats).
  change (Store.protocolStats statisticsOnlyStore !! TroveManager.GLOBAL_STATS_ID)
    with (Some initializeProtocolStats) in Hstats.
  destruct Hstats as (stats' & Hrow & Hcount & Hdebt & _).
  exists s', stats'. split; [exact Hrun |].
  split; [rewrite Hrow; apply lookup_insert_eq |].
  split; [rewrite Hdebt; reflexivity | rewrite Hcount; reflexivity].
Defined.

Lemma handleTroveLiquidated_statistics_witness :
  exists s' trove' stats',
    TroveManager.handleTroveLiquidated sampleLiquidated sampleTroveStore = Some s' /\
    Store.troves s' = <[replicate 20 17 := trove']> (Store.troves sampleTroveStore) /\
    Store.protocolStats s' !! TroveManager.GLOBAL_STATS_ID = Some stats' /\
    Trove.status trove' = Some "CLOSED_BY_LIQUIDATION" /\
    ProtocolStats.activeTroveCount stats' = -1.
Proof.
  destruct (handleTroveLiquidated_statistics sampleLiquidated sampleTroveStore sampleTrove
              initializeProtocolStats "ACTIVE" 500 2000)
    as (s' & trove' & stats' & Hrun & Htroves & Hstats & Hstatus & _ & _ & _ & _ & _ & _
        & _ & _ & Hactive & _);
    [cbn; lia | cbn; lia | reflexivity | reflexivity | reflexivity | reflexivity
    | reflexivity |].
  exists s', trove', stats'. repeat split; assumption.
Defined.

(** X26.  The operation type recorded for a trove update, by what the update
    does to a debt that is never negative: OPEN when the debt was zero and
    is not any more, CLOSE when it was not zero and is now, and otherwise by
    which of collateral and debt moved; an update that moves both, or
    neither, is an ADJUST. *)
Theorem classifyTroveOperationType_table
    (previousCollateral previousDebt collateral debt : BigInt) :
  0 <= previousDebt -> 0 <= debt ->
  TroveManager.classifyTroveOperationType (collateral - previousCollateral)
    (debt - previousDebt) previousCollateral previousDebt
  = if (previousDebt =? 0) && negb (debt =? 0) then "OPEN"
    else if negb (previousDebt =? 0) && (debt =? 0) then "CLOSE"
    else if (previousCollateral <? collateral) && (debt =? previousDebt) then "ADD_COLLATERAL"
    else if (collateral <? previousCollateral) && (debt =? previousDebt)
    then "WITHDRAW_COLLATERAL"
    else if (collateral =? previousCollateral) && (previousDebt <? debt) then "BORROW"
    else if (collateral =? previousCollateral) && (debt <? previousDebt) then "REPAY"
    else "ADJUST".
Proof.
  intros Hp Hd.
  unfold TroveManager.classifyTroveOperationType, ZERO_BI. cbv zeta.
  replace (previousDebt + (debt - previousDebt)) with debt by lia.
  replace (previousDebt >? 0) with (negb (previousDebt =? 0))
    by (destruct (Z.gtb_spec previousDebt 0), (Z.eqb_spec previousDebt 0); cbn; lia).
  replace (debt >? 0) with (negb (debt =? 0))
    by (destruct (Z.gtb_spec debt 0), (Z.eqb_spec debt 0); cbn; lia).
  replace (collateral - previousCollateral >? 0) with (previousCollateral <? collateral)
    by (destruct (Z.gtb_spec (collateral - previousCollateral) 0),
          (Z.ltb_spec previousCollateral collateral); lia).
  replace (collateral - previousCollateral <? 0) with (collateral <? previousCollateral)
    by (destruct (Z.ltb_spec (collateral - previousCollateral) 0),
          (Z.ltb_spec collateral previousCollateral); lia).
  replace (collateral - previousCollateral =? 0) with (collateral =? previousCollateral)
    by (destruct (Z.eqb_spec (collateral - previousCollateral) 0),
          (Z.eqb_spec collateral previousCollateral); lia).
  replace (debt - previousDebt >? 0) with (previousDebt <? debt)
    by (destruct (Z.gtb_spec (debt - previousDebt) 0), (Z.ltb_spec previousDebt debt); lia).
  replace (debt - previousDebt <? 0) with (debt <? previousDebt)
    by (destruct (Z.ltb_spec (debt - previousDebt) 0), (Z.ltb_spec debt previousDebt); lia).
  replace (debt - previousDebt =? 0) with (debt =? previousDebt)
    by (destruct (Z.eqb_spec (debt - previousDebt) 0), (Z.eqb_spec debt previousDebt); lia).
  destruct (previousDebt =? 0), (debt =? 0); reflexivity.
Qed.

Lemma classifyTroveOperationType_table_witness :
  TroveManager.classifyTroveOperationType (2000 - 2000) (500 - 500) 2000 500 = "ADJUST".
Proof.
  rewrite (classifyTroveOperationType_table 2000 500 2000 500); [reflexivity | lia | lia].
Defined.

(** * Further properties of the token handler *)

(** [updateAccountBalances] as its two halves; the half of the zero address
    is skipped. *)
Lemma updateAccountBalances_halves (from to : Bytes) (value : BigInt) (s : Store.t) :
  TokenFinal.updateAccountBalances from to value s =
  let s1 := if decide (from = zeroAddress) then s
            else adjustBalance (fun b => b - value) from s in
  if decide (to = zeroAddress) then s1 else adjustBalance (fun b => b + value) to s1.
Proof.
  unfold TokenFinal.updateAccountBalances, adjustBalance. cbv zeta.
  destruct (decide (from = zeroAddress)) as [Hf | Hf];
    [rewrite (bool_decide_eq_true_2 _ Hf) | rewrite (bool_decide_eq_false_2 _ Hf)];
    (destruct (decide (to = zeroAddress)) as [Ht | Ht];
     [rewrite (bool_decide_eq_true_2 _ Ht) | rewrite (bool_decide_eq_false_2 _ Ht)]);
    reflexivity.
Qed.

Lemma adjustBalance_other (g : BigInt -> BigInt) (address other : Bytes) (s : Store.t) :
  other <> address ->
  Store.accounts (adjustBalance g address s) !! other = Store.accounts s !! other.
Proof.
  intros Hne. rewrite adjustBalance_accounts, lookup_insert_ne by congruence. reflexivity.
Qed.

(** X27.  Mints and burns in [updateAccountBalances].  For any sender and
    receiver the sum of all balances moves by plus the value when the
    receiver is not the zero address and by minus the value when the sender
    is not the zero address: a transfer from the zero address adds the value
    to the sum, a transfer to it takes the value off, any other transfer
    leaves it.  The zero address never gets an account row and its row, if
    there is one, is never changed. *)
Theorem updateAccountBalances_supply (from to : Bytes) (value : BigInt) (s : Store.t) :
  let s' := TokenFinal.updateAccountBalances from to value s in
  totalBalance s'
    = totalBalance s
      + (if decide (to = zeroAddress) then 0 else value)
      - (if decide (from = zeroAddress) then 0 else value) /\
  Store.accounts s' !! zeroAddress = Store.accounts s !! zeroAddress /\
  (forall address, address <> from -> address <> to ->
     Store.accounts s' !! address = Store.accounts s !! address).
Proof.
  cbv zeta. rewrite updateAccountBalances_halves. cbv zeta.
  destruct (decide (from = zeroAddress)) as [Hf | Hf],
    (decide (to = zeroAddress)) as [Ht | Ht].
  - split; [lia | split; [reflexivity | intros; reflexivity]].
  - split; [| split].
    + rewrite adjustBalance_totalBalance. lia.
    + apply adjustBalance_other. congruence.
    + intros address _ Hto. apply adjustBalance_other. exact Hto.
  - split; [| split].
    + rewrite adjustBalance_totalBalance. lia.
    + apply adjustBalance_other. congruence.
    + intros address Hfrom _. apply adjustBalance_other. exact Hfrom.
  - split; [| split].
    + rewrite !adjustBalance_totalBalance, adjustBalance_balanceOf.
      case_decide; cbv beta; lia.
    + rewrite !adjustBalance_other by congruence. reflexivity.
    + intros address Hfrom Hto. rewrite !adjustBalance_other by congruence. reflexivity.
Qed.

Lemma updateAccountBalances_supply_witness :
  totalBalance (TokenFinal.updateAccountBalances zeroAddress (replicate 20 17) 400 emptyStore)
  = totalBalance emptyStore + 400 - 0.
Proof.
  exact (proj1 (updateAccountBalances_supply zeroAddress (replicate 20 17) 400 emptyStore)).
Defined.

Lemma handleMint_adjust (holder : Bytes) (amount : BigInt) (s : Store.t) :
  TokenFinal.handleMint holder amount s = adjustBalance (fun b => b + amount) holder s.
Proof. reflexivity. Qed.

Lemma handleBurn_adjust (holder : Bytes) (amount : BigInt) (s : Store.t) :
  TokenFinal.handleBurn holder amount s = adjustBalance (fun b => b - amount) holder s.
Proof. reflexivity. Qed.

(** X28.  [handleMint] and [handleBurn].  A mint adds the amount to the
    holder's balance and a burn takes it off, with no check that the balance
    stays non-negative; no other balance changes.  A burn after a mint of
    the same amount gives every address its balance back.  For a holder
    other than the zero address the two handlers are the balance update of a
    transfer from, respectively to, the zero address, so an event stream that
    reports a mint both as a [Mint] and as a [Transfer] from the zero address
    credits the holder twice. *)
Theorem mint_burn_balances (holder : Bytes) (amount : BigInt) (s : Store.t) :
  (forall address,
     balanceOf (TokenFinal.handleMint holder amount s) address
     = balanceOf s address + (if decide (address = holder) then amount else 0)) /\
  (forall address,
     balanceOf (TokenFinal.handleBurn holder amount s) address
     = balanceOf s address - (if decide (address = holder) then amount else 0)) /\
  (forall address,
     balanceOf (TokenFinal.handleBurn holder amount (TokenFinal.handleMint holder amount s))
       address = balanceOf s address) /\
  totalBalance (TokenFinal.handleMint holder amount s) = totalBalance s + amount /\
  totalBalance (TokenFinal.handleBurn holder amount s) = totalBalance s - amount /\
  (holder <> zeroAddress ->
   TokenFinal.handleMint holder amount s
     = TokenFinal.updateAccountBalances zeroAddress holder amount s /\
   TokenFinal.handleBurn holder amount s
     = TokenFinal.updateAccountBalances holder zeroAddress amount s /\
   balanceOf (TokenFinal.handleMint holder amount
                (TokenFinal.updateAccountBalances zeroAddress holder amount s)) holder
     = balanceOf s holder + 2 * amount).
Proof.
  rewrite !handleMint_adjust, !handleBurn_adjust.
  split; [| split; [| split; [| split; [| split]]]].
  - intros address. rewrite adjustBalance_balanceOf. case_decide; subst; cbv beta; lia.
  - intros address. rewrite adjustBalance_balanceOf. case_decide; subst; cbv beta; lia.
  - intros address. rewrite !adjustBalance_balanceOf.
    repeat case_decide; subst; try congruence; cbv beta; lia.
  - rewrite adjustBalance_totalBalance. lia.
  - rewrite adjustBalance_totalBalance. lia.
  - intros Hne. rewrite !updateAccountBalances_halves. cbv zeta.
    destruct (decide (zeroAddress = zeroAddress)) as [_ | ?]; [| congruence].
    destruct (decide (holder = zeroAddress)) as [? | _]; [congruence |].
    split; [reflexivity |]. split; [reflexivity |].
    rewrite !adjustBalance_balanceOf.
    destruct (decide (holder = holder)) as [_ | ?]; [| congruence]. cbv beta. lia.
Qed.

Lemma mint_burn_balances_witness :
  balanceOf (TokenFinal.handleMint (replicate 20 17) 400
               (TokenFinal.updateAccountBalances zeroAddress (replicate 20 17) 400 emptyStore))
    (replicate 20 17)
  = balanceOf emptyStore (replicate 20 17) + 2 * 400.
Proof.
  destruct (mint_burn_balances (replicate 20 17) 400 emptyStore)
    as (_ & _ & _ & _ & _ & Htwice).
  destruct Htwice as (_ & _ & H); [discriminate | exact H].
Defined.

Lemma isType_staking (address : Bytes) :
  TokenFinal.isType (TokenFinal.getProtocolAddresses !! address) "STAKING" =
  bool_decide (address = TokenFinal.stakingAddress).
Proof.
  destruct (decide (address = TokenFinal.stakingAddress)) as [-> | H3];
    [rewrite protocolAddresses_staking; reflexivity |].
  rewrite bool_decide_eq_false_2 by assumption.
  destruct (decide (address = TokenFinal.troveManagerAddress)) as [-> | H1];
    [rewrite protocolAddresses_troveManager; reflexivity |].
  destruct (decide (address = TokenFinal.stabilityPoolAddress)) as [-> | H2];
    [rewrite protocolAddresses_stabilityPool; reflexivity |].
  rewrite protocolAddresses_other by assumption. reflexivity.
Qed.

Lemma isType_troveManager_decide (address : Bytes) :
  TokenFinal.isType (TokenFinal.getProtocolAddresses !! address) "TROVE_MANAGER" =
  bool_decide (address = TokenFinal.troveManagerAddress).
Proof.
  destruct (decide (address = TokenFinal.troveManagerAddress)) as [-> | H1];
    [rewrite protocolAddresses_troveManager; reflexivity |].
  rewrite bool_decide_eq_false_2 by assumption.
  apply isType_troveManager. exact H1.
Qed.

Lemma isProtocolAddress_decide (address : Bytes) :
  TokenFinal.isProtocolAddress address TokenFinal.getProtocolAddresses =
  bool_decide (address = TokenFinal.troveManagerAddress)
  || bool_decide (address = TokenFinal.stabilityPoolAddress)
  || bool_decide (address = TokenFinal.stakingAddress).
Proof.
  unfold TokenFinal.isProtocolAddress.
  destruct (decide (address = TokenFinal.troveManagerAddress)) as [-> | H1];
    [reflexivity |].
  destruct (decide (address = TokenFinal.stabilityPoolAddress)) as [-> | H2];
    [reflexivity |].
  destruct (decide (address = TokenFinal.stakingAddress)) as [-> | H3];
    [reflexivity |].
  rewrite protocolAddresses_other by assumption.
  rewrite !bool_decide_eq_false_2 by assumption. reflexivity.
Qed.

(** X29.  The transfer classification as a decision list over the roles of
    the two addresses, first match wins: sender zero, receiver zero, trove
    manager on either side, stability pool as sender, stability pool as
    receiver, staking on either side, then (only when neither side is a
    protocol contract) DEX as sender, DEX as receiver, bridge as sender,
    bridge as receiver, else NORMAL.  The value plays no part. *)
Theorem getConfigurableTransferType_table (from to : Bytes) (value : BigInt) :
  TokenFinal.getConfigurableTransferType from to value =
  if bool_decide (from = zeroAddress) then "MINT_TO_BORROWER"
  else if bool_decide (to = zeroAddress) then "BURN_FROM_REPAYMENT"
  else if isTroveManager from || isTroveManager to then "LIQUIDATION_REWARD"
  else if isStabilityPool from then "STABILITY_WITHDRAWAL"
  else if isStabilityPool to then "STABILITY_DEPOSIT"
  else if isStaking from || isStaking to then "STAKING_OPERATION"
  else if TokenFinal.isKnownDexAddress from then "DEX_SWAP_IN"
  else if TokenFinal.isKnownDexAddress to then "DEX_SWAP_OUT"
  else if TokenFinal.isKnownBridgeAddress from then "BRIDGE_WITHDRAWAL"
  else if TokenFinal.isKnownBridgeAddress to then "BRIDGE_DEPOSIT"
  else "NORMAL".
Proof.
  unfold TokenFinal.getConfigurableTransferType, TokenFinal.getProtocolOperationType.
  cbv zeta.
  rewrite !isProtocolAddress_decide, !isType_troveManager_decide, !isType_stabilityPool,
    !isType_staking.
  unfold isTroveManager, isStabilityPool, isStaking.
  destruct (bool_decide (from = zeroAddress)); [reflexivity |].
  destruct (bool_decide (to = zeroAddress)); [reflexivity |].
  destruct (bool_decide (from = TokenFinal.troveManagerAddress)); [reflexivity |].
  destruct (bool_decide (to = TokenFinal.troveManagerAddress));
    [cbn; rewrite ?orb_true_r; reflexivity |].
  destruct (bool_decide (from = TokenFinal.stabilityPoolAddress)); [reflexivity |].
  destruct (bool_decide (to = TokenFinal.stabilityPoolAddress));
    [cbn; rewrite ?orb_true_r; reflexivity |].
  destruct (bool_decide (from = TokenFinal.stakingAddress)); [reflexivity |].
  destruct (bool_decide (to = TokenFinal.stakingAddress)); [reflexivity |].
  reflexivity.
Qed.

(** * The market-condition row: close, volatility and trend *)

(** A difference is its quotient by a non-zero [o], times [o]. *)
Lemma difference_quotient (a b o : Qc) :
  o <> Q2Qc 0 -> (this a - this b == this ((a - b) / o)%Qc * this o)%Q.
Proof.
  intros H.
  assert (E : (a - b = (a - b) / o * o)%Qc) by (field; exact H).
  apply (f_equal this) in E.
  set (x := ((a - b) / o)%Qc) in *. clearbody x.
  unfold Qcminus, Qcopp, Qcplus, Qcmult in E. cbn [this Q2Qc] in E.
  transitivity (Qred (this a + Qred (- this b))).
  - rewrite !Qred_correct. reflexivity.
  - rewrite E. apply Qred_correct.
Qed.

(** With a positive open price [o]: a change of more than 2 percent up
    means a close above the open, a change of more than 2 percent down a
    close below it, and a range that is not negative gives a volatility that
    is not negative. *)
Lemma percentChange_sign (c o l h : BigDecimal) :
  (bd 0 1 < o)%Qc ->
  ((bd 2 1 < (c - o) / o * bd 100 1)%Qc -> (o < c)%Qc) /\
  (((c - o) / o * bd 100 1 < bd (-2) 1)%Qc -> (c < o)%Qc) /\
  ((l <= h)%Qc -> (bd 0 1 <= (h - l) / o * bd 100 1)%Qc).
Proof.
  intros Ho.
  assert (Hne : o <> Q2Qc 0).
  { intros ->. apply Qclt_not_le in Ho. apply Ho. apply bd_lt_false. reflexivity. }
  pose proof (difference_quotient c o o Hne) as Ec.
  pose proof (difference_quotient h l o Hne) as Eh.
  set (x := ((c - o) / o)%Qc) in *. set (y := ((h - l) / o)%Qc) in *.
  clearbody x y. clear Hne.
  unfold Qclt, Qcle, Qcmult, bd in *. cbn [this Q2Qc] in *.
  repeat setoid_rewrite Qred_correct.
  setoid_rewrite Qred_correct in Ho.
  split; [| split]; intros Hx; nra.
Qed.

(** X30.  One price update.  [updateMarketConditions] never aborts and
    writes the row of the update's day only; the saved row has the price as
    close price and the timestamp as time of last update.  When the open
    price is positive the trend is one of BULLISH, BEARISH and NEUTRAL; it
    is BULLISH only when the close is above the open, BEARISH only when the
    close is below the open, and NEUTRAL when the close equals the open; and
    the volatility score is not negative when the low price is at most the
    high price.  The first update of a day, at a positive price, gives
    volatility 0 and a NEUTRAL trend. *)
Theorem marketCondition_close (currentPrice : BigDecimal) (timestamp : BigInt) (s : Store.t) :
  exists s' row,
    PriceFeed.updateMarketConditions currentPrice timestamp s = Some s' /\
    (forall day, day <> dayOf timestamp ->
       Store.marketConditions s' !! day = Store.marketConditions s !! day) /\
    Store.marketConditions s' !! dayOf timestamp = Some row /\
    MarketCondition.closePrice row = currentPrice /\
    MarketCondition.lastUpdateTimestamp row = timestamp /\
    ((bd 0 1 < MarketCondition.openPrice row)%Qc ->
     MarketCondition.trendDirection row ∈ ["BULLISH"; "BEARISH"; "NEUTRAL"] /\
     (MarketCondition.trendDirection row = "BULLISH" ->
      (MarketCondition.openPrice row < currentPrice)%Qc) /\
     (MarketCondition.trendDirection row = "BEARISH" ->
      (currentPrice < MarketCondition.openPrice row)%Qc) /\
     (currentPrice = MarketCondition.openPrice row ->
      MarketCondition.trendDirection row = "NEUTRAL") /\
     ((MarketCondition.lowPrice row <= MarketCondition.highPrice row)%Qc ->
      (bd 0 1 <= MarketCondition.volatilityScore row)%Qc)) /\
    (Store.marketConditions s !! dayOf timestamp = None -> (bd 0 1 < currentPrice)%Qc ->
     MarketCondition.openPrice row = currentPrice /\
     MarketCondition.volatilityScore row = bd 0 1 /\
     MarketCondition.trendDirection row = "NEUTRAL").
Proof.
  unfold PriceFeed.updateMarketConditions, bi_div. cbn [mbind option_bind Z.eqb].
  fold (dayOf timestamp).
  set (row0 := match Store.marketConditions s !! dayOf timestamp with
               | None => _ | Some _ => _ end).
  assert (Hrow0 : Store.marketConditions s !! dayOf timestamp = None ->
                  row0 = PriceFeed.newMarketCondition (dayOf timestamp) currentPrice
                           timestamp).
  { intros Hnone. subst row0. rewrite Hnone. reflexivity. }
  clearbody row0.
  destruct (bd_gt (MarketCondition.openPrice
                     (MarketCondition.set_lastUpdateTimestamp timestamp
                        (MarketCondition.set_closePrice currentPrice row0))) ZERO_BD)
    eqn:Hopen.
  - rewrite bd_div_positive by exact Hopen. cbn [mbind option_bind].
    rewrite bd_div_positive by exact Hopen. cbn [mbind option_bind].
    apply bd_gt_spec in Hopen.
    cbn [MarketCondition.openPrice MarketCondition.highPrice MarketCondition.lowPrice
           MarketCondition.closePrice MarketCondition.set_closePrice
           MarketCondition.set_lastUpdateTimestamp MarketCondition.set_volatilityScore]
      in Hopen |- *.
    destruct (percentChange_sign currentPrice (MarketCondition.openPrice row0)
                (MarketCondition.lowPrice row0) (MarketCondition.highPrice row0) Hopen)
      as (Sup & Sdown & Svol).
    set (changePercent := ((currentPrice - MarketCondition.openPrice row0)
                           / MarketCondition.openPrice row0 * bd 100 1)%Qc) in *.
    assert (Hfirst : Store.marketConditions s !! dayOf timestamp = None ->
                     MarketCondition.openPrice row0 = currentPrice /\
                     MarketCondition.highPrice row0 = currentPrice /\
                     MarketCondition.lowPrice row0 = currentPrice).
    { intros Hnone. rewrite (Hrow0 Hnone). repeat split. }
    clearbody changePercent. clear Hrow0.
    destruct (bd_gt changePercent (bd 2 1)) eqn:Hup;
      [| destruct (bd_lt changePercent (bd (-2) 1)) eqn:Hdown];
      (eexists; eexists; split; [reflexivity |];
       cbn [Store.marketConditions Store.set_marketConditions];
       split; [intros day Hday; apply lookup_insert_ne; congruence |];
       split; [apply lookup_insert_eq |];
       split; [reflexivity |]; split; [reflexivity |]);
      cbn [MarketCondition.openPrice MarketCondition.highPrice MarketCondition.lowPrice
             MarketCondition.volatilityScore MarketCondition.trendDirection
             MarketCondition.set_closePrice MarketCondition.set_trendDirection
             MarketCondition.set_lastUpdateTimestamp MarketCondition.set_volatilityScore].
    + apply bd_gt_spec in Hup. split.
      * intros _. split; [repeat constructor |]. split; [intros _; apply Sup; exact Hup |].
        split; [discriminate |]. split; [| exact Svol].
        intros Heq. exfalso. apply (Qclt_not_le _ _ (Sup Hup)).
        rewrite Heq. apply Qcle_refl.
      * intros Hnone _. exfalso. destruct (Hfirst Hnone) as (Ho & _).
        apply (Qclt_not_le _ _ (Sup Hup)). rewrite Ho. apply Qcle_refl.
    + apply bd_lt_spec in Hdown. split.
      * intros _. split; [repeat constructor |]. split; [discriminate |].
        split; [intros _; apply Sdown; exact Hdown |]. split; [| exact Svol].
        intros Heq. exfalso. apply (Qclt_not_le _ _ (Sdown Hdown)).
        rewrite Heq. apply Qcle_refl.
      * intros Hnone _. exfalso. destruct (Hfirst Hnone) as (Ho & _).
        apply (Qclt_not_le _ _ (Sdown Hdown)). rewrite Ho. apply Qcle_refl.
    + split.
      * intros _. split; [repeat constructor |]. split; [discriminate |].
        split; [discriminate |]. split; [reflexivity | exact Svol].
      * intros Hnone _. destruct (Hfirst Hnone) as (Ho & Hh & Hl).
        split; [exact Ho |]. split; [| reflexivity].
        rewrite Hh, Hl. unfold Qcminus. rewrite Qcplus_opp_r.
        unfold Qcdiv. rewrite Qcmult_0_l, Qcmult_0_l. apply Qc_is_canon. reflexivity.
  - cbn [mbind option_bind].
    eexists; eexists. split; [reflexivity |].
    cbn [Store.marketConditions Store.set_marketConditions].
    split; [intros day Hday; apply lookup_insert_ne; congruence |].
    split; [apply lookup_insert_eq |].
    split; [reflexivity |]. split; [reflexivity |].
    apply bd_gt_false in Hopen.
    cbn [MarketCondition.openPrice MarketCondition.set_lastUpdateTimestamp
           MarketCondition.set_closePrice] in Hopen |- *.
    split.
    + intros Hpos. exfalso. apply Qclt_not_le in Hpos. apply Hpos. exact Hopen.
    + intros Hnone Hpos. specialize (Hrow0 Hnone). subst row0.
      cbn [MarketCondition.openPrice PriceFeed.newMarketCondition] in Hopen.
      exfalso. apply Qclt_not_le in Hpos. apply Hpos. exact Hopen.
Qed.

Lemma marketCondition_close_witness :
  exists s' row,
    PriceFeed.updateMarketConditions (bd 5 1) 10 emptyStore = Some s' /\
    Store.marketConditions s' !! 0 = Some row /\
    MarketCondition.closePrice row = bd 5 1 /\
    MarketCondition.trendDirection row = "NEUTRAL".
Proof.
  destruct (marketCondition_close (bd 5 1) 10 emptyStore)
    as (s' & row & Hrun & _ & Hrow & Hclose & _ & _ & Hfirst).
  destruct Hfirst as (_ & _ & Htrend); [reflexivity | reflexivity |].
  exists s', row. repeat split; assumption.
Defined.
